(** * mDNS responder (espressif__mdns/mdns.c): a shallow embedding and its properties

    The development follows the C file function by function.  Conventions:

    - a C string is a [string]: the characters before the terminating NUL;
      a [NULL] pointer is [None];
    - unsigned fixed-width arithmetic is done in [Z] with the wrap-around
      written out ([u8], [u16], [u32]);
    - a byte buffer (the packet under construction, a received datagram) is a
      total map from offsets to bytes, so that the reads the C code performs
      past the announced length are reads of whatever the memory holds;
    - the server's singly linked lists are Rocq lists in list order
      (head first);
    - heap allocation is taken to succeed unless a definition says otherwise
      (the [HOOK_MALLOC_FAILED] paths are the only ones left out). *)

From Stdlib Require Import ZArith List Lia Bool String Ascii Sorted Arith.
From Stdlib Require Import DecimalString DecimalPos.
Import ListNotations.

Local Open Scope Z_scope.

(** ** Fixed-width integers *)

Definition u8 (z : Z) : Z := z mod 256.
Definition u16 (z : Z) : Z := z mod 65536.
Definition u32 (z : Z) : Z := z mod 4294967296.

(** ** Constants of mdns_private.h *)

(** Modelled from the spec: [MDNS_NAME_BUF_LEN] is declared in
    mdns_private.h, which is not part of the sources; the spec gives
    name_buf_len = 64 (maximal label length including the NUL). *)
Definition MDNS_NAME_BUF_LEN : Z := 64.

(** Modelled from the spec: [MDNS_MAX_PACKET_SIZE] (mdns_private.h); the spec
    gives a maximal datagram of 1460 bytes. *)
Definition MDNS_MAX_PACKET_SIZE : Z := 1460.

(** Modelled from the spec: [MDNS_NAME_REF] (mdns_private.h); the spec says a
    length byte whose top two bits are 11 starts a 14-bit pointer, so the
    16-bit mark is 0xC000. *)
Definition MDNS_NAME_REF : Z := 49152.

(** Modelled from the spec: [MDNS_ANSWER_PTR_TTL] (mdns_private.h); the spec
    gives 4500 seconds as the default PTR TTL. *)
Definition MDNS_ANSWER_PTR_TTL : Z := 4500.

(** Modelled from the spec: [MDNS_SERVICE_PORT] (mdns_private.h); the spec
    gives UDP port 5353. *)
Definition MDNS_SERVICE_PORT : Z := 5353.

(** Modelled from the spec: the record type codes [MDNS_TYPE_*] and the
    classes [MDNS_CLASS_*] are declared in mdns_private.h.  The spec names the
    record types, whose codes are the DNS ones; [MDNS_TYPE_SDPTR] is the
    synthetic type of the spec (any code different from the others does);
    the cache-flush bit is the top bit of the class field. *)
Definition MDNS_TYPE_A : Z := 1.
Definition MDNS_TYPE_PTR : Z := 12.
Definition MDNS_TYPE_TXT : Z := 16.
Definition MDNS_TYPE_AAAA : Z := 28.
Definition MDNS_TYPE_SRV : Z := 33.
Definition MDNS_TYPE_OPT : Z := 41.
Definition MDNS_TYPE_NSEC : Z := 47.
Definition MDNS_TYPE_ANY : Z := 255.
Definition MDNS_TYPE_SDPTR : Z := 50.
Definition MDNS_CLASS_IN : Z := 1.
Definition MDNS_CLASS_IN_FLUSH_CACHE : Z := 32769.

Definition MDNS_DEFAULT_DOMAIN : string := "local".
Definition MDNS_SUB_STR : string := "_sub".

(** ** C strings *)

Module CStr.

Local Open Scope string_scope.

Definition code (c : ascii) : Z := Z.of_N (N_of_ascii c).
Definition char_of (z : Z) : ascii := ascii_of_N (Z.to_N (u8 z)).

(** [tolower] of the C locale. *)
Definition tolower (c : ascii) : ascii :=
  if ((65 <=? code c) && (code c <=? 90))%Z then char_of (code c + 32) else c.

Fixpoint lower (s : string) : string :=
  match s with
  | EmptyString => EmptyString
  | String c s' => String (tolower c) (lower s')
  end.

(** [strcasecmp a b == 0]. *)
Definition strcaseeq (a b : string) : bool := String.eqb (lower a) (lower b).

(** [strcmp a b == 0]. *)
Definition streq (a b : string) : bool := String.eqb a b.

Definition strlen (s : string) : Z := Z.of_nat (String.length s).

(** [strndup s n]: at most [n] characters of [s]. *)
Fixpoint take (n : nat) (s : string) : string :=
  match n, s with
  | O, _ => EmptyString
  | _, EmptyString => EmptyString
  | S n', String c s' => String c (take n' s')
  end.

Fixpoint drop (n : nat) (s : string) : string :=
  match n, s with
  | O, _ => s
  | _, EmptyString => EmptyString
  | S n', String _ s' => drop n' s'
  end.

Definition strndup (s : string) (n : Z) : string := take (Z.to_nat n) s.

(** [_str_null_or_empty]. *)
Definition _str_null_or_empty (str : option string) : bool :=
  match str with
  | None => true
  | Some EmptyString => true
  | Some _ => false
  end.

(** [strrchr s c]: offset of the last occurrence of [c], if any. *)
Fixpoint strrchr (s : string) (c : ascii) : option nat :=
  match s with
  | EmptyString => None
  | String d s' =>
      match strrchr s' c with
      | Some k => Some (S k)
      | None => if Ascii.eqb d c then Some O else None
      end
  end.

Lemma lower_idem s : lower (lower s) = lower s.
Proof.
  induction s as [|c s IH]; simpl; [reflexivity|].
  rewrite IH. f_equal.
  unfold tolower at 1.
  destruct ((65 <=? code (tolower c))%Z && (code (tolower c) <=? 90)%Z) eqn:E;
    [|reflexivity].
  exfalso. revert E. unfold tolower.
  destruct c as [[] [] [] [] [] [] [] []]; vm_compute; discriminate.
Qed.

Lemma strcaseeq_refl s : strcaseeq s s = true.
Proof. unfold strcaseeq. apply String.eqb_refl. Qed.

Lemma strcaseeq_sym a b : strcaseeq a b = strcaseeq b a.
Proof. unfold strcaseeq. apply String.eqb_sym. Qed.

Lemma strcaseeq_trans a b c :
  strcaseeq a b = true -> strcaseeq b c = true -> strcaseeq a c = true.
Proof.
  unfold strcaseeq. rewrite !String.eqb_eq. congruence.
Qed.

Lemma take_all n s : (String.length s <= n)%nat -> take n s = s.
Proof.
  revert s; induction n as [|n IH]; intros [|c s] H; simpl in *;
    try reflexivity; try lia.
  f_equal. apply IH. lia.
Qed.

Lemma take_app_drop n s : take n s ++ drop n s = s.
Proof.
  revert s; induction n as [|n IH]; intros [|c s]; simpl; try reflexivity.
  f_equal. apply IH.
Qed.

Lemma length_append a b :
  String.length (a ++ b) = (String.length a + String.length b)%nat.
Proof. induction a as [|c a IH]; simpl; [reflexivity|]. now rewrite IH. Qed.

Lemma take_app_exact a b : take (String.length a) (a ++ b) = a.
Proof. induction a as [|c a IH]; simpl; [now destruct b|]. now rewrite IH. Qed.

Lemma drop_app_exact a b : drop (String.length a) (a ++ b) = b.
Proof. induction a as [|c a IH]; simpl; [reflexivity|]. exact IH. Qed.

End CStr.

(** ** Name mangling ([_mdns_mangle_name]) *)

Module Mangle.

Import CStr.
Local Open Scope string_scope.

(** [isspace] of the C locale: space, \t, \n, \v, \f, \r. *)
Definition isspace (c : ascii) : bool :=
  ((code c =? 32) || ((9 <=? code c) && (code c <=? 13)))%Z.

Definition isdigit (c : ascii) : bool :=
  ((48 <=? code c) && (code c <=? 57))%Z.

Definition LONG_MAX : Z := 2147483647.
Definition LONG_MIN : Z := -2147483648.

Fixpoint skip_spaces (s : string) : string :=
  match s with
  | String c s' => if isspace c then skip_spaces s' else s
  | EmptyString => s
  end.

(** The digits at the head of [s], accumulated in base 10 from [acc]:
    the value, the number of digits read and the rest of the string. *)
Fixpoint read_digits (acc : Z) (s : string) : Z * nat * string :=
  match s with
  | String c s' =>
      if isdigit c then
        let '(v, n, r) := read_digits (acc * 10 + (code c - 48)) s' in
        (v, S n, r)
      else (acc, O, s)
  | EmptyString => (acc, O, s)
  end.

(** [strtol(nptr, &endp, 10)] with a 32-bit [long]: the value and the text
    [endp] points at.  Without any digit the value is 0 and [endp] is
    [nptr] itself; out-of-range values are clamped. *)
Definition strtol (nptr : string) : Z * string :=
  let s := skip_spaces nptr in
  let '(neg, s1) :=
    match s with
    | String "-" r => (true, r)
    | String "+" r => (false, r)
    | _ => (false, s)
    end in
  let '(v, n, rest) := read_digits 0 s1 in
  match n with
  | O => (0, nptr)
  | _ =>
      let v' := if neg then - v else v in
      (Z.max LONG_MIN (Z.min LONG_MAX v'), rest)
  end.

(** [sprintf("%d", z)]. *)
Definition sprintf_d (z : Z) : string :=
  DecimalString.NilEmpty.string_of_int (Z.to_int z).

(** [_mdns_mangle_name]: [p] is the offset of the last '-', [suffix] the
    number read after it.  [suffix + 1] is the mathematical sum (for
    [suffix = INT_MAX] the C addition overflows, which C leaves undefined).
    The function computes no length and cuts nothing off. *)
Definition _mdns_mangle_name (in_ : string) : string :=
  match strrchr in_ "-" with
  | None =>
      (* No - in in *)
      in_ ++ "-2"
  | Some p =>
      let '(suffix, endp) := strtol (drop (S p) in_) in
      match endp with
      | String _ _ =>
          (* suffix is not numerical: append -2 to the entire string *)
          in_ ++ "-2"
      | EmptyString =>
          (* overwrite suffix with new suffix *)
          take p in_ ++ "-" ++ sprintf_d (suffix + 1)
      end
  end.

Example mangle_plain : _mdns_mangle_name "alpha" = "alpha-2".
Proof. reflexivity. Qed.

Example mangle_incr : _mdns_mangle_name "alpha-2" = "alpha-3".
Proof. reflexivity. Qed.

Example mangle_carry : _mdns_mangle_name "alpha-99" = "alpha-100".
Proof. reflexivity. Qed.

Example mangle_word : _mdns_mangle_name "my-host" = "my-host-2".
Proof. reflexivity. Qed.

Example mangle_mixed : _mdns_mangle_name "my-12ab" = "my-12ab-2".
Proof. reflexivity. Qed.

(** A trailing '-' counts as the number 0 for [strtol]. *)
Example mangle_trailing_dash : _mdns_mangle_name "alpha-" = "alpha-1".
Proof. reflexivity. Qed.

Fixpoint all_digits (s : string) : bool :=
  match s with
  | EmptyString => true
  | String c s' => isdigit c && all_digits s'
  end.

(** The value of a string of decimal digits. *)
Definition digits_value (s : string) : Z := fst (fst (read_digits 0 s)).

(** "No '-' in the name". *)
Fixpoint no_dash (s : string) : bool :=
  match s with
  | EmptyString => true
  | String c s' => negb (Ascii.eqb c "-") && no_dash s'
  end.

Fixpoint repeat_char (c : ascii) (n : nat) : string :=
  match n with
  | O => EmptyString
  | S n' => String c (repeat_char c n')
  end.

Definition has_nondigit (s : string) : bool := negb (all_digits s).

Definition first_is_space_or_plus (s : string) : bool :=
  match s with
  | String c _ => isspace c || Ascii.eqb c "+"
  | EmptyString => false
  end.

Lemma strrchr_no_dash s : no_dash s = true -> strrchr s "-" = None.
Proof.
  induction s as [|c s IH]; simpl; [reflexivity|].
  intros H. apply andb_prop in H as [Hc Hs].
  rewrite (IH Hs). apply negb_true_iff in Hc. now rewrite Hc.
Qed.

Lemma strrchr_last_dash base t :
  no_dash t = true ->
  strrchr (base ++ String "-" t) "-" = Some (String.length base).
Proof.
  intros Ht. induction base as [|c base IH]; simpl.
  - now rewrite (strrchr_no_dash _ Ht).
  - now rewrite IH.
Qed.

Lemma read_digits_rest acc s :
  has_nondigit s = true ->
  snd (read_digits acc s) <> EmptyString.
Proof.
  unfold has_nondigit. revert acc.
  induction s as [|c s IH]; intros acc H; simpl in *; [discriminate|].
  destruct (isdigit c) eqn:Ec; simpl in *.
  - specialize (IH (acc * 10 + (code c - 48))%Z H).
    destruct (read_digits (acc * 10 + (code c - 48))%Z s) as [[v n] r].
    exact IH.
  - discriminate.
Qed.

Lemma read_digits_all acc s :
  all_digits s = true -> (0 <= acc)%Z ->
  exists v, read_digits acc s = (v, String.length s, EmptyString)
            /\ (0 <= v)%Z.
Proof.
  revert acc. induction s as [|c s IH]; intros acc H Hacc; simpl in *.
  - exists acc. split; [reflexivity|lia].
  - apply andb_prop in H as [Hc Hs]. rewrite Hc.
    assert (Hacc' : (0 <= acc * 10 + (code c - 48))%Z).
    { unfold isdigit in Hc. apply andb_prop in Hc as [H1 H2].
      apply Z.leb_le in H1. lia. }
    destruct (IH _ Hs Hacc') as [v [E Hv]].
    rewrite E. exists v. split; [reflexivity|exact Hv].
Qed.

Lemma all_digits_no_dash s : all_digits s = true -> no_dash s = true.
Proof.
  induction s as [|c s IH]; simpl; [reflexivity|].
  intros H. apply andb_prop in H as [Hc Hs]. rewrite (IH Hs), andb_true_r.
  destruct (Ascii.eqb c "-") eqn:E; [|reflexivity].
  apply Ascii.eqb_eq in E. subst c. discriminate.
Qed.

Lemma strtol_digits s :
  s <> EmptyString -> all_digits s = true -> (digits_value s <= LONG_MAX)%Z ->
  strtol s = (digits_value s, EmptyString).
Proof.
  intros Hne Hd Hmax. unfold strtol, digits_value in *.
  destruct s as [|c s]; [congruence|].
  assert (Hsk : skip_spaces (String c s) = String c s).
  { simpl in *. apply andb_prop in Hd as [Hc _].
    assert (isspace c = false) as ->; [|reflexivity].
    unfold isdigit, isspace in *. apply andb_prop in Hc as [H1 H2].
    apply Z.leb_le in H1. apply Z.leb_le in H2.
    apply orb_false_iff. split; [apply Z.eqb_neq; lia|].
    apply andb_false_iff. right. apply Z.leb_gt. lia. }
  rewrite Hsk.
  assert (Hsign : match String c s with
                  | String "-" r => (true, r)
                  | String "+" r => (false, r)
                  | _ => (false, String c s)
                  end = (false, String c s)).
  { simpl in Hd. apply andb_prop in Hd as [Hc _].
    destruct c as [[] [] [] [] [] [] [] []]; try reflexivity;
      vm_compute in Hc; discriminate. }
  rewrite Hsign.
  destruct (read_digits_all 0 _ Hd (Z.le_refl 0)) as [v [E Hv]].
  rewrite E in *. simpl in Hmax. simpl String.length.
  cbv iota beta. simpl fst. f_equal. unfold LONG_MIN, LONG_MAX in *. lia.
Qed.

Lemma strtol_nonnumeric t :
  has_nondigit t = true -> first_is_space_or_plus t = false ->
  no_dash t = true ->
  snd (strtol t) <> EmptyString.
Proof.
  intros Hnd Hfirst Hdash. unfold strtol.
  destruct t as [|c t]; [discriminate|].
  simpl in Hfirst. apply orb_false_iff in Hfirst as [Hsp Hplus].
  simpl in Hdash. apply andb_prop in Hdash as [Hc _].
  apply negb_true_iff in Hc.
  assert (Hsk : skip_spaces (String c t) = String c t)
    by (simpl; now rewrite Hsp).
  rewrite Hsk.
  assert (Hsign : match String c t with
                  | String "-" r => (true, r)
                  | String "+" r => (false, r)
                  | _ => (false, String c t)
                  end = (false, String c t)).
  { destruct c as [[] [] [] [] [] [] [] []]; try reflexivity;
      vm_compute in Hc, Hplus; discriminate. }
  rewrite Hsign.
  pose proof (read_digits_rest 0 _ Hnd) as Hrest.
  destruct (read_digits 0 (String c t)) as [[v n] rest]. simpl in Hrest.
  destruct n; simpl; [discriminate|exact Hrest].
Qed.

Lemma length_repeat_char c n : String.length (repeat_char c n) = n.
Proof. induction n; simpl; congruence. Qed.

Lemma no_dash_repeat_a n : no_dash (repeat_char "a" n) = true.
Proof. induction n; simpl; [reflexivity|exact IHn]. Qed.

(** C5 (as amended).  What [_mdns_mangle_name] does:
    - a name without any '-' gets "-2" appended;
    - a name whose text after the last '-' holds a character that is not a
      decimal digit (and does not start with white space or '+', which
      [strtol] skips) gets "-2" appended;
    - a name ending in "-N", N a non-empty string of decimal digits (N below
      the largest [long]), has that suffix replaced by "-(N+1)";
    - the result is never shortened: appending "-2" makes the name two bytes
      longer, whatever its length, so a 63-byte name becomes a 65-byte one. *)
Theorem C5_mangle_name :
  (forall name, no_dash name = true ->
     _mdns_mangle_name name = name ++ "-2")
  /\ (forall base t,
       no_dash t = true -> has_nondigit t = true ->
       first_is_space_or_plus t = false ->
       _mdns_mangle_name (base ++ String "-" t) = base ++ String "-" t ++ "-2")
  /\ (forall base ds,
       ds <> EmptyString -> all_digits ds = true ->
       (digits_value ds < LONG_MAX)%Z ->
       _mdns_mangle_name (base ++ String "-" ds)
       = base ++ "-" ++ sprintf_d (digits_value ds + 1))
  /\ (forall name, no_dash name = true ->
       String.length (_mdns_mangle_name name) = (String.length name + 2)%nat)
  /\ String.length (_mdns_mangle_name (repeat_char "a" 63)) = 65%nat.
Proof.
  assert (H1 : forall name, no_dash name = true ->
                 _mdns_mangle_name name = name ++ "-2").
  { intros name H. unfold _mdns_mangle_name.
    now rewrite (strrchr_no_dash _ H). }
  split; [exact H1|]. split; [|split; [|split]].
  - intros base t Hdash Hnd Hfirst. unfold _mdns_mangle_name.
    rewrite (strrchr_last_dash base t Hdash).
    replace (drop (S (String.length base)) (base ++ String "-" t)) with t.
    + pose proof (strtol_nonnumeric t Hnd Hfirst Hdash) as Hs.
      destruct (strtol t) as [v e]. simpl in Hs.
      destruct e; [congruence|].
      clear. induction base; simpl; [reflexivity|]. now f_equal.
    + clear. induction base; simpl; [reflexivity|]. exact IHbase.
  - intros base ds Hne Hd Hlt. unfold _mdns_mangle_name.
    rewrite (strrchr_last_dash base ds (all_digits_no_dash _ Hd)).
    replace (drop (S (String.length base)) (base ++ String "-" ds)) with ds
      by (clear; induction base; simpl; [reflexivity|exact IHbase]).
    rewrite strtol_digits by (try assumption; lia).
    now rewrite take_app_exact.
  - intros name H. rewrite (H1 _ H), length_append. reflexivity.
  - rewrite (H1 _ (no_dash_repeat_a 63)), length_append, length_repeat_char.
    reflexivity.
Qed.

(** The claim as the spec states it promises a result cut to 63 bytes; the
    63-byte name of 'a's is mangled into a 65-byte name. *)
Lemma C5_counterexample_no_truncation :
  ~ (forall name, name <> EmptyString ->
       (String.length (_mdns_mangle_name name) <= 63)%nat).
Proof.
  intros H. specialize (H (repeat_char "a" 63)).
  assert (Hne : repeat_char "a" 63 <> EmptyString) by discriminate.
  specialize (H Hne).
  destruct C5_mangle_name as (_ & _ & _ & _ & Hlen).
  rewrite Hlen in H. lia.
Qed.

Lemma C5_mangle_name_witness :
  _mdns_mangle_name "alpha" = "alpha-2"
  /\ _mdns_mangle_name "my-host" = "my-host-2"
  /\ _mdns_mangle_name "alpha-9" = "alpha-10".
Proof.
  destruct C5_mangle_name as (H1 & H2 & H3 & _).
  split; [|split].
  - apply (H1 "alpha"). reflexivity.
  - apply (H2 "my" "host"); reflexivity.
  - apply (H3 "alpha" "9"); [discriminate|reflexivity|vm_compute; reflexivity].
Defined.

Lemma append_nonempty a b : b <> EmptyString -> a ++ b <> EmptyString.
Proof. destruct a; simpl; [auto|discriminate]. Qed.

(** A mangled name is never empty. *)
Lemma mangle_name_nonempty name :
  _str_null_or_empty (Some (_mdns_mangle_name name)) = false.
Proof.
  assert (H : _mdns_mangle_name name <> EmptyString).
  { unfold _mdns_mangle_name.
    destruct (strrchr name "-") as [p|].
    - destruct (strtol (drop (S p) name)) as [v [|c e]];
        apply append_nonempty; discriminate.
    - apply append_nonempty. discriminate. }
  simpl. destruct (_mdns_mangle_name name); [congruence|reflexivity].
Qed.

End Mangle.

(** ** Wire codec: names ([_mdns_read_fqdn], [_mdns_append_fqdn]) *)

Module Codec.

Import CStr.

(** A byte buffer seen from its base pointer: offset |-> content.  Reads go
    through [rd], which yields a byte whatever the map holds; writes store
    the value as a [uint8_t]. *)
Definition mem : Type := Z -> Z.

Definition rd (m : mem) (i : Z) : Z := u8 (m i).

Definition wr (m : mem) (i v : Z) : mem :=
  fun j => if j =? i then u8 v else m j.

(** [memcpy(m + pos, bytes, length bytes)]. *)
Fixpoint wr_bytes (m : mem) (pos : Z) (bytes : list Z) : mem :=
  match bytes with
  | [] => m
  | b :: bs => wr_bytes (wr m pos b) (pos + 1) bs
  end.

(** A buffer whose first bytes are [l] (zero elsewhere). *)
Definition mem_of_list (l : list Z) : mem :=
  fun i => if i <? 0 then 0 else nth (Z.to_nat i) l 0.

Fixpoint bytes_of (s : string) : list Z :=
  match s with
  | EmptyString => []
  | String c s' => code c :: bytes_of s'
  end.

(** The C string held by a char array whose first bytes are [l]: the
    characters before the first NUL. *)
Fixpoint cstring_of (l : list Z) : string :=
  match l with
  | [] => EmptyString
  | b :: l' => if u8 b =? 0 then EmptyString else String (char_of b) (cstring_of l')
  end.

(** Modelled from the spec: [mdns_name_t] is declared in mdns_private.h, which
    is not part of the sources.  The spec describes the 4-field name
    structure (host, service, proto, domain); the code uses four char arrays
    of [MDNS_NAME_BUF_LEN] bytes laid out in that order, followed by
    [parts], [sub] and [invalid].  Each array is kept as the C string it
    holds. *)
Record mdns_name_t : Type := {
  host : string;
  service : string;
  proto : string;
  domain : string;
  parts : Z;
  sub : Z;
  invalid : bool
}.

(** The name as both callers initialise it before [_mdns_read_fqdn]. *)
Definition empty_name : mdns_name_t :=
  {| host := ""; service := ""; proto := ""; domain := "";
     parts := 0; sub := 0; invalid := false |}.

Definition set_host (n : mdns_name_t) (s : string) : mdns_name_t :=
  {| host := s; service := service n; proto := proto n; domain := domain n;
     parts := parts n; sub := sub n; invalid := invalid n |}.

Definition set_invalid (n : mdns_name_t) (b : bool) : mdns_name_t :=
  {| host := host n; service := service n; proto := proto n;
     domain := domain n; parts := parts n; sub := sub n; invalid := b |}.

Definition set_sub (n : mdns_name_t) (z : Z) : mdns_name_t :=
  {| host := host n; service := service n; proto := proto n;
     domain := domain n; parts := parts n; sub := z; invalid := invalid n |}.

(** [memcpy(mdns_name_ptrs[name->parts++], buf, len + 1)] with
    [mdns_name_ptrs = {host, service, proto, domain}].  [parts] is at most 3
    here: the loop marks the name invalid as soon as [parts] is 4, and this
    branch runs for valid names only (an index past the array is left as a
    no-op on the arrays). *)
Definition store_part (n : mdns_name_t) (s : string) : mdns_name_t :=
  let p := u8 (parts n + 1) in
  match parts n with
  | 0 => {| host := s; service := service n; proto := proto n;
            domain := domain n; parts := p; sub := sub n; invalid := invalid n |}
  | 1 => {| host := host n; service := s; proto := proto n;
            domain := domain n; parts := p; sub := sub n; invalid := invalid n |}
  | 2 => {| host := host n; service := service n; proto := s;
            domain := domain n; parts := p; sub := sub n; invalid := invalid n |}
  | 3 => {| host := host n; service := service n; proto := proto n;
            domain := s; parts := p; sub := sub n; invalid := invalid n |}
  | _ => {| host := host n; service := service n; proto := proto n;
            domain := domain n; parts := p; sub := sub n; invalid := invalid n |}
  end.

(** The array [i] of the name ([(const char * )&name + i * MDNS_NAME_BUF_LEN]
    for [i] below 4). *)
Definition name_field (n : mdns_name_t) (i : nat) : string :=
  match i with
  | 0%nat => host n
  | 1%nat => service n
  | 2%nat => proto n
  | _ => domain n
  end.

(** [strlcat(dst, src, MDNS_NAME_BUF_LEN)] on a [dst] shorter than the
    buffer: the concatenation cut to 63 characters. *)
Definition strlcat (dst src : string) : string :=
  take (Z.to_nat (MDNS_NAME_BUF_LEN - 1)) (dst ++ src)%string.

(** The inner [for] loop of [_mdns_read_fqdn]: [n] label bytes from [pos],
    [None] when the packet ends first. *)
Fixpoint read_label (packet : mem) (packet_end : Z) (pos : Z) (n : nat)
  : option (list Z) :=
  match n with
  | O => Some []
  | S n' =>
      if pos >=? packet_end then None
      else match read_label packet packet_end (pos + 1) n' with
           | Some l => Some (rd packet pos :: l)
           | None => None
           end
  end.

(** [((uint16_t)len & 0x3F) << 8 | next]: the offset that a pointer byte
    [len] and the byte after it refer to. *)
Definition pointer_target (len next : Z) : Z :=
  Z.lor (Z.shiftl (Z.land len 63) 8) next.

Arguments pointer_target : simpl never.

Section ReadFqdn.

(** The build option [CONFIG_MDNS_RESPOND_REVERSE_QUERIES]. *)
Variable CONFIG_MDNS_RESPOND_REVERSE_QUERIES : bool.

(** What one label does to the name (the three-way branch after
    [buf[len] = 0]); [buf] holds the [len >= 1] bytes of the label. *)
Definition take_label (name : mdns_name_t) (buf : list Z) : mdns_name_t :=
  let s := cstring_of buf in
  if (parts name =? 1)
     && negb (u8 (nth 0 buf 0) =? 95)
     && negb (strcaseeq s MDNS_DEFAULT_DOMAIN)
     && negb (strcaseeq s "arpa")
     && (CONFIG_MDNS_RESPOND_REVERSE_QUERIES
         || (negb (strcaseeq s "ip6") && negb (strcaseeq s "in-addr")))
  then set_host name (strlcat (strlcat (host name) ".") s)
  else if strcaseeq s MDNS_SUB_STR then set_sub name 1
  else if negb (invalid name) then store_part name s
  else name.

(** The result of a decoding run: the pointer returned ([None] for [NULL])
    and the name as the run leaves it. *)
Definition fqdn_result : Type := (option Z * mdns_name_t)%type.

(** The [while] loop of [_mdns_read_fqdn] at [start], from [index] on;
    [self] stands for the recursive call of [_mdns_read_fqdn] and [k] bounds
    the number of rounds ([None]: bound reached). *)
Fixpoint read_fqdn_loop (self : Z -> mdns_name_t -> option fqdn_result)
  (packet : mem) (packet_len : Z) (start : Z)
  (k : nat) (index : Z) (name : mdns_name_t) : option fqdn_result :=
  match k with
  | O => None
  | S k' =>
      if (start + index <? packet_len) && negb (rd packet (start + index) =? 0)
      then
        let name := if parts name =? 4 then set_invalid name true else name in
        let len := rd packet (start + index) in
        let index := index + 1 in
        if len <? 192 then
          if 63 <? len then
            (* length can not be more than 63 *)
            Some (None, name)
          else
            match read_label packet packet_len (start + index) (Z.to_nat len) with
            | None => Some (None, name)
            | Some buf =>
                read_fqdn_loop self packet packet_len start k'
                  (index + len) (take_label name buf)
            end
        else
          let address := pointer_target len (rd packet (start + index)) in
          let index := index + 1 in
          if address >=? start then
            (* reference address can not be after where we are *)
            Some (None, name)
          else
            match self address name with
            | None => None
            | Some (Some _, name') => Some (Some (start + index), name')
            | Some (None, name') => Some (None, name')
            end
      else Some (Some (start + index + 1), name)
  end.

(** Rounds the loop at [start] can take: every round moves [index] forward
    and needs [start + index < packet_len]. *)
Definition loop_bound (packet_len start : Z) : nat :=
  S (Z.to_nat (packet_len - start)).

(** [_mdns_read_fqdn] with a bound [d] on the depth of pointer chasing
    ([None]: bound reached). *)
Fixpoint read_fqdn_depth (d : nat) (packet : mem) (packet_len : Z)
  (start : Z) (name : mdns_name_t) : option fqdn_result :=
  match d with
  | O => None
  | S d' =>
      read_fqdn_loop (read_fqdn_depth d' packet packet_len)
        packet packet_len start (loop_bound packet_len start) 0 name
  end.

(** [_mdns_read_fqdn(packet, start, name, buf, packet_len)].  A pointer is
    followed only to an offset below [start], so [start + 1] levels are
    enough (see [read_fqdn_total]).  [buf] is scratch space: every label is
    written to it before it is read. *)
Definition _mdns_read_fqdn (packet : mem) (start : Z) (name : mdns_name_t)
  (packet_len : Z) : option fqdn_result :=
  read_fqdn_depth (S (Z.to_nat start)) packet packet_len start name.

End ReadFqdn.

(** *** Appending to the packet under construction

    Every function returns the packet, the new [*index] and its C return
    value. *)

Definition out : Type := (mem * Z * Z)%type.

Definition _mdns_set_u16 (packet : mem) (index value : Z) : mem :=
  if index + 1 >=? MDNS_MAX_PACKET_SIZE then packet
  else wr (wr packet index (Z.land (Z.shiftr value 8) 255))
          (index + 1) (Z.land value 255).

Definition _mdns_append_u8 (packet : mem) (index value : Z) : out :=
  if index >=? MDNS_MAX_PACKET_SIZE then (packet, index, 0)
  else (wr packet index value, u16 (index + 1), 1).

Definition _mdns_append_u16 (packet : mem) (index value : Z) : out :=
  if index + 1 >=? MDNS_MAX_PACKET_SIZE then (packet, index, 0)
  else
    let '(p1, i1, _) :=
      _mdns_append_u8 packet index (Z.land (Z.shiftr value 8) 255) in
    let '(p2, i2, _) := _mdns_append_u8 p1 i1 (Z.land value 255) in
    (p2, i2, 2).

Definition _mdns_append_u32 (packet : mem) (index value : Z) : out :=
  if index + 3 >=? MDNS_MAX_PACKET_SIZE then (packet, index, 0)
  else
    let '(p1, i1, _) :=
      _mdns_append_u8 packet index (Z.land (Z.shiftr value 24) 255) in
    let '(p2, i2, _) :=
      _mdns_append_u8 p1 i1 (Z.land (Z.shiftr value 16) 255) in
    let '(p3, i3, _) :=
      _mdns_append_u8 p2 i2 (Z.land (Z.shiftr value 8) 255) in
    let '(p4, i4, _) := _mdns_append_u8 p3 i3 (Z.land value 255) in
    (p4, i4, 4).

(** Modelled from the spec: the [MDNS_ANSWER_*] codes that
    [_mdns_append_type] takes are declared in mdns_private.h; only their
    being different from one another matters, so they are an enumeration
    here ([MDNS_ANSWER_other] for any other [uint8_t]). *)
Inductive mdns_answer_code : Type :=
| MDNS_ANSWER_PTR
| MDNS_ANSWER_TXT
| MDNS_ANSWER_SRV
| MDNS_ANSWER_A
| MDNS_ANSWER_AAAA
| MDNS_ANSWER_other.

Definition _mdns_append_type (packet : mem) (index : Z)
  (type : mdns_answer_code) (flush : bool) (ttl : Z) : out :=
  if index + 10 >=? MDNS_MAX_PACKET_SIZE then (packet, index, 0)
  else
    let mdns_class := if flush then MDNS_CLASS_IN_FLUSH_CACHE else MDNS_CLASS_IN in
    let wire_type :=
      match type with
      | MDNS_ANSWER_PTR => Some MDNS_TYPE_PTR
      | MDNS_ANSWER_TXT => Some MDNS_TYPE_TXT
      | MDNS_ANSWER_SRV => Some MDNS_TYPE_SRV
      | MDNS_ANSWER_A => Some MDNS_TYPE_A
      | MDNS_ANSWER_AAAA => Some MDNS_TYPE_AAAA
      | MDNS_ANSWER_other => None
      end in
    match wire_type with
    | None => (packet, index, 0)
    | Some t =>
        let '(p1, i1, _) := _mdns_append_u16 packet index t in
        let '(p2, i2, _) := _mdns_append_u16 p1 i1 mdns_class in
        let '(p3, i3, _) := _mdns_append_u32 p2 i2 ttl in
        let '(p4, i4, _) := _mdns_append_u16 p3 i3 0 in
        (p4, i4, 10)
    end.

(** [_mdns_append_string]: [len] is a [uint8_t], and so is the value
    returned. *)
Definition _mdns_append_string (packet : mem) (index : Z) (s : string) : out :=
  let len := u8 (strlen s) in
  if index + len + 1 >=? MDNS_MAX_PACKET_SIZE then (packet, index, 0)
  else
    let '(p1, i1, _) := _mdns_append_u8 packet index len in
    (wr_bytes p1 i1 (firstn (Z.to_nat len) (bytes_of s)),
     u16 (i1 + len), u8 (len + 1)).

(** [memchr(m + s, c, n)]. *)
Fixpoint memchr (m : mem) (s : Z) (c : Z) (n : nat) : option Z :=
  match n with
  | O => None
  | S n' => if rd m s =? u8 c then Some s else memchr m (s + 1) c n'
  end.

(** [memcmp(m + s, bytes, length bytes) == 0]. *)
Fixpoint memeq (m : mem) (s : Z) (bytes : list Z) : bool :=
  match bytes with
  | [] => true
  | b :: bs => (rd m s =? u8 b) && memeq m (s + 1) bs
  end.

Section AppendFqdn.

Variable CONFIG_MDNS_RESPOND_REVERSE_QUERIES : bool.

(** The tests one candidate [len_location] goes through in the [while] loop
    of [_mdns_append_fqdn]: the bytes after it are [strings[0]], it reads as
    a name, and the name has [count] parts equal (without case) to
    [strings]. *)
Definition candidate_matches (packet : mem) (packet_len : Z)
  (strings : list string) (len : Z) (len_location : Z) : bool :=
  match strings with
  | [] => false
  | s0 :: _ =>
      memeq packet (len_location + 1) (firstn (Z.to_nat len) (bytes_of s0))
      && match _mdns_read_fqdn CONFIG_MDNS_RESPOND_REVERSE_QUERIES
                 packet len_location empty_name packet_len with
         | Some (Some _, name) =>
             (parts name =? u8 (Z.of_nat (List.length strings)))
             && forallb (fun i => strcaseeq (nth i strings EmptyString)
                                            (name_field name i))
                        (seq 0 (List.length strings))
         | _ => false
         end
  end.

(** The [while (len_location)] loop: the candidates are the offsets that
    successive [memchr] calls return, i.e. the offsets from [pos] up to
    [*index] (exclusive) that hold the byte [len], in increasing order;
    [n] is the number of bytes left to search. *)
Fixpoint search_name (packet : mem) (packet_len : Z) (strings : list string)
  (len : Z) (pos : Z) (n : nat) : option Z :=
  match n with
  | O => None
  | S n' =>
      if (rd packet pos =? u8 len)
         && candidate_matches packet packet_len strings len pos
      then Some pos
      else search_name packet packet_len strings len (pos + 1) n'
  end.

(** The value of [len_location] when the loop is left, for the name
    [strings] and the packet written up to [index]. *)
Definition find_name (packet : mem) (index : Z) (strings : list string)
  (packet_len : Z) : option Z :=
  match strings with
  | [] => None
  | s0 :: _ =>
      search_name packet packet_len strings (u8 (strlen s0)) 0 (Z.to_nat index)
  end.

(** [_mdns_append_fqdn(packet, index, strings, count, packet_len)], with
    [count] the length of [strings]. *)
Fixpoint _mdns_append_fqdn (packet : mem) (index : Z) (strings : list string)
  (packet_len : Z) : out :=
  match strings with
  | [] =>
      (* empty string so terminate *)
      _mdns_append_u8 packet index 0
  | s0 :: rest =>
      match find_name packet index strings packet_len with
      | None =>
          (* string is not yet in the packet, so let's add it *)
          let '(p1, i1, written) := _mdns_append_string packet index s0 in
          if written =? 0 then (p1, i1, 0)
          else
            let '(p2, i2, r) := _mdns_append_fqdn p1 i1 rest packet_len in
            (p2, i2, u16 (written + r))
      | Some len_location =>
          (* we have found the string so let's insert a pointer to it *)
          let offset := Z.lor (u16 len_location) MDNS_NAME_REF in
          _mdns_append_u16 packet index offset
      end
  end.

End AppendFqdn.

(** *** Properties of the name codec *)

Lemma rd_nonneg m i : 0 <= rd m i.
Proof. unfold rd, u8. apply Z.mod_pos_bound. lia. Qed.

Lemma rd_lt_256 m i : rd m i < 256.
Proof. unfold rd, u8. apply Z.mod_pos_bound. lia. Qed.

Lemma pointer_target_nonneg len next :
  0 <= next -> 0 <= pointer_target len next.
Proof.
  intros H. unfold pointer_target. apply Z.lor_nonneg. split; [|exact H].
  apply Z.shiftl_nonneg. apply Z.land_nonneg. right. lia.
Qed.



Section DecoderFacts.

Variable cfg : bool.

(** The loop never runs out of rounds when [k] exceeds the bytes left, as
    long as the calls it makes for smaller offsets return. *)
Lemma read_fqdn_loop_total self packet packet_len start :
  (forall a name, 0 <= a < start -> self a name <> None) ->
  forall k index name,
    (Z.to_nat (packet_len - start - index) < k)%nat ->
    read_fqdn_loop cfg self packet packet_len start k index name <> None.
Proof.
  intros Hself. induction k as [|k IH]; intros index name Hk; [lia|].
  simpl.
  destruct ((start + index <? packet_len)
            && negb (rd packet (start + index) =? 0)) eqn:Hc;
    [|discriminate].
  apply andb_prop in Hc as [Hlt Hnz]. apply Z.ltb_lt in Hlt.
  pose proof (rd_nonneg packet (start + index)) as Hlen.
  destruct (rd packet (start + index) <? 192).
  - destruct (63 <? rd packet (start + index)); [discriminate|].
    destruct (read_label _ _ _ _); [|discriminate].
    apply IH. lia.
  - match goal with |- context [?a >=? start] => destruct (a >=? start) eqn:Ha end;
      [discriminate|].
    rewrite Z.geb_leb in Ha. apply Z.leb_gt in Ha.
    match type of Ha with ?a < _ =>
      assert (Hnn : 0 <= a)
        by (apply (pointer_target_nonneg _ _ (rd_nonneg _ _)));
      specialize (Hself a (if parts name =? 4 then set_invalid name true else name)
                        (conj Hnn Ha));
      destruct (self a (if parts name =? 4 then set_invalid name true else name))
        as [[[?|] ?]|]
    end; congruence.
Qed.

Lemma read_fqdn_depth_total packet packet_len :
  forall d start name,
    (Z.to_nat start < d)%nat ->
    read_fqdn_depth cfg d packet packet_len start name <> None.
Proof.
  induction d as [|d IH]; intros start name Hd; [lia|].
  cbn [read_fqdn_depth]. apply read_fqdn_loop_total.
  - intros a name' Ha. apply IH. lia.
  - unfold loop_bound. lia.
Qed.

(** More rounds, or a recursive call that answers more often, change no
    result that was reached. *)
Lemma read_fqdn_loop_mono self self' packet packet_len start :
  (forall a name r, self a name = Some r -> self' a name = Some r) ->
  forall k k' index name r,
    (k <= k')%nat ->
    read_fqdn_loop cfg self packet packet_len start k index name = Some r ->
    read_fqdn_loop cfg self' packet packet_len start k' index name = Some r.
Proof.
  intros Hself. induction k as [|k IH]; intros k' index name r Hk H;
    [discriminate|].
  destruct k' as [|k']; [lia|]. simpl in *.
  destruct ((start + index <? packet_len)
            && negb (rd packet (start + index) =? 0)); [|exact H].
  destruct (rd packet (start + index) <? 192).
  - destruct (63 <? rd packet (start + index)); [exact H|].
    destruct (read_label _ _ _ _); [|exact H].
    apply (IH k'); [lia|exact H].
  - match goal with |- context [?a >=? start] => destruct (a >=? start) end;
      [exact H|].
    match type of H with context [self ?a ?n] =>
      destruct (self a n) as [r0|] eqn:E; [|discriminate];
      rewrite (Hself _ _ _ E)
    end.
    exact H.
Qed.

Lemma read_fqdn_depth_mono packet packet_len :
  forall d d' start name r,
    (d <= d')%nat ->
    read_fqdn_depth cfg d packet packet_len start name = Some r ->
    read_fqdn_depth cfg d' packet packet_len start name = Some r.
Proof.
  induction d as [|d IH]; intros d' start name r Hd H; [discriminate|].
  destruct d' as [|d']; [lia|]. cbn [read_fqdn_depth] in *.
  eapply read_fqdn_loop_mono; [|reflexivity|exact H].
  intros a n r0 E. apply (IH d'); [lia|exact E].
Qed.

(** [_mdns_read_fqdn] returns, and no larger bound changes what it
    returns. *)
Lemma read_fqdn_total packet start name packet_len :
  exists r,
    _mdns_read_fqdn cfg packet start name packet_len = Some r
    /\ forall d, (Z.to_nat start < d)%nat ->
         read_fqdn_depth cfg d packet packet_len start name = Some r.
Proof.
  unfold _mdns_read_fqdn.
  destruct (read_fqdn_depth cfg (S (Z.to_nat start)) packet packet_len start name)
    as [r|] eqn:E.
  - exists r. split; [reflexivity|]. intros d Hd.
    eapply read_fqdn_depth_mono; [|exact E]. lia.
  - exfalso. revert E. apply read_fqdn_depth_total. lia.
Qed.


End DecoderFacts.





Lemma rd_wr_same m i v : rd (wr m i v) i = u8 v.
Proof.
  unfold rd, wr. rewrite Z.eqb_refl. unfold u8.
  apply Z.mod_mod. lia.
Qed.

Lemma rd_wr_other m i j v : j <> i -> rd (wr m i v) j = rd m j.
Proof.
  intros H. unfold rd, wr.
  destruct (j =? i) eqn:E; [apply Z.eqb_eq in E; contradiction|reflexivity].
Qed.

Lemma append_u16_bytes packet index value :
  0 <= index -> index + 1 < MDNS_MAX_PACKET_SIZE ->
  exists p',
    _mdns_append_u16 packet index value = (p', index + 2, 2)
    /\ rd p' index = u8 (Z.land (Z.shiftr value 8) 255)
    /\ rd p' (index + 1) = u8 (Z.land value 255)
    /\ forall j, j < index -> rd p' j = rd packet j.
Proof.
  intros H0 H1. unfold _mdns_append_u16, _mdns_append_u8.
  assert (E1 : (index + 1 >=? MDNS_MAX_PACKET_SIZE) = false)
    by (rewrite Z.geb_leb; apply Z.leb_gt; lia).
  assert (E2 : (index >=? MDNS_MAX_PACKET_SIZE) = false)
    by (rewrite Z.geb_leb; apply Z.leb_gt; lia).
  assert (U1 : u16 (index + 1) = index + 1).
  { unfold u16. apply Z.mod_small. unfold MDNS_MAX_PACKET_SIZE in H1. lia. }
  rewrite E1, E2, U1, E1.
  assert (U2 : u16 (index + 1 + 1) = index + 2).
  { unfold u16. rewrite Z.mod_small; unfold MDNS_MAX_PACKET_SIZE in H1; lia. }
  rewrite U2. eexists. split; [reflexivity|]. split; [|split].
  - rewrite rd_wr_other by lia. apply rd_wr_same.
  - apply rd_wr_same.
  - intros j Hj. rewrite !rd_wr_other by lia. reflexivity.
Qed.



(** *** PTR records ([_mdns_append_ptr_record]) *)

Section PtrRecord.

Variable cfg : bool.

(** [_mdns_append_ptr_record(packet, index, instance, service, proto, flush,
    bye)]; [part_length] is a [uint8_t], [record_length] a [uint16_t].  The
    [flush] argument is not used: the class is written without the
    cache-flush bit. *)
Definition _mdns_append_ptr_record (packet : mem) (index : Z)
  (instance : string) (service : option string) (proto : string)
  (flush bye : bool) : out :=
  match service with
  | None => (packet, index, 0)
  | Some service =>
      let '(p1, i1, r1) :=
        _mdns_append_fqdn cfg packet index
          [service; proto; MDNS_DEFAULT_DOMAIN] MDNS_MAX_PACKET_SIZE in
      let part_length := u8 r1 in
      if part_length =? 0 then (p1, i1, 0)
      else
        let record_length := part_length in
        let '(p2, i2, r2) :=
          _mdns_append_type p1 i1 MDNS_ANSWER_PTR false
            (if bye then 0 else MDNS_ANSWER_PTR_TTL) in
        let part_length := u8 r2 in
        if part_length =? 0 then (p2, i2, 0)
        else
          let record_length := u16 (record_length + part_length) in
          let data_len_location := u16 (i2 - 2) in
          let '(p3, i3, r3) :=
            _mdns_append_fqdn cfg p2 i2
              [instance; service; proto; MDNS_DEFAULT_DOMAIN]
              MDNS_MAX_PACKET_SIZE in
          let part_length := u8 r3 in
          if part_length =? 0 then (p3, i3, 0)
          else
            (_mdns_set_u16 p3 data_len_location part_length, i3,
             u16 (record_length + part_length))
  end.

(** Bytes below the write index are left alone, and the index does not go
    back. *)
Definition extends (packet : mem) (index : Z) (o : out) : Prop :=
  let '(p', i', _) := o in
  index <= i' /\ forall j, j < index -> rd p' j = rd packet j.

Lemma extends_compose packet index p1 i1 r1 o :
  extends packet index (p1, i1, r1) -> extends p1 i1 o ->
  extends packet index (let '(p2, i2, _) := o in (p2, i2, r1)).
Proof.
  destruct o as [[p2 i2] r2]. unfold extends.
  intros [H1 H2] [H3 H4]. split; [lia|].
  intros j Hj. rewrite H4 by lia. apply H2. exact Hj.
Qed.

Lemma append_u8_extends packet index value :
  0 <= index -> extends packet index (_mdns_append_u8 packet index value).
Proof.
  intros H. unfold _mdns_append_u8.
  destruct (index >=? MDNS_MAX_PACKET_SIZE) eqn:E; unfold extends.
  - split; [lia|reflexivity].
  - rewrite Z.geb_leb in E. apply Z.leb_gt in E.
    unfold MDNS_MAX_PACKET_SIZE in E.
    unfold u16. rewrite Z.mod_small by lia. split; [lia|].
    intros j Hj. apply rd_wr_other. lia.
Qed.

Lemma wr_bytes_below bytes : forall m pos j,
  j < pos -> rd (wr_bytes m pos bytes) j = rd m j.
Proof.
  induction bytes as [|b bs IH]; intros m pos j Hj; simpl; [reflexivity|].
  rewrite IH by lia. apply rd_wr_other. lia.
Qed.

Lemma append_string_extends packet index s :
  0 <= index -> extends packet index (_mdns_append_string packet index s).
Proof.
  intros H. unfold _mdns_append_string.
  assert (Hlen : 0 <= u8 (strlen s) < 256)
    by (unfold u8; apply Z.mod_pos_bound; lia).
  destruct (index + u8 (strlen s) + 1 >=? MDNS_MAX_PACKET_SIZE) eqn:E;
    unfold extends.
  - split; [lia|reflexivity].
  - rewrite Z.geb_leb in E. apply Z.leb_gt in E.
    unfold MDNS_MAX_PACKET_SIZE in E.
    unfold _mdns_append_u8.
    assert (E2 : (index >=? MDNS_MAX_PACKET_SIZE) = false).
    { rewrite Z.geb_leb. apply Z.leb_gt. unfold MDNS_MAX_PACKET_SIZE. lia. }
    rewrite E2.
    assert (U : u16 (index + 1) = index + 1)
      by (unfold u16; apply Z.mod_small; lia).
    rewrite U.
    assert (U2 : u16 (index + 1 + u8 (strlen s)) = index + 1 + u8 (strlen s))
      by (unfold u16; apply Z.mod_small; lia).
    rewrite U2. split; [lia|].
    intros j Hj. rewrite wr_bytes_below by lia. apply rd_wr_other. lia.
Qed.

Lemma append_u16_extends packet index value :
  0 <= index -> extends packet index (_mdns_append_u16 packet index value).
Proof.
  intros H. unfold _mdns_append_u16.
  destruct (index + 1 >=? MDNS_MAX_PACKET_SIZE) eqn:E.
  - unfold extends. split; [lia|reflexivity].
  - rewrite Z.geb_leb in E. apply Z.leb_gt in E.
    destruct (append_u16_bytes packet index value H E) as (p' & Eq & _ & _ & Hb).
    unfold _mdns_append_u16 in Eq.
    assert (E' : (index + 1 >=? MDNS_MAX_PACKET_SIZE) = false)
      by (rewrite Z.geb_leb; apply Z.leb_gt; exact E).
    rewrite E' in Eq. rewrite Eq. unfold extends. split; [lia|exact Hb].
Qed.

Lemma append_fqdn_extends strings : forall packet index packet_len,
  0 <= index ->
  extends packet index (_mdns_append_fqdn cfg packet index strings packet_len).
Proof.
  induction strings as [|s0 rest IH]; intros packet index packet_len Hi.
  - cbn [_mdns_append_fqdn]. apply append_u8_extends. exact Hi.
  - cbn [_mdns_append_fqdn].
    destruct (find_name cfg packet index (s0 :: rest) packet_len).
    + apply append_u16_extends. exact Hi.
    + pose proof (append_string_extends packet index s0 Hi) as H1.
      destruct (_mdns_append_string packet index s0) as [[p1 i1] written].
      destruct (written =? 0); [exact H1|].
      assert (Hi1 : 0 <= i1) by (destruct H1; lia).
      pose proof (IH p1 i1 packet_len Hi1) as H2.
      destruct (_mdns_append_fqdn cfg p1 i1 rest packet_len) as [[p2 i2] r].
      unfold extends in *. destruct H1 as [H1 H1'], H2 as [H2 H2'].
      split; [lia|]. intros j Hj. rewrite H2' by lia. apply H1'. exact Hj.
Qed.

(** What a successful [_mdns_append_type] leaves in the packet: type, class,
    TTL (big-endian) and a zero length, ten bytes in all. *)
Lemma append_type_ptr_bytes packet index flush ttl :
  0 <= index -> 0 <= ttl < 4294967296 ->
  forall p' i' r,
    _mdns_append_type packet index MDNS_ANSWER_PTR flush ttl = (p', i', r) ->
    r <> 0 ->
    r = 10 /\ i' = index + 10 /\ index + 10 < MDNS_MAX_PACKET_SIZE
    /\ rd p' index = 0 /\ rd p' (index + 1) = MDNS_TYPE_PTR
    /\ rd p' (index + 4) = Z.land (Z.shiftr ttl 24) 255
    /\ rd p' (index + 5) = Z.land (Z.shiftr ttl 16) 255
    /\ rd p' (index + 6) = Z.land (Z.shiftr ttl 8) 255
    /\ rd p' (index + 7) = Z.land ttl 255
    /\ forall j, j < index -> rd p' j = rd packet j.
Proof.
  intros Hi Httl p' i' r E Hr.
  unfold _mdns_append_type in E.
  destruct (index + 10 >=? MDNS_MAX_PACKET_SIZE) eqn:Efit;
    [inversion E; subst; congruence|].
  rewrite Z.geb_leb in Efit. apply Z.leb_gt in Efit.
  pose proof Efit as Efit'. unfold MDNS_MAX_PACKET_SIZE in Efit'.
  unfold _mdns_append_u16, _mdns_append_u32, _mdns_append_u8 in E.
  repeat match type of E with
  | context [?a >=? MDNS_MAX_PACKET_SIZE] =>
      let H := fresh in
      assert (H : (a >=? MDNS_MAX_PACKET_SIZE) = false)
        by (rewrite Z.geb_leb; apply Z.leb_gt;
            unfold MDNS_MAX_PACKET_SIZE, u16;
            repeat rewrite Z.mod_small by lia; lia);
      rewrite H in E; clear H
  end.
  assert (U : forall k, 0 <= k <= 10 -> u16 (index + k) = index + k)
    by (intros k Hk; unfold u16; apply Z.mod_small; lia).
  replace (u16 (index + 1)) with (index + 1) in E by (symmetry; apply U; lia).
  replace (u16 (index + 1 + 1)) with (index + 2) in E
    by (replace (index + 1 + 1) with (index + 2) by lia; symmetry; apply U; lia).
  repeat match type of E with
  | context [?a >=? MDNS_MAX_PACKET_SIZE] =>
      let H := fresh in
      assert (H : (a >=? MDNS_MAX_PACKET_SIZE) = false)
        by (rewrite Z.geb_leb; apply Z.leb_gt;
            unfold MDNS_MAX_PACKET_SIZE; lia);
      rewrite H in E; clear H
  | context [u16 (index + ?k + 1)] =>
      replace (u16 (index + k + 1)) with (index + (k + 1)) in E
        by (replace (index + k + 1) with (index + (k + 1)) by lia;
            symmetry; apply U; lia)
  end.
  cbn [Z.add Pos.add Pos.succ] in E.
  inversion E; subst p' i' r. clear E.
  assert (B : forall v, 0 <= Z.land v 255 < 256).
  { intros v. change 255 with (Z.ones 8). rewrite Z.land_ones by lia.
    apply Z.mod_pos_bound. reflexivity. }
  assert (B8 : forall v, u8 (Z.land v 255) = Z.land v 255)
    by (intros v; unfold u8; apply Z.mod_small; apply B).
  repeat split; try lia;
    try (intros j Hj);
    repeat (first [rewrite rd_wr_same | rewrite rd_wr_other by lia]);
    rewrite ?B8; try reflexivity.
Qed.

(** A goodbye PTR record carries TTL 0: when [_mdns_append_ptr_record]
    succeeds with [bye] set, the four TTL bytes that follow the owner name,
    type and class are zero in the packet it returns. *)
Lemma append_ptr_record_bye_ttl packet index instance service proto flush :
  0 <= index ->
  let '(_, i1, _) :=
    _mdns_append_fqdn cfg packet index
      [service; proto; MDNS_DEFAULT_DOMAIN] MDNS_MAX_PACKET_SIZE in
  let '(p', _, r) :=
    _mdns_append_ptr_record packet index instance (Some service) proto
      flush true in
  r <> 0 ->
  rd p' i1 = 0 /\ rd p' (i1 + 1) = MDNS_TYPE_PTR
  /\ rd p' (i1 + 4) = 0 /\ rd p' (i1 + 5) = 0
  /\ rd p' (i1 + 6) = 0 /\ rd p' (i1 + 7) = 0.
Proof.
  intros Hi. unfold _mdns_append_ptr_record.
  pose proof (append_fqdn_extends [service; proto; MDNS_DEFAULT_DOMAIN]
                packet index MDNS_MAX_PACKET_SIZE Hi) as H1.
  destruct (_mdns_append_fqdn cfg packet index
              [service; proto; MDNS_DEFAULT_DOMAIN] MDNS_MAX_PACKET_SIZE)
    as [[p1 i1] r1].
  destruct (u8 r1 =? 0); [congruence|].
  assert (Hi1 : 0 <= i1) by (destruct H1; lia).
  pose proof (append_type_ptr_bytes p1 i1 false 0 Hi1 ltac:(lia)) as Ht.
  destruct (_mdns_append_type p1 i1 MDNS_ANSWER_PTR false 0) as [[p2 i2] r2].
  destruct (u8 r2 =? 0) eqn:Er2; [congruence|].
  assert (Hr2 : r2 <> 0) by (intros ->; discriminate).
  destruct (Ht p2 i2 r2 eq_refl Hr2)
    as (-> & -> & Hfit & T0 & T1 & T4 & T5 & T6 & T7 & _).
  pose proof (append_fqdn_extends
                [instance; service; proto; MDNS_DEFAULT_DOMAIN]
                p2 (i1 + 10) MDNS_MAX_PACKET_SIZE ltac:(lia)) as H3.
  destruct (_mdns_append_fqdn cfg p2 (i1 + 10)
              [instance; service; proto; MDNS_DEFAULT_DOMAIN]
              MDNS_MAX_PACKET_SIZE) as [[p3 i3] r3].
  destruct (u8 r3 =? 0); [congruence|].
  intros _. destruct H3 as [_ H3].
  assert (Hloc : u16 (i1 + 10 - 2) = i1 + 8).
  { unfold u16. unfold MDNS_MAX_PACKET_SIZE in Hfit.
    rewrite Z.mod_small by lia. lia. }
  rewrite Hloc. unfold _mdns_set_u16.
  assert (Hset : (i1 + 8 + 1 >=? MDNS_MAX_PACKET_SIZE) = false)
    by (rewrite Z.geb_leb; apply Z.leb_gt; lia).
  rewrite Hset.
  repeat split; rewrite !rd_wr_other by lia; rewrite H3 by lia; assumption.
Qed.

End PtrRecord.

End Codec.

(** ** The server's data (mdns_private.h) *)

Module Model.

Import CStr.

(** A pointer to a service item ([mdns_srv_item_t *], each item owning one
    [mdns_service_t]): the address it stands for.  Two pointers are equal
    when the addresses are. *)
Definition srv_ref : Type := nat.

(** A pointer to a host item: [&_mdns_self_host] or an item of
    [_mdns_host_list]. *)
Inductive host_ref : Type :=
| HOST_SELF
| HOST_DELEGATED (addr : nat).

Definition host_ref_eqb (a b : host_ref) : bool :=
  match a, b with
  | HOST_SELF, HOST_SELF => true
  | HOST_DELEGATED x, HOST_DELEGATED y => Nat.eqb x y
  | _, _ => false
  end.

Definition opt_eqb {A : Type} (eqb : A -> A -> bool) (a b : option A) : bool :=
  match a, b with
  | None, None => true
  | Some x, Some y => eqb x y
  | _, _ => false
  end.

(** Modelled from the spec: [mdns_service_t] and [mdns_srv_item_t] are
    declared in mdns_private.h.  The spec lists the fields of a service:
    type, protocol, optional instance name, port, optional hostname
    override, priority, weight, TXT items and subtypes.  [srv_addr] is the
    address of the item, which is what the code compares pointers by. *)
Record mdns_service_t : Type := {
  srv_addr : srv_ref;
  instance : option string;
  service : string;
  proto : string;
  hostname : option string;
  priority : Z;
  weight : Z;
  port : Z;
  txt : list (string * string);
  subtype : list string
}.

(** Modelled from the spec: [mdns_host_item_t] (mdns_private.h): a delegated
    hostname with its addresses (kept as opaque numbers). *)
Record mdns_host_item_t : Type := {
  host_addr : nat;
  host_hostname : string;
  address_list : list Z
}.

(** Modelled from the spec: [mdns_out_question_t] (mdns_private.h); the
    fields are those the code assigns. *)
Record mdns_out_question_t : Type := {
  q_type : Z;
  q_unicast : bool;
  q_host : option string;
  q_service : option string;
  q_proto : option string;
  q_domain : option string;
  own_dynamic_memory : bool
}.

(** Modelled from the spec: [mdns_out_answer_t] (mdns_private.h); the fields
    are those the code assigns. *)
Record mdns_out_answer_t : Type := {
  a_type : Z;
  a_service : option srv_ref;
  a_host : option host_ref;
  custom_instance : option string;
  custom_service : option string;
  custom_proto : option string;
  bye : bool;
  flush : bool
}.

(** Modelled from the spec: [MDNS_FLAGS_QR_AUTHORITATIVE] and
    [MDNS_FLAGS_DISTRIBUTED] (mdns_private.h): the DNS header bits QR and AA,
    and the bit the code reads as "distributed". *)
Definition MDNS_FLAGS_QUERY_REPSONSE : Z := 32768.
Definition MDNS_FLAGS_QR_AUTHORITATIVE : Z := 33792.
Definition MDNS_FLAGS_DISTRIBUTED : Z := 512.

(** An IP address and port (opaque). *)
Inductive ip_addr : Type :=
| IP_NONE
| IP4_MDNS        (* 224.0.0.251 *)
| IP6_MDNS        (* ff02::fb *)
| IP_PEER (a : Z).

(** Modelled from the spec: [mdns_tx_packet_t] (mdns_private.h); the spec
    lists destination, origin interface and family, flags, the four record
    lists, the send-at time and the queued flag.  The [next] pointer is the
    list the packet sits in. *)
Record mdns_tx_packet_t : Type := {
  send_at : Z;
  tcpip_if : nat;
  ip_protocol : nat;
  dst : ip_addr;
  tx_port : Z;
  flags : Z;
  distributed : bool;
  questions : list mdns_out_question_t;
  answers : list mdns_out_answer_t;
  servers : list mdns_out_answer_t;
  additional : list mdns_out_answer_t;
  queued : bool;
  id : Z
}.

Definition with_send_at (p : mdns_tx_packet_t) (t : Z) : mdns_tx_packet_t :=
  {| send_at := t; tcpip_if := tcpip_if p; ip_protocol := ip_protocol p;
     dst := dst p; tx_port := tx_port p; flags := flags p;
     distributed := distributed p; questions := questions p;
     answers := answers p; servers := servers p; additional := additional p;
     queued := queued p; id := id p |}.

Definition with_queued (p : mdns_tx_packet_t) (b : bool) : mdns_tx_packet_t :=
  {| send_at := send_at p; tcpip_if := tcpip_if p; ip_protocol := ip_protocol p;
     dst := dst p; tx_port := tx_port p; flags := flags p;
     distributed := distributed p; questions := questions p;
     answers := answers p; servers := servers p; additional := additional p;
     queued := b; id := id p |}.

Definition with_questions (p : mdns_tx_packet_t)
  (qs : list mdns_out_question_t) : mdns_tx_packet_t :=
  {| send_at := send_at p; tcpip_if := tcpip_if p; ip_protocol := ip_protocol p;
     dst := dst p; tx_port := tx_port p; flags := flags p;
     distributed := distributed p; questions := qs;
     answers := answers p; servers := servers p; additional := additional p;
     queued := queued p; id := id p |}.

Definition with_lists (p : mdns_tx_packet_t)
  (ans srv add : list mdns_out_answer_t) : mdns_tx_packet_t :=
  {| send_at := send_at p; tcpip_if := tcpip_if p; ip_protocol := ip_protocol p;
     dst := dst p; tx_port := tx_port p; flags := flags p;
     distributed := distributed p; questions := questions p;
     answers := ans; servers := srv; additional := add;
     queued := queued p; id := id p |}.

Definition with_flags (p : mdns_tx_packet_t) (f : Z) : mdns_tx_packet_t :=
  {| send_at := send_at p; tcpip_if := tcpip_if p; ip_protocol := ip_protocol p;
     dst := dst p; tx_port := tx_port p; flags := f;
     distributed := distributed p; questions := questions p;
     answers := answers p; servers := servers p; additional := additional p;
     queued := queued p; id := id p |}.

Definition MDNS_IP_PROTOCOL_V4 : nat := 0.
Definition MDNS_IP_PROTOCOL_V6 : nat := 1.
Definition MDNS_IP_PROTOCOL_MAX : nat := 2.

(** Modelled from the spec: [MDNS_MAX_INTERFACES] (mdns_private.h); the spec
    gives max_interfaces = 3. *)
Definition MDNS_MAX_INTERFACES : nat := 3.

(** [_mdns_alloc_packet_default]. *)
Definition _mdns_alloc_packet_default (tcpip_if ip_protocol : nat)
  : mdns_tx_packet_t :=
  {| send_at := 0; tcpip_if := tcpip_if; ip_protocol := ip_protocol;
     dst := if Nat.eqb ip_protocol MDNS_IP_PROTOCOL_V4 then IP4_MDNS
            else if Nat.eqb ip_protocol MDNS_IP_PROTOCOL_V6 then IP6_MDNS
            else IP_NONE;
     tx_port := MDNS_SERVICE_PORT; flags := 0; distributed := false;
     questions := []; answers := []; servers := []; additional := [];
     queued := false; id := 0 |}.

(** [_mdns_alloc_answer]: nothing is added when an answer of the same type,
    service and host is in the list; a new answer goes to the end. *)
Definition same_answer (type : Z) (service : option srv_ref)
  (host : option host_ref) (d : mdns_out_answer_t) : bool :=
  (a_type d =? type)
  && opt_eqb Nat.eqb (a_service d) service
  && opt_eqb host_ref_eqb (a_host d) host.

Definition _mdns_alloc_answer (destination : list mdns_out_answer_t)
  (type : Z) (service : option srv_ref) (host : option host_ref)
  (flush bye : bool) : list mdns_out_answer_t :=
  if existsb (same_answer type service host) destination then destination
  else destination ++
       [{| a_type := type; a_service := service; a_host := host;
           custom_instance := None; custom_service := None;
           custom_proto := None; bye := bye; flush := flush |}].

(** Modelled from the spec: [mdns_pcb_state_t] and the macros
    [PCB_STATE_IS_PROBING] and [PCB_STATE_IS_ANNOUNCING] are declared in
    mdns_private.h.  The spec lists the states OFF, INIT, PROBE_1..3,
    ANNOUNCE_1..3, RUNNING and DUP.  The code fixes their order: the
    transmit handler steps from PROBE_1 to ANNOUNCE_3 by adding 1,
    [state > PCB_PROBE_3] selects the announcing and running states, and
    [state > PCB_INIT] leaves out OFF, DUP and INIT.  Probing is every
    state between OFF and ANNOUNCE_1, announcing every state between PROBE_3
    and RUNNING. *)
Inductive mdns_pcb_state_t : Type :=
| PCB_OFF
| PCB_DUP
| PCB_INIT
| PCB_PROBE_1
| PCB_PROBE_2
| PCB_PROBE_3
| PCB_ANNOUNCE_1
| PCB_ANNOUNCE_2
| PCB_ANNOUNCE_3
| PCB_RUNNING.

Definition state_num (s : mdns_pcb_state_t) : Z :=
  match s with
  | PCB_OFF => 0 | PCB_DUP => 1 | PCB_INIT => 2
  | PCB_PROBE_1 => 3 | PCB_PROBE_2 => 4 | PCB_PROBE_3 => 5
  | PCB_ANNOUNCE_1 => 6 | PCB_ANNOUNCE_2 => 7 | PCB_ANNOUNCE_3 => 8
  | PCB_RUNNING => 9
  end.

(** [(mdns_pcb_state_t)((uint8_t)(state) + 1)]; the code applies it from
    PROBE_1 to ANNOUNCE_2 only. *)
Definition state_succ (s : mdns_pcb_state_t) : mdns_pcb_state_t :=
  match s with
  | PCB_OFF => PCB_DUP | PCB_DUP => PCB_INIT | PCB_INIT => PCB_PROBE_1
  | PCB_PROBE_1 => PCB_PROBE_2 | PCB_PROBE_2 => PCB_PROBE_3
  | PCB_PROBE_3 => PCB_ANNOUNCE_1
  | PCB_ANNOUNCE_1 => PCB_ANNOUNCE_2 | PCB_ANNOUNCE_2 => PCB_ANNOUNCE_3
  | PCB_ANNOUNCE_3 => PCB_RUNNING
  | PCB_RUNNING => PCB_RUNNING
  end.

Definition state_eqb (a b : mdns_pcb_state_t) : bool :=
  state_num a =? state_num b.

Definition PCB_STATE_IS_PROBING (s : mdns_pcb_state_t) : bool :=
  (state_num PCB_OFF <? state_num s) && (state_num s <? state_num PCB_ANNOUNCE_1).

Definition PCB_STATE_IS_ANNOUNCING (s : mdns_pcb_state_t) : bool :=
  (state_num PCB_PROBE_3 <? state_num s) && (state_num s <? state_num PCB_RUNNING).

(** Modelled from the spec: [mdns_pcb_t] (mdns_private.h): the state and the
    probing context (probed services, probe_ip, failed_probes).
    [probe_services] is the array of item pointers with its length.
    [ready] is what [mdns_is_netif_ready] answers for the PCB; that
    function, [_mdns_pcb_init] and [_mdns_pcb_deinit] belong to the UDP
    socket layer, an external collaborator in the spec (open and close of
    the socket of one interface and family). *)
Record mdns_pcb_t : Type := {
  state : mdns_pcb_state_t;
  ready : bool;
  probe_services : list srv_ref;
  probe_ip : bool;
  probe_running : bool;
  failed_probes : Z
}.

Definition pcb_off : mdns_pcb_t :=
  {| state := PCB_OFF; ready := false; probe_services := [];
     probe_ip := false; probe_running := false; failed_probes := 0 |}.

Definition with_state (p : mdns_pcb_t) (s : mdns_pcb_state_t) : mdns_pcb_t :=
  {| state := s; ready := ready p; probe_services := probe_services p;
     probe_ip := probe_ip p; probe_running := probe_running p;
     failed_probes := failed_probes p |}.

Definition with_ready (p : mdns_pcb_t) (b : bool) : mdns_pcb_t :=
  {| state := state p; ready := b; probe_services := probe_services p;
     probe_ip := probe_ip p; probe_running := probe_running p;
     failed_probes := failed_probes p |}.

Definition with_failed_probes (p : mdns_pcb_t) (n : Z) : mdns_pcb_t :=
  {| state := state p; ready := ready p; probe_services := probe_services p;
     probe_ip := probe_ip p; probe_running := probe_running p;
     failed_probes := n |}.

Definition with_probe (p : mdns_pcb_t) (srvs : list srv_ref)
  (ip running : bool) : mdns_pcb_t :=
  {| state := state p; ready := ready p; probe_services := srvs;
     probe_ip := ip; probe_running := running;
     failed_probes := failed_probes p |}.

(** Modelled from the spec: [mdns_server_t] (mdns_private.h), the single
    process-wide server: hostname, default instance name, services,
    per-interface table and tx queue head (the action queue, searches and
    browses are kept apart).  Added to it: [host_list] for the static
    [_mdns_host_list], [duplicate] for [s_esp_netifs[i].duplicate],
    [wire] for the packets handed to [_mdns_dispatch_tx_packet] (latest
    first) and [rnd_calls] for the number of [esp_random] calls so far. *)
Record mdns_server_t : Type := {
  srv_hostname : option string;
  srv_instance : option string;
  services : list mdns_service_t;
  host_list : list mdns_host_item_t;
  pcbs : nat -> nat -> mdns_pcb_t;
  tx_queue_head : list mdns_tx_packet_t;
  duplicate : nat -> nat;
  wire : list mdns_tx_packet_t;
  rnd_calls : nat
}.

Definition with_pcbs (s : mdns_server_t) (f : nat -> nat -> mdns_pcb_t)
  : mdns_server_t :=
  {| srv_hostname := srv_hostname s; srv_instance := srv_instance s;
     services := services s; host_list := host_list s; pcbs := f;
     tx_queue_head := tx_queue_head s; duplicate := duplicate s;
     wire := wire s; rnd_calls := rnd_calls s |}.

Definition with_tx_queue (s : mdns_server_t) (q : list mdns_tx_packet_t)
  : mdns_server_t :=
  {| srv_hostname := srv_hostname s; srv_instance := srv_instance s;
     services := services s; host_list := host_list s; pcbs := pcbs s;
     tx_queue_head := q; duplicate := duplicate s;
     wire := wire s; rnd_calls := rnd_calls s |}.

Definition with_services (s : mdns_server_t) (l : list mdns_service_t)
  : mdns_server_t :=
  {| srv_hostname := srv_hostname s; srv_instance := srv_instance s;
     services := l; host_list := host_list s; pcbs := pcbs s;
     tx_queue_head := tx_queue_head s; duplicate := duplicate s;
     wire := wire s; rnd_calls := rnd_calls s |}.

Definition with_hostname (s : mdns_server_t) (h : option string)
  : mdns_server_t :=
  {| srv_hostname := h; srv_instance := srv_instance s;
     services := services s; host_list := host_list s; pcbs := pcbs s;
     tx_queue_head := tx_queue_head s; duplicate := duplicate s;
     wire := wire s; rnd_calls := rnd_calls s |}.

Definition with_wire (s : mdns_server_t) (w : list mdns_tx_packet_t)
  : mdns_server_t :=
  {| srv_hostname := srv_hostname s; srv_instance := srv_instance s;
     services := services s; host_list := host_list s; pcbs := pcbs s;
     tx_queue_head := tx_queue_head s; duplicate := duplicate s;
     wire := w; rnd_calls := rnd_calls s |}.

Definition with_rnd_calls (s : mdns_server_t) (n : nat) : mdns_server_t :=
  {| srv_hostname := srv_hostname s; srv_instance := srv_instance s;
     services := services s; host_list := host_list s; pcbs := pcbs s;
     tx_queue_head := tx_queue_head s; duplicate := duplicate s;
     wire := wire s; rnd_calls := n |}.

(** [_mdns_server->interfaces[i].pcbs[j] = p]. *)
Definition set_pcb (s : mdns_server_t) (i j : nat) (p : mdns_pcb_t)
  : mdns_server_t :=
  with_pcbs s (fun i' j' =>
    if Nat.eqb i' i && Nat.eqb j' j then p else pcbs s i' j').

(** The server right after [mdns_init] when no interface is up yet:
    everything zeroed. *)
Definition server_init : mdns_server_t :=
  {| srv_hostname := None; srv_instance := None; services := [];
     host_list := []; pcbs := fun _ _ => pcb_off; tx_queue_head := [];
     duplicate := fun _ => MDNS_MAX_INTERFACES; wire := []; rnd_calls := 0 |}.

(** [mdns_is_netif_ready]. *)
Definition mdns_is_netif_ready (s : mdns_server_t) (i j : nat) : bool :=
  ready (pcbs s i j).

(** [_mdns_get_other_if]. *)
Definition _mdns_get_other_if (s : mdns_server_t) (tcpip_if : nat) : nat :=
  if (tcpip_if <? MDNS_MAX_INTERFACES)%nat then duplicate s tcpip_if
  else MDNS_MAX_INTERFACES.

(** The pairs (interface, protocol) in the order of the nested [for] loops
    over [MDNS_MAX_INTERFACES] and [MDNS_IP_PROTOCOL_MAX]. *)
Definition all_pcbs : list (nat * nat) :=
  flat_map (fun i => map (fun j => (i, j)) (seq 0 MDNS_IP_PROTOCOL_MAX))
           (seq 0 MDNS_MAX_INTERFACES).

(** [mdns_get_host_item]: the host item a hostname stands for ([None] for
    [NULL]).  The comparison with the server's hostname needs that hostname
    to be set; the code calls the function in that case only. *)
Definition mdns_get_host_item (s : mdns_server_t) (hostname : option string)
  : option host_ref :=
  match hostname with
  | None => Some HOST_SELF
  | Some h =>
      if match srv_hostname s with
         | Some own => strcaseeq h own
         | None => false
         end
      then Some HOST_SELF
      else
        match find (fun host => strcaseeq (host_hostname host) h) (host_list s) with
        | Some host => Some (HOST_DELEGATED (host_addr host))
        | None => None
        end
  end.

(** [_mdns_append_host]. *)
Definition _mdns_append_host (destination : list mdns_out_answer_t)
  (host : option host_ref) (flush bye : bool) : list mdns_out_answer_t :=
  _mdns_alloc_answer
    (_mdns_alloc_answer destination MDNS_TYPE_A None host flush bye)
    MDNS_TYPE_AAAA None host flush bye.

(** [_mdns_append_host_list_in_services]; [services = None] is the [NULL]
    array. *)
Definition _mdns_append_host_list_in_services (s : mdns_server_t)
  (destination : list mdns_out_answer_t)
  (services : option (list mdns_service_t)) (flush bye : bool)
  : list mdns_out_answer_t :=
  match services with
  | None =>
      match mdns_get_host_item s (srv_hostname s) with
      | Some host => _mdns_append_host destination (Some host) flush bye
      | None => destination
      end
  | Some l =>
      fold_left
        (fun d srv => _mdns_append_host d (mdns_get_host_item s (hostname srv)) flush bye)
        l destination
  end.

(** [_mdns_get_default_instance_name]. *)
Definition _mdns_get_default_instance_name (s : mdns_server_t)
  : option string :=
  if negb (_str_null_or_empty (srv_instance s)) then srv_instance s
  else if negb (_str_null_or_empty (srv_hostname s)) then srv_hostname s
  else None.

(** [_mdns_get_service_instance_name]. *)
Definition _mdns_get_service_instance_name (s : mdns_server_t)
  (srv : mdns_service_t) : option string :=
  if negb (_str_null_or_empty (instance srv)) then instance srv
  else _mdns_get_default_instance_name s.

End Model.

(** ** The transmit queue ([_mdns_schedule_tx_packet]) *)

Module TxQueue.

Import Model.

(** The walk [while (q->next && q->next->send_at <= packet->send_at)] from
    the head [q] (already known not to be later than the packet): the packet
    goes in after the last queued packet that is not later than it. *)
Fixpoint insert_after (q : mdns_tx_packet_t) (rest : list mdns_tx_packet_t)
  (packet : mdns_tx_packet_t) : list mdns_tx_packet_t :=
  match rest with
  | [] => [q; packet]
  | n :: rest' =>
      if send_at n <=? send_at packet then q :: insert_after n rest' packet
      else q :: packet :: rest
  end.

(** [_mdns_schedule_tx_packet(packet, ms_after)] on the queue
    [tx_queue_head]; [now] is [xTaskGetTickCount() * portTICK_PERIOD_MS] and
    [send_at] is a [uint32_t]. *)
Definition _mdns_schedule_tx_packet (tx_queue_head : list mdns_tx_packet_t)
  (now : Z) (packet : mdns_tx_packet_t) (ms_after : Z)
  : list mdns_tx_packet_t :=
  let packet := with_send_at packet (u32 (now + ms_after)) in
  match tx_queue_head with
  | [] => [packet]
  | q :: rest =>
      if send_at q >? send_at packet then packet :: tx_queue_head
      else insert_after q rest packet
  end.

(** [_mdns_clear_tx_queue_head]. *)
Definition _mdns_clear_tx_queue_head (tx_queue_head : list mdns_tx_packet_t)
  : list mdns_tx_packet_t := [].

(** [_mdns_clear_pcb_tx_queue_head]: every packet of the PCB leaves the
    queue. *)
Definition of_pcb (tcpip_if ip_protocol : nat) (p : mdns_tx_packet_t) : bool :=
  Nat.eqb (Model.tcpip_if p) tcpip_if && Nat.eqb (Model.ip_protocol p) ip_protocol.

Definition _mdns_clear_pcb_tx_queue_head (tx_queue_head : list mdns_tx_packet_t)
  (tcpip_if ip_protocol : nat) : list mdns_tx_packet_t :=
  filter (fun p => negb (of_pcb tcpip_if ip_protocol p)) tx_queue_head.

(** [_mdns_get_next_pcb_packet]. *)
Definition _mdns_get_next_pcb_packet (tx_queue_head : list mdns_tx_packet_t)
  (tcpip_if ip_protocol : nat) : option mdns_tx_packet_t :=
  find (of_pcb tcpip_if ip_protocol) tx_queue_head.

(** Taking the head off the queue (the [ACTION_TX_HANDLE] case of
    [_mdns_execute_action]). *)
Definition pop_head (tx_queue_head : list mdns_tx_packet_t)
  : list mdns_tx_packet_t := tl tx_queue_head.

(** "Non-decreasing in [send_at] from head to tail". *)
Definition ordered (q : list mdns_tx_packet_t) : Prop :=
  StronglySorted (fun a b => send_at a <= send_at b) q.

(** The queues the server can hold: it starts empty, packets enter through
    [_mdns_schedule_tx_packet] only, and leave from the head or by the
    removal of some of them (clearing a PCB's packets, dropping packets left
    without records). *)
Inductive reachable : list mdns_tx_packet_t -> Prop :=
| reach_empty : reachable []
| reach_schedule q now p ms :
    reachable q -> reachable (_mdns_schedule_tx_packet q now p ms)
| reach_pop q : reachable q -> reachable (pop_head q)
| reach_clear q : reachable q -> reachable (_mdns_clear_tx_queue_head q)
| reach_remove q keep : reachable q -> reachable (filter keep q)
| reach_update q f :
    (forall p, send_at (f p) = send_at p) ->
    reachable q -> reachable (map f q).

Lemma ordered_filter keep q : ordered q -> ordered (filter keep q).
Proof.
  unfold ordered. induction 1 as [|a l Hl IH Ha]; simpl; [constructor|].
  destruct (keep a); [|exact IH].
  constructor; [exact IH|].
  rewrite Forall_forall in *. intros x Hx.
  apply filter_In in Hx as [Hx _]. auto.
Qed.

Lemma ordered_map f q :
  (forall p, send_at (f p) = send_at p) -> ordered q -> ordered (map f q).
Proof.
  intros Hf. unfold ordered. induction 1 as [|a l Hl IH Ha]; simpl;
    constructor; [exact IH|].
  rewrite Forall_forall in *. intros x Hx.
  apply in_map_iff in Hx as [y [<- Hy]]. rewrite !Hf. auto.
Qed.

Lemma ordered_tl q : ordered q -> ordered (tl q).
Proof.
  unfold ordered. destruct q; simpl; [constructor|].
  intros H. inversion H; assumption.
Qed.

(** Where the walk puts the packet: behind every packet that is not later,
    in front of every packet that is. *)
Lemma insert_after_spec q rest packet :
  ordered (q :: rest) -> send_at q <= send_at packet ->
  exists l1 l2,
    q :: rest = l1 ++ l2
    /\ insert_after q rest packet = l1 ++ packet :: l2
    /\ Forall (fun x => send_at x <= send_at packet) l1
    /\ Forall (fun x => send_at packet < send_at x) l2.
Proof.
  revert q. induction rest as [|n rest IH]; intros q Hord Hq; simpl.
  - exists [q], []. repeat split; auto.
  - destruct (send_at n <=? send_at packet) eqn:E.
    + apply Z.leb_le in E.
      assert (Hord' : ordered (n :: rest)) by (inversion Hord; assumption).
      destruct (IH n Hord' E) as (l1 & l2 & E1 & E2 & H1 & H2).
      exists (q :: l1), l2. simpl. rewrite E1, E2.
      repeat split; auto.
    + apply Z.leb_gt in E.
      exists [q], (n :: rest). repeat split; auto.
      inversion Hord as [|? ? Hrest Hall]; subst.
      inversion Hrest as [|? ? _ Hn]; subst.
      constructor; [exact E|].
      rewrite Forall_forall in *. intros x Hx. specialize (Hn x Hx). lia.
Qed.

Lemma schedule_spec q now p ms :
  ordered q ->
  let p' := with_send_at p (u32 (now + ms)) in
  exists l1 l2,
    q = l1 ++ l2
    /\ _mdns_schedule_tx_packet q now p ms = l1 ++ p' :: l2
    /\ Forall (fun x => send_at x <= send_at p') l1
    /\ Forall (fun x => send_at p' < send_at x) l2.
Proof.
  intros Hord p'. unfold _mdns_schedule_tx_packet. fold p'.
  destruct q as [|h rest].
  - exists [], []. repeat split; auto.
  - destruct (send_at h >? send_at p') eqn:E.
    + apply Z.gtb_lt in E.
      exists [], (h :: rest). repeat split; auto.
      constructor; [exact E|].
      inversion Hord as [|? ? _ Hall]; subst.
      rewrite Forall_forall in *. intros x Hx. specialize (Hall x Hx). lia.
    + assert (Hle : send_at h <= send_at p').
      { destruct (Z.gtb_spec (send_at h) (send_at p')); [discriminate|lia]. }
      apply insert_after_spec; assumption.
Qed.

Lemma ordered_insert l1 l2 (p : mdns_tx_packet_t) :
  ordered (l1 ++ l2) ->
  Forall (fun x => send_at x <= send_at p) l1 ->
  Forall (fun x => send_at p < send_at x) l2 ->
  ordered (l1 ++ p :: l2).
Proof.
  unfold ordered. induction l1 as [|a l1 IH]; simpl; intros Hord H1 H2.
  - constructor; [exact Hord|].
    rewrite Forall_forall in *. intros x Hx. specialize (H2 x Hx). lia.
  - inversion Hord as [|? ? Hrest Hall]; subst.
    inversion H1 as [|? ? Ha H1']; subst.
    constructor; [apply IH; assumption|].
    rewrite Forall_forall in *. intros x Hx.
    apply in_app_or in Hx as [Hx|[<-|Hx]].
    + apply Hall, in_or_app; auto.
    + exact Ha.
    + apply Hall, in_or_app; auto.
Qed.

Lemma schedule_ordered q now p ms :
  ordered q -> ordered (_mdns_schedule_tx_packet q now p ms).
Proof.
  intros Hord.
  destruct (schedule_spec q now p ms Hord) as (l1 & l2 & E1 & E2 & H1 & H2).
  rewrite E2. apply ordered_insert; [rewrite <- E1; exact Hord|exact H1|exact H2].
Qed.

Lemma reachable_ordered q : reachable q -> ordered q.
Proof.
  induction 1.
  - constructor.
  - apply schedule_ordered; assumption.
  - apply ordered_tl; assumption.
  - constructor.
  - apply ordered_filter; assumption.
  - apply ordered_map; assumption.
Qed.

(** C6.  In every queue the server can hold, scheduling a packet yields a
    queue that is non-decreasing in [send_at] from head to tail, and the new
    packet stands behind every queued packet whose [send_at] is not later
    than its own (so behind all those with the same [send_at]) and in front
    of the later ones; the order of the packets queued before is kept. *)
Theorem C6_tx_queue_ordered_fifo q now p ms :
  reachable q ->
  let p' := with_send_at p (u32 (now + ms)) in
  ordered (_mdns_schedule_tx_packet q now p ms)
  /\ exists l1 l2,
       q = l1 ++ l2
       /\ _mdns_schedule_tx_packet q now p ms = l1 ++ p' :: l2
       /\ Forall (fun x => send_at x <= send_at p') l1
       /\ Forall (fun x => send_at p' < send_at x) l2.
Proof.
  intros Hreach p'. apply reachable_ordered in Hreach.
  split; [apply schedule_ordered; exact Hreach|].
  apply schedule_spec; exact Hreach.
Qed.

(** Three packets scheduled at the same instant, the second and third for
    the same delay: the queue holds them in the order 50, 100 (first
    scheduled), 100 (scheduled later). *)
Lemma C6_tx_queue_ordered_fifo_witness :
  let a := with_flags (_mdns_alloc_packet_default 0 0) 1 in
  let b := with_flags (_mdns_alloc_packet_default 0 0) 2 in
  let c := with_flags (_mdns_alloc_packet_default 0 0) 3 in
  let q := _mdns_schedule_tx_packet
             (_mdns_schedule_tx_packet [] 1000 a 100) 1000 c 50 in
  ordered (_mdns_schedule_tx_packet q 1000 b 100)
  /\ map flags (_mdns_schedule_tx_packet q 1000 b 100) = [3; 1; 2].
Proof.
  intros a b c q.
  assert (Hq : reachable q) by (repeat constructor).
  destruct (C6_tx_queue_ordered_fifo q 1000 b 100 Hq) as [Hord _].
  split; [exact Hord|]. vm_compute. reflexivity.
Defined.

End TxQueue.

(** ** The responder state machine of a PCB *)

Module Pcb.

Import CStr Model TxQueue.

Section StateMachine.

(** The random source [esp_random] (an external collaborator): the value of
    its n-th call. *)
Variable esp_random : nat -> Z.

(** The packet builders [_mdns_create_probe_packet],
    [_mdns_create_announce_packet] and [_mdns_create_announce_from_probe],
    and the records that [_mdns_announce_pcb] adds to a queued announcement.
    The state machine depends on the builders through one thing only,
    whether they return a packet or [NULL] (allocation failure), so the
    content they build is left open here. *)
Variable _mdns_create_probe_packet :
  mdns_server_t -> nat -> nat -> list srv_ref -> bool -> bool ->
  option mdns_tx_packet_t.
Variable _mdns_create_announce_packet :
  mdns_server_t -> nat -> nat -> list srv_ref -> bool ->
  option mdns_tx_packet_t.
Variable _mdns_create_announce_from_probe :
  mdns_server_t -> mdns_tx_packet_t -> option mdns_tx_packet_t.
Variable announce_add_records :
  mdns_server_t -> mdns_tx_packet_t -> list srv_ref -> bool -> mdns_tx_packet_t.

Definition set_state (s : mdns_server_t) (i j : nat) (st : mdns_pcb_state_t)
  : mdns_server_t :=
  set_pcb s i j (with_state (pcbs s i j) st).

(** [_mdns_schedule_tx_packet] on the server's queue. *)
Definition schedule (s : mdns_server_t) (now : Z) (p : mdns_tx_packet_t)
  (ms_after : Z) : mdns_server_t :=
  with_tx_queue s (_mdns_schedule_tx_packet (tx_queue_head s) now p ms_after).

(** [_mdns_dispatch_tx_packet]: the packet goes to the UDP layer. *)
Definition dispatch (s : mdns_server_t) (p : mdns_tx_packet_t)
  : mdns_server_t :=
  with_wire s (p :: wire s).

(** [_mdns_init_pcb_probe_new_service]. *)
Definition _mdns_init_pcb_probe_new_service (s : mdns_server_t) (now : Z)
  (tcpip_if ip_protocol : nat) (services : list srv_ref) (probe_ip : bool)
  : mdns_server_t :=
  let pcb := pcbs s tcpip_if ip_protocol in
  let _services :=
    if PCB_STATE_IS_PROBING (state pcb) then services ++ probe_services pcb
    else services in
  let probe_ip := Model.probe_ip pcb || probe_ip in
  let s := set_pcb s tcpip_if ip_protocol (with_probe pcb [] false false) in
  match _mdns_create_probe_packet s tcpip_if ip_protocol _services true probe_ip with
  | None => s
  | Some packet =>
      let pcb := pcbs s tcpip_if ip_protocol in
      let s := set_pcb s tcpip_if ip_protocol
                 (with_probe pcb _services probe_ip true) in
      let delay :=
        (if failed_probes pcb >? 5 then 1000 else 120)
        + Z.land (esp_random (rnd_calls s)) 127 in
      let s := with_rnd_calls s (S (rnd_calls s)) in
      let s := schedule s now packet delay in
      set_state s tcpip_if ip_protocol PCB_PROBE_1
  end.

(** [_mdns_init_pcb_probe]. *)
Definition _mdns_init_pcb_probe (s : mdns_server_t) (now : Z)
  (tcpip_if ip_protocol : nat) (services : list srv_ref) (probe_ip : bool)
  : mdns_server_t :=
  let s := with_tx_queue s
             (_mdns_clear_pcb_tx_queue_head (tx_queue_head s) tcpip_if ip_protocol) in
  if _str_null_or_empty (srv_hostname s) then
    set_state s tcpip_if ip_protocol PCB_RUNNING
  else
    let pcb := pcbs s tcpip_if ip_protocol in
    if PCB_STATE_IS_PROBING (state pcb) then
      (* Looking for already probing services to resolve duplications *)
      let new_probe_services :=
        filter (fun x => negb (existsb (Nat.eqb x) (probe_services pcb)))
               services in
      _mdns_init_pcb_probe_new_service s now tcpip_if ip_protocol
        new_probe_services probe_ip
    else
      (* not probing, so init for all services *)
      _mdns_init_pcb_probe_new_service s now tcpip_if ip_protocol
        services probe_ip.

Definition all_services (s : mdns_server_t) : list srv_ref :=
  map srv_addr (services s).

(** [_mdns_restart_pcb]. *)
Definition _mdns_restart_pcb (s : mdns_server_t) (now : Z)
  (tcpip_if ip_protocol : nat) : mdns_server_t :=
  _mdns_init_pcb_probe s now tcpip_if ip_protocol (all_services s) true.

(** [_mdns_enable_pcb]; [pcb_init_ok] tells whether [_mdns_pcb_init]
    succeeds when it is called. *)
Definition _mdns_enable_pcb (s : mdns_server_t) (now : Z)
  (tcpip_if ip_protocol : nat) (pcb_init_ok : bool) : mdns_server_t :=
  if negb (mdns_is_netif_ready s tcpip_if ip_protocol) then
    if negb pcb_init_ok then
      set_pcb s tcpip_if ip_protocol
        (with_failed_probes (pcbs s tcpip_if ip_protocol) 0)
    else
      let s := set_pcb s tcpip_if ip_protocol
                 (with_ready (pcbs s tcpip_if ip_protocol) true) in
      _mdns_restart_pcb s now tcpip_if ip_protocol
  else _mdns_restart_pcb s now tcpip_if ip_protocol.

(** [mdns_pcb_deinit_local]; [deinit_ok] tells whether [_mdns_pcb_deinit]
    returns [ESP_OK]. *)
Definition mdns_pcb_deinit_local (s : mdns_server_t)
  (tcpip_if ip_proto : nat) (deinit_ok : bool) : mdns_server_t :=
  if negb deinit_ok then s
  else
    set_pcb s tcpip_if ip_proto
      {| state := PCB_OFF; ready := false; probe_services := [];
         probe_ip := false; probe_running := false; failed_probes := 0 |}.

(** [_mdns_disable_pcb]. *)
Definition _mdns_disable_pcb (s : mdns_server_t) (now : Z)
  (tcpip_if ip_protocol : nat) (deinit_ok pcb_init_ok : bool)
  : mdns_server_t :=
  let s :=
    if mdns_is_netif_ready s tcpip_if ip_protocol then
      let s := with_tx_queue s
        (_mdns_clear_pcb_tx_queue_head (tx_queue_head s) tcpip_if ip_protocol) in
      let s := mdns_pcb_deinit_local s tcpip_if ip_protocol deinit_ok in
      let other_if := _mdns_get_other_if s tcpip_if in
      if negb (Nat.eqb other_if MDNS_MAX_INTERFACES)
         && state_eqb (state (pcbs s other_if ip_protocol)) PCB_DUP
      then
        let s := set_state s other_if ip_protocol PCB_OFF in
        _mdns_enable_pcb s now other_if ip_protocol pcb_init_ok
      else s
    else s in
  set_state s tcpip_if ip_protocol PCB_OFF.

(** [_mdns_announce_pcb]. *)
Definition _mdns_announce_pcb (s : mdns_server_t) (now : Z)
  (tcpip_if ip_protocol : nat) (services : list srv_ref) (include_ip : bool)
  : mdns_server_t :=
  let _pcb := pcbs s tcpip_if ip_protocol in
  if mdns_is_netif_ready s tcpip_if ip_protocol then
    if PCB_STATE_IS_PROBING (state _pcb) then
      _mdns_init_pcb_probe s now tcpip_if ip_protocol services include_ip
    else if PCB_STATE_IS_ANNOUNCING (state _pcb) then
      match _mdns_get_next_pcb_packet (tx_queue_head s) tcpip_if ip_protocol with
      | Some _ =>
          (* the first queued packet of the PCB gets the records added *)
          let fix upd (q : list mdns_tx_packet_t) :=
            match q with
            | [] => []
            | p :: q' =>
                if of_pcb tcpip_if ip_protocol p
                then announce_add_records s p services include_ip :: q'
                else p :: upd q'
            end in
          let s := with_tx_queue s (upd (tx_queue_head s)) in
          set_state s tcpip_if ip_protocol PCB_ANNOUNCE_1
      | None => s
      end
    else if state_eqb (state _pcb) PCB_RUNNING then
      if _str_null_or_empty (srv_hostname s) then s
      else
        let s := set_state s tcpip_if ip_protocol PCB_ANNOUNCE_1 in
        match _mdns_create_announce_packet s tcpip_if ip_protocol services include_ip with
        | Some p => schedule s now p 0
        | None => s
        end
    else s
  else s.

(** [_mdns_probe_all_pcbs]. *)
Definition _mdns_probe_all_pcbs (s : mdns_server_t) (now : Z)
  (services : list srv_ref) (probe_ip clear_old_probe : bool)
  : mdns_server_t :=
  fold_left
    (fun s ij =>
       let '(i, j) := ij in
       if mdns_is_netif_ready s i j then
         let s :=
           if clear_old_probe
           then set_pcb s i j
                  (with_probe (pcbs s i j) [] (Model.probe_ip (pcbs s i j)) false)
           else s in
         _mdns_init_pcb_probe s now i j services probe_ip
       else s)
    all_pcbs s.

(** [_mdns_restart_all_pcbs]. *)
Definition _mdns_restart_all_pcbs (s : mdns_server_t) (now : Z)
  : mdns_server_t :=
  let s := with_tx_queue s (_mdns_clear_tx_queue_head (tx_queue_head s)) in
  _mdns_probe_all_pcbs s now (all_services s) true true.

(** [_mdns_restart_all_pcbs_no_instance]. *)
Definition _mdns_restart_all_pcbs_no_instance (s : mdns_server_t) (now : Z)
  : mdns_server_t :=
  let l := filter (fun srv => match instance srv with None => true | _ => false end)
                  (services s) in
  match l with
  | [] => s
  | _ => _mdns_probe_all_pcbs s now (map srv_addr l) false true
  end.

(** [_mdns_dup_interface]. *)
Definition _mdns_dup_interface (s : mdns_server_t) (now : Z) (tcpip_if : nat)
  (deinit_ok : bool) : mdns_server_t :=
  let other_if := _mdns_get_other_if s tcpip_if in
  if Nat.eqb other_if MDNS_MAX_INTERFACES then s
  else
    fold_left
      (fun s i =>
         if mdns_is_netif_ready s other_if i then
           let s :=
             if mdns_is_netif_ready s tcpip_if i then
               let s := with_tx_queue s
                 (_mdns_clear_pcb_tx_queue_head (tx_queue_head s) tcpip_if i) in
               mdns_pcb_deinit_local s tcpip_if i deinit_ok
             else s in
           let s := set_state s tcpip_if i PCB_DUP in
           _mdns_announce_pcb s now other_if i [] true
         else s)
      (seq 0 MDNS_IP_PROTOCOL_MAX) s.

(** [_mdns_pcb_send_bye]: the packet is dispatched at once and freed; the
    queue is not touched. *)
Definition _mdns_pcb_send_bye (s : mdns_server_t) (tcpip_if ip_protocol : nat)
  (services : list mdns_service_t) (include_ip : bool) : mdns_server_t :=
  let packet := _mdns_alloc_packet_default tcpip_if ip_protocol in
  let packet := with_flags packet MDNS_FLAGS_QR_AUTHORITATIVE in
  let ans :=
    fold_left
      (fun d srv => _mdns_alloc_answer d MDNS_TYPE_PTR (Some (srv_addr srv)) None true true)
      services (answers packet) in
  let ans :=
    if include_ip
    then _mdns_append_host_list_in_services s ans (Some services) true true
    else ans in
  dispatch s (with_lists packet ans (servers packet) (additional packet)).

(** [_mdns_send_bye]. *)
Definition _mdns_send_bye (s : mdns_server_t)
  (services : list mdns_service_t) (include_ip : bool) : mdns_server_t :=
  if _str_null_or_empty (srv_hostname s) then s
  else
    fold_left
      (fun s ij =>
         let '(i, j) := ij in
         if mdns_is_netif_ready s i j
            && state_eqb (state (pcbs s i j)) PCB_RUNNING
         then _mdns_pcb_send_bye s i j services include_ip
         else s)
      all_pcbs s.

(** [_mdns_send_bye_all_pcbs_no_instance]. *)
Definition _mdns_send_bye_all_pcbs_no_instance (s : mdns_server_t)
  (include_ip : bool) : mdns_server_t :=
  let l := filter (fun srv => match instance srv with None => true | _ => false end)
                  (services s) in
  match l with
  | [] => s
  | _ => _mdns_send_bye s l include_ip
  end.

(** [_mdns_tx_handle_packet]. *)
Definition _mdns_tx_handle_packet (s : mdns_server_t) (now : Z)
  (p : mdns_tx_packet_t) : mdns_server_t :=
  let i := tcpip_if p in
  let j := ip_protocol p in
  let pcb := pcbs s i j in
  match state pcb with
  | PCB_OFF => s
  | st =>
      let s := dispatch s p in
      match st with
      | PCB_PROBE_1 =>
          let p := with_questions p
            (map (fun q =>
                    {| q_type := q_type q; q_unicast := false;
                       q_host := q_host q; q_service := q_service q;
                       q_proto := q_proto q; q_domain := q_domain q;
                       own_dynamic_memory := own_dynamic_memory q |})
                 (questions p)) in
          let s := schedule s now p 250 in
          set_state s i j (state_succ st)
      | PCB_PROBE_2 =>
          let s := schedule s now p 250 in
          set_state s i j (state_succ st)
      | PCB_PROBE_3 =>
          match _mdns_create_announce_from_probe s p with
          | None => schedule s now p 250
          | Some a =>
              let s := set_pcb s i j
                {| state := state pcb; ready := ready pcb; probe_services := [];
                   probe_ip := false; probe_running := false;
                   failed_probes := 0 |} in
              let s := schedule s now a 250 in
              set_state s i j (state_succ st)
          end
      | PCB_ANNOUNCE_1 | PCB_ANNOUNCE_2 =>
          let s := schedule s now p 1000 in
          set_state s i j (state_succ st)
      | PCB_ANNOUNCE_3 => set_state s i j PCB_RUNNING
      | _ => s
      end
  end.

(** The [ACTION_TX_HANDLE] case of [_mdns_execute_action]; [is_head] tells
    whether the packet of the action is the one at the head of the queue. *)
Definition execute_tx_handle (s : mdns_server_t) (now : Z) (is_head : bool)
  : mdns_server_t :=
  match tx_queue_head s with
  | p :: rest =>
      if is_head && queued p then
        let s := with_tx_queue s rest in
        _mdns_tx_handle_packet s now (with_queued p false)
      else s
  | [] => s
  end.

(** [_mdns_scheduler_run]: the first packet that is not queued and the
    packets after it are marked queued as long as they are due,
    [(int32_t)(send_at - now) < 0]; the action queue is taken to accept the
    actions. *)
Definition due (now : Z) (p : mdns_tx_packet_t) : bool :=
  2147483648 <=? u32 (send_at p - now).

Fixpoint mark_due (now : Z) (q : list mdns_tx_packet_t)
  : list mdns_tx_packet_t :=
  match q with
  | [] => []
  | p :: q' =>
      if due now p then with_queued p true :: mark_due now q' else q
  end.

Fixpoint _mdns_scheduler_run_queue (now : Z) (q : list mdns_tx_packet_t)
  : list mdns_tx_packet_t :=
  match q with
  | [] => []
  | p :: q' =>
      if queued p then p :: _mdns_scheduler_run_queue now q'
      else mark_due now q
  end.

Definition _mdns_scheduler_run (s : mdns_server_t) (now : Z) : mdns_server_t :=
  with_tx_queue s (_mdns_scheduler_run_queue now (tx_queue_head s)).

(** [_mdns_remap_self_service_hostname]. *)
Definition _mdns_remap_self_service_hostname (s : mdns_server_t)
  (old_hostname : option string) (new_hostname : string) : mdns_server_t :=
  with_services s
    (map (fun srv =>
            match hostname srv, old_hostname with
            | Some h, Some old =>
                if streq h old then
                  {| srv_addr := srv_addr srv; instance := instance srv;
                     service := service srv; proto := proto srv;
                     hostname := Some new_hostname;
                     priority := priority srv; weight := weight srv;
                     port := port srv; txt := txt srv; subtype := subtype srv |}
                else srv
            | _, _ => srv
            end)
         (services s)).

(** [mdns_hostname_set] followed by the [ACTION_HOSTNAME_SET] case of
    [_mdns_execute_action]. *)
Definition mdns_hostname_set (s : mdns_server_t) (now : Z) (hostname : string)
  : mdns_server_t :=
  if _str_null_or_empty (Some hostname)
     || (strlen hostname >? MDNS_NAME_BUF_LEN - 1)
  then s
  else
    let new_hostname := strndup hostname (MDNS_NAME_BUF_LEN - 1) in
    let s := _mdns_send_bye_all_pcbs_no_instance s true in
    let s := _mdns_remap_self_service_hostname s (srv_hostname s) new_hostname in
    let s := with_hostname s (Some new_hostname) in
    _mdns_restart_all_pcbs s now.

(** What [mdns_parse_packet] does when an A or AAAA record of a peer beats
    ours while the PCB [(i, j)] that received it is probing: the failed
    probe is counted, the hostname is mangled and every PCB restarts. *)
Definition rx_host_collision (s : mdns_server_t) (now : Z) (i j : nat)
  : mdns_server_t :=
  match srv_hostname s with
  | None => s
  | Some old =>
      let pcb := pcbs s i j in
      let s := set_pcb s i j (with_failed_probes pcb (u8 (failed_probes pcb + 1))) in
      let new_host := Mangle._mdns_mangle_name old in
      let s := _mdns_remap_self_service_hostname s (Some old) new_host in
      let s := with_hostname s (Some new_host) in
      _mdns_restart_all_pcbs s now
  end.

(** The steps that act on the PCBs: interface events
    ([perform_event_action]), the timer and transmit actions, and the calls
    by which [mdns_parse_packet] reacts to a received packet (collision of a
    service or of the host name, duplicate interface). *)
Inductive event : Type :=
| Ev_enable (i j : nat) (pcb_init_ok : bool)
| Ev_disable (i j : nat) (deinit_ok pcb_init_ok : bool)
| Ev_announce (i j : nat)
| Ev_scheduler_run
| Ev_tx_handle (is_head : bool)
| Ev_rx_probe (i j : nat) (services : list srv_ref) (probe_ip : bool)
| Ev_rx_probe_all (services : list srv_ref)
| Ev_rx_restart_no_instance
| Ev_rx_host_collision (i j : nat)
| Ev_rx_dup (i : nat) (deinit_ok : bool)
| Ev_hostname_set (hostname : string).

Definition step (s : mdns_server_t) (now : Z) (e : event) : mdns_server_t :=
  match e with
  | Ev_enable i j ok => _mdns_enable_pcb s now i j ok
  | Ev_disable i j dok iok => _mdns_disable_pcb s now i j dok iok
  | Ev_announce i j => _mdns_announce_pcb s now i j [] true
  | Ev_scheduler_run => _mdns_scheduler_run s now
  | Ev_tx_handle is_head => execute_tx_handle s now is_head
  | Ev_rx_probe i j services probe_ip =>
      _mdns_init_pcb_probe s now i j services probe_ip
  | Ev_rx_probe_all services => _mdns_probe_all_pcbs s now services false false
  | Ev_rx_restart_no_instance => _mdns_restart_all_pcbs_no_instance s now
  | Ev_rx_host_collision i j => rx_host_collision s now i j
  | Ev_rx_dup i dok => _mdns_dup_interface s now i dok
  | Ev_hostname_set h => mdns_hostname_set s now h
  end.

(** The states a PCB goes through, latest first, repeated states counted
    once. *)
Definition record_state (h : list mdns_pcb_state_t) (st : mdns_pcb_state_t)
  : list mdns_pcb_state_t :=
  match h with
  | last :: _ => if state_eqb last st then h else st :: h
  | [] => [st]
  end.

(** A run: the events with the time at which each is executed.  It yields
    the final server and the history of the PCB [(i, j)]. *)
Fixpoint run (i j : nat) (evs : list (Z * event)) (s : mdns_server_t)
  (h : list mdns_pcb_state_t) : mdns_server_t * list mdns_pcb_state_t :=
  match evs with
  | [] => (s, h)
  | (now, e) :: evs' =>
      let s' := step s now e in
      run i j evs' s' (record_state h (state (pcbs s' i j)))
  end.


Definition past_probing (st : mdns_pcb_state_t) : bool :=
  state_num PCB_PROBE_3 <? state_num st.

(** *** Transitions of one PCB *)

Definition hostname_ok (s : mdns_server_t) : Prop :=
  _str_null_or_empty (srv_hostname s) = false.

(** What every function but the transmit handler may do to the state of a
    PCB while a hostname is set: leave it, restart probing, switch the PCB
    off or mark it duplicate, or go back to the first announcement from an
    announcing or running state. *)
Definition restart_like (st st' : mdns_pcb_state_t) : Prop :=
  st' = st \/ st' = PCB_PROBE_1 \/ st' = PCB_OFF \/ st' = PCB_DUP
  \/ (past_probing st = true /\ st' = PCB_ANNOUNCE_1).

(** What the transmit handler does: one step forward from PROBE_1 up to
    ANNOUNCE_3. *)
Definition tx_forward (st st' : mdns_pcb_state_t) : Prop :=
  st' = state_succ st
  /\ (PCB_STATE_IS_PROBING st && negb (state_eqb st PCB_DUP)
        && negb (state_eqb st PCB_INIT)
      || PCB_STATE_IS_ANNOUNCING st) = true.

Definition rel (s s' : mdns_server_t) : Prop :=
  hostname_ok s'
  /\ forall i j, restart_like (state (pcbs s i j)) (state (pcbs s' i j)).

Lemma restart_like_refl st : restart_like st st.
Proof. left. reflexivity. Qed.

Lemma restart_like_trans a b c :
  restart_like a b -> restart_like b c -> restart_like a c.
Proof.
  unfold restart_like.
  intros [->|[->|[->|[->|[Ha ->]]]]] [->|[->|[->|[->|[Hb ->]]]]];
    auto 10; try discriminate.
Qed.

Lemma rel_refl s : hostname_ok s -> rel s s.
Proof. intros H. split; [exact H|]. intros. apply restart_like_refl. Qed.

Lemma rel_trans a b c : rel a b -> rel b c -> rel a c.
Proof.
  intros [_ Hab] [Hc Hbc]. split; [exact Hc|].
  intros i j. eapply restart_like_trans; [apply Hab|apply Hbc].
Qed.

Lemma rel_hostname_ok s s' : rel s s' -> hostname_ok s'.
Proof. intros [H _]. exact H. Qed.

Lemma state_set_pcb s i j p i' j' :
  state (pcbs (set_pcb s i j p) i' j')
  = if Nat.eqb i' i && Nat.eqb j' j then state p else state (pcbs s i' j').
Proof. simpl. destruct (Nat.eqb i' i && Nat.eqb j' j); reflexivity. Qed.

(** Writing a PCB whose new state is in the restart relation with the old
    one. *)
Lemma rel_set_pcb s i j p :
  hostname_ok s ->
  restart_like (state (pcbs s i j)) (state p) ->
  rel s (set_pcb s i j p).
Proof.
  intros Hh Hr. split; [exact Hh|].
  intros i' j'. rewrite state_set_pcb.
  destruct (Nat.eqb i' i && Nat.eqb j' j) eqn:E.
  - apply andb_prop in E as [Ei Ej].
    apply Nat.eqb_eq in Ei. apply Nat.eqb_eq in Ej. subst. exact Hr.
  - apply restart_like_refl.
Qed.

Lemma rel_set_state s i j st :
  hostname_ok s ->
  restart_like (state (pcbs s i j)) st ->
  rel s (set_state s i j st).
Proof. intros. apply rel_set_pcb; assumption. Qed.

Lemma rel_with_tx_queue s q : hostname_ok s -> rel s (with_tx_queue s q).
Proof. intros H. split; [exact H|]. intros. apply restart_like_refl. Qed.

Lemma rel_schedule s now p ms : hostname_ok s -> rel s (schedule s now p ms).
Proof. intros H. apply rel_with_tx_queue. exact H. Qed.

Lemma rel_dispatch s p : hostname_ok s -> rel s (dispatch s p).
Proof. intros H. split; [exact H|]. intros. apply restart_like_refl. Qed.

Lemma rel_fold {A : Type} (f : mdns_server_t -> A -> mdns_server_t) l :
  (forall s x, hostname_ok s -> rel s (f s x)) ->
  forall s, hostname_ok s -> rel s (fold_left f l s).
Proof.
  intros Hf. induction l as [|x l IH]; intros s Hs; simpl.
  - apply rel_refl. exact Hs.
  - eapply rel_trans; [apply Hf; exact Hs|].
    apply IH. eapply rel_hostname_ok. apply Hf. exact Hs.
Qed.

Lemma rel_init_pcb_probe_new_service s now i j services probe_ip :
  hostname_ok s ->
  rel s (_mdns_init_pcb_probe_new_service s now i j services probe_ip).
Proof.
  intros Hs. unfold _mdns_init_pcb_probe_new_service.
  set (s1 := set_pcb s i j (with_probe (pcbs s i j) [] false false)).
  assert (H1 : rel s s1).
  { apply rel_set_pcb; [exact Hs|]. apply restart_like_refl. }
  destruct (_mdns_create_probe_packet s1 i j _ true _) as [packet|];
    [|exact H1].
  split; [exact Hs|].
  intros i' j'. simpl.
  destruct (Nat.eqb i' i && Nat.eqb j' j).
  - right; left. reflexivity.
  - apply restart_like_refl.
Qed.

Lemma rel_init_pcb_probe s now i j services probe_ip :
  hostname_ok s ->
  rel s (_mdns_init_pcb_probe s now i j services probe_ip).
Proof.
  intros Hs. unfold _mdns_init_pcb_probe.
  set (s1 := with_tx_queue s _).
  assert (Hs1 : hostname_ok s1) by exact Hs.
  assert (H1 : rel s s1) by (apply rel_with_tx_queue; exact Hs).
  replace (_str_null_or_empty (srv_hostname s1)) with false
    by (symmetry; exact Hs1).
  destruct (PCB_STATE_IS_PROBING (state (pcbs s1 i j)));
    (eapply rel_trans; [exact H1|]);
    apply rel_init_pcb_probe_new_service; exact Hs1.
Qed.

Lemma rel_restart_pcb s now i j :
  hostname_ok s -> rel s (_mdns_restart_pcb s now i j).
Proof. intros. apply rel_init_pcb_probe. assumption. Qed.

Lemma rel_enable_pcb s now i j ok :
  hostname_ok s -> rel s (_mdns_enable_pcb s now i j ok).
Proof.
  intros Hs. unfold _mdns_enable_pcb.
  destruct (negb (mdns_is_netif_ready s i j));
    [|apply rel_restart_pcb; exact Hs].
  destruct (negb ok).
  - apply rel_set_pcb; [exact Hs|apply restart_like_refl].
  - apply rel_trans with (b := set_pcb s i j (with_ready (pcbs s i j) true)).
    + apply rel_set_pcb; [exact Hs|apply restart_like_refl].
    + apply rel_restart_pcb. exact Hs.
Qed.

Lemma rel_deinit_local s i j ok :
  hostname_ok s -> rel s (mdns_pcb_deinit_local s i j ok).
Proof.
  intros Hs. unfold mdns_pcb_deinit_local.
  destruct (negb ok); [apply rel_refl; exact Hs|].
  apply rel_set_pcb; [exact Hs|]. right; right; left. reflexivity.
Qed.

Lemma rel_disable_pcb s now i j dok iok :
  hostname_ok s -> rel s (_mdns_disable_pcb s now i j dok iok).
Proof.
  intros Hs. unfold _mdns_disable_pcb.
  match goal with |- rel s (set_state ?x _ _ _) => assert (Hx : rel s x) end.
  { destruct (mdns_is_netif_ready s i j); [|apply rel_refl; exact Hs].
    set (s1 := with_tx_queue s _).
    assert (H1 : rel s s1) by (apply rel_with_tx_queue; exact Hs).
    set (s2 := mdns_pcb_deinit_local s1 i j dok).
    assert (H2 : rel s s2).
    { eapply rel_trans; [exact H1|]. apply rel_deinit_local. exact Hs. }
    destruct (_ && _); [|exact H2].
    eapply rel_trans; [exact H2|].
    match goal with |- rel s2 (_mdns_enable_pcb ?x _ _ _ _) =>
      apply rel_trans with (b := x) end.
    - apply rel_set_state; [exact (rel_hostname_ok _ _ H2)|].
      right; right; left. reflexivity.
    - apply rel_enable_pcb. exact (rel_hostname_ok _ _ H2). }
  eapply rel_trans; [exact Hx|].
  apply rel_set_state; [exact (rel_hostname_ok _ _ Hx)|].
  right; right; left. reflexivity.
Qed.

Lemma past_probing_announcing st :
  PCB_STATE_IS_ANNOUNCING st = true -> past_probing st = true.
Proof. destruct st; vm_compute; congruence. Qed.

Lemma past_probing_running st :
  state_eqb st PCB_RUNNING = true -> past_probing st = true.
Proof. destruct st; vm_compute; congruence. Qed.

Lemma rel_announce_pcb s now i j services include_ip :
  hostname_ok s -> rel s (_mdns_announce_pcb s now i j services include_ip).
Proof.
  intros Hs. unfold _mdns_announce_pcb.
  destruct (mdns_is_netif_ready s i j); [|apply rel_refl; exact Hs].
  destruct (PCB_STATE_IS_PROBING (state (pcbs s i j)));
    [apply rel_init_pcb_probe; exact Hs|].
  destruct (PCB_STATE_IS_ANNOUNCING (state (pcbs s i j))) eqn:Ea.
  - destruct (_mdns_get_next_pcb_packet _ _ _); [|apply rel_refl; exact Hs].
    match goal with |- rel s (set_state ?x _ _ _) =>
      apply rel_trans with (b := x) end.
    + apply rel_with_tx_queue; exact Hs.
    + apply rel_set_state; [exact Hs|].
      do 4 right. split; [|reflexivity].
      apply past_probing_announcing. exact Ea.
  - destruct (state_eqb (state (pcbs s i j)) PCB_RUNNING) eqn:Er;
      [|apply rel_refl; exact Hs].
    replace (_str_null_or_empty (srv_hostname s)) with false
      by (symmetry; exact Hs).
    set (s1 := set_state s i j PCB_ANNOUNCE_1).
    assert (H1 : rel s s1).
    { apply rel_set_state; [exact Hs|]. do 4 right.
      split; [|reflexivity]. apply past_probing_running. exact Er. }
    destruct (_mdns_create_announce_packet s1 i j services include_ip);
      [|exact H1].
    eapply rel_trans; [exact H1|]. apply rel_schedule. exact Hs.
Qed.

Lemma rel_probe_all_pcbs s now services probe_ip clear_old :
  hostname_ok s ->
  rel s (_mdns_probe_all_pcbs s now services probe_ip clear_old).
Proof.
  intros Hs. unfold _mdns_probe_all_pcbs.
  apply rel_fold; [|exact Hs].
  clear s Hs. intros s [i j] Hs.
  destruct (mdns_is_netif_ready s i j); [|apply rel_refl; exact Hs].
  destruct clear_old; [|apply rel_init_pcb_probe; exact Hs].
  match goal with |- rel s (_mdns_init_pcb_probe ?x _ _ _ _ _) =>
    apply rel_trans with (b := x) end.
  - apply rel_set_pcb; [exact Hs|apply restart_like_refl].
  - apply rel_init_pcb_probe. exact Hs.
Qed.

Lemma rel_restart_all_pcbs s now :
  hostname_ok s -> rel s (_mdns_restart_all_pcbs s now).
Proof.
  intros Hs. unfold _mdns_restart_all_pcbs.
  match goal with |- rel s (_mdns_probe_all_pcbs ?x _ _ _ _) =>
    apply rel_trans with (b := x) end.
  - apply rel_with_tx_queue; exact Hs.
  - apply rel_probe_all_pcbs. exact Hs.
Qed.

Lemma rel_restart_all_pcbs_no_instance s now :
  hostname_ok s -> rel s (_mdns_restart_all_pcbs_no_instance s now).
Proof.
  intros Hs. unfold _mdns_restart_all_pcbs_no_instance.
  destruct (filter _ _); [apply rel_refl; exact Hs|].
  apply rel_probe_all_pcbs. exact Hs.
Qed.

Lemma rel_dup_interface s now i dok :
  hostname_ok s -> rel s (_mdns_dup_interface s now i dok).
Proof.
  intros Hs. unfold _mdns_dup_interface.
  destruct (Nat.eqb _ _); [apply rel_refl; exact Hs|].
  generalize (_mdns_get_other_if s i). intros other_if.
  apply rel_fold; [|exact Hs].
  clear s Hs. intros s k Hs.
  destruct (mdns_is_netif_ready s other_if k); [|apply rel_refl; exact Hs].
  match goal with
  | |- rel s (_mdns_announce_pcb (set_state ?x _ _ _) _ _ _ _ _) =>
      assert (Hx : rel s x)
  end.
  { destruct (mdns_is_netif_ready s i k); [|apply rel_refl; exact Hs].
    match goal with |- rel s (mdns_pcb_deinit_local ?x _ _ _) =>
      apply rel_trans with (b := x) end.
    - apply rel_with_tx_queue; exact Hs.
    - apply rel_deinit_local. exact Hs. }
  eapply rel_trans; [exact Hx|].
  match goal with |- rel _ (_mdns_announce_pcb ?y _ _ _ _ _) =>
    apply rel_trans with (b := y) end.
  - apply rel_set_state; [exact (rel_hostname_ok _ _ Hx)|].
    right; right; right; left. reflexivity.
  - apply rel_announce_pcb. exact (rel_hostname_ok _ _ Hx).
Qed.

Lemma rel_pcb_send_bye s i j services include_ip :
  hostname_ok s -> rel s (_mdns_pcb_send_bye s i j services include_ip).
Proof. intros Hs. apply rel_dispatch. exact Hs. Qed.

Lemma rel_send_bye s services include_ip :
  hostname_ok s -> rel s (_mdns_send_bye s services include_ip).
Proof.
  intros Hs. unfold _mdns_send_bye.
  destruct (_str_null_or_empty (srv_hostname s)); [apply rel_refl; exact Hs|].
  apply rel_fold; [|exact Hs].
  clear s Hs. intros s [i j] Hs.
  destruct (_ && _); [apply rel_pcb_send_bye|apply rel_refl]; exact Hs.
Qed.

Lemma rel_scheduler_run s now :
  hostname_ok s -> rel s (_mdns_scheduler_run s now).
Proof. intros. apply rel_with_tx_queue. assumption. Qed.

Lemma rel_send_bye_all_pcbs_no_instance s include_ip :
  hostname_ok s -> rel s (_mdns_send_bye_all_pcbs_no_instance s include_ip).
Proof.
  intros Hs. unfold _mdns_send_bye_all_pcbs_no_instance.
  destruct (filter _ _); [apply rel_refl; exact Hs|].
  apply rel_send_bye. exact Hs.
Qed.

Lemma strndup_nonempty h n :
  0 < n -> _str_null_or_empty (Some h) = false ->
  _str_null_or_empty (Some (strndup h n)) = false.
Proof.
  intros Hn Hh. unfold strndup.
  destruct (Z.to_nat n) as [|k] eqn:E; [lia|].
  destruct h; [discriminate|reflexivity].
Qed.

Lemma rel_hostname_set s now h :
  hostname_ok s -> rel s (mdns_hostname_set s now h).
Proof.
  intros Hs. unfold mdns_hostname_set.
  destruct (_str_null_or_empty (Some h)) eqn:Eh;
    [apply rel_refl; exact Hs|].
  destruct (strlen h >? MDNS_NAME_BUF_LEN - 1); cbn [orb];
    [apply rel_refl; exact Hs|].
  set (s1 := _mdns_send_bye_all_pcbs_no_instance s true).
  assert (H1 : rel s s1) by (apply rel_send_bye_all_pcbs_no_instance; exact Hs).
  set (s3 := with_hostname _ _).
  assert (Hs3 : hostname_ok s3).
  { unfold hostname_ok, s3. cbn [srv_hostname with_hostname].
    apply strndup_nonempty; [vm_compute; reflexivity|exact Eh]. }
  assert (H3 : rel s s3).
  { split; [exact Hs3|]. intros i j.
    destruct H1 as [_ H1]. exact (H1 i j). }
  eapply rel_trans; [exact H3|].
  apply rel_restart_all_pcbs. exact Hs3.
Qed.

Lemma rel_rx_host_collision s now i j :
  hostname_ok s -> rel s (rx_host_collision s now i j).
Proof.
  intros Hs. unfold rx_host_collision.
  destruct (srv_hostname s) as [old|] eqn:Eh; [|apply rel_refl; exact Hs].
  set (s3 := with_hostname _ _).
  assert (Hs3 : hostname_ok s3).
  { unfold hostname_ok, s3. cbn [srv_hostname with_hostname].
    apply Mangle.mangle_name_nonempty. }
  assert (H3 : rel s s3).
  { split; [exact Hs3|]. intros i' j'. unfold s3. simpl.
    destruct (Nat.eqb i' i && Nat.eqb j' j) eqn:E; [|apply restart_like_refl].
    apply andb_prop in E as [Ei Ej].
    apply Nat.eqb_eq in Ei. apply Nat.eqb_eq in Ej. subst.
    apply restart_like_refl. }
  eapply rel_trans; [exact H3|].
  apply rel_restart_all_pcbs. exact Hs3.
Qed.

(** One step of the machine, seen from one PCB. *)
Definition step_ok (st st' : mdns_pcb_state_t) : Prop :=
  restart_like st st' \/ tx_forward st st'.

Lemma tx_handle_packet_states s now p :
  hostname_ok s ->
  hostname_ok (_mdns_tx_handle_packet s now p)
  /\ forall i j,
       step_ok (state (pcbs s i j))
               (state (pcbs (_mdns_tx_handle_packet s now p) i j)).
Proof.
  intros Hs. unfold _mdns_tx_handle_packet.
  destruct (state (pcbs s (tcpip_if p) (ip_protocol p))) eqn:Est;
    try destruct (_mdns_create_announce_from_probe _ _);
    (split; [exact Hs|]); intros i j; simpl;
    try (left; apply restart_like_refl);
    (destruct (Nat.eqb i (tcpip_if p) && Nat.eqb j (ip_protocol p)) eqn:E;
     [apply andb_prop in E as [Ei Ej];
      apply Nat.eqb_eq in Ei; apply Nat.eqb_eq in Ej; subst i j;
      rewrite Est; right; split; reflexivity
     |left; apply restart_like_refl]).
Qed.

Lemma step_states s now e :
  hostname_ok s ->
  hostname_ok (step s now e)
  /\ forall i j,
       step_ok (state (pcbs s i j)) (state (pcbs (step s now e) i j)).
Proof.
  intros Hs.
  assert (Hrel : forall s', rel s s' ->
            hostname_ok s'
            /\ forall i j, step_ok (state (pcbs s i j)) (state (pcbs s' i j))).
  { intros s' [H1 H2]. split; [exact H1|]. intros i j. left. apply H2. }
  destruct e; cbn [step].
  - apply Hrel, rel_enable_pcb, Hs.
  - apply Hrel, rel_disable_pcb, Hs.
  - apply Hrel, rel_announce_pcb, Hs.
  - apply Hrel, rel_scheduler_run, Hs.
  - unfold execute_tx_handle.
    destruct (tx_queue_head s) as [|p rest];
      [apply Hrel, rel_refl, Hs|].
    destruct (is_head && queued p); [|apply Hrel, rel_refl, Hs].
    apply (tx_handle_packet_states (with_tx_queue s rest)). exact Hs.
  - apply Hrel, rel_init_pcb_probe, Hs.
  - apply Hrel, rel_probe_all_pcbs, Hs.
  - apply Hrel, rel_restart_all_pcbs_no_instance, Hs.
  - apply Hrel, rel_rx_host_collision, Hs.
  - apply Hrel, rel_dup_interface, Hs.
  - apply Hrel, rel_hostname_set, Hs.
Qed.

(** *** The history of a PCB *)









End StateMachine.

(** A run on concrete builders (a default packet of the PCB each time): the
    hostname is "alpha", interface 0 comes up for IPv4, and the timer and
    the transmit action alternate until the third announcement is out. *)
Definition demo_random : nat -> Z := fun _ => 0.
Definition demo_probe_packet (_ : mdns_server_t) (i j : nat)
  (_ : list srv_ref) (_ _ : bool) : option mdns_tx_packet_t :=
  Some (_mdns_alloc_packet_default i j).
Definition demo_announce_packet (_ : mdns_server_t) (i j : nat)
  (_ : list srv_ref) (_ : bool) : option mdns_tx_packet_t :=
  Some (_mdns_alloc_packet_default i j).
Definition demo_announce_from_probe (_ : mdns_server_t)
  (p : mdns_tx_packet_t) : option mdns_tx_packet_t :=
  Some (_mdns_alloc_packet_default (tcpip_if p) (ip_protocol p)).
Definition demo_add_records (_ : mdns_server_t) (p : mdns_tx_packet_t)
  (_ : list srv_ref) (_ : bool) : mdns_tx_packet_t := p.

Definition demo_run (evs : list (Z * event)) (s : mdns_server_t)
  : mdns_server_t * list mdns_pcb_state_t :=
  run demo_random demo_probe_packet demo_announce_packet
      demo_announce_from_probe demo_add_records 0 0 evs s [PCB_OFF].

Definition demo_events : list (Z * event) :=
  (0, Ev_enable 0 0 true)
  :: flat_map (fun t => [(t, Ev_scheduler_run); (t, Ev_tx_handle true)])
       [200; 500; 800; 1100; 2200; 3300].

Example demo_run_history :
  snd (demo_run demo_events (with_hostname server_init (Some "alpha"%string)))
  = [PCB_RUNNING; PCB_ANNOUNCE_3; PCB_ANNOUNCE_2; PCB_ANNOUNCE_1;
     PCB_PROBE_3; PCB_PROBE_2; PCB_PROBE_1; PCB_OFF].
Proof. vm_compute. reflexivity. Qed.



End Pcb.

(** ** Services: registration, lookup and removal *)

Module Services.

Import CStr Model TxQueue.

(** The error codes of esp_err.h that the functions here return. *)
Inductive esp_err_t : Type :=
| ESP_OK
| ESP_FAIL
| ESP_ERR_NO_MEM
| ESP_ERR_INVALID_ARG
| ESP_ERR_INVALID_STATE
| ESP_ERR_NOT_FOUND.

(** [_mdns_service_match]. *)
Definition _mdns_service_match (srv : mdns_service_t)
  (service proto hostname : option string) : bool :=
  match service, proto, Model.hostname srv with
  | Some service, Some proto, Some srv_host =>
      strcaseeq (Model.service srv) service
      && strcaseeq (Model.proto srv) proto
      && (_str_null_or_empty hostname
          || match hostname with
             | Some h => strcaseeq srv_host h
             | None => false
             end)
  | _, _, _ => false
  end.

(** [_mdns_get_service_item]. *)
Definition _mdns_get_service_item (s : mdns_server_t)
  (service proto hostname : option string) : option mdns_service_t :=
  find (fun srv => _mdns_service_match srv service proto hostname) (services s).

(** [_mdns_instance_name_match]: a [NULL] side stands for the default
    instance name.  When that name is [NULL] too the C code hands [NULL] to
    [strcasecmp]; no match is reported here. *)
Definition _mdns_instance_name_match (s : mdns_server_t)
  (lhs rhs : option string) : bool :=
  let dflt := _mdns_get_default_instance_name s in
  let lhs := match lhs with Some _ => lhs | None => dflt end in
  let rhs := match rhs with Some _ => rhs | None => dflt end in
  match lhs, rhs with
  | Some a, Some b => strcaseeq a b
  | _, _ => false
  end.

(** [_mdns_service_match_instance]. *)
Definition _mdns_service_match_instance (s : mdns_server_t)
  (srv : mdns_service_t) (instance service proto hostname : option string)
  : bool :=
  match service, proto with
  | Some service, Some proto =>
      strcaseeq (Model.service srv) service
      && _mdns_instance_name_match s (Model.instance srv) instance
      && strcaseeq (Model.proto srv) proto
      && (_str_null_or_empty hostname
          || match hostname, Model.hostname srv with
             | Some h, Some srv_host => strcaseeq srv_host h
             | _, _ => false
             end)
  | _, _ => false
  end.

(** The test that [_mdns_get_service_item_instance] and the removal loop
    apply to an item: by instance when one is given, by type otherwise. *)
Definition item_matches (s : mdns_server_t)
  (instance service proto hostname : option string) (srv : mdns_service_t)
  : bool :=
  match instance with
  | Some _ => _mdns_service_match_instance s srv instance service proto hostname
  | None => _mdns_service_match srv service proto hostname
  end.

(** [_mdns_get_service_item_instance]. *)
Definition _mdns_get_service_item_instance (s : mdns_server_t)
  (instance service proto hostname : option string) : option mdns_service_t :=
  find (item_matches s instance service proto hostname) (services s).

(** [mdns_service_exists]. *)
Definition mdns_service_exists (s : mdns_server_t)
  (service_type proto hostname : option string) : bool :=
  match _mdns_get_service_item s service_type proto hostname with
  | Some _ => true
  | None => false
  end.

(** [mdns_service_exists_with_instance]. *)
Definition mdns_service_exists_with_instance (s : mdns_server_t)
  (instance service_type proto hostname : option string) : bool :=
  match _mdns_get_service_item_instance s instance service_type proto hostname with
  | Some _ => true
  | None => false
  end.

(** [_mdns_create_service]: every string is copied with
    [strndup(_, MDNS_NAME_BUF_LEN - 1)]; [_mdns_allocate_txt] links the TXT
    items in reverse order.  [addr] is the address [malloc] returns for the
    item. *)
Definition _mdns_create_service (addr : srv_ref) (service proto : string)
  (hostname : option string) (port : Z) (instance : option string)
  (txt : list (string * string)) : mdns_service_t :=
  {| srv_addr := addr;
     instance := option_map (fun i => strndup i (MDNS_NAME_BUF_LEN - 1)) instance;
     service := strndup service (MDNS_NAME_BUF_LEN - 1);
     proto := strndup proto (MDNS_NAME_BUF_LEN - 1);
     hostname := option_map (fun h => strndup h (MDNS_NAME_BUF_LEN - 1)) hostname;
     priority := 0; weight := 0; port := port;
     txt := rev txt; subtype := [] |}.

(** [_mdns_dealloc_scheduled_service_answers]. *)
Definition _mdns_dealloc_scheduled_service_answers
  (destination : list mdns_out_answer_t) (service : srv_ref)
  : list mdns_out_answer_t :=
  filter (fun a => negb (opt_eqb Nat.eqb (a_service a) (Some service)))
         destination.

(** The question that [_mdns_remove_scheduled_service_packets] takes out of
    a probe packet: the first ANY question for the type and protocol of the
    service. *)
Definition probe_question_of (srv : mdns_service_t) (q : mdns_out_question_t)
  : bool :=
  (q_type q =? MDNS_TYPE_ANY)
  && match q_service q with Some x => streq x (service srv) | None => false end
  && match q_proto q with Some x => streq x (proto srv) | None => false end.

Fixpoint remove_first {A : Type} (f : A -> bool) (l : list A) : list A :=
  match l with
  | [] => []
  | x :: l' => if f x then l' else x :: remove_first f l'
  end.

(** [!p->questions && !p->answers && !p->additional && !p->servers]. *)
Definition packet_is_empty (p : mdns_tx_packet_t) : bool :=
  match questions p, answers p, additional p, servers p with
  | [], [], [], [] => true
  | _, _, _, _ => false
  end.

(** What [_mdns_remove_scheduled_service_packets] does to the PCB of a
    queued packet [q1] whose records of the service are already removed
    ([had_answers]: the packet had answers before that). *)
Definition remove_service_pcb_update (s : mdns_server_t)
  (srv : mdns_service_t) (had_answers : bool) (q1 : mdns_tx_packet_t)
  : mdns_server_t * mdns_tx_packet_t :=
  let i := tcpip_if q1 in
  let j := ip_protocol q1 in
  let _pcb := pcbs s i j in
  if mdns_is_netif_ready s i j then
    if PCB_STATE_IS_PROBING (state _pcb) then
      (* check if we are probing this service *)
      if existsb (Nat.eqb (srv_addr srv)) (probe_services _pcb) then
        let s :=
          if (1 <? List.length (probe_services _pcb))%nat then
            set_pcb s i j
              (with_probe _pcb
                 (remove_first (Nat.eqb (srv_addr srv)) (probe_services _pcb))
                 (probe_ip _pcb) (probe_running _pcb))
          else if negb (probe_ip _pcb) then
            set_pcb s i j
              {| state := PCB_RUNNING; ready := ready _pcb;
                 probe_services := []; probe_ip := probe_ip _pcb;
                 probe_running := false;
                 failed_probes := failed_probes _pcb |}
          else
            set_pcb s i j
              (with_probe _pcb [] (probe_ip _pcb) (probe_running _pcb)) in
        (s, with_questions q1
              (remove_first (probe_question_of srv) (questions q1)))
      else (s, q1)
    else if PCB_STATE_IS_ANNOUNCING (state _pcb) then
      (* if answers were cleared, set to running *)
      if had_answers && match answers q1 with [] => true | _ => false end
      then (set_pcb s i j (with_state _pcb PCB_RUNNING), q1)
      else (s, q1)
    else (s, q1)
  else (s, q1).

(** The body of the [while (q)] loop of
    [_mdns_remove_scheduled_service_packets] for one queued packet: the
    packet as it is left ([None] when it is detached and freed) and the
    server with the PCB of the packet updated. *)
Definition remove_service_from_packet (s : mdns_server_t)
  (srv : mdns_service_t) (q : mdns_tx_packet_t)
  : mdns_server_t * option mdns_tx_packet_t :=
  let had_answers := match answers q with [] => false | _ => true end in
  let q1 := with_lists q
    (_mdns_dealloc_scheduled_service_answers (answers q) (srv_addr srv))
    (_mdns_dealloc_scheduled_service_answers (servers q) (srv_addr srv))
    (_mdns_dealloc_scheduled_service_answers (additional q) (srv_addr srv)) in
  let '(s, q2) := remove_service_pcb_update s srv had_answers q1 in
  (s, if packet_is_empty q2 then None else Some q2).

(** [_mdns_remove_scheduled_service_packets] over the queue [queue]. *)
Fixpoint remove_service_from_queue (s : mdns_server_t) (srv : mdns_service_t)
  (queue : list mdns_tx_packet_t) : mdns_server_t * list mdns_tx_packet_t :=
  match queue with
  | [] => (s, [])
  | q :: rest =>
      let '(s, q') := remove_service_from_packet s srv q in
      let '(s, rest') := remove_service_from_queue s srv rest in
      (s, match q' with Some p => p :: rest' | None => rest' end)
  end.

Definition _mdns_remove_scheduled_service_packets (s : mdns_server_t)
  (srv : mdns_service_t) : mdns_server_t :=
  let '(s', queue) := remove_service_from_queue s srv (tx_queue_head s) in
  with_tx_queue s' queue.

Section Api.

Variable esp_random : nat -> Z.
Variable _mdns_create_probe_packet :
  mdns_server_t -> nat -> nat -> list srv_ref -> bool -> bool ->
  option mdns_tx_packet_t.

(** Modelled from the spec: [MDNS_MAX_SERVICES] comes from the build
    configuration (max_services in the spec), which is not part of the
    sources. *)
Variable MDNS_MAX_SERVICES : nat.

(** [_mdns_can_add_more_services]. *)
Definition _mdns_can_add_more_services (s : mdns_server_t) : bool :=
  (List.length (services s) <? MDNS_MAX_SERVICES)%nat.

(** [mdns_service_add_for_host] on an initialised server; [addr] is the
    address of the new item. *)
Definition mdns_service_add_for_host (s : mdns_server_t) (now : Z)
  (addr : srv_ref) (instance : option string) (service proto : option string)
  (host : option string) (port : Z) (txt : list (string * string))
  : esp_err_t * mdns_server_t :=
  match service, proto, srv_hostname s with
  | Some service_, Some proto_, Some own =>
      if _str_null_or_empty service || _str_null_or_empty proto
      then (ESP_ERR_INVALID_ARG, s)
      else
        let hostname := match host with Some _ => host | None => Some own end in
        if negb (_mdns_can_add_more_services s) then (ESP_ERR_NO_MEM, s)
        else
          match _mdns_get_service_item_instance s instance service proto hostname with
          | Some _ => (ESP_ERR_INVALID_ARG, s)
          | None =>
              let item := _mdns_create_service addr service_ proto_ hostname
                            port instance txt in
              let s := with_services s (item :: services s) in
              (ESP_OK,
               Pcb._mdns_probe_all_pcbs esp_random _mdns_create_probe_packet
                 s now [addr] false false)
          end
  | _, _, _ => (ESP_ERR_INVALID_ARG, s)
  end.

(** [mdns_service_remove_for_host] on an initialised server. *)
Definition mdns_service_remove_for_host (s : mdns_server_t)
  (instance service proto host : option string) : esp_err_t * mdns_server_t :=
  let hostname := match host with Some _ => host | None => srv_hostname s end in
  match services s with
  | [] => (ESP_ERR_INVALID_ARG, s)
  | _ =>
      if _str_null_or_empty service || _str_null_or_empty proto
      then (ESP_ERR_INVALID_ARG, s)
      else
        match _mdns_get_service_item_instance s instance service proto hostname with
        | None => (ESP_ERR_NOT_FOUND, s)
        | Some a =>
            (* [a] is the first item the loop stops at *)
            let s1 := with_services s
              (remove_first (item_matches s instance service proto hostname)
                            (services s)) in
            let s2 := Pcb._mdns_send_bye s1 [a] false in
            (ESP_OK, _mdns_remove_scheduled_service_packets s2 a)
        end
  end.

(** *** Properties *)

Lemma services_init_pcb_probe s now i j l b :
  services (Pcb._mdns_init_pcb_probe esp_random _mdns_create_probe_packet
              s now i j l b) = services s.
Proof.
  unfold Pcb._mdns_init_pcb_probe, Pcb._mdns_init_pcb_probe_new_service.
  destruct (_str_null_or_empty _); [reflexivity|].
  destruct (PCB_STATE_IS_PROBING _);
    destruct (_mdns_create_probe_packet _ _ _ _ _ _); reflexivity.
Qed.

Lemma services_probe_all_pcbs s now l b c :
  services (Pcb._mdns_probe_all_pcbs esp_random _mdns_create_probe_packet
              s now l b c) = services s.
Proof.
  unfold Pcb._mdns_probe_all_pcbs.
  generalize all_pcbs. intros pl. revert s.
  induction pl as [|[i j] pl IH]; intros s; simpl; [reflexivity|].
  rewrite IH.
  destruct (mdns_is_netif_ready s i j); [|reflexivity].
  rewrite services_init_pcb_probe. destruct c; reflexivity.
Qed.

Lemma strndup_short str :
  strlen str <= MDNS_NAME_BUF_LEN - 1 ->
  strndup str (MDNS_NAME_BUF_LEN - 1) = str.
Proof.
  intros H. unfold strndup. apply take_all. unfold strlen in H. lia.
Qed.

Lemma find_remove_first_split {A : Type} (f : A -> bool) (l : list A) a :
  find f l = Some a ->
  exists l1 l2,
    l = l1 ++ a :: l2 /\ remove_first f l = l1 ++ l2
    /\ f a = true /\ forallb (fun x => negb (f x)) l1 = true.
Proof.
  induction l as [|x l IH]; simpl; [discriminate|].
  destruct (f x) eqn:E.
  - intros H. inversion H; subst. exists [], l. repeat split; auto.
  - intros H. destruct (IH H) as (l1 & l2 & -> & E2 & Ha & Hl1).
    exists (x :: l1), l2. simpl. rewrite E2, E, Hl1. repeat split; auto.
Qed.

Lemma services_send_bye s l b :
  services (Pcb._mdns_send_bye s l b) = services s.
Proof.
  unfold Pcb._mdns_send_bye.
  destruct (_str_null_or_empty _); [reflexivity|].
  generalize all_pcbs. intros pl. revert s.
  induction pl as [|[i j] pl IH]; intros s; simpl; [reflexivity|].
  rewrite IH. destruct (_ && _); reflexivity.
Qed.

Lemma remove_service_pcb_update_spec s srv had q1 :
  services (fst (remove_service_pcb_update s srv had q1)) = services s
  /\ wire (fst (remove_service_pcb_update s srv had q1)) = wire s
  /\ answers (snd (remove_service_pcb_update s srv had q1)) = answers q1.
Proof.
  unfold remove_service_pcb_update.
  destruct (mdns_is_netif_ready _ _ _); [|repeat split].
  destruct (PCB_STATE_IS_PROBING _).
  - destruct (existsb _ _); [|repeat split].
    destruct (1 <? _)%nat; [|destruct (negb _)]; repeat split.
  - destruct (PCB_STATE_IS_ANNOUNCING _); [|repeat split].
    destruct (_ && _); repeat split.
Qed.

Lemma services_remove_service_from_packet s srv q :
  services (fst (remove_service_from_packet s srv q)) = services s.
Proof.
  unfold remove_service_from_packet.
  match goal with |- context [remove_service_pcb_update s srv ?h ?q1] =>
    destruct (remove_service_pcb_update_spec s srv h q1) as (H & _ & _);
    destruct (remove_service_pcb_update s srv h q1) as [s1 q2]
  end.
  exact H.
Qed.

Lemma services_remove_service_from_queue srv queue :
  forall s, services (fst (remove_service_from_queue s srv queue)) = services s.
Proof.
  induction queue as [|q rest IH]; intros s; simpl; [reflexivity|].
  pose proof (services_remove_service_from_packet s srv q) as H1.
  destruct (remove_service_from_packet s srv q) as [s1 q'].
  pose proof (IH s1) as H2.
  destruct (remove_service_from_queue s1 srv rest) as [s2 rest'].
  simpl in *. congruence.
Qed.

Lemma services_remove_scheduled_service_packets s srv :
  services (_mdns_remove_scheduled_service_packets s srv) = services s.
Proof.
  unfold _mdns_remove_scheduled_service_packets.
  pose proof (services_remove_service_from_queue srv (tx_queue_head s) s) as H.
  destruct (remove_service_from_queue s srv (tx_queue_head s)) as [s' q].
  exact H.
Qed.

Lemma exists_as_existsb s service proto hostname :
  mdns_service_exists s service proto hostname
  = existsb (fun y => _mdns_service_match y service proto hostname) (services s).
Proof.
  unfold mdns_service_exists, _mdns_get_service_item.
  induction (services s) as [|x l IH]; simpl; [reflexivity|].
  destruct (_mdns_service_match x service proto hostname); [reflexivity|exact IH].
Qed.

(** C4 (as amended).
    - After [mdns_service_add_for_host] returns [ESP_OK] for a service type,
      protocol and hostname of at most 63 bytes each,
      [mdns_service_exists] is true for that type, protocol and hostname.
    - After [mdns_service_remove_for_host] returns [ESP_OK], the first
      registered item that matched the request is gone and the other items
      are kept in order; [mdns_service_exists] for the type, protocol and
      hostname is then true exactly when one of the items kept has that
      type, protocol and hostname (another instance of the same service
      type keeps it true). *)
Theorem C4_service_add_remove_exists :
  (forall s now addr instance service proto host port txt s' h,
      mdns_service_add_for_host s now addr instance (Some service) (Some proto)
        host port txt = (ESP_OK, s') ->
      match host with Some _ => host | None => srv_hostname s end = Some h ->
      strlen service <= MDNS_NAME_BUF_LEN - 1 ->
      strlen proto <= MDNS_NAME_BUF_LEN - 1 ->
      strlen h <= MDNS_NAME_BUF_LEN - 1 ->
      mdns_service_exists s' (Some service) (Some proto) (Some h) = true)
  /\ (forall s instance service proto host s',
         mdns_service_remove_for_host s instance service proto host
         = (ESP_OK, s') ->
         let hostname :=
           match host with Some _ => host | None => srv_hostname s end in
         exists l1 a l2,
           services s = l1 ++ a :: l2
           /\ services s' = l1 ++ l2
           /\ item_matches s instance service proto hostname a = true
           /\ forallb (fun x => negb (item_matches s instance service proto
                                        hostname x)) l1 = true
           /\ mdns_service_exists s' service proto hostname
              = existsb (fun y => _mdns_service_match y service proto hostname)
                        (l1 ++ l2)).
Proof.
  split.
  - intros s now addr instance service proto host port txt s' h Hadd Hh Hs Hp Hl.
    unfold mdns_service_add_for_host in Hadd.
    destruct (srv_hostname s) as [own|] eqn:Eown; [|discriminate].
    destruct (_str_null_or_empty (Some service) || _str_null_or_empty (Some proto));
      [discriminate|].
    destruct (negb (_mdns_can_add_more_services s)); [discriminate|].
    destruct (_mdns_get_service_item_instance _ _ _ _ _); [discriminate|].
    injection Hadd as <-.
    rewrite exists_as_existsb, services_probe_all_pcbs.
    cbn [services with_services existsb].
    apply orb_true_iff. left.
    unfold _mdns_service_match, _mdns_create_service.
    cbn [Model.hostname Model.service Model.proto].
    rewrite Hh. cbn [option_map].
    rewrite !strndup_short by assumption.
    rewrite !strcaseeq_refl. cbn [andb].
    apply orb_true_r.
  - intros s instance service proto host s' Hrem hostname.
    unfold mdns_service_remove_for_host in Hrem. fold hostname in Hrem.
    destruct (services s) as [|x0 l0] eqn:El; [discriminate|].
    rewrite <- El in Hrem.
    destruct (_str_null_or_empty service || _str_null_or_empty proto);
      [discriminate|].
    destruct (_mdns_get_service_item_instance s instance service proto hostname)
      as [a|] eqn:Ef; [|discriminate].
    injection Hrem as <-.
    unfold _mdns_get_service_item_instance in Ef.
    rewrite <- El.
    destruct (find_remove_first_split _ _ _ Ef) as (l1 & l2 & E1 & E2 & Ha & Hl1).
    exists l1, a, l2.
    assert (Hsrv : services
              (_mdns_remove_scheduled_service_packets
                 (Pcb._mdns_send_bye
                    (with_services s
                       (remove_first
                          (item_matches s instance service proto hostname)
                          (services s))) [a] false) a) = l1 ++ l2).
    { rewrite services_remove_scheduled_service_packets, services_send_bye.
      cbn [services with_services]. exact E2. }
    repeat split; try assumption.
    rewrite exists_as_existsb, Hsrv. reflexivity.
Qed.

End Api.

(** *** The goodbye of a removed service *)

(** The packet [_mdns_pcb_send_bye] builds for one service on the PCB
    [(i, j)]: a response whose only record is the PTR answer of the service
    with the [bye] flag. *)
Definition bye_packet (a : mdns_service_t) (ij : nat * nat)
  : mdns_tx_packet_t :=
  with_lists
    (with_flags (_mdns_alloc_packet_default (fst ij) (snd ij))
                MDNS_FLAGS_QR_AUTHORITATIVE)
    [{| a_type := MDNS_TYPE_PTR; a_service := Some (srv_addr a);
        a_host := None; custom_instance := None; custom_service := None;
        custom_proto := None; bye := true; flush := true |}]
    [] [].

(** The PCBs [_mdns_send_bye] sends on. *)
Definition running_pcb (s : mdns_server_t) (ij : nat * nat) : bool :=
  mdns_is_netif_ready s (fst ij) (snd ij)
  && state_eqb (state (pcbs s (fst ij) (snd ij))) PCB_RUNNING.

Lemma send_bye_fold_wire a pl :
  forall s,
    let s' :=
      fold_left
        (fun s ij =>
           let '(i, j) := ij in
           if mdns_is_netif_ready s i j
              && state_eqb (state (pcbs s i j)) PCB_RUNNING
           then Pcb._mdns_pcb_send_bye s i j [a] false
           else s) pl s in
    wire s' = rev (map (bye_packet a) (filter (running_pcb s) pl)) ++ wire s
    /\ pcbs s' = pcbs s /\ tx_queue_head s' = tx_queue_head s.
Proof.
  induction pl as [|[i j] pl IH]; intros s; simpl.
  - repeat split.
  - unfold running_pcb at 1. cbn [fst snd].
    destruct (mdns_is_netif_ready s i j
              && state_eqb (state (pcbs s i j)) PCB_RUNNING) eqn:E.
    + destruct (IH (Pcb._mdns_pcb_send_bye s i j [a] false)) as (Hw & Hp & Hq).
      rewrite Hw, Hp, Hq. repeat split.
      cbn [map rev]. rewrite <- app_assoc. reflexivity.
    + apply IH.
Qed.

Lemma send_bye_wire s a :
  _str_null_or_empty (srv_hostname s) = false ->
  let s' := Pcb._mdns_send_bye s [a] false in
  wire s' = rev (map (bye_packet a) (filter (running_pcb s) all_pcbs)) ++ wire s
  /\ pcbs s' = pcbs s /\ tx_queue_head s' = tx_queue_head s.
Proof.
  intros Hh. unfold Pcb._mdns_send_bye. rewrite Hh.
  apply send_bye_fold_wire.
Qed.

Definition no_answer_of (addr : srv_ref) (p : mdns_tx_packet_t) : bool :=
  forallb (fun x => negb (opt_eqb Nat.eqb (a_service x) (Some addr)))
          (answers p).

Lemma dealloc_no_answer l addr :
  forallb (fun x => negb (opt_eqb Nat.eqb (a_service x) (Some addr)))
          (_mdns_dealloc_scheduled_service_answers l addr) = true.
Proof.
  unfold _mdns_dealloc_scheduled_service_answers.
  apply forallb_forall. intros x Hx. apply filter_In in Hx. tauto.
Qed.

Lemma remove_service_from_packet_spec s srv q :
  wire (fst (remove_service_from_packet s srv q)) = wire s
  /\ match snd (remove_service_from_packet s srv q) with
     | Some p => no_answer_of (srv_addr srv) p = true
     | None => True
     end.
Proof.
  unfold remove_service_from_packet.
  match goal with |- context [remove_service_pcb_update s srv ?h ?q1] =>
    destruct (remove_service_pcb_update_spec s srv h q1) as (_ & Hw & Ha);
    destruct (remove_service_pcb_update s srv h q1) as [s1 q2]
  end.
  cbn [fst snd] in *. split; [exact Hw|].
  destruct (packet_is_empty q2); [exact I|].
  unfold no_answer_of. rewrite Ha. apply dealloc_no_answer.
Qed.

Lemma remove_service_from_queue_spec srv queue :
  forall s,
    wire (fst (remove_service_from_queue s srv queue)) = wire s
    /\ forallb (no_answer_of (srv_addr srv))
               (snd (remove_service_from_queue s srv queue)) = true
    /\ (List.length (snd (remove_service_from_queue s srv queue))
        <= List.length queue)%nat.
Proof.
  induction queue as [|q rest IH]; intros s; simpl.
  - repeat split. lia.
  - destruct (remove_service_from_packet_spec s srv q) as [Hw Hp].
    destruct (remove_service_from_packet s srv q) as [s1 q'].
    destruct (IH s1) as (Hw' & Hall & Hlen).
    destruct (remove_service_from_queue s1 srv rest) as [s2 rest'].
    cbn [fst snd] in *. split; [congruence|].
    destruct q' as [p|]; cbn [forallb List.length].
    + rewrite Hp, Hall. split; [reflexivity|lia].
    + split; [exact Hall|lia].
Qed.



(** [_mdns_append_service_ptr_answers], its first record: the PTR of the
    service itself, named by [_mdns_get_service_instance_name]; this is what
    [_mdns_append_answer] writes for a PTR answer that holds a service. *)
Definition service_ptr_record (cfg : bool) (packet : Codec.mem) (index : Z)
  (inst : string) (srv : mdns_service_t) (flush bye : bool) : Codec.out :=
  Codec._mdns_append_ptr_record cfg packet index inst (Some (service srv))
    (proto srv) flush bye.

Lemma running_pcb_with_services s l ij :
  running_pcb (with_services s l) ij = running_pcb s ij.
Proof. reflexivity. Qed.

(** C9 (amended): when [mdns_service_remove_for_host] succeeds on a server
    whose hostname is set, the removed item [a] is the one the lookup finds,
    and during the call one goodbye packet for it, a response whose only
    record is the PTR answer of [a] with the [bye] flag, is handed to the UDP
    layer for every PCB that is ready and in state RUNNING, and for no other
    PCB.  Nothing is scheduled: the transmit queue does not grow and no
    queued packet keeps an answer of [a].  The PTR record written for an
    answer with the [bye] flag carries TTL 0 in its four TTL bytes. *)
Theorem C9_goodbye_on_service_remove :
  forall s instance service proto host s',
    _str_null_or_empty (srv_hostname s) = false ->
    mdns_service_remove_for_host s instance service proto host = (ESP_OK, s') ->
    exists a,
      _mdns_get_service_item_instance s instance service proto
        (match host with Some _ => host | None => srv_hostname s end) = Some a
      /\ wire s'
         = rev (map (bye_packet a) (filter (running_pcb s) all_pcbs)) ++ wire s
      /\ (forall ij, In ij all_pcbs -> running_pcb s ij = true ->
            In (bye_packet a ij) (wire s'))
      /\ forallb (no_answer_of (srv_addr a)) (tx_queue_head s') = true
      /\ (List.length (tx_queue_head s') <= List.length (tx_queue_head s))%nat
      /\ forall cfg packet index inst flush,
           0 <= index ->
           let '(_, i1, _) :=
             Codec._mdns_append_fqdn cfg packet index
               [Model.service a; Model.proto a; MDNS_DEFAULT_DOMAIN]
               MDNS_MAX_PACKET_SIZE in
           let '(p', _, r) :=
             service_ptr_record cfg packet index inst a flush true in
           r <> 0 ->
           Codec.rd p' i1 = 0 /\ Codec.rd p' (i1 + 1) = MDNS_TYPE_PTR
           /\ Codec.rd p' (i1 + 4) = 0 /\ Codec.rd p' (i1 + 5) = 0
           /\ Codec.rd p' (i1 + 6) = 0 /\ Codec.rd p' (i1 + 7) = 0.
Proof.
  intros s instance service proto host s' Hh Hrem.
  unfold mdns_service_remove_for_host in Hrem.
  destruct (services s) eqn:El; [discriminate|]. rewrite <- El in Hrem.
  destruct (_str_null_or_empty service || _str_null_or_empty proto);
    [discriminate|].
  destruct (_mdns_get_service_item_instance s instance service proto _)
    as [a|] eqn:Eg; [|discriminate].
  injection Hrem as <-.
  exists a. split; [reflexivity|].
  set (s1 := with_services s _).
  assert (Hh1 : _str_null_or_empty (srv_hostname s1) = false) by exact Hh.
  destruct (send_bye_wire s1 a Hh1) as (Hw & _ & Hq).
  unfold _mdns_remove_scheduled_service_packets.
  destruct (remove_service_from_queue_spec a
              (tx_queue_head (Pcb._mdns_send_bye s1 [a] false))
              (Pcb._mdns_send_bye s1 [a] false)) as (Hw2 & Hall & Hlen).
  destruct (remove_service_from_queue (Pcb._mdns_send_bye s1 [a] false) a
              (tx_queue_head (Pcb._mdns_send_bye s1 [a] false)))
    as [s2 queue].
  cbn [fst snd] in Hw2, Hall, Hlen.
  assert (W : wire (with_tx_queue s2 queue)
              = rev (map (bye_packet a) (filter (running_pcb s) all_pcbs))
                ++ wire s).
  { change (wire (with_tx_queue s2 queue)) with (wire s2).
    rewrite Hw2, Hw. reflexivity. }
  split; [exact W|]. split.
  { intros ij Hin Hrun. rewrite W. apply in_or_app. left.
    apply in_rev. rewrite rev_involutive. apply in_map.
    apply filter_In. split; assumption. }
  split; [exact Hall|]. split.
  { change (tx_queue_head (with_tx_queue s2 queue)) with queue.
    rewrite Hq in Hlen. exact Hlen. }
  intros cfg packet index inst flush Hi. unfold service_ptr_record.
  apply (Codec.append_ptr_record_bye_ttl cfg packet index inst
           (Model.service a) (Model.proto a) flush Hi).
Qed.


(** *** A concrete server *)

(** Hostname "alpha", interface 0 up for IPv4 and through its probe and
    announcement sequence (the run of [Pcb.demo_events]). *)
Definition demo_max_services : nat := 10.

Definition demo_add (s : mdns_server_t) (now : Z) (addr : srv_ref)
  (instance : option string) (service proto : string) (port : Z)
  : esp_err_t * mdns_server_t :=
  mdns_service_add_for_host Pcb.demo_random Pcb.demo_probe_packet
    demo_max_services s now addr instance (Some service) (Some proto) None
    port [].

Definition demo_named : mdns_server_t :=
  with_hostname server_init (Some "alpha"%string).

Definition demo_running : mdns_server_t :=
  fst (Pcb.demo_run Pcb.demo_events demo_named).

(** The service [_http._tcp] is registered at time 4000 and probed and
    announced in its turn. *)
Definition demo_events_service : list (Z * Pcb.event) :=
  flat_map (fun t => [(t, Pcb.Ev_scheduler_run); (t, Pcb.Ev_tx_handle true)])
    [4200; 4500; 4800; 5100; 6200; 7300].

Definition demo_registered : mdns_server_t :=
  fst (Pcb.demo_run demo_events_service
         (snd (demo_add demo_running 4000 1%nat None "_http" "_tcp" 80))).

Definition demo_removed : esp_err_t * mdns_server_t :=
  mdns_service_remove_for_host demo_registered None (Some "_http"%string)
    (Some "_tcp"%string) None.

Lemma C4_service_add_remove_exists_witness :
  (fst (demo_add demo_running 4000 1%nat None "_http" "_tcp" 80) = ESP_OK
   /\ mdns_service_exists
        (snd (demo_add demo_running 4000 1%nat None "_http" "_tcp" 80))
        (Some "_http"%string) (Some "_tcp"%string) (Some "alpha"%string)
      = true)
  /\ fst demo_removed = ESP_OK
  /\ exists l1 a l2,
       services demo_registered = l1 ++ a :: l2
       /\ services (snd demo_removed) = l1 ++ l2
       /\ mdns_service_exists (snd demo_removed) (Some "_http"%string)
            (Some "_tcp"%string) (Some "alpha"%string)
          = existsb (fun y => _mdns_service_match y (Some "_http"%string)
                                (Some "_tcp"%string) (Some "alpha"%string))
                    (l1 ++ l2).
Proof.
  destruct (C4_service_add_remove_exists Pcb.demo_random
              Pcb.demo_probe_packet demo_max_services) as [Hadd Hrem].
  split; [split; [vm_compute; reflexivity|]|split; [vm_compute; reflexivity|]].
  - apply (Hadd demo_running 4000 1%nat None "_http"%string "_tcp"%string
             None 80 []).
    + vm_compute. reflexivity.
    + reflexivity.
    + vm_compute. discriminate.
    + vm_compute. discriminate.
    + vm_compute. discriminate.
  - destruct (Hrem demo_registered None (Some "_http"%string)
                (Some "_tcp"%string) None (snd demo_removed))
      as (l1 & a & l2 & H1 & H2 & _ & _ & H5).
    + vm_compute. reflexivity.
    + exists l1, a, l2. split; [exact H1|]. split; [exact H2|exact H5].
Defined.

(** Two instances of one service type: removing the instance "a" succeeds,
    and [mdns_service_exists] for the type, protocol and hostname is still
    true, since the instance "b" is registered. *)
Definition demo_two_instances : mdns_server_t :=
  snd (demo_add
         (snd (demo_add demo_named 0 1%nat (Some "a"%string) "_http" "_tcp" 80))
         0 2%nat (Some "b"%string) "_http" "_tcp" 8080).

Lemma C4_counterexample_other_instance :
  List.length (services demo_two_instances) = 2%nat
  /\ fst (mdns_service_remove_for_host demo_two_instances (Some "a"%string)
            (Some "_http"%string) (Some "_tcp"%string) None) = ESP_OK
  /\ mdns_service_exists
       (snd (mdns_service_remove_for_host demo_two_instances
               (Some "a"%string) (Some "_http"%string) (Some "_tcp"%string)
               None))
       (Some "_http"%string) (Some "_tcp"%string) (Some "alpha"%string)
     = true.
Proof. repeat split; vm_compute; reflexivity. Qed.

Lemma C9_goodbye_on_service_remove_witness :
  _str_null_or_empty (srv_hostname demo_registered) = false
  /\ fst demo_removed = ESP_OK
  /\ running_pcb demo_registered (0%nat, 0%nat) = true
  /\ exists a,
       _mdns_get_service_item_instance demo_registered None
         (Some "_http"%string) (Some "_tcp"%string) (Some "alpha"%string)
       = Some a
       /\ In (bye_packet a (0%nat, 0%nat)) (wire (snd demo_removed))
       /\ forallb (no_answer_of (srv_addr a)) (tx_queue_head (snd demo_removed))
          = true.
Proof.
  split; [reflexivity|]. split; [vm_compute; reflexivity|].
  split; [vm_compute; reflexivity|].
  destruct (C9_goodbye_on_service_remove demo_registered None
              (Some "_http"%string) (Some "_tcp"%string) None
              (snd demo_removed))
    as (a & Hg & _ & Hin & Hq & _).
  - reflexivity.
  - vm_compute. reflexivity.
  - exists a. split; [exact Hg|]. split; [|exact Hq].
    apply Hin; vm_compute; auto.
Defined.

(** A service registered while no interface is up (every PCB is OFF):
    removing it succeeds and nothing is sent. *)
Definition demo_offline : mdns_server_t :=
  snd (demo_add demo_named 0 1%nat None "_http" "_tcp" 80).

Lemma C9_counterexample_no_running_pcb :
  mdns_service_exists demo_offline (Some "_http"%string) (Some "_tcp"%string)
    (Some "alpha"%string) = true
  /\ fst (mdns_service_remove_for_host demo_offline None (Some "_http"%string)
            (Some "_tcp"%string) None) = ESP_OK
  /\ wire (snd (mdns_service_remove_for_host demo_offline None
                  (Some "_http"%string) (Some "_tcp"%string) None)) = []
  /\ tx_queue_head (snd (mdns_service_remove_for_host demo_offline None
                           (Some "_http"%string) (Some "_tcp"%string) None))
     = [].
Proof. repeat split; vm_compute; reflexivity. Qed.

End Services.

(** ** One-shot queries: searches and their results *)

Module Search.

Import CStr.

(** Modelled from the spec: [esp_ip_addr_t] (esp_netif_ip_addr.h): an IPv4
    or IPv6 address, its bits as a number. *)
Inductive esp_ip_addr_t : Type :=
| ESP_IPADDR_TYPE_V4 (addr : Z)
| ESP_IPADDR_TYPE_V6 (addr : Z).

Definition ip_eqb (a b : esp_ip_addr_t) : bool :=
  match a, b with
  | ESP_IPADDR_TYPE_V4 x, ESP_IPADDR_TYPE_V4 y => x =? y
  | ESP_IPADDR_TYPE_V6 x, ESP_IPADDR_TYPE_V6 y => x =? y
  | _, _ => false
  end.

(** Modelled from the spec: [mdns_result_t] (mdns.h); [r_esp_netif] is the
    interface handle, [r_txt] the TXT array ([None] for [NULL]). *)
Record mdns_result_t : Type := {
  r_esp_netif : Z;
  r_ip_protocol : nat;
  r_instance_name : option string;
  r_service_type : option string;
  r_proto : option string;
  r_hostname : option string;
  r_port : Z;
  r_txt : option (list (string * string));
  r_addr : list esp_ip_addr_t;
  r_ttl : Z
}.

(** [memset(r, 0, sizeof(mdns_result_t))]. *)
Definition result_zero : mdns_result_t :=
  {| r_esp_netif := 0; r_ip_protocol := 0; r_instance_name := None;
     r_service_type := None; r_proto := None; r_hostname := None;
     r_port := 0; r_txt := None; r_addr := []; r_ttl := 0 |}.

(** Modelled from the spec: [mdns_search_once_state_t] and
    [mdns_search_once_t] (mdns_private.h); [max_results] and [num_results]
    are [uint8_t], the times [uint32_t]. *)
Inductive mdns_search_once_state_t : Type :=
| SEARCH_OFF | SEARCH_INIT | SEARCH_RUNNING | SEARCH_MAX.

Record mdns_search_once_t : Type := {
  s_state : mdns_search_once_state_t;
  started_at : Z;
  sent_at : Z;
  timeout : Z;
  s_type : Z;
  unicast : bool;
  max_results : Z;
  num_results : Z;
  s_instance : option string;
  s_service : option string;
  s_proto : option string;
  result : list mdns_result_t
}.

Definition with_result (s : mdns_search_once_t) (l : list mdns_result_t)
  (n : Z) : mdns_search_once_t :=
  {| s_state := s_state s; started_at := started_at s; sent_at := sent_at s;
     timeout := timeout s; s_type := s_type s; unicast := unicast s;
     max_results := max_results s; num_results := n;
     s_instance := s_instance s; s_service := s_service s;
     s_proto := s_proto s; result := l |}.

Definition with_search_state (s : mdns_search_once_t)
  (st : mdns_search_once_state_t) (sent : Z) : mdns_search_once_t :=
  {| s_state := st; started_at := started_at s; sent_at := sent;
     timeout := timeout s; s_type := s_type s; unicast := unicast s;
     max_results := max_results s; num_results := num_results s;
     s_instance := s_instance s; s_service := s_service s;
     s_proto := s_proto s; result := result s |}.

Definition search_state_eqb (a b : mdns_search_once_state_t) : bool :=
  match a, b with
  | SEARCH_OFF, SEARCH_OFF | SEARCH_INIT, SEARCH_INIT
  | SEARCH_RUNNING, SEARCH_RUNNING | SEARCH_MAX, SEARCH_MAX => true
  | _, _ => false
  end.

(** [strndup(str, MDNS_NAME_BUF_LEN - 1)] of a string that is neither
    [NULL] nor empty, [NULL] otherwise. *)
Definition dup_name (str : option string) : option string :=
  if _str_null_or_empty str then None
  else option_map (fun x => strndup x (MDNS_NAME_BUF_LEN - 1)) str.

(** [_mdns_search_init]; [now] is
    [xTaskGetTickCount() * portTICK_PERIOD_MS].  The parameter
    [max_results] is a [uint8_t]: the value the caller passes arrives
    modulo 256; [timeout] is a [uint32_t], [type] a [uint16_t]. *)
Definition _mdns_search_init (name service proto : option string)
  (type : Z) (unicast : bool) (timeout : Z) (max_results : Z) (now : Z)
  : mdns_search_once_t :=
  {| s_state := SEARCH_INIT; started_at := u32 now; sent_at := 0;
     timeout := u32 timeout; s_type := u16 type; unicast := unicast;
     max_results := u8 max_results; num_results := 0;
     s_instance := dup_name name; s_service := dup_name service;
     s_proto := dup_name proto; result := [] |}.

(** [_mdns_result_update_ttl]. *)
Definition _mdns_result_update_ttl (r : mdns_result_t) (ttl : Z)
  : mdns_result_t :=
  {| r_esp_netif := r_esp_netif r; r_ip_protocol := r_ip_protocol r;
     r_instance_name := r_instance_name r;
     r_service_type := r_service_type r; r_proto := r_proto r;
     r_hostname := r_hostname r; r_port := r_port r; r_txt := r_txt r;
     r_addr := r_addr r;
     r_ttl := if r_ttl r <? ttl then r_ttl r else ttl |}.

(** [_mdns_result_add_ip]: the address is chained at the head unless the
    result holds it already. *)
Definition _mdns_result_add_ip (r : mdns_result_t) (ip : esp_ip_addr_t)
  : mdns_result_t :=
  if existsb (fun a => ip_eqb a ip) (r_addr r) then r
  else
    {| r_esp_netif := r_esp_netif r; r_ip_protocol := r_ip_protocol r;
       r_instance_name := r_instance_name r;
       r_service_type := r_service_type r; r_proto := r_proto r;
       r_hostname := r_hostname r; r_port := r_port r; r_txt := r_txt r;
       r_addr := ip :: r_addr r; r_ttl := r_ttl r |}.

(** The [while (r)] loops of the functions below: the first result that
    satisfies [f] is changed by [g]; [None] when the loop runs to the end. *)
Fixpoint update_first {A : Type} (f : A -> bool) (g : A -> A) (l : list A)
  : option (list A) :=
  match l with
  | [] => None
  | x :: l' =>
      if f x then Some (g x :: l')
      else option_map (cons x) (update_first f g l')
  end.


Section Results.

(** Modelled from the spec: [_mdns_get_esp_netif] (mdns_networking /
    mdns.c interface table) gives the handle of an interface index. *)
Variable _mdns_get_esp_netif : nat -> Z.

(** [r->esp_netif == _mdns_get_esp_netif(tcpip_if) &&
     r->ip_protocol == ip_protocol]. *)
Definition same_netif (tcpip_if ip_protocol : nat) (r : mdns_result_t)
  : bool :=
  (r_esp_netif r =? _mdns_get_esp_netif tcpip_if)
  && (r_ip_protocol r =? ip_protocol)%nat.

(** [!_str_null_or_empty(field) && !strcasecmp(name, field)]. *)
Definition names (field : option string) (name : string) : bool :=
  negb (_str_null_or_empty field)
  && match field with Some x => strcaseeq name x | None => false end.

(** The test [!search->max_results || search->num_results <
    search->max_results]. *)
Definition has_room (s : mdns_search_once_t) : bool :=
  (max_results s =? 0) || (num_results s <? max_results s).

(** [r->next = search->result; search->result = r;
    search->num_results++] ([num_results] is a [uint8_t]). *)
Definition push_result (s : mdns_search_once_t) (r : mdns_result_t)
  : mdns_search_once_t :=
  with_result s (r :: result s) (u8 (num_results s + 1)).

(** [_mdns_search_result_add_ip]. *)
Definition _mdns_search_result_add_ip (s : mdns_search_once_t)
  (hostname : string) (ip : esp_ip_addr_t) (tcpip_if ip_protocol : nat)
  (ttl : Z) : mdns_search_once_t :=
  let is_v4 := match ip with ESP_IPADDR_TYPE_V4 _ => true | _ => false end in
  if ((s_type s =? MDNS_TYPE_A) && is_v4)
     || ((s_type s =? MDNS_TYPE_AAAA) && negb is_v4)
     || (s_type s =? MDNS_TYPE_ANY)
  then
    match update_first (same_netif tcpip_if ip_protocol)
            (fun r => _mdns_result_update_ttl (_mdns_result_add_ip r ip) ttl)
            (result s) with
    | Some l => with_result s l (num_results s)
    | None =>
        if has_room s then
          push_result s
            {| r_esp_netif := _mdns_get_esp_netif tcpip_if;
               r_ip_protocol := ip_protocol; r_instance_name := None;
               r_service_type := None; r_proto := None;
               r_hostname := Some hostname; r_port := 0; r_txt := None;
               r_addr := [ip]; r_ttl := ttl |}
        else s
    end
  else if (s_type s =? MDNS_TYPE_PTR) || (s_type s =? MDNS_TYPE_SRV) then
    match update_first
            (fun r => same_netif tcpip_if ip_protocol r
                      && names (r_hostname r) hostname)
            (fun r => _mdns_result_update_ttl (_mdns_result_add_ip r ip) ttl)
            (result s) with
    | Some l => with_result s l (num_results s)
    | None => s
    end
  else s.

(** [_mdns_search_result_add_ptr]. *)
Definition _mdns_search_result_add_ptr (s : mdns_search_once_t)
  (instance service_type proto : string) (tcpip_if ip_protocol : nat)
  (ttl : Z) : mdns_search_once_t :=
  match update_first
          (fun r => same_netif tcpip_if ip_protocol r
                    && names (r_instance_name r) instance)
          (fun r => _mdns_result_update_ttl r ttl) (result s) with
  | Some l => with_result s l (num_results s)
  | None =>
      if has_room s then
        push_result s
          {| r_esp_netif := _mdns_get_esp_netif tcpip_if;
             r_ip_protocol := ip_protocol;
             r_instance_name := Some instance;
             r_service_type := Some service_type; r_proto := Some proto;
             r_hostname := None; r_port := 0; r_txt := None;
             r_addr := []; r_ttl := ttl |}
      else s
  end.

(** [_mdns_search_result_add_srv]. *)
Definition _mdns_search_result_add_srv (s : mdns_search_once_t)
  (hostname : string) (port : Z) (tcpip_if ip_protocol : nat) (ttl : Z)
  : mdns_search_once_t :=
  match update_first
          (fun r => same_netif tcpip_if ip_protocol r
                    && names (r_hostname r) hostname)
          (fun r => _mdns_result_update_ttl r ttl) (result s) with
  | Some l => with_result s l (num_results s)
  | None =>
      if has_room s then
        push_result s
          {| r_esp_netif := _mdns_get_esp_netif tcpip_if;
             r_ip_protocol := ip_protocol;
             r_instance_name := s_instance s;
             r_service_type := s_service s; r_proto := s_proto s;
             r_hostname := Some hostname; r_port := u16 port;
             r_txt := None; r_addr := []; r_ttl := ttl |}
      else s
  end.

(** [_mdns_search_result_add_txt]: a result of the interface that has a
    TXT already is left as it is (the new items are freed). *)
Definition _mdns_search_result_add_txt (s : mdns_search_once_t)
  (txt : list (string * string)) (tcpip_if ip_protocol : nat) (ttl : Z)
  : mdns_search_once_t :=
  match update_first (same_netif tcpip_if ip_protocol)
          (fun r =>
             match r_txt r with
             | Some _ => r
             | None =>
                 _mdns_result_update_ttl
                   {| r_esp_netif := r_esp_netif r;
                      r_ip_protocol := r_ip_protocol r;
                      r_instance_name := r_instance_name r;
                      r_service_type := r_service_type r;
                      r_proto := r_proto r; r_hostname := r_hostname r;
                      r_port := r_port r; r_txt := Some txt;
                      r_addr := r_addr r; r_ttl := r_ttl r |} ttl
             end) (result s) with
  | Some l => with_result s l (num_results s)
  | None =>
      if has_room s then
        push_result s
          {| r_esp_netif := _mdns_get_esp_netif tcpip_if;
             r_ip_protocol := ip_protocol; r_instance_name := None;
             r_service_type := None; r_proto := None; r_hostname := None;
             r_port := 0; r_txt := Some txt; r_addr := []; r_ttl := ttl |}
      else s
  end.

(** The records the parser hands to a search. *)
Inductive rx_record : Type :=
| Rx_ip (hostname : string) (ip : esp_ip_addr_t) (tcpip_if ip_protocol : nat)
        (ttl : Z)
| Rx_ptr (instance service_type proto : string) (tcpip_if ip_protocol : nat)
         (ttl : Z)
| Rx_srv (hostname : string) (port : Z) (tcpip_if ip_protocol : nat) (ttl : Z)
| Rx_txt (txt : list (string * string)) (tcpip_if ip_protocol : nat) (ttl : Z).

Definition search_result_add (s : mdns_search_once_t) (r : rx_record)
  : mdns_search_once_t :=
  match r with
  | Rx_ip h ip i j ttl => _mdns_search_result_add_ip s h ip i j ttl
  | Rx_ptr inst st p i j ttl => _mdns_search_result_add_ptr s inst st p i j ttl
  | Rx_srv h port i j ttl => _mdns_search_result_add_srv s h port i j ttl
  | Rx_txt txt i j ttl => _mdns_search_result_add_txt s txt i j ttl
  end.

End Results.


(** *** The life of a query *)

(** The actions of a search in the action queue of the service task. *)
Inductive search_action : Type :=
| ACTION_SEARCH_ADD | ACTION_SEARCH_SEND | ACTION_SEARCH_END.

(** One query as the server sees it: the search, whether it is linked in
    [_mdns_server->search_once], whether its [done_semaphore] has been
    given, and its actions waiting in the action queue (oldest first). *)
Record query_t : Type := {
  search : mdns_search_once_t;
  listed : bool;
  done_semaphore : bool;
  action_queue : list search_action
}.

Definition with_search (q : query_t) (s : mdns_search_once_t) : query_t :=
  {| search := s; listed := listed q; done_semaphore := done_semaphore q;
     action_queue := action_queue q |}.

(** [_mdns_send_search_action]; [queue_ok] tells whether [malloc] and
    [xQueueSend] succeed. *)
Definition _mdns_send_search_action (q : query_t) (a : search_action)
  (queue_ok : bool) : bool * query_t :=
  if queue_ok
  then (true,
        {| search := search q; listed := listed q;
           done_semaphore := done_semaphore q;
           action_queue := action_queue q ++ [a] |})
  else (false, q).

(** [_mdns_search_finish]. *)
Definition _mdns_search_finish (q : query_t) : query_t :=
  {| search := with_search_state (search q) SEARCH_OFF (sent_at (search q));
     listed := false; done_semaphore := true;
     action_queue := action_queue q |}.

(** [_mdns_search_add]. *)
Definition _mdns_search_add (q : query_t) : query_t :=
  {| search := search q; listed := true; done_semaphore := done_semaphore q;
     action_queue := action_queue q |}.

(** [_mdns_search_finish_done], for this search. *)
Definition _mdns_search_finish_done (q : query_t) : query_t :=
  if listed q
     && negb (max_results (search q) =? 0)
     && (num_results (search q) >=? max_results (search q))
  then _mdns_search_finish q
  else q.

(** The body of the loop of [_mdns_search_run] for this search; [now] is a
    [uint32_t], and so are the sum and the difference. *)
Definition _mdns_search_run (q : query_t) (now : Z) (queue_ok : bool)
  : query_t :=
  let s := search q in
  if negb (listed q) then q
  else if search_state_eqb (s_state s) SEARCH_OFF then q
  else if now >? u32 (started_at s + timeout s) then
    let q1 := with_search q (with_search_state s SEARCH_OFF (sent_at s)) in
    let '(ok, q2) := _mdns_send_search_action q1 ACTION_SEARCH_END queue_ok in
    if ok then q2
    else with_search q2 (with_search_state (search q2) SEARCH_RUNNING
                           (sent_at (search q2)))
  else if search_state_eqb (s_state s) SEARCH_INIT
          || (u32 (now - sent_at s) >? 1000) then
    let q1 := with_search q (with_search_state s SEARCH_RUNNING now) in
    let '(ok, q2) := _mdns_send_search_action q1 ACTION_SEARCH_SEND queue_ok in
    if ok then q2
    else with_search q2 (with_search_state (search q2) SEARCH_RUNNING
                           (u32 (sent_at (search q2) - 1000)))
  else q.

Section Life.

Variable _mdns_get_esp_netif : nat -> Z.

(** What happens to a query while its caller waits: the timer task runs
    [_mdns_search_run]; the service task takes the next action of the query
    from the action queue and executes it ([_mdns_search_send] sends query
    packets and leaves the search alone); the parser hands records of a
    received packet to the search, which [_mdns_search_find_from] does for a
    linked search that is not [SEARCH_OFF], and calls
    [_mdns_search_finish_done] after an authoritative packet. *)
Inductive query_event : Type :=
| Ev_timer (now : Z) (queue_ok : bool)
| Ev_action
| Ev_rx (records : list rx_record) (authoritative : bool).

Definition execute_action (q : query_t) : query_t :=
  match action_queue q with
  | [] => q
  | a :: rest =>
      let q := {| search := search q; listed := listed q;
                  done_semaphore := done_semaphore q;
                  action_queue := rest |} in
      match a with
      | ACTION_SEARCH_ADD => _mdns_search_add q
      | ACTION_SEARCH_SEND => q
      | ACTION_SEARCH_END => _mdns_search_finish q
      end
  end.

Definition query_step (q : query_t) (e : query_event) : query_t :=
  match e with
  | Ev_timer now queue_ok => _mdns_search_run q now queue_ok
  | Ev_action => execute_action q
  | Ev_rx records authoritative =>
      let q1 :=
        if listed q && negb (search_state_eqb (s_state (search q)) SEARCH_OFF)
        then with_search q
               (fold_left (search_result_add _mdns_get_esp_netif) records
                          (search q))
        else q in
      if authoritative then _mdns_search_finish_done q1 else q1
  end.

(** The caller blocks in [xSemaphoreTake(search->done_semaphore,
    portMAX_DELAY)]: the state in which the semaphore is first given, if the
    events get that far. *)
Fixpoint wait_done (q : query_t) (evs : list query_event) : option query_t :=
  if done_semaphore q then Some q
  else match evs with
       | [] => None
       | e :: evs' => wait_done (query_step q e) evs'
       end.

(** [mdns_query_generic]: the code returned and the list left in
    [*results]; [None] while the caller is still blocked.  [server] tells
    whether [_mdns_server] is set, [now] is the time of the call,
    [queue_ok] whether the ADD action could be queued, [evs] what happens
    afterwards. *)
Definition mdns_query_generic (server : bool) (name service proto : option string)
  (type : Z) (transmission_unicast : bool) (timeout : Z) (max_results : Z)
  (now : Z) (queue_ok : bool) (evs : list query_event)
  : option (Services.esp_err_t * list mdns_result_t) :=
  if negb server then Some (Services.ESP_ERR_INVALID_STATE, [])
  else if (u32 timeout =? 0)
          || negb (Bool.eqb (_str_null_or_empty service)
                            (_str_null_or_empty proto))
  then Some (Services.ESP_ERR_INVALID_ARG, [])
  else
    let s := _mdns_search_init name service proto type
               transmission_unicast timeout max_results now in
    let q := {| search := s; listed := false; done_semaphore := false;
                action_queue := [] |} in
    let '(ok, q) := _mdns_send_search_action q ACTION_SEARCH_ADD queue_ok in
    if negb ok then Some (Services.ESP_ERR_NO_MEM, [])
    else
      match wait_done q evs with
      | Some q' => Some (Services.ESP_OK, result (search q'))
      | None => None
      end.

End Life.


(** *** The number of results *)

Lemma update_first_length {A : Type} (f : A -> bool) (g : A -> A) :
  forall l l', update_first f g l = Some l' -> List.length l' = List.length l.
Proof.
  induction l as [|x l IH]; intros l' H; simpl in H; [discriminate|].
  destruct (f x).
  - injection H as <-. reflexivity.
  - destruct (update_first f g l) as [l1|]; [|discriminate].
    injection H as <-. simpl. rewrite (IH l1 eq_refl). reflexivity.
Qed.

(** The stored limit is a byte, and while it is not 0 the counter is the
    length of the list and within the limit. *)
Definition bounded (s : mdns_search_once_t) : Prop :=
  0 <= max_results s < 256
  /\ (max_results s <> 0 ->
      num_results s = Z.of_nat (List.length (result s))
      /\ num_results s <= max_results s).

(** [s'] is [s] with results added or changed in place. *)
Definition extends (s s' : mdns_search_once_t) : Prop :=
  max_results s' = max_results s
  /\ s_state s' = s_state s
  /\ (List.length (result s) <= List.length (result s'))%nat
  /\ (bounded s -> bounded s').

Lemma extends_refl s : extends s s.
Proof.
  unfold extends.
  split; [reflexivity|split; [reflexivity|split; [lia|tauto]]].
Qed.

Lemma extends_trans a b c : extends a b -> extends b c -> extends a c.
Proof.
  unfold extends. intros (H1 & H2 & H3 & H4) (H5 & H6 & H7 & H8).
  split; [congruence|split; [congruence|split; [lia|tauto]]].
Qed.

Lemma extends_update s l :
  List.length l = List.length (result s) ->
  extends s (with_result s l (num_results s)).
Proof.
  intros H. unfold extends, bounded. cbn [with_result max_results s_state
    result num_results]. rewrite H.
  split; [reflexivity|split; [reflexivity|split; [lia|tauto]]].
Qed.

Lemma extends_push s r :
  has_room s = true -> extends s (push_result s r).
Proof.
  intros H. unfold extends, bounded, push_result.
  cbn [with_result max_results s_state result num_results List.length].
  split; [reflexivity|split; [reflexivity|split; [lia|]]].
  intros [Hb Hn]. split; [exact Hb|]. intros Hm.
  destruct (Hn Hm) as [E L].
  unfold has_room in H. apply orb_true_iff in H.
  destruct H as [H|H]; [apply Z.eqb_eq in H; contradiction|].
  apply Z.ltb_lt in H. unfold u8. rewrite Z.mod_small by lia. lia.
Qed.

Section Counting.

Variable _mdns_get_esp_netif : nat -> Z.

Ltac add_cases :=
  match goal with
  | |- extends ?s match update_first ?f ?g (result ?s) with _ => _ end =>
      let E := fresh "E" in
      destruct (update_first f g (result s)) eqn:E;
      [apply extends_update; apply (update_first_length f g _ _ E)|]
  end;
  try match goal with
  | |- extends ?s (if has_room ?s then _ else _) =>
      let E := fresh "E" in
      destruct (has_room s) eqn:E;
      [apply extends_push; exact E|apply extends_refl]
  end;
  try apply extends_refl.

Lemma search_result_add_extends s r :
  extends s (search_result_add _mdns_get_esp_netif s r).
Proof.
  destruct r; cbn [search_result_add].
  - unfold _mdns_search_result_add_ip.
    destruct (_ || _ || _).
    + add_cases.
    + destruct (_ || _); [add_cases|apply extends_refl].
  - unfold _mdns_search_result_add_ptr. add_cases.
  - unfold _mdns_search_result_add_srv. add_cases.
  - unfold _mdns_search_result_add_txt. add_cases.
Qed.

Lemma fold_result_add_extends records :
  forall s,
    extends s (fold_left (search_result_add _mdns_get_esp_netif) records s).
Proof.
  induction records as [|r rs IH]; intros s; simpl; [apply extends_refl|].
  eapply extends_trans; [apply search_result_add_extends|apply IH].
Qed.

(** Between two states of a query: the limit is kept, the list of results
    does not get shorter, and [bounded] is kept. *)
Definition grows (q q' : query_t) : Prop :=
  max_results (search q') = max_results (search q)
  /\ (List.length (result (search q))
      <= List.length (result (search q')))%nat
  /\ (bounded (search q) -> bounded (search q')).

Lemma grows_refl q : grows q q.
Proof. unfold grows. split; [reflexivity|split; [lia|tauto]]. Qed.

Lemma grows_trans a b c : grows a b -> grows b c -> grows a c.
Proof.
  unfold grows. intros (H1 & H2 & H3) (H5 & H6 & H7).
  split; [congruence|split; [lia|tauto]].
Qed.

Lemma grows_same_results q q' :
  max_results (search q') = max_results (search q) ->
  num_results (search q') = num_results (search q) ->
  result (search q') = result (search q) ->
  grows q q'.
Proof.
  intros H1 H2 H3. unfold grows, bounded. rewrite H1, H2, H3.
  split; [reflexivity|split; [lia|tauto]].
Qed.

Lemma grows_finish q : grows q (_mdns_search_finish q).
Proof. apply grows_same_results; reflexivity. Qed.

Lemma grows_finish_done q : grows q (_mdns_search_finish_done q).
Proof.
  unfold _mdns_search_finish_done.
  destruct (_ && _ && _); [apply grows_finish|apply grows_refl].
Qed.

Lemma grows_search_run q now queue_ok :
  grows q (_mdns_search_run q now queue_ok).
Proof.
  unfold _mdns_search_run, _mdns_send_search_action.
  destruct (negb (listed q)); [apply grows_refl|].
  destruct (search_state_eqb _ _); [apply grows_refl|].
  destruct (now >? _).
  - destruct queue_ok; apply grows_same_results; reflexivity.
  - destruct (_ || _); [|apply grows_refl].
    destruct queue_ok; apply grows_same_results; reflexivity.
Qed.

Lemma grows_execute_action q : grows q (execute_action q).
Proof.
  unfold execute_action.
  destruct (action_queue q) as [|a rest]; [apply grows_refl|].
  destruct a; apply grows_same_results; reflexivity.
Qed.

Lemma grows_query_step q e :
  grows q (query_step _mdns_get_esp_netif q e).
Proof.
  destruct e as [now ok| |records auth]; cbn [query_step].
  - apply grows_search_run.
  - apply grows_execute_action.
  - match goal with |- context [if ?c then ?a else q] =>
      set (q1 := if c then a else q) end.
    assert (H1 : grows q q1).
    { subst q1. destruct (_ && _); [|apply grows_refl].
      destruct (fold_result_add_extends records (search q))
        as (A & _ & B & C).
      unfold grows. cbn [with_search search]. auto. }
    destruct auth; [|exact H1].
    eapply grows_trans; [exact H1|apply grows_finish_done].
Qed.

Lemma grows_run evs :
  forall q, grows q (fold_left (query_step _mdns_get_esp_netif) evs q).
Proof.
  induction evs as [|e evs IH]; intros q; simpl; [apply grows_refl|].
  eapply grows_trans; [apply grows_query_step|apply IH].
Qed.

End Counting.


(** [mdns_query_async_new]: the query handed back to the caller, [None]
    for [NULL].  [max_results] is a [size_t] here; it is passed on to the
    [uint8_t] parameter of [_mdns_search_init]. *)
Definition mdns_query_async_new (server : bool)
  (name service proto : option string) (type : Z) (timeout : Z)
  (max_results : Z) (now : Z) (queue_ok : bool) : option query_t :=
  if negb server
     || (u32 timeout =? 0)
     || negb (Bool.eqb (_str_null_or_empty service) (_str_null_or_empty proto))
  then None
  else
    let s := _mdns_search_init name service proto type
               (negb (type =? MDNS_TYPE_PTR)) timeout max_results now in
    let q := {| search := s; listed := false; done_semaphore := false;
                action_queue := [] |} in
    let '(ok, q) := _mdns_send_search_action q ACTION_SEARCH_ADD queue_ok in
    if ok then Some q else None.

(** C7.  A query made with [max_results = N] stores [N mod 256] as its
    limit.  In every state the query reaches, whatever the timer, the
    service task and the parser do: while the stored limit is not 0 the
    number of results is at most the stored limit, so for [0 < N < 256] it
    is at most [N]; and the number of results never goes down from one
    state to a later one. *)
Theorem C7_results_bounded_monotone (_mdns_get_esp_netif : nat -> Z) :
  forall name service proto type timeout N now queue_ok q0 evs evs',
    mdns_query_async_new true name service proto type timeout N now queue_ok
    = Some q0 ->
    let q := fold_left (query_step _mdns_get_esp_netif) evs q0 in
    let q' := fold_left (query_step _mdns_get_esp_netif) evs' q in
    max_results (search q) = N mod 256
    /\ (N mod 256 <> 0 ->
        Z.of_nat (List.length (result (search q))) <= N mod 256)
    /\ (0 < N < 256 -> Z.of_nat (List.length (result (search q))) <= N)
    /\ (List.length (result (search q))
        <= List.length (result (search q')))%nat.
Proof.
  intros name service proto type timeout N now queue_ok q0 evs evs' Hnew q q'.
  unfold mdns_query_async_new, _mdns_send_search_action in Hnew.
  destruct (_ || _ || _); [discriminate|].
  destruct queue_ok; [|discriminate]. injection Hnew as <-.
  match goal with q := fold_left _ evs ?q0 |- _ =>
    destruct (grows_run _mdns_get_esp_netif evs q0) as (Hm & _ & Hb)
  end.
  fold q in Hm, Hb. cbn [search max_results _mdns_search_init] in Hm.
  unfold u8 in Hm.
  assert (B : bounded (search q)).
  { apply Hb. unfold bounded. cbn [search max_results num_results result
      _mdns_search_init List.length]. unfold u8.
    split; [apply Z.mod_pos_bound; lia|].
    intros Hn. split; [reflexivity|].
    assert (H := Z.mod_pos_bound N 256 ltac:(lia)). lia. }
  split; [exact Hm|].
  assert (L : N mod 256 <> 0 ->
              Z.of_nat (List.length (result (search q))) <= N mod 256).
  { intros Hn. destruct B as [_ B]. rewrite Hm in B.
    destruct (B Hn) as [E L]. lia. }
  split; [exact L|]. split.
  - intros HN. rewrite Z.mod_small in L by lia. apply L. lia.
  - destruct (grows_run _mdns_get_esp_netif evs' q) as (_ & Hl & _).
    exact Hl.
Qed.

(** A run with the limit 2: three different instances answer, two results
    are kept. *)
Definition demo_netif (i : nat) : Z := Z.of_nat i + 1.

Definition demo_ptr (n : nat) : rx_record :=
  Rx_ptr (Mangle.sprintf_d (Z.of_nat n)) "_http" "_tcp" 0 0 4500.

Definition demo_query (N : Z) : option query_t :=
  mdns_query_async_new true None (Some "_http"%string) (Some "_tcp"%string)
    MDNS_TYPE_PTR 3000 N 0 true.

Definition demo_answers (n : nat) : list query_event :=
  [Ev_action; Ev_timer 100 true; Ev_action;
   Ev_rx (map demo_ptr (seq 0 n)) false].

Definition count_results (N : Z) (evs : list query_event) : option nat :=
  option_map
    (fun q0 =>
       List.length (result (search (fold_left (query_step demo_netif) evs q0))))
    (demo_query N).

Example results_limit_2 : count_results 2 (demo_answers 3) = Some 2%nat.
Proof. vm_compute. reflexivity. Qed.

(** With [max_results = 256] the stored limit is 0, which the code reads as
    no limit: 257 instances give 257 results. *)
Lemma C7_failing_input_max_results_256 :
  option_map (fun q0 => max_results (search q0)) (demo_query 256) = Some 0
  /\ count_results 256 (demo_answers 257) = Some 257%nat.
Proof. split; vm_compute; reflexivity. Qed.

Definition demo_query_2 : query_t :=
  {| search := _mdns_search_init None (Some "_http"%string)
                 (Some "_tcp"%string) MDNS_TYPE_PTR false 3000 2 0;
     listed := false; done_semaphore := false;
     action_queue := [ACTION_SEARCH_ADD] |}.

Lemma C7_results_bounded_monotone_witness :
  demo_query 2 = Some demo_query_2
  /\ Z.of_nat (List.length
       (result (search (fold_left (query_step demo_netif)
                          (demo_answers 3) demo_query_2)))) <= 2.
Proof.
  assert (E : demo_query 2 = Some demo_query_2) by reflexivity.
  split; [exact E|].
  apply (C7_results_bounded_monotone demo_netif None (Some "_http"%string)
           (Some "_tcp"%string) MDNS_TYPE_PTR 3000 2 0 true demo_query_2
           (demo_answers 3) []).
  - exact E.
  - lia.
Defined.


(** *** A query that times out *)

Section Timeout.

Variable _mdns_get_esp_netif : nat -> Z.

Local Abbreviation step := (query_step _mdns_get_esp_netif).

(** The event hands no record to the search. *)
Definition no_record (e : query_event) : bool :=
  match e with
  | Ev_rx (_ :: _) _ => false
  | _ => true
  end.

(** The query right after [mdns_query_generic] has queued its ADD action. *)
Definition queued_query (s : mdns_search_once_t) : query_t :=
  {| search := s; listed := false; done_semaphore := false;
     action_queue := [ACTION_SEARCH_ADD] |}.

Definition no_results (q : query_t) : Prop :=
  result (search q) = [] /\ num_results (search q) = 0.

Lemma no_results_same q q' :
  result (search q') = result (search q) ->
  num_results (search q') = num_results (search q) ->
  no_results q -> no_results q'.
Proof. unfold no_results. intros -> ->. tauto. Qed.

Lemma no_results_search_run q now ok :
  no_results q -> no_results (_mdns_search_run q now ok).
Proof.
  unfold _mdns_search_run, _mdns_send_search_action.
  destruct (negb (listed q)); [tauto|].
  destruct (search_state_eqb _ _); [tauto|].
  destruct (now >? _).
  - destruct ok; apply no_results_same; reflexivity.
  - destruct (_ || _); [|tauto].
    destruct ok; apply no_results_same; reflexivity.
Qed.

Lemma no_results_execute_action q :
  no_results q -> no_results (execute_action q).
Proof.
  unfold execute_action.
  destruct (action_queue q) as [|a rest]; [tauto|].
  destruct a; apply no_results_same; reflexivity.
Qed.

Lemma no_results_step q e :
  no_record e = true -> no_results q -> no_results (step q e).
Proof.
  destruct e as [now ok| |records auth]; cbn [query_step no_record].
  - intros _. apply no_results_search_run.
  - intros _. apply no_results_execute_action.
  - destruct records; [|discriminate]. intros _ H.
    cbn [fold_left].
    assert (H1 : no_results
                   (if listed q
                       && negb (search_state_eqb (s_state (search q)) SEARCH_OFF)
                    then with_search q (search q) else q)).
    { destruct (_ && _); [|exact H].
      revert H. apply no_results_same; reflexivity. }
    destruct auth; [|exact H1].
    unfold _mdns_search_finish_done.
    destruct (_ && _ && _); [|exact H1].
    revert H1. apply no_results_same; reflexivity.
Qed.

Lemma wait_done_no_results evs :
  forall q q',
    forallb no_record evs = true -> no_results q ->
    wait_done _mdns_get_esp_netif q evs = Some q' -> no_results q'.
Proof.
  induction evs as [|e evs IH]; intros q q' Hev Hq Hw; simpl in Hw.
  - destruct (done_semaphore q); [|discriminate].
    injection Hw as <-. exact Hq.
  - destruct (done_semaphore q).
    + injection Hw as <-. exact Hq.
    + simpl in Hev. apply andb_true_iff in Hev. destruct Hev as [He Hev].
      apply (IH (step q e) q' Hev); [|exact Hw].
      apply no_results_step; assumption.
Qed.

Lemma wait_done_app evs evs' :
  forall q,
    wait_done _mdns_get_esp_netif q (evs ++ evs')
    = match wait_done _mdns_get_esp_netif q evs with
      | Some r => Some r
      | None => wait_done _mdns_get_esp_netif (fold_left step evs q) evs'
      end.
Proof.
  induction evs as [|e evs IH]; intros q; simpl.
  - destruct (done_semaphore q) eqn:E; [|reflexivity].
    destruct evs'; simpl; rewrite E; reflexivity.
  - destruct (done_semaphore q); [reflexivity|]. apply IH.
Qed.

Lemma wait_done_none evs :
  forall q,
    wait_done _mdns_get_esp_netif q evs = None ->
    done_semaphore (fold_left step evs q) = false.
Proof.
  induction evs as [|e evs IH]; intros q H; simpl in *.
  - destruct (done_semaphore q); [discriminate|reflexivity].
  - destruct (done_semaphore q); [discriminate|]. apply IH. exact H.
Qed.

(** An END action waits in the queue only while the search is OFF. *)
Definition end_only_when_off (q : query_t) : Prop :=
  In ACTION_SEARCH_END (action_queue q) -> s_state (search q) = SEARCH_OFF.

Lemma search_state_eqb_eq a b : search_state_eqb a b = true <-> a = b.
Proof. destruct a, b; simpl; split; intros H; congruence. Qed.

Lemma end_only_when_off_search_run q now ok :
  end_only_when_off q -> end_only_when_off (_mdns_search_run q now ok).
Proof.
  unfold end_only_when_off, _mdns_search_run, _mdns_send_search_action.
  intros H.
  destruct (negb (listed q)); [exact H|].
  destruct (search_state_eqb (s_state (search q)) SEARCH_OFF) eqn:E;
    [exact H|].
  assert (Hno : ~ In ACTION_SEARCH_END (action_queue q)).
  { intros Hin. apply H in Hin. apply search_state_eqb_eq in Hin.
    congruence. }
  destruct (now >? _).
  - destruct ok; cbn [action_queue search with_search with_search_state
                       s_state]; [reflexivity|tauto].
  - destruct (_ || _); [|exact H].
    destruct ok; cbn [action_queue search with_search with_search_state
                        s_state]; [|tauto].
    intros Hin. apply in_app_or in Hin. destruct Hin as [Hin|Hin];
      [tauto|]. simpl in Hin. destruct Hin as [Hin|[]]. discriminate.
Qed.

Lemma end_only_when_off_step q e :
  end_only_when_off q -> end_only_when_off (step q e).
Proof.
  destruct e as [now ok| |records auth]; cbn [query_step].
  - apply end_only_when_off_search_run.
  - unfold end_only_when_off, execute_action. intros H.
    destruct (action_queue q) as [|a rest] eqn:Eq; [rewrite Eq; exact H|].
    destruct a; cbn [_mdns_search_add _mdns_search_finish action_queue
                       search with_search_state s_state];
      try reflexivity; intros Hin; apply H; right; exact Hin.
  - intros H.
    match goal with |- context [if ?c then ?a else q] =>
      set (q1 := if c then a else q) end.
    assert (H1 : end_only_when_off q1).
    { subst q1. destruct (_ && _); [|exact H].
      destruct (fold_result_add_extends _mdns_get_esp_netif records (search q))
        as (_ & Hs & _).
      unfold end_only_when_off in *. cbn [with_search action_queue search].
      rewrite Hs. exact H. }
    destruct auth; [|exact H1].
    unfold _mdns_search_finish_done.
    destruct (_ && _ && _); [|exact H1].
    unfold end_only_when_off. intros _. reflexivity.
Qed.

Lemma end_only_when_off_run evs :
  forall q, end_only_when_off q -> end_only_when_off (fold_left step evs q).
Proof.
  induction evs as [|e evs IH]; intros q H; simpl; [exact H|].
  apply IH. apply end_only_when_off_step. exact H.
Qed.

(** The service task works the queue off: the actions before the END
    action leave the semaphore alone, the END action gives it. *)
Lemma execute_until_end old :
  forall q,
    done_semaphore q = false ->
    ~ In ACTION_SEARCH_END old ->
    action_queue q = old ++ [ACTION_SEARCH_END] ->
    exists q',
      wait_done _mdns_get_esp_netif q
        (repeat Ev_action (S (List.length old))) = Some q'
      /\ result (search q') = result (search q).
Proof.
  induction old as [|a old IH]; intros q Hd Hno Hq.
  - cbn [List.length repeat wait_done]. rewrite Hd.
    cbn [query_step]. unfold execute_action. rewrite Hq. cbn [app].
    cbn [_mdns_search_finish done_semaphore].
    eexists. split; [reflexivity|reflexivity].
  - cbn [List.length]. change (repeat Ev_action (S (S (List.length old))))
      with (Ev_action :: repeat Ev_action (S (List.length old))).
    cbn [wait_done]. rewrite Hd. cbn [query_step].
    assert (Ha : a <> ACTION_SEARCH_END) by (intros ->; apply Hno; left; reflexivity).
    assert (Hno' : ~ In ACTION_SEARCH_END old) by (intros H; apply Hno; right; exact H).
    destruct (IH (execute_action q)) as (q' & Hw & Hr).
    + unfold execute_action. rewrite Hq. cbn [app].
      destruct a; try congruence; exact Hd.
    + exact Hno'.
    + unfold execute_action. rewrite Hq. cbn [app].
      destruct a; try congruence; reflexivity.
    + exists q'. split; [exact Hw|]. rewrite Hr.
      unfold execute_action. rewrite Hq. cbn [app].
      destruct a; try congruence; reflexivity.
Qed.


Lemma no_results_run evs :
  forall q,
    forallb no_record evs = true -> no_results q ->
    no_results (fold_left step evs q).
Proof.
  induction evs as [|e l IH]; intros q Hev Hq; simpl; [exact Hq|].
  simpl in Hev. apply andb_true_iff in Hev. destruct Hev as [He Hev].
  apply IH; [exact Hev|apply no_results_step; assumption].
Qed.

(** C8.  A synchronous query whose arguments are accepted and whose search
    gets no record returns [ESP_OK] with [*results] empty whenever it
    returns; and it does return once its timeout is over: when the timer
    task runs [_mdns_search_run] at a time later than
    [started_at + timeout] on the search, still linked and not OFF, and the
    service task then works off the actions queued for it, the caller gets
    [ESP_OK] and no results. *)
Theorem C8_query_timeout_empty_success :
  forall name service proto type unicast timeout max_results now0 evs,
    u32 timeout <> 0 ->
    _str_null_or_empty service = _str_null_or_empty proto ->
    forallb no_record evs = true ->
    let q0 := queued_query (_mdns_search_init name service proto type unicast
                              timeout max_results now0) in
    let q := fold_left step evs q0 in
    (forall r,
        mdns_query_generic _mdns_get_esp_netif true name service proto type
          unicast timeout max_results now0 true evs = Some r ->
        r = (Services.ESP_OK, []))
    /\ (forall now,
           listed q = true ->
           s_state (search q) <> SEARCH_OFF ->
           now > u32 (started_at (search q) + Search.timeout (search q)) ->
           mdns_query_generic _mdns_get_esp_netif true name service proto type
             unicast timeout max_results now0 true
             (evs ++ Ev_timer now true
                  :: repeat Ev_action (S (List.length (action_queue q))))
           = Some (Services.ESP_OK, [])).
Proof.
  intros name service proto type unicast timeout max_results now0 evs
         Ht Hsp Hev q0 q.
  assert (Hgen : forall l,
             mdns_query_generic _mdns_get_esp_netif true name service proto
               type unicast timeout max_results now0 true l
             = match wait_done _mdns_get_esp_netif q0 l with
               | Some q' => Some (Services.ESP_OK, result (search q'))
               | None => None
               end).
  { intros l. unfold mdns_query_generic. cbn [negb].
    apply Z.eqb_neq in Ht. rewrite Ht, Hsp, Bool.eqb_reflx. reflexivity. }
  assert (H0 : no_results q0) by (split; reflexivity).
  split.
  - intros r Hr. rewrite Hgen in Hr.
    destruct (wait_done _mdns_get_esp_netif q0 evs) as [q'|] eqn:Ew;
      [|discriminate].
    injection Hr as <-.
    destruct (wait_done_no_results evs q0 q' Hev H0 Ew) as [-> _].
    reflexivity.
  - intros now Hl Hs Hnow. rewrite Hgen, wait_done_app.
    destruct (wait_done _mdns_get_esp_netif q0 evs) as [q'|] eqn:Ew.
    + destruct (wait_done_no_results evs q0 q' Hev H0 Ew) as [-> _].
      reflexivity.
    + fold q.
      assert (Hd : done_semaphore q = false) by (apply wait_done_none; exact Ew).
      assert (Hk : end_only_when_off q).
      { apply end_only_when_off_run. unfold end_only_when_off.
        cbn [q0 queued_query action_queue In].
        intros [H|[]]; discriminate. }
      assert (Hno : ~ In ACTION_SEARCH_END (action_queue q))
        by (intros Hin; apply Hs; apply Hk; exact Hin).
      assert (Hq : no_results q).
      { apply no_results_run; assumption. }
      cbn [wait_done]. rewrite Hd.
      set (q1 := step q (Ev_timer now true)).
      assert (E1 : action_queue q1 = action_queue q ++ [ACTION_SEARCH_END]
                   /\ done_semaphore q1 = false
                   /\ result (search q1) = result (search q)).
      { subst q1. cbn [query_step]. unfold _mdns_search_run.
        rewrite Hl. cbn [negb].
        destruct (search_state_eqb (s_state (search q)) SEARCH_OFF) eqn:Eo;
          [apply search_state_eqb_eq in Eo; contradiction|].
        assert (Hgt : (now >? u32 (started_at (search q)
                                   + Search.timeout (search q))) = true)
          by (apply Z.gtb_lt; lia).
        rewrite Hgt. cbn. auto. }
      destruct E1 as (Eq & Ed & Er).
      destruct (execute_until_end (action_queue q) q1 Ed Hno Eq)
        as (q' & Hw & Hr).
      rewrite Hw. rewrite Hr, Er. destruct Hq as [-> _]. reflexivity.
Qed.

End Timeout.


(** A PTR query for [_http._tcp] with a timeout of 3000 ms, started at time
    0: it is linked, sent at 100 ms and again at 1200 ms, and nobody
    answers. *)
Definition demo_wait : list query_event :=
  [Ev_action; Ev_timer 100 true; Ev_action; Ev_timer 1200 true].

Definition demo_sync_query (evs : list query_event)
  : option (Services.esp_err_t * list mdns_result_t) :=
  mdns_query_generic demo_netif true None (Some "_http"%string)
    (Some "_tcp"%string) MDNS_TYPE_PTR false 3000 20 0 true evs.

Lemma C8_query_timeout_empty_success_witness :
  demo_sync_query demo_wait = None
  /\ demo_sync_query (demo_wait ++ Ev_timer 3001 true :: repeat Ev_action 2)
     = Some (Services.ESP_OK, []).
Proof.
  split; [vm_compute; reflexivity|].
  destruct (C8_query_timeout_empty_success demo_netif None
              (Some "_http"%string) (Some "_tcp"%string) MDNS_TYPE_PTR false
              3000 20 0 demo_wait) as [_ H].
  - vm_compute. discriminate.
  - reflexivity.
  - reflexivity.
  - apply (H 3001).
    + vm_compute. reflexivity.
    + vm_compute. discriminate.
    + vm_compute. reflexivity.
Defined.

End Search.

(** ** Received packets: the checks before parsing *)

Module Rx.

Import CStr Model.

(** Modelled from the spec: the offsets of the header fields
    (mdns_private.h): id, flags and the four counts, two bytes each. *)
Definition MDNS_HEAD_LEN : Z := 12.
Definition MDNS_HEAD_ID_OFFSET : Z := 0.
Definition MDNS_HEAD_FLAGS_OFFSET : Z := 2.
Definition MDNS_HEAD_QUESTIONS_OFFSET : Z := 4.
Definition MDNS_HEAD_ANSWERS_OFFSET : Z := 6.
Definition MDNS_HEAD_SERVERS_OFFSET : Z := 8.
Definition MDNS_HEAD_ADDITIONAL_OFFSET : Z := 10.

(** [_mdns_read_u16]. *)
Definition _mdns_read_u16 (packet : Codec.mem) (index : Z) : Z :=
  u16 (Z.lor (Z.shiftl (Codec.rd packet index) 8)
             (Codec.rd packet (index + 1))).

(** Modelled from the spec: [mdns_rx_packet_t] (mdns_private.h), with the
    payload [data] of [len] bytes; addresses are numbers. *)
Record mdns_rx_packet_t : Type := {
  rx_tcpip_if : nat;
  rx_ip_protocol : nat;
  src : Z;
  src_port : Z;
  multicast : bool;
  data : Codec.mem;
  len : Z
}.

(** Modelled from the spec: [mdns_header_t] (mdns_private.h). *)
Record mdns_header_t : Type := {
  h_id : Z;
  h_flags : Z;
  h_questions : Z;
  h_answers : Z;
  h_servers : Z;
  h_additional : Z
}.

Definition read_header (data : Codec.mem) : mdns_header_t :=
  {| h_id := _mdns_read_u16 data MDNS_HEAD_ID_OFFSET;
     h_flags := _mdns_read_u16 data MDNS_HEAD_FLAGS_OFFSET;
     h_questions := _mdns_read_u16 data MDNS_HEAD_QUESTIONS_OFFSET;
     h_answers := _mdns_read_u16 data MDNS_HEAD_ANSWERS_OFFSET;
     h_servers := _mdns_read_u16 data MDNS_HEAD_SERVERS_OFFSET;
     h_additional := _mdns_read_u16 data MDNS_HEAD_ADDITIONAL_OFFSET |}.

(** How far [mdns_parse_packet] gets with a packet. *)
Inductive parse_gate : Type :=
| Own_packet
| Too_short
| Response_from_other_port
| No_hostname
| Parse (header : mdns_header_t).

Section ParsePacket.

(** Modelled from the spec: the address of the interface for the protocol
    of the packet ([esp_netif_get_ip_info] for IPv4,
    [esp_netif_get_ip6_linklocal] for IPv6); [None] when the call fails. *)
Variable own_address : nat -> nat -> option Z.

(** The rest of [mdns_parse_packet], from the copy of the packet fields
    into [parsed_packet] on: questions and records are parsed, searches get
    their results, answers are planned and sent. *)
Variable parse_questions_and_records :
  mdns_server_t -> mdns_header_t -> mdns_rx_packet_t -> mdns_server_t.

(** The checks at the head of [mdns_parse_packet], in the order of the
    code (with CONFIG_MDNS_SKIP_SUPPRESSING_OWN_QUERIES not set). *)
Definition parse_packet_gate (s : mdns_server_t) (packet : mdns_rx_packet_t)
  : parse_gate :=
  let sent_by_us :=
    match own_address (rx_tcpip_if packet) (rx_ip_protocol packet) with
    | Some a =>
        ((rx_ip_protocol packet =? MDNS_IP_PROTOCOL_V4)%nat
         || (rx_ip_protocol packet =? MDNS_IP_PROTOCOL_V6)%nat)
        && (a =? src packet)
    | None => false
    end in
  if sent_by_us then Own_packet
  else if len packet <=? MDNS_HEAD_ADDITIONAL_OFFSET then Too_short
  else
    let header := read_header (data packet) in
    if (h_flags header =? MDNS_FLAGS_QR_AUTHORITATIVE)
       && negb (src_port packet =? MDNS_SERVICE_PORT)
    then Response_from_other_port
    else if negb (h_questions header =? 0)
            && (h_answers header =? 0)
            && _str_null_or_empty (srv_hostname s)
    then No_hostname
    else Parse header.

(** [mdns_parse_packet]. *)
Definition mdns_parse_packet (s : mdns_server_t) (packet : mdns_rx_packet_t)
  : mdns_server_t :=
  match parse_packet_gate s packet with
  | Parse header => parse_questions_and_records s header packet
  | _ => s
  end.

End ParsePacket.


(** C10.  While the hostname of the server is null or empty, a received
    packet whose header counts questions and no answers never gets past the
    checks at the head of [mdns_parse_packet]: whatever the rest of the
    function would do with its questions and records is not run and the
    server is left as it was, so none of its questions is answered.  A
    packet of that kind that passes the earlier checks (not sent by
    ourselves, longer than the header offset, not a response from another
    port) is dropped by the hostname check itself. *)
Theorem C10_no_hostname_drops_questions
  (own_address : nat -> nat -> option Z) :
  forall s packet,
    _str_null_or_empty (srv_hostname s) = true ->
    _mdns_read_u16 (data packet) MDNS_HEAD_QUESTIONS_OFFSET <> 0 ->
    _mdns_read_u16 (data packet) MDNS_HEAD_ANSWERS_OFFSET = 0 ->
    (forall header, parse_packet_gate own_address s packet <> Parse header)
    /\ (forall parse_questions_and_records,
           mdns_parse_packet own_address parse_questions_and_records s packet
           = s)
    /\ (own_address (rx_tcpip_if packet) (rx_ip_protocol packet)
        <> Some (src packet) ->
        MDNS_HEAD_ADDITIONAL_OFFSET < len packet ->
        _mdns_read_u16 (data packet) MDNS_HEAD_FLAGS_OFFSET
        <> MDNS_FLAGS_QR_AUTHORITATIVE
        \/ src_port packet = MDNS_SERVICE_PORT ->
        parse_packet_gate own_address s packet = No_hostname).
Proof.
  intros s packet Hh Hq Ha.
  assert (G : forall header,
             parse_packet_gate own_address s packet <> Parse header).
  { intros header. unfold parse_packet_gate.
    destruct (match own_address _ _ with Some _ => _ | None => false end);
      [discriminate|].
    destruct (len packet <=? MDNS_HEAD_ADDITIONAL_OFFSET); [discriminate|].
    destruct (_ && negb _); [discriminate|].
    cbn [read_header h_questions h_answers].
    rewrite Ha, Hh. apply Z.eqb_neq in Hq. rewrite Hq. discriminate. }
  split; [exact G|]. split.
  - intros body. unfold mdns_parse_packet.
    destruct (parse_packet_gate own_address s packet) eqn:E;
      try reflexivity.
    exfalso. exact (G header eq_refl).
  - intros Hown Hlen Hport. unfold parse_packet_gate.
    assert (E1 : match own_address (rx_tcpip_if packet) (rx_ip_protocol packet)
                 with
                 | Some a =>
                     ((rx_ip_protocol packet =? MDNS_IP_PROTOCOL_V4)%nat
                      || (rx_ip_protocol packet =? MDNS_IP_PROTOCOL_V6)%nat)
                     && (a =? src packet)
                 | None => false
                 end = false).
    { destruct (own_address _ _) as [a|]; [|reflexivity].
      assert (a <> src packet) by congruence.
      apply Z.eqb_neq in H. rewrite H. apply andb_false_r. }
    rewrite E1.
    assert (E2 : (len packet <=? MDNS_HEAD_ADDITIONAL_OFFSET) = false)
      by (apply Z.leb_gt; exact Hlen).
    rewrite E2. cbn [read_header h_flags h_questions h_answers].
    assert (E3 : (_mdns_read_u16 (data packet) MDNS_HEAD_FLAGS_OFFSET
                  =? MDNS_FLAGS_QR_AUTHORITATIVE)
                 && negb (src_port packet =? MDNS_SERVICE_PORT) = false).
    { destruct Hport as [Hf|Hp].
      - apply Z.eqb_neq in Hf. rewrite Hf. reflexivity.
      - apply Z.eqb_eq in Hp. rewrite Hp. apply andb_false_r. }
    rewrite E3, Ha, Hh. apply Z.eqb_neq in Hq. rewrite Hq. reflexivity.
Qed.

(** A query for the PTR records of [_http._tcp.local], one question and no
    answer, from port 5353 of another host. *)
Definition demo_question_bytes : list Z :=
  [0; 0; 0; 0; 0; 1; 0; 0; 0; 0; 0; 0;
   5; 95; 104; 116; 116; 112; 4; 95; 116; 99; 112;
   5; 108; 111; 99; 97; 108; 0; 0; 12; 0; 1].

Definition demo_rx_packet : mdns_rx_packet_t :=
  {| rx_tcpip_if := 0; rx_ip_protocol := 0; src := 3232235777;
     src_port := 5353; multicast := true;
     data := Codec.mem_of_list demo_question_bytes;
     len := Z.of_nat (List.length demo_question_bytes) |}.

Definition demo_own_address (_ _ : nat) : option Z := Some 3232235778.

(** A stand-in for the rest of the parser: it sends something. *)
Definition demo_parse_rest (s : mdns_server_t) (_ : mdns_header_t)
  (p : mdns_rx_packet_t) : mdns_server_t :=
  with_wire s (_mdns_alloc_packet_default (rx_tcpip_if p) (rx_ip_protocol p)
               :: wire s).

Example parse_with_hostname :
  parse_packet_gate demo_own_address
    (with_hostname server_init (Some "alpha"%string)) demo_rx_packet
  = Parse {| h_id := 0; h_flags := 0; h_questions := 1; h_answers := 0;
             h_servers := 0; h_additional := 0 |}.
Proof. vm_compute. reflexivity. Qed.

Lemma C10_no_hostname_drops_questions_witness :
  parse_packet_gate demo_own_address server_init demo_rx_packet = No_hostname
  /\ wire (mdns_parse_packet demo_own_address demo_parse_rest server_init
             demo_rx_packet) = [].
Proof.
  destruct (C10_no_hostname_drops_questions demo_own_address server_init
              demo_rx_packet) as (_ & Hs & Hg).
  - reflexivity.
  - vm_compute. discriminate.
  - vm_compute. reflexivity.
  - split.
    + apply Hg.
      * vm_compute. discriminate.
      * vm_compute. reflexivity.
      * right. reflexivity.
    + rewrite Hs. reflexivity.
Defined.

End Rx.

(** ** Answering queries: known answers *)

Module Responder.

Import CStr Model TxQueue Services.

(** Modelled from the spec: [mdns_parsed_question_t],
    [mdns_parsed_record_t] and [mdns_parsed_packet_t] (mdns_private.h); the
    fields are those [mdns_parse_packet] assigns. *)
Record mdns_parsed_question_t : Type := {
  pq_type : Z;
  pq_unicast : bool;
  pq_sub : bool;
  pq_host : option string;
  pq_service : option string;
  pq_proto : option string;
  pq_domain : option string
}.

Record mdns_parsed_record_t : Type := {
  pr_type : Z;
  pr_ttl : Z;
  pr_host : option string;
  pr_service : option string;
  pr_proto : option string
}.

Record mdns_parsed_packet_t : Type := {
  pp_tcpip_if : nat;
  pp_ip_protocol : nat;
  pp_multicast : bool;
  pp_authoritative : bool;
  pp_probe : bool;
  pp_discovery : bool;
  pp_distributed : bool;
  pp_questions : list mdns_parsed_question_t;
  pp_records : list mdns_parsed_record_t;
  pp_id : Z;
  pp_src : Z;
  pp_src_port : Z
}.

Definition with_pp_questions (p : mdns_parsed_packet_t)
  (l : list mdns_parsed_question_t) : mdns_parsed_packet_t :=
  {| pp_tcpip_if := pp_tcpip_if p; pp_ip_protocol := pp_ip_protocol p;
     pp_multicast := pp_multicast p; pp_authoritative := pp_authoritative p;
     pp_probe := pp_probe p; pp_discovery := pp_discovery p;
     pp_distributed := pp_distributed p; pp_questions := l;
     pp_records := pp_records p; pp_id := pp_id p; pp_src := pp_src p;
     pp_src_port := pp_src_port p |}.

Definition with_pp_records (p : mdns_parsed_packet_t)
  (l : list mdns_parsed_record_t) : mdns_parsed_packet_t :=
  {| pp_tcpip_if := pp_tcpip_if p; pp_ip_protocol := pp_ip_protocol p;
     pp_multicast := pp_multicast p; pp_authoritative := pp_authoritative p;
     pp_probe := pp_probe p; pp_discovery := pp_discovery p;
     pp_distributed := pp_distributed p; pp_questions := pp_questions p;
     pp_records := l; pp_id := pp_id p; pp_src := pp_src p;
     pp_src_port := pp_src_port p |}.

Definition with_pp_flags (p : mdns_parsed_packet_t) (probe discovery : bool)
  : mdns_parsed_packet_t :=
  {| pp_tcpip_if := pp_tcpip_if p; pp_ip_protocol := pp_ip_protocol p;
     pp_multicast := pp_multicast p; pp_authoritative := pp_authoritative p;
     pp_probe := probe; pp_discovery := discovery;
     pp_distributed := pp_distributed p; pp_questions := pp_questions p;
     pp_records := pp_records p; pp_id := pp_id p; pp_src := pp_src p;
     pp_src_port := pp_src_port p |}.

(** A character array of a parsed name as a C string argument; and
    [_mdns_strdup_check]: an empty array gives [NULL]. *)
Definition nonempty (str : string) : bool :=
  negb (_str_null_or_empty (Some str)).

Definition _mdns_strdup_check (str : string) : option string :=
  if nonempty str then Some str else None.

(** [_hostname_is_ours]. *)
Definition _hostname_is_ours (s : mdns_server_t) (hostname : string) : bool :=
  (negb (_str_null_or_empty (srv_hostname s))
   && match srv_hostname s with
      | Some own => strcaseeq hostname own
      | None => false
      end)
  || existsb (fun h => strcaseeq hostname (host_hostname h)) (host_list s).

(** [_mdns_get_service_item_subtype]. *)
Definition _mdns_get_service_item_subtype (s : mdns_server_t)
  (subtype service proto : string) : option mdns_service_t :=
  find (fun srv =>
          _mdns_service_match srv (Some service) (Some proto) None
          && existsb (fun x => strcaseeq x subtype) (Model.subtype srv))
       (services s).

(** [_mdns_name_is_discovery]. *)
Definition _mdns_name_is_discovery (name : Codec.mdns_name_t) (type : Z)
  : bool :=
  (nonempty (Codec.host name) && strcaseeq (Codec.host name) "_services")
  && (nonempty (Codec.service name)
      && strcaseeq (Codec.service name) "_dns-sd")
  && (nonempty (Codec.proto name) && strcaseeq (Codec.proto name) "_udp")
  && (nonempty (Codec.domain name)
      && strcaseeq (Codec.domain name) MDNS_DEFAULT_DOMAIN)
  && (type =? MDNS_TYPE_PTR).

Section Parse.

Variable CONFIG_MDNS_RESPOND_REVERSE_QUERIES : bool.

(** [_mdns_name_is_ours]. *)
Definition _mdns_name_is_ours (s : mdns_server_t) (name : Codec.mdns_name_t)
  : bool :=
  let host := Codec.host name in
  let service := Codec.service name in
  let proto := Codec.proto name in
  let is_sub := negb (Codec.sub name =? 0) in
  if negb (nonempty (Codec.domain name))
     || (negb (strcaseeq (Codec.domain name) MDNS_DEFAULT_DOMAIN)
         && (negb CONFIG_MDNS_RESPOND_REVERSE_QUERIES
             || negb (strcaseeq (Codec.domain name) "arpa")))
  then false
  else if negb (nonempty service) && negb (nonempty proto) then
    nonempty host
    && negb (_str_null_or_empty (srv_hostname s))
    && _hostname_is_ours s host
  else if negb (nonempty service) || negb (nonempty proto) then false
  else
    let found :=
      if is_sub then _mdns_get_service_item_subtype s host service proto
      else if negb (nonempty host)
      then _mdns_get_service_item s (Some service) (Some proto) None
      else _mdns_get_service_item_instance s (Some host) (Some service)
             (Some proto) None in
    match found with
    | None => false
    | Some srv =>
        if is_sub || negb (nonempty host) then true
        else
          match _mdns_get_service_instance_name s srv with
          | None => false
          | Some instance => strcaseeq host instance
          end
    end.


(** One entry of the question section, its name already read by
    [_mdns_parse_fqdn]: the body of the [while (qs--)] loop of
    [mdns_parse_packet]. *)
Definition parse_question (s : mdns_server_t) (pp : mdns_parsed_packet_t)
  (name : Codec.mdns_name_t) (type mdns_class : Z) : mdns_parsed_packet_t :=
  let unicast := negb (Z.land mdns_class 32768 =? 0) in
  let mdns_class := Z.land mdns_class 32767 in
  if negb (mdns_class =? 1) || Codec.invalid name then pp
  else if _mdns_name_is_discovery name type then
    with_pp_questions (with_pp_flags pp (pp_probe pp) true)
      (fold_left
         (fun qs a =>
            {| pq_type := MDNS_TYPE_SDPTR; pq_unicast := unicast;
               pq_sub := false; pq_host := None;
               pq_service := Some (Model.service a);
               pq_proto := Some (Model.proto a);
               pq_domain := Some MDNS_DEFAULT_DOMAIN |} :: qs)
         (services s) (pp_questions pp))
  else if negb (_mdns_name_is_ours s name) then pp
  else
    let probe :=
      if (type =? MDNS_TYPE_ANY) && nonempty (Codec.host name) then true
      else pp_probe pp in
    with_pp_questions (with_pp_flags pp probe (pp_discovery pp))
      ({| pq_type := type; pq_unicast := unicast;
          pq_sub := negb (Codec.sub name =? 0);
          pq_host := _mdns_strdup_check (Codec.host name);
          pq_service := _mdns_strdup_check (Codec.service name);
          pq_proto := _mdns_strdup_check (Codec.proto name);
          pq_domain := _mdns_strdup_check (Codec.domain name) |}
       :: pp_questions pp).

(** [_mdns_question_matches], for a service that is not [NULL]. *)
Definition _mdns_question_matches (s : mdns_server_t)
  (question : mdns_parsed_question_t) (type : Z) (srv : mdns_service_t)
  : bool :=
  if negb (pq_type question =? type) then false
  else if (type =? MDNS_TYPE_A) || (type =? MDNS_TYPE_AAAA) then true
  else if (type =? MDNS_TYPE_PTR) || (type =? MDNS_TYPE_SDPTR) then
    match pq_service question, pq_proto question, pq_domain question with
    | Some qs, Some qp, Some qd =>
        strcaseeq (Model.service srv) qs
        && strcaseeq (Model.proto srv) qp
        && strcaseeq MDNS_DEFAULT_DOMAIN qd
        && match Model.instance srv with
           | None => true
           | Some inst =>
               match pq_host question with
               | Some h => strcaseeq inst h
               | None => false
               end
           end
    | _, _, _ => false
    end
  else if (type =? MDNS_TYPE_SRV) || (type =? MDNS_TYPE_TXT) then
    match _mdns_get_service_instance_name s srv, pq_host question,
          pq_service question, pq_proto question, pq_domain question with
    | Some name, Some qh, Some qs, Some qp, Some qd =>
        strcaseeq name qh
        && strcaseeq (Model.service srv) qs
        && strcaseeq (Model.proto srv) qp
        && strcaseeq MDNS_DEFAULT_DOMAIN qd
    | _, _, _, _, _ => false
    end
  else false.

(** [_mdns_remove_parsed_question]: the first question that matches is
    unlinked.  (The code reads the head of the list without a test; on an
    empty list nothing is modelled to happen.) *)
Definition _mdns_remove_parsed_question (s : mdns_server_t)
  (pp : mdns_parsed_packet_t) (type : Z) (srv : mdns_service_t)
  : mdns_parsed_packet_t :=
  with_pp_questions pp
    (remove_first (fun q => _mdns_question_matches s q type srv)
                  (pp_questions pp)).

(** [_mdns_remove_scheduled_answer], for a service that is not [NULL]: in
    every queued packet of the interface and protocol that is marked
    distributed, the first answer of the type and service is removed. *)
Definition _mdns_remove_scheduled_answer (s : mdns_server_t)
  (tcpip_if ip_protocol : nat) (type : Z) (srv : mdns_service_t)
  : mdns_server_t :=
  with_tx_queue s
    (map (fun q =>
            if (Model.tcpip_if q =? tcpip_if)%nat
               && (Model.ip_protocol q =? ip_protocol)%nat
               && distributed q
            then with_lists q
                   (remove_first
                      (fun a => (a_type a =? type)
                                && opt_eqb Nat.eqb (a_service a)
                                     (Some (srv_addr srv)))
                      (answers q))
                   (servers q) (additional q)
            else q)
         (tx_queue_head s)).

(** One PTR record of the answer, authority or additional section while no
    search and no browse is running: the part of the record loop of
    [mdns_parse_packet] that a record of type PTR goes through.  [name] is
    the owner name, [rdata] the name in the record data ([None] when
    [_mdns_parse_fqdn] fails on it), [flags] the header flags and [is_ns]
    tells whether the record lies in the authority section. *)
Definition parse_ptr_record (s : mdns_server_t) (pp : mdns_parsed_packet_t)
  (flags : Z) (is_ns : bool) (name : Codec.mdns_name_t) (ttl : Z)
  (rdata : option Codec.mdns_name_t) : mdns_server_t * mdns_parsed_packet_t :=
  let discovery := pp_discovery pp && _mdns_name_is_discovery name MDNS_TYPE_PTR in
  let ours :=
    negb discovery && (Codec.sub name =? 0) && _mdns_name_is_ours s name in
  if negb discovery && negb ours
     && ((Z.land flags MDNS_FLAGS_QUERY_REPSONSE =? 0) || is_ns)
  then (s, pp)                                   (* skip this record *)
  else
    match rdata with
    | None => (s, pp)
    | Some name =>
        if (discovery || ours) && (Codec.sub name =? 0)
           && _mdns_name_is_ours s name
        then
          let service :=
            if nonempty (Codec.host name)
            then _mdns_get_service_item_instance s (Some (Codec.host name))
                   (Some (Codec.service name)) (Some (Codec.proto name)) None
            else _mdns_get_service_item s (Some (Codec.service name))
                   (Some (Codec.proto name)) None in
          match service with
          | None => (s, pp)
          | Some srv =>
              let '(s1, pp1) :=
                if discovery
                then (s, _mdns_remove_parsed_question s pp MDNS_TYPE_SDPTR srv)
                else if match pp_questions pp with [] => false | _ => true end
                        && negb (pp_probe pp)
                then (s, _mdns_remove_parsed_question s pp MDNS_TYPE_PTR srv)
                else if ttl >? MDNS_ANSWER_PTR_TTL / 2
                then (_mdns_remove_scheduled_answer s (pp_tcpip_if pp)
                        (pp_ip_protocol pp) MDNS_TYPE_PTR srv, pp)
                else (s, pp) in
              (s1,
               with_pp_records pp1
                 ({| pr_type := MDNS_TYPE_PTR; pr_ttl := ttl;
                     pr_host := _mdns_strdup_check (Codec.host name);
                     pr_service := _mdns_strdup_check (Codec.service name);
                     pr_proto := _mdns_strdup_check (Codec.proto name) |}
                  :: pp_records pp1))
          end
        else (s, pp)
    end.


(** *** Planning the answers *)

(** [_mdns_alloc_answer] on [packet->additional] or [packet->answers], as
    [_mdns_create_answer_from_service] selects the list. *)
Definition add_answer (service : option srv_ref) (to_additional : bool)
  (p : mdns_tx_packet_t) (type : Z) (h : option host_ref) (flush : bool)
  : mdns_tx_packet_t :=
  if to_additional
  then with_lists p (answers p) (servers p)
         (_mdns_alloc_answer (additional p) type service h flush false)
  else with_lists p
         (_mdns_alloc_answer (answers p) type service h flush false)
         (servers p) (additional p).

(** [_mdns_create_answer_from_service]. *)
Definition _mdns_create_answer_from_service (s : mdns_server_t)
  (packet : mdns_tx_packet_t) (srv : mdns_service_t)
  (question : mdns_parsed_question_t) (shared send_flush : bool)
  : mdns_tx_packet_t :=
  let host := mdns_get_host_item s (Model.hostname srv) in
  let is_delegated := negb (opt_eqb host_ref_eqb host (Some HOST_SELF)) in
  let add := add_answer (Some (srv_addr srv)) in
  if (pq_type question =? MDNS_TYPE_PTR) || (pq_type question =? MDNS_TYPE_ANY)
  then
    let p := add false packet MDNS_TYPE_PTR None false in
    let p := add is_delegated p MDNS_TYPE_SRV None send_flush in
    let p := add is_delegated p MDNS_TYPE_TXT None send_flush in
    let p := add (shared || is_delegated) p MDNS_TYPE_A host send_flush in
    add (shared || is_delegated) p MDNS_TYPE_AAAA host send_flush
  else if pq_type question =? MDNS_TYPE_SRV then
    let p := add false packet MDNS_TYPE_SRV None send_flush in
    let p := add true p MDNS_TYPE_A host send_flush in
    add true p MDNS_TYPE_AAAA host send_flush
  else if pq_type question =? MDNS_TYPE_TXT then
    add false packet MDNS_TYPE_TXT None send_flush
  else if pq_type question =? MDNS_TYPE_SDPTR then
    add false packet MDNS_TYPE_SDPTR None false
  else packet.

(** [_mdns_create_answer_from_hostname]. *)
Definition _mdns_create_answer_from_hostname (s : mdns_server_t)
  (packet : mdns_tx_packet_t) (hostname : option string) (send_flush : bool)
  : mdns_tx_packet_t :=
  let host := mdns_get_host_item s hostname in
  with_lists packet
    (_mdns_alloc_answer
       (_mdns_alloc_answer (answers packet) MDNS_TYPE_A None host send_flush
          false)
       MDNS_TYPE_AAAA None host send_flush false)
    (servers packet) (additional packet).

(** [_mdns_append_host_list]: the loop over the delegated hosts steps to
    the next item before it appends, so the first item is left out and the
    last step appends the [NULL] host. *)
Definition _mdns_append_host_list (s : mdns_server_t)
  (destination : list mdns_out_answer_t) (flush bye : bool)
  : list mdns_out_answer_t :=
  let d :=
    if negb (_str_null_or_empty (srv_hostname s))
    then _mdns_append_host destination
           (mdns_get_host_item s (srv_hostname s)) flush bye
    else destination in
  match host_list s with
  | [] => d
  | _ :: rest =>
      fold_left (fun d h => _mdns_append_host d h flush bye)
        (map (fun h => Some (HOST_DELEGATED (host_addr h))) rest ++ [None]) d
  end.

(** [_mdns_service_match_ptr_question]. *)
Definition _mdns_service_match_ptr_question (s : mdns_server_t)
  (srv : mdns_service_t) (question : mdns_parsed_question_t) : bool :=
  if negb (_mdns_service_match srv (pq_service question) (pq_proto question)
             None)
  then false
  else if pq_sub question then
    match pq_host question with
    | Some h => existsb (fun x => strcaseeq x h) (Model.subtype srv)
    | None => false
    end
  else
    match pq_host question with
    | Some h =>
        match _mdns_get_service_instance_name s srv with
        | Some name => strcaseeq name h
        | None => false
        end
    | None => true
    end.

(** The scan of [parsed_packet->records] in
    [_mdns_create_answer_from_parsed_packet]: [is_record_exist]. *)
Definition is_record_exist (s : mdns_server_t) (srv : mdns_service_t)
  (records : list mdns_parsed_record_t) : bool :=
  existsb
    (fun r =>
       match Model.instance srv, pr_host r with
       | Some _, Some h =>
           _mdns_service_match_instance s srv (Some h) (pr_service r)
             (pr_proto r) None
           && (pr_ttl r >? MDNS_ANSWER_PTR_TTL / 2)
       | None, None =>
           _mdns_service_match srv (pr_service r) (pr_proto r) None
           && (pr_ttl r >? MDNS_ANSWER_PTR_TTL / 2)
       | _, _ => false
       end)
    records.

(** The branches of the loop of [_mdns_create_answer_from_parsed_packet]
    for a question without service or protocol: address questions, ANY,
    reverse PTR questions, and any other type. *)
Definition answer_host_question (s : mdns_server_t)
  (packet : mdns_tx_packet_t) (q : mdns_parsed_question_t)
  (send_flush : bool) : mdns_tx_packet_t :=
  if (pq_type q =? MDNS_TYPE_A) || (pq_type q =? MDNS_TYPE_AAAA) then
    _mdns_create_answer_from_hostname s packet (pq_host q) send_flush
  else if pq_type q =? MDNS_TYPE_ANY then
    with_lists packet
      (_mdns_append_host_list s (answers packet) send_flush false)
      (servers packet) (additional packet)
  else if CONFIG_MDNS_RESPOND_REVERSE_QUERIES
          && (pq_type q =? MDNS_TYPE_PTR) then
    with_lists packet
      (_mdns_alloc_answer (answers packet) MDNS_TYPE_PTR None
         (mdns_get_host_item s (pq_host q)) send_flush false)
      (servers packet) (additional packet)
  else
    with_lists packet
      (_mdns_alloc_answer (answers packet) (pq_type q) None None
         send_flush false)
      (servers packet) (additional packet).

(** What the loop over the questions carries along. *)
Record answer_state : Type := {
  as_packet : mdns_tx_packet_t;
  out_record_nums : Z;
  as_unicast : bool;
  as_shared : bool
}.

(** The body of the [while (q)] loop of
    [_mdns_create_answer_from_parsed_packet] for the question [q]. *)
Definition answer_question (s : mdns_server_t) (pp : mdns_parsed_packet_t)
  (send_flush : bool) (st : answer_state) (q : mdns_parsed_question_t)
  : answer_state :=
  let shared :=
    (pq_type q =? MDNS_TYPE_PTR) || (pq_type q =? MDNS_TYPE_SDPTR)
    || negb (pp_probe pp) in
  let packet := as_packet st in
  let answered : option (mdns_tx_packet_t * Z) :=
    if (pq_type q =? MDNS_TYPE_SRV) || (pq_type q =? MDNS_TYPE_TXT) then
      match _mdns_get_service_item_instance s (pq_host q) (pq_service q)
              (pq_proto q) None with
      | None => None                              (* continue *)
      | Some srv =>
          Some (_mdns_create_answer_from_service s packet srv q shared
                  send_flush, 1)
      end
    else
      match pq_service q, pq_proto q with
      | Some _, Some _ =>
          Some
            (fold_left
               (fun acc srv =>
                  if _mdns_service_match_ptr_question s srv q
                     && negb (is_record_exist s srv (pp_records pp))
                  then (_mdns_create_answer_from_service s (fst acc) srv q
                          shared send_flush, snd acc + 1)
                  else acc)
               (services s) (packet, 0))
      | _, _ => Some (answer_host_question s packet q send_flush, 1)
      end in
  match answered with
  | None =>
      {| as_packet := packet; out_record_nums := out_record_nums st;
         as_unicast := as_unicast st; as_shared := shared |}
  | Some (packet, n) =>
      let repeat_question :=
        negb (pp_src_port pp =? MDNS_SERVICE_PORT)
        && ((pq_type q =? MDNS_TYPE_ANY) || (pq_type q =? MDNS_TYPE_A)
            || (pq_type q =? MDNS_TYPE_AAAA)
            || (CONFIG_MDNS_RESPOND_REVERSE_QUERIES
                && (pq_type q =? MDNS_TYPE_PTR))) in
      let packet :=
        if repeat_question
        then with_questions packet
               (questions packet ++
                [{| q_type := pq_type q; q_unicast := pq_unicast q;
                    q_host := pq_host q; q_service := pq_service q;
                    q_proto := pq_proto q; q_domain := pq_domain q;
                    own_dynamic_memory := true |}])
        else packet in
      {| as_packet := packet;
         out_record_nums := u32 (out_record_nums st + n);
         as_unicast := as_unicast st || pq_unicast q;
         as_shared := shared |}
  end.


(** The packet [_mdns_create_answer_from_parsed_packet] builds, with the
    final values of [out_record_nums], [unicast] and [shared]. *)
Definition planned_answers (s : mdns_server_t) (pp : mdns_parsed_packet_t)
  : answer_state :=
  let send_flush := pp_src_port pp =? MDNS_SERVICE_PORT in
  let packet := _mdns_alloc_packet_default (pp_tcpip_if pp) (pp_ip_protocol pp) in
  let packet :=
    {| send_at := send_at packet; tcpip_if := Model.tcpip_if packet;
       ip_protocol := Model.ip_protocol packet; dst := dst packet;
       tx_port := tx_port packet; flags := MDNS_FLAGS_QR_AUTHORITATIVE;
       distributed := pp_distributed pp; questions := questions packet;
       answers := answers packet; servers := servers packet;
       additional := additional packet; queued := queued packet;
       id := pp_id pp |} in
  fold_left (answer_question s pp send_flush) (pp_questions pp)
    {| as_packet := packet; out_record_nums := 0; as_unicast := false;
       as_shared := false |}.

(** [_mdns_create_answer_from_parsed_packet]; [share_step] is the static
    variable of the function, [now] the time of the call. *)
Definition _mdns_create_answer_from_parsed_packet (s : mdns_server_t)
  (now : Z) (share_step : Z) (pp : mdns_parsed_packet_t)
  : mdns_server_t * Z :=
  match pp_questions pp with
  | [] => (s, share_step)
  | _ =>
      let send_flush := pp_src_port pp =? MDNS_SERVICE_PORT in
      let st := planned_answers s pp in
      if out_record_nums st =? 0 then (s, share_step)
      else
        let packet := as_packet st in
        let packet :=
          if as_unicast st || negb send_flush
          then {| send_at := send_at packet;
                  tcpip_if := Model.tcpip_if packet;
                  ip_protocol := Model.ip_protocol packet;
                  dst := IP_PEER (pp_src pp); tx_port := pp_src_port pp;
                  flags := flags packet; distributed := distributed packet;
                  questions := questions packet; answers := answers packet;
                  servers := servers packet;
                  additional := additional packet; queued := queued packet;
                  id := id packet |}
          else packet in
        if as_shared st
        then (Pcb.schedule s now packet (25 + share_step * 25),
              Z.land (u8 (share_step + 1)) 3)
        else (Pcb.dispatch s packet, share_step)
  end.

(** The end of [mdns_parse_packet] for a packet that raised no collision
    ([do_not_reply] is false): the reply. *)
Definition reply (s : mdns_server_t) (now : Z) (share_step : Z)
  (pp : mdns_parsed_packet_t) : mdns_server_t * Z :=
  if (state_num (state (pcbs s (pp_tcpip_if pp) (pp_ip_protocol pp)))
      >? state_num PCB_PROBE_3)
     && (match pp_questions pp with [] => false | _ => true end
         || pp_discovery pp)
  then _mdns_create_answer_from_parsed_packet s now share_step pp
  else (s, share_step).


(** *** Known answers *)

(** The answer is the PTR record of the service at [addr]. *)
Definition is_ptr_of (addr : srv_ref) (a : mdns_out_answer_t) : bool :=
  (a_type a =? MDNS_TYPE_PTR) && opt_eqb Nat.eqb (a_service a) (Some addr).

Definition no_ptr_in (addr : srv_ref) (l : list mdns_out_answer_t) : Prop :=
  forallb (fun a => negb (is_ptr_of addr a)) l = true.

(** The packet plans no PTR record of the service at [addr]. *)
Definition no_ptr_answer (addr : srv_ref) (p : mdns_tx_packet_t) : Prop :=
  no_ptr_in addr (answers p) /\ no_ptr_in addr (additional p).

Lemma alloc_answer_no_ptr addr d type service host flush bye :
  no_ptr_in addr d ->
  (type =? MDNS_TYPE_PTR) && opt_eqb Nat.eqb service (Some addr) = false ->
  no_ptr_in addr (_mdns_alloc_answer d type service host flush bye).
Proof.
  unfold no_ptr_in, _mdns_alloc_answer. intros Hd Hn.
  destruct (existsb _ d); [exact Hd|].
  rewrite forallb_app, Hd. cbn [forallb is_ptr_of a_type a_service andb].
  unfold is_ptr_of. cbn [a_type a_service]. rewrite Hn. reflexivity.
Qed.

Lemma no_ptr_answers addr p l :
  no_ptr_answer addr p -> no_ptr_in addr l ->
  no_ptr_answer addr (with_lists p l (servers p) (additional p)).
Proof. unfold no_ptr_answer. cbn. tauto. Qed.

Lemma no_ptr_additional addr p l :
  no_ptr_answer addr p -> no_ptr_in addr l ->
  no_ptr_answer addr (with_lists p (answers p) (servers p) l).
Proof. unfold no_ptr_answer. cbn. tauto. Qed.

Lemma no_ptr_add addr p (to_additional : bool) type service host flush :
  no_ptr_answer addr p ->
  (type =? MDNS_TYPE_PTR) && opt_eqb Nat.eqb service (Some addr) = false ->
  no_ptr_answer addr (add_answer service to_additional p type host flush).
Proof.
  intros Hp Hn. unfold add_answer. destruct to_additional.
  - apply no_ptr_additional; [exact Hp|].
    apply alloc_answer_no_ptr; [apply Hp|exact Hn].
  - apply no_ptr_answers; [exact Hp|].
    apply alloc_answer_no_ptr; [apply Hp|exact Hn].
Qed.

Lemma create_answer_from_service_no_ptr s addr p x q shared send_flush :
  no_ptr_answer addr p ->
  srv_addr x <> addr
  \/ ((pq_type q =? MDNS_TYPE_PTR) || (pq_type q =? MDNS_TYPE_ANY)) = false ->
  no_ptr_answer addr
    (_mdns_create_answer_from_service s p x q shared send_flush).
Proof.
  intros Hp Hx. unfold _mdns_create_answer_from_service. cbv zeta.
  assert (Hother : forall t, (t =? MDNS_TYPE_PTR) = false ->
            (t =? MDNS_TYPE_PTR)
            && opt_eqb Nat.eqb (Some (srv_addr x)) (Some addr) = false)
    by (intros t ->; reflexivity).
  destruct ((pq_type q =? MDNS_TYPE_PTR) || (pq_type q =? MDNS_TYPE_ANY))
    eqn:Et.
  - destruct Hx as [Hx|Hx]; [|discriminate].
    assert (Hne : forall t,
              (t =? MDNS_TYPE_PTR)
              && opt_eqb Nat.eqb (Some (srv_addr x)) (Some addr) = false).
    { intros t. cbn [opt_eqb].
      apply Nat.eqb_neq in Hx. rewrite Hx. apply andb_false_r. }
    repeat apply no_ptr_add; auto.
  - destruct (pq_type q =? MDNS_TYPE_SRV).
    { repeat apply no_ptr_add; auto. }
    destruct (pq_type q =? MDNS_TYPE_TXT).
    { repeat apply no_ptr_add; auto. }
    destruct (pq_type q =? MDNS_TYPE_SDPTR); [|exact Hp].
    repeat apply no_ptr_add; auto.
Qed.

Lemma append_host_no_ptr addr d host flush bye :
  no_ptr_in addr d -> no_ptr_in addr (_mdns_append_host d host flush bye).
Proof.
  intros H. unfold _mdns_append_host.
  repeat apply alloc_answer_no_ptr; auto.
Qed.

Lemma append_host_list_no_ptr s addr d flush bye :
  no_ptr_in addr d -> no_ptr_in addr (_mdns_append_host_list s d flush bye).
Proof.
  intros H. unfold _mdns_append_host_list.
  set (d1 := if negb (_str_null_or_empty (srv_hostname s)) then _ else d).
  assert (H1 : no_ptr_in addr d1).
  { subst d1. destruct (negb _); [apply append_host_no_ptr|]; exact H. }
  clearbody d1. destruct (host_list s) as [|h rest]; [exact H1|].
  generalize (map (fun h0 => Some (HOST_DELEGATED (host_addr h0))) rest
              ++ [None]).
  intros l. revert d1 H1.
  induction l as [|x l IH]; intros d1 H1; simpl; [exact H1|].
  apply IH. apply append_host_no_ptr. exact H1.
Qed.


Lemma NoDup_map_eq {A B : Type} (f : A -> B) (l : list A) x y :
  NoDup (map f l) -> In x l -> In y l -> f x = f y -> x = y.
Proof.
  induction l as [|a l IH]; simpl; intros Hnd Hx Hy E; [contradiction|].
  inversion Hnd as [|? ? Hnot Hnd']; subst.
  destruct Hx as [->|Hx], Hy as [->|Hy]; auto.
  - exfalso. apply Hnot. rewrite E. apply in_map. exact Hy.
  - exfalso. apply Hnot. rewrite <- E. apply in_map. exact Hx.
Qed.

Lemma no_ptr_answer_with_questions addr p qs :
  no_ptr_answer addr p -> no_ptr_answer addr (with_questions p qs).
Proof. unfold no_ptr_answer. cbn. tauto. Qed.

Lemma answer_host_question_no_ptr s addr p q send_flush :
  no_ptr_answer addr p ->
  no_ptr_answer addr (answer_host_question s p q send_flush).
Proof.
  intros Hp. unfold answer_host_question.
  destruct ((pq_type q =? MDNS_TYPE_A) || (pq_type q =? MDNS_TYPE_AAAA)).
  { unfold _mdns_create_answer_from_hostname.
    apply no_ptr_answers; [exact Hp|].
    repeat apply alloc_answer_no_ptr; try apply Hp; apply andb_false_r. }
  destruct (pq_type q =? MDNS_TYPE_ANY).
  { apply no_ptr_answers; [exact Hp|].
    apply append_host_list_no_ptr. apply Hp. }
  destruct (CONFIG_MDNS_RESPOND_REVERSE_QUERIES && _);
    (apply no_ptr_answers; [exact Hp|]);
    (apply alloc_answer_no_ptr; [apply Hp|apply andb_false_r]).
Qed.

Section Suppressed.

Variable s : mdns_server_t.
Variable pp : mdns_parsed_packet_t.
Variable srv : mdns_service_t.
Hypothesis srv_registered : In srv (services s).
Hypothesis distinct_items : NoDup (map srv_addr (services s)).
Hypothesis known : is_record_exist s srv (pp_records pp) = true.

Lemma answer_services_no_ptr q shared send_flush :
  forall l acc,
    (forall x, In x l -> In x (services s)) ->
    no_ptr_answer (srv_addr srv) (fst acc) ->
    no_ptr_answer (srv_addr srv)
      (fst (fold_left
              (fun acc x =>
                 if _mdns_service_match_ptr_question s x q
                    && negb (is_record_exist s x (pp_records pp))
                 then (_mdns_create_answer_from_service s (fst acc) x q
                         shared send_flush, snd acc + 1)
                 else acc)
              l acc)).
Proof.
  induction l as [|x l IH]; intros acc Hl Hacc; simpl; [exact Hacc|].
  apply IH; [intros y Hy; apply Hl; right; exact Hy|].
  destruct (_mdns_service_match_ptr_question s x q
            && negb (is_record_exist s x (pp_records pp))) eqn:E;
    [|exact Hacc].
  cbn [fst]. apply create_answer_from_service_no_ptr; [exact Hacc|].
  left. intros Heq.
  assert (x = srv).
  { apply (NoDup_map_eq srv_addr (services s)); auto.
    apply Hl. left. reflexivity. }
  subst x. rewrite known in E. rewrite andb_false_r in E. discriminate.
Qed.

Lemma answer_question_no_ptr send_flush st q :
  no_ptr_answer (srv_addr srv) (as_packet st) ->
  no_ptr_answer (srv_addr srv)
    (as_packet (answer_question s pp send_flush st q)).
Proof.
  intros Hst. unfold answer_question. cbv zeta.
  set (shared := (pq_type q =? MDNS_TYPE_PTR) || (pq_type q =? MDNS_TYPE_SDPTR)
                 || negb (pp_probe pp)).
  assert (Hfin : forall (b : bool) p qs,
             no_ptr_answer (srv_addr srv) p ->
             no_ptr_answer (srv_addr srv)
               (if b then with_questions p qs else p)).
  { intros b p qs Hp. destruct b; [apply no_ptr_answer_with_questions|];
      exact Hp. }
  destruct ((pq_type q =? MDNS_TYPE_SRV) || (pq_type q =? MDNS_TYPE_TXT))
    eqn:Et.
  - destruct (_mdns_get_service_item_instance s (pq_host q) (pq_service q)
                (pq_proto q) None) as [x|]; cbn [as_packet]; [|exact Hst].
    apply Hfin. apply create_answer_from_service_no_ptr; [exact Hst|].
    right. apply orb_true_iff in Et.
    destruct Et as [Et|Et]; apply Z.eqb_eq in Et; rewrite Et; reflexivity.
  - destruct (pq_service q) as [qs|], (pq_proto q) as [qp|];
      try (cbn [as_packet]; apply Hfin; apply answer_host_question_no_ptr;
           exact Hst).
    match goal with |- context [fold_left ?f ?l ?a] =>
      pose proof (answer_services_no_ptr q shared send_flush l a
                    (fun x H => H) Hst) as Hfold;
      destruct (fold_left f l a) as [p n]
    end.
    cbn [as_packet]. apply Hfin. exact Hfold.
Qed.

Lemma planned_answers_no_ptr :
  no_ptr_answer (srv_addr srv) (as_packet (planned_answers s pp)).
Proof.
  unfold planned_answers. cbv zeta.
  match goal with |- context [fold_left ?f ?l ?a] =>
    assert (H0 : no_ptr_answer (srv_addr srv) (as_packet a))
      by (split; reflexivity);
    generalize dependent a
  end.
  induction (pp_questions pp) as [|q l IH]; intros a H0; simpl; [exact H0|].
  apply IH. apply answer_question_no_ptr. exact H0.
Qed.

End Suppressed.


Lemma remove_first_ext {A : Type} (f g : A -> bool) (l : list A) :
  (forall x, f x = g x) -> remove_first f l = remove_first g l.
Proof.
  intros H. induction l as [|x l IH]; simpl; [reflexivity|].
  rewrite H, IH. reflexivity.
Qed.

Lemma remove_first_single {A : Type} (f : A -> bool) (x : A) :
  remove_first f [x] = [x] \/ remove_first f [x] = [].
Proof. simpl. destruct (f x); auto. Qed.

(** Nothing is planned for a question when every item it matches has its
    known answer in the packet. *)
Lemma answer_services_none s pp q shared send_flush :
  forall l acc,
    (forall x, In x l ->
       _mdns_service_match_ptr_question s x q
       && negb (is_record_exist s x (pp_records pp)) = false) ->
    fold_left
      (fun acc x =>
         if _mdns_service_match_ptr_question s x q
            && negb (is_record_exist s x (pp_records pp))
         then (_mdns_create_answer_from_service s (fst acc) x q
                 shared send_flush, snd acc + 1)
         else acc)
      l acc = acc.
Proof.
  induction l as [|x l IH]; intros acc H; simpl; [reflexivity|].
  rewrite (H x (or_introl eq_refl)). apply IH.
  intros y Hy. apply H. right. exact Hy.
Qed.

Lemma reply_nothing_planned s pp now share_step q srv :
  pp_questions pp = [q] ->
  pq_type q = MDNS_TYPE_PTR ->
  pq_service q <> None -> pq_proto q <> None ->
  (forall x, In x (services s) ->
     _mdns_service_match_ptr_question s x q = true -> x = srv) ->
  is_record_exist s srv (pp_records pp) = true ->
  reply s now share_step pp = (s, share_step).
Proof.
  intros Hq Ht Hs Hp Honly Hknown. unfold reply.
  destruct (_ && _); [|reflexivity].
  unfold _mdns_create_answer_from_parsed_packet. rewrite Hq.
  assert (E : out_record_nums (planned_answers s pp) = 0).
  { unfold planned_answers. rewrite Hq. cbn [fold_left].
    unfold answer_question. rewrite Ht. cbn [Z.eqb MDNS_TYPE_PTR
      MDNS_TYPE_SRV MDNS_TYPE_TXT Pos.eqb orb].
    destruct (pq_service q); [|congruence].
    destruct (pq_proto q); [|congruence].
    rewrite answer_services_none.
    - reflexivity.
    - intros x Hx.
      destruct (_mdns_service_match_ptr_question s x q) eqn:Em;
        [|reflexivity].
      rewrite (Honly x Hx Em), Hknown. reflexivity. }
  rewrite E. reflexivity.
Qed.


(** The question test of a service without an instance name of its own. *)
Definition asks_for_type (srv : mdns_service_t) (q : mdns_parsed_question_t)
  : bool :=
  (pq_type q =? MDNS_TYPE_PTR)
  && match pq_service q, pq_proto q, pq_domain q with
     | Some qs, Some qp, Some qd =>
         strcaseeq (Model.service srv) qs && strcaseeq (Model.proto srv) qp
         && strcaseeq MDNS_DEFAULT_DOMAIN qd
     | _, _, _ => false
     end.

(** C3 (as amended).  A PTR record is read from a packet while no search
    runs; its owner name is a name of ours without subtype and its data is a
    name of ours without subtype.

    - When the data names the instance of a registered service that has an
      instance name of its own, with a TTL above half of the PTR TTL (above
      2250), the record is kept as a known answer, and the response built
      from the packet plans no PTR record of that service, for whatever
      questions; when the packet holds one PTR question and the service is
      the only one the question matches, no response is scheduled or sent.
      Reading the record sends nothing and queues nothing.
    - When the service the data stands for has no instance name of its own
      and the packet holds questions and is not a probe, the first PTR
      question for the type and protocol of the service is taken out of the
      packet, whatever the TTL of the record. *)
Theorem C3_known_answer_suppression :
  (forall s pp flags is_ns name ttl rdata srv inst s1 pp1,
      In srv (services s) ->
      NoDup (map srv_addr (services s)) ->
      Model.instance srv = Some inst ->
      pp_discovery pp && _mdns_name_is_discovery name MDNS_TYPE_PTR = false ->
      Codec.sub name = 0 -> _mdns_name_is_ours s name = true ->
      Codec.sub rdata = 0 -> _mdns_name_is_ours s rdata = true ->
      nonempty (Codec.host rdata) = true ->
      nonempty (Codec.service rdata) = true ->
      nonempty (Codec.proto rdata) = true ->
      _mdns_service_match_instance s srv (Some (Codec.host rdata))
        (Some (Codec.service rdata)) (Some (Codec.proto rdata)) None = true ->
      MDNS_ANSWER_PTR_TTL / 2 < ttl ->
      parse_ptr_record s pp flags is_ns name ttl (Some rdata) = (s1, pp1) ->
      is_record_exist s1 srv (pp_records pp1) = true
      /\ no_ptr_answer (srv_addr srv) (as_packet (planned_answers s1 pp1))
      /\ wire s1 = wire s
      /\ List.length (tx_queue_head s1) = List.length (tx_queue_head s)
      /\ (forall q now share_step,
             pp_questions pp = [q] ->
             pq_type q = MDNS_TYPE_PTR ->
             pq_service q <> None -> pq_proto q <> None ->
             (forall x, In x (services s) ->
                _mdns_service_match_ptr_question s x q = true -> x = srv) ->
             reply s1 now share_step pp1 = (s1, share_step)))
  /\ (forall s pp flags is_ns name ttl rdata srv s1 pp1,
         pp_discovery pp && _mdns_name_is_discovery name MDNS_TYPE_PTR = false ->
         Codec.sub name = 0 -> _mdns_name_is_ours s name = true ->
         Codec.sub rdata = 0 -> _mdns_name_is_ours s rdata = true ->
         (if nonempty (Codec.host rdata)
          then _mdns_get_service_item_instance s (Some (Codec.host rdata))
                 (Some (Codec.service rdata)) (Some (Codec.proto rdata)) None
          else _mdns_get_service_item s (Some (Codec.service rdata))
                 (Some (Codec.proto rdata)) None) = Some srv ->
         Model.instance srv = None ->
         pp_questions pp <> [] -> pp_probe pp = false ->
         parse_ptr_record s pp flags is_ns name ttl (Some rdata) = (s1, pp1) ->
         s1 = s
         /\ pp_questions pp1
            = remove_first (asks_for_type srv) (pp_questions pp)).
Proof.
  split.
  - intros s pp flags is_ns name ttl rdata srv inst s1 pp1
           Hin Hnd Hinst Hdisc Hsub Hours Hrsub Hrours Hh Hsv Hpr Hmatch Httl
           Hparse.
    unfold parse_ptr_record in Hparse. cbv zeta in Hparse.
    rewrite Hdisc, Hsub, Hours, Hrsub, Hrours, Hh in Hparse.
    cbn [negb andb orb Z.eqb] in Hparse.
    destruct (_mdns_get_service_item_instance s (Some (Codec.host rdata))
                (Some (Codec.service rdata)) (Some (Codec.proto rdata)) None)
      as [x|] eqn:Ex.
    2:{ exfalso. unfold _mdns_get_service_item_instance in Ex.
        pose proof (find_none _ _ Ex srv Hin) as Hn.
        cbn [item_matches] in Hn. congruence. }
    assert (Hrec : forall s' rest,
               is_record_exist s' srv
                 ({| pr_type := MDNS_TYPE_PTR; pr_ttl := ttl;
                     pr_host := _mdns_strdup_check (Codec.host rdata);
                     pr_service := _mdns_strdup_check (Codec.service rdata);
                     pr_proto := _mdns_strdup_check (Codec.proto rdata) |}
                  :: rest) = true ->
               True) by (intros; exact I).
    clear Hrec.
    assert (Hgt : (ttl >? MDNS_ANSWER_PTR_TTL / 2) = true)
      by (apply Z.gtb_lt; exact Httl).
    assert (Hknown : forall rest,
               is_record_exist s srv
                 ({| pr_type := MDNS_TYPE_PTR; pr_ttl := ttl;
                     pr_host := _mdns_strdup_check (Codec.host rdata);
                     pr_service := _mdns_strdup_check (Codec.service rdata);
                     pr_proto := _mdns_strdup_check (Codec.proto rdata) |}
                  :: rest) = true).
    { intros rest. unfold is_record_exist, _mdns_strdup_check.
      rewrite Hh, Hsv, Hpr. cbn [existsb pr_host pr_service pr_proto pr_ttl].
      rewrite Hinst, Hmatch, Hgt. reflexivity. }
    destruct (match pp_questions pp with [] => false | _ => true end
              && negb (pp_probe pp)) eqn:Eq.
    + injection Hparse as <- <-.
      cbn [with_pp_records pp_records _mdns_remove_parsed_question
           with_pp_questions].
      split; [apply Hknown|]. split.
      { apply planned_answers_no_ptr; auto. apply Hknown. }
      split; [reflexivity|]. split; [reflexivity|].
      intros q now share_step Hq Ht Hqs Hqp Honly.
      destruct (remove_first_single
                  (fun q0 => _mdns_question_matches s q0 MDNS_TYPE_PTR x) q)
        as [E|E].
      * apply (reply_nothing_planned s _ now share_step q srv);
          [|exact Ht|exact Hqs|exact Hqp|exact Honly|].
        -- unfold _mdns_remove_parsed_question.
           cbn [pp_questions with_pp_records with_pp_questions].
           rewrite Hq. exact E.
        -- unfold _mdns_remove_parsed_question.
           cbn [pp_records with_pp_records with_pp_questions]. apply Hknown.
      * unfold reply, _mdns_create_answer_from_parsed_packet,
          _mdns_remove_parsed_question.
        cbn [pp_questions with_pp_records with_pp_questions].
        rewrite Hq, E.
        match goal with |- (if ?c then _ else _) = _ => destruct c end;
          reflexivity.
    + rewrite Hgt in Hparse. injection Hparse as <- <-.
      cbn [with_pp_records pp_records].
      split; [apply (Hknown (pp_records pp))|]. split.
      { apply planned_answers_no_ptr; auto.
        apply (Hknown (pp_records pp)). }
      split; [reflexivity|]. split.
      { unfold _mdns_remove_scheduled_answer. cbn [tx_queue_head with_tx_queue].
        apply length_map. }
      intros q now share_step Hq Ht Hqs Hqp Honly.
      apply (reply_nothing_planned _ _ now share_step q srv);
        [exact Hq|exact Ht|exact Hqs|exact Hqp|exact Honly|].
      apply (Hknown (pp_records pp)).
  - intros s pp flags is_ns name ttl rdata srv s1 pp1
           Hdisc Hsub Hours Hrsub Hrours Hfound Hinst Hq Hprobe Hparse.
    unfold parse_ptr_record in Hparse. cbv zeta in Hparse.
    rewrite Hdisc, Hsub, Hours, Hrsub, Hrours, Hfound, Hprobe in Hparse.
    cbn [negb andb orb Z.eqb] in Hparse.
    destruct (pp_questions pp) as [|q0 rest] eqn:Eq; [congruence|].
    injection Hparse as <- <-. split; [reflexivity|].
    cbn [with_pp_records pp_questions _mdns_remove_parsed_question
         with_pp_questions]. rewrite Eq.
    apply remove_first_ext. intros q.
    unfold _mdns_question_matches, asks_for_type.
    destruct (pq_type q =? MDNS_TYPE_PTR) eqn:Et; [|reflexivity].
    change ((MDNS_TYPE_PTR =? MDNS_TYPE_A) || (MDNS_TYPE_PTR =? MDNS_TYPE_AAAA))
      with false.
    change ((MDNS_TYPE_PTR =? MDNS_TYPE_PTR)
            || (MDNS_TYPE_PTR =? MDNS_TYPE_SDPTR)) with true.
    cbn [negb andb]. rewrite Hinst.
    destruct (pq_service q), (pq_proto q), (pq_domain q);
      rewrite ?andb_true_r; reflexivity.
Qed.

End Parse.


(** *** A responder with one service *)

(** Hostname "alpha"; the service [foo._http._tcp] with the subtype
    [_printer]; interface 0 is up for IPv4 and its PCB is RUNNING. *)
Definition demo_service : mdns_service_t :=
  {| srv_addr := 1%nat; instance := Some "foo"%string; service := "_http";
     proto := "_tcp"; hostname := Some "alpha"%string; priority := 0;
     weight := 0; port := 80; txt := []; subtype := ["_printer"%string] |}.

Definition demo_responder : mdns_server_t :=
  set_pcb
    (with_services (with_hostname server_init (Some "alpha"%string))
       [demo_service])
    0 0
    {| state := PCB_RUNNING; ready := true; probe_services := [];
       probe_ip := false; probe_running := false; failed_probes := 0 |}.

Definition demo_name (host : string) (sub : Z) : Codec.mdns_name_t :=
  {| Codec.host := host; Codec.service := "_http"; Codec.proto := "_tcp";
     Codec.domain := "local"; Codec.parts := 4; Codec.sub := sub;
     Codec.invalid := false |}.

(** The parsed packet before its questions are read: a multicast query
    from port 5353 of a peer. *)
Definition demo_parsed : mdns_parsed_packet_t :=
  {| pp_tcpip_if := 0; pp_ip_protocol := 0; pp_multicast := true;
     pp_authoritative := false; pp_probe := false; pp_discovery := false;
     pp_distributed := false; pp_questions := []; pp_records := [];
     pp_id := 0; pp_src := 3232235777; pp_src_port := 5353 |}.

(** A query packet with one PTR question for [question] and one known
    answer, a PTR record of the same owner name to [foo._http._tcp.local]
    with the TTL [ttl]: the server and the parsed packet after the record,
    and the transmit queue after the reply. *)
Definition demo_query (question : Codec.mdns_name_t) (ttl : Z)
  : mdns_server_t * mdns_parsed_packet_t :=
  parse_ptr_record false demo_responder
    (parse_question false demo_responder demo_parsed question MDNS_TYPE_PTR 1)
    0 false question ttl (Some (demo_name "foo" 0)).

Definition demo_reply (question : Codec.mdns_name_t) (ttl : Z)
  : list (list (Z * option srv_ref)) :=
  let '(s1, pp1) := demo_query question ttl in
  map (fun p => map (fun a => (a_type a, a_service a)) (answers p))
      (tx_queue_head (fst (reply false s1 1000 0 pp1))).

(** A known answer with the full TTL suppresses the response; one with half
    the TTL does not. *)
Example known_answer_full_ttl : demo_reply (demo_name "" 0) 4500 = [].
Proof. vm_compute. reflexivity. Qed.

Example known_answer_half_ttl :
  demo_reply (demo_name "" 0) 2250
  = [[(MDNS_TYPE_PTR, Some 1%nat); (MDNS_TYPE_SRV, Some 1%nat);
      (MDNS_TYPE_TXT, Some 1%nat)]].
Proof. vm_compute. reflexivity. Qed.

Lemma C3_known_answer_suppression_witness :
  no_ptr_answer 1%nat
    (as_packet (planned_answers false (fst (demo_query (demo_name "" 0) 4500))
                  (snd (demo_query (demo_name "" 0) 4500))))
  /\ reply false (fst (demo_query (demo_name "" 0) 4500)) 1000 0
       (snd (demo_query (demo_name "" 0) 4500))
     = (fst (demo_query (demo_name "" 0) 4500), 0).
Proof.
  destruct (C3_known_answer_suppression false) as [H _].
  destruct (H demo_responder
              (parse_question false demo_responder demo_parsed
                 (demo_name "" 0) MDNS_TYPE_PTR 1)
              0 false (demo_name "" 0) 4500 (demo_name "foo" 0)
              demo_service "foo"%string
              (fst (demo_query (demo_name "" 0) 4500))
              (snd (demo_query (demo_name "" 0) 4500)))
    as (_ & Hno & _ & _ & Hreply).
  - left. reflexivity.
  - repeat constructor. intros [].
  - reflexivity.
  - reflexivity.
  - reflexivity.
  - vm_compute. reflexivity.
  - reflexivity.
  - vm_compute. reflexivity.
  - reflexivity.
  - reflexivity.
  - reflexivity.
  - vm_compute. reflexivity.
  - vm_compute. reflexivity.
  - vm_compute. reflexivity.
  - split; [exact Hno|].
    apply (Hreply
             {| pq_type := MDNS_TYPE_PTR; pq_unicast := false;
                pq_sub := false; pq_host := None;
                pq_service := Some "_http"%string;
                pq_proto := Some "_tcp"%string;
                pq_domain := Some "local"%string |}).
    + vm_compute. reflexivity.
    + reflexivity.
    + discriminate.
    + discriminate.
    + intros x [<-|[]] _. reflexivity.
Defined.

(** A subtype query, [_printer._sub._http._tcp.local], with the same known
    answer at full TTL: the record is skipped when the packet is read (its
    owner name has a subtype), no known answer is kept, and the response
    with the PTR record of the service is scheduled. *)
Lemma C3_counterexample_subtype_query :
  pp_records (snd (demo_query (demo_name "_printer" 1) 4500)) = []
  /\ demo_reply (demo_name "_printer" 1) 4500
     = [[(MDNS_TYPE_PTR, Some 1%nat); (MDNS_TYPE_SRV, Some 1%nat);
         (MDNS_TYPE_TXT, Some 1%nat)]].
Proof. split; vm_compute; reflexivity. Qed.

End Responder.

(** ** More about the transmit queue *)

Module QueueFacts.

Import Model TxQueue.

(** [_mdns_clear_pcb_tx_queue_head] as the code walks the list: the first
    loop frees the packets of the PCB at the head of the queue, the second
    keeps the new head and unlinks every later packet of the PCB. *)
Fixpoint clear_pcb_head (tcpip_if ip_protocol : nat)
  (q : list mdns_tx_packet_t) : list mdns_tx_packet_t :=
  match q with
  | [] => []
  | p :: rest =>
      if of_pcb tcpip_if ip_protocol p
      then clear_pcb_head tcpip_if ip_protocol rest
      else q
  end.

Fixpoint clear_pcb_next (tcpip_if ip_protocol : nat)
  (next : list mdns_tx_packet_t) : list mdns_tx_packet_t :=
  match next with
  | [] => []
  | p :: rest =>
      if of_pcb tcpip_if ip_protocol p
      then clear_pcb_next tcpip_if ip_protocol rest
      else p :: clear_pcb_next tcpip_if ip_protocol rest
  end.

Definition clear_pcb_loops (q : list mdns_tx_packet_t)
  (tcpip_if ip_protocol : nat) : list mdns_tx_packet_t :=
  match clear_pcb_head tcpip_if ip_protocol q with
  | [] => []
  | head :: next => head :: clear_pcb_next tcpip_if ip_protocol next
  end.

Lemma clear_pcb_next_filter i j next :
  clear_pcb_next i j next = filter (fun p => negb (of_pcb i j p)) next.
Proof.
  induction next as [|p rest IH]; simpl; [reflexivity|].
  destruct (of_pcb i j p); simpl; rewrite IH; reflexivity.
Qed.

Lemma find_filter_other {A : Type} (f g : A -> bool) (l : list A) :
  (forall x, f x = true -> g x = true) ->
  find f (filter g l) = find f l.
Proof.
  intros H. induction l as [|x l IH]; simpl; [reflexivity|].
  destruct (g x) eqn:Eg; simpl.
  - destruct (f x); [reflexivity|exact IH].
  - destruct (f x) eqn:Ef; [|exact IH].
    rewrite (H x Ef) in Eg. discriminate.
Qed.

(** X1.  The two loops of [_mdns_clear_pcb_tx_queue_head] take exactly the
    packets of the PCB out of the queue: what is left are the other packets
    in their order; afterwards [_mdns_get_next_pcb_packet] finds nothing for
    that PCB and, for any other PCB, the packet it found before. *)
Theorem clear_pcb_removes_exactly_its_packets :
  forall q i j,
    clear_pcb_loops q i j = filter (fun p => negb (of_pcb i j p)) q
    /\ _mdns_get_next_pcb_packet (clear_pcb_loops q i j) i j = None
    /\ forall i' j',
         (i', j') <> (i, j) ->
         _mdns_get_next_pcb_packet (clear_pcb_loops q i j) i' j'
         = _mdns_get_next_pcb_packet q i' j'.
Proof.
  intros q i j.
  assert (E : clear_pcb_loops q i j = filter (fun p => negb (of_pcb i j p)) q).
  { unfold clear_pcb_loops. induction q as [|p rest IH]; simpl; [reflexivity|].
    destruct (of_pcb i j p) eqn:Ep; simpl.
    - exact IH.
    - rewrite clear_pcb_next_filter. reflexivity. }
  split; [exact E|]. rewrite E. unfold _mdns_get_next_pcb_packet. split.
  - destruct (find (of_pcb i j) (filter (fun p => negb (of_pcb i j p)) q))
      as [p|] eqn:Ef; [|reflexivity].
    apply find_some in Ef as [Hin Hp]. apply filter_In in Hin as [_ Hn].
    rewrite Hp in Hn. discriminate.
  - intros i' j' Hne. apply find_filter_other. intros p Hp.
    unfold of_pcb in *. apply andb_true_iff in Hp as [H1 H2].
    apply Nat.eqb_eq in H1, H2.
    destruct (Nat.eqb (tcpip_if p) i) eqn:E1,
             (Nat.eqb (ip_protocol p) j) eqn:E2; try reflexivity.
    apply Nat.eqb_eq in E1, E2. exfalso. apply Hne. congruence.
Qed.

(** X2.  In a queue sorted by [send_at], what
    [_mdns_get_next_pcb_packet] returns is a queued packet of the PCB that
    is due no later than any other queued packet of that PCB; it returns
    nothing only when the queue holds no packet of the PCB. *)
Theorem next_pcb_packet_is_earliest :
  forall q i j,
    ordered q ->
    match _mdns_get_next_pcb_packet q i j with
    | Some p =>
        In p q /\ of_pcb i j p = true
        /\ forall p', In p' q -> of_pcb i j p' = true ->
                      send_at p <= send_at p'
    | None => forall p', In p' q -> of_pcb i j p' = false
    end.
Proof.
  intros q i j Hord. unfold _mdns_get_next_pcb_packet.
  induction Hord as [|a l Hl IH Ha]; simpl; [intros p' []|].
  destruct (of_pcb i j a) eqn:Ea.
  - split; [left; reflexivity|]. split; [exact Ea|].
    intros p' [<-|Hin] _; [lia|].
    rewrite Forall_forall in Ha. apply Ha. exact Hin.
  - destruct (find (of_pcb i j) l) as [p|].
    + destruct IH as (Hin & Hp & Hmin). split; [right; exact Hin|].
      split; [exact Hp|]. intros p' [<-|Hin'] Hp'; [congruence|].
      apply Hmin; assumption.
    + intros p' [<-|Hin]; [exact Ea|apply IH; exact Hin].
Qed.

Lemma next_pcb_packet_is_earliest_witness :
  let p t i := with_send_at (_mdns_alloc_packet_default i 0) t in
  _mdns_get_next_pcb_packet [p 10 0%nat; p 20 1%nat; p 30 1%nat] 1 0
  = Some (p 20 1%nat)
  /\ send_at (p 20 1%nat) <= send_at (p 30 1%nat).
Proof.
  cbv zeta.
  split; [reflexivity|].
  pose proof (next_pcb_packet_is_earliest
                [with_send_at (_mdns_alloc_packet_default 0 0) 10;
                 with_send_at (_mdns_alloc_packet_default 1 0) 20;
                 with_send_at (_mdns_alloc_packet_default 1 0) 30] 1 0) as H.
  cbv beta in H.
  assert (Hord : ordered
            [with_send_at (_mdns_alloc_packet_default 0 0) 10;
             with_send_at (_mdns_alloc_packet_default 1 0) 20;
             with_send_at (_mdns_alloc_packet_default 1 0) 30]).
  { repeat constructor; simpl; lia. }
  specialize (H Hord). simpl in H. destruct H as (_ & _ & H).
  apply H; [right; right; left; reflexivity|reflexivity].
Defined.

End QueueFacts.

(** ** More about registering and removing services *)

Module ServiceFacts.

Import CStr Model Services.

Section Calls.

Variable esp_random : nat -> Z.
Variable _mdns_create_probe_packet :
  mdns_server_t -> nat -> nat -> list srv_ref -> bool -> bool ->
  option mdns_tx_packet_t.
Variable MDNS_MAX_SERVICES : nat.

Local Abbreviation add :=
  (mdns_service_add_for_host esp_random _mdns_create_probe_packet
     MDNS_MAX_SERVICES).

Lemma hostname_init_pcb_probe s now i j l b :
  srv_hostname (Pcb._mdns_init_pcb_probe esp_random _mdns_create_probe_packet
                  s now i j l b) = srv_hostname s.
Proof.
  unfold Pcb._mdns_init_pcb_probe, Pcb._mdns_init_pcb_probe_new_service.
  destruct (_str_null_or_empty _); [reflexivity|].
  destruct (PCB_STATE_IS_PROBING _);
    destruct (_mdns_create_probe_packet _ _ _ _ _ _); reflexivity.
Qed.

Lemma hostname_probe_all_pcbs s now l b c :
  srv_hostname (Pcb._mdns_probe_all_pcbs esp_random _mdns_create_probe_packet
                  s now l b c) = srv_hostname s.
Proof.
  unfold Pcb._mdns_probe_all_pcbs.
  generalize all_pcbs. intros pl. revert s.
  induction pl as [|[i j] pl IH]; intros s; simpl; [reflexivity|].
  rewrite IH.
  destruct (mdns_is_netif_ready s i j); [|reflexivity].
  rewrite hostname_init_pcb_probe. destruct c; reflexivity.
Qed.

Lemma service_add_ok s now addr instance service proto host port txt s' :
  add s now addr instance service proto host port txt = (ESP_OK, s') ->
  exists service_ proto_ own,
    service = Some service_ /\ proto = Some proto_
    /\ srv_hostname s = Some own
    /\ (List.length (services s) < MDNS_MAX_SERVICES)%nat
    /\ _mdns_get_service_item_instance s instance service proto
         (match host with Some _ => host | None => Some own end) = None
    /\ services s'
       = _mdns_create_service addr service_ proto_
           (match host with Some _ => host | None => Some own end)
           port instance txt :: services s
    /\ srv_hostname s' = Some own.
Proof.
  unfold mdns_service_add_for_host. intros H.
  destruct service as [service_|]; [|discriminate].
  destruct proto as [proto_|]; [|discriminate].
  destruct (srv_hostname s) as [own|] eqn:Eown; [|discriminate].
  destruct (_ || _); [discriminate|].
  unfold _mdns_can_add_more_services in H.
  destruct (List.length (services s) <? MDNS_MAX_SERVICES)%nat eqn:Eroom;
    [|discriminate].
  cbn [negb] in H.
  destruct (_mdns_get_service_item_instance _ _ _ _ _) eqn:Eg; [discriminate|].
  injection H as <-.
  exists service_, proto_, own. repeat split; auto.
  - apply Nat.ltb_lt. exact Eroom.
  - rewrite services_probe_all_pcbs. reflexivity.
  - rewrite hostname_probe_all_pcbs. exact Eown.
Qed.


Lemma service_remove_ok s instance service proto host s' :
  mdns_service_remove_for_host s instance service proto host = (ESP_OK, s') ->
  services s'
  = remove_first
      (item_matches s instance service proto
         (match host with Some _ => host | None => srv_hostname s end))
      (services s)
  /\ exists a,
       find (item_matches s instance service proto
               (match host with Some _ => host | None => srv_hostname s end))
            (services s) = Some a.
Proof.
  unfold mdns_service_remove_for_host. intros H.
  destruct (services s) eqn:El; [discriminate|]. rewrite <- El in *.
  destruct (_ || _); [discriminate|].
  destruct (_mdns_get_service_item_instance s instance service proto _)
    as [a|] eqn:Eg; [|discriminate].
  injection H as <-.
  rewrite services_remove_scheduled_service_packets, services_send_bye.
  split; [reflexivity|]. exists a. exact Eg.
Qed.

Lemma service_remove_unchanged s instance service proto host :
  fst (mdns_service_remove_for_host s instance service proto host) <> ESP_OK ->
  snd (mdns_service_remove_for_host s instance service proto host) = s.
Proof.
  unfold mdns_service_remove_for_host.
  destruct (services s); [reflexivity|].
  destruct (_ || _); [reflexivity|].
  destruct (_mdns_get_service_item_instance _ _ _ _ _); [|reflexivity].
  cbn [fst]. congruence.
Qed.

Lemma remove_first_length {A : Type} (f : A -> bool) (l : list A) :
  (List.length (remove_first f l) <= List.length l)%nat.
Proof.
  induction l as [|x l IH]; simpl; [lia|].
  destruct (f x); simpl; lia.
Qed.

(** X3.  [mdns_service_add_for_host] succeeds exactly when the service type
    and the protocol are not empty, the server has a hostname, fewer than
    [MDNS_MAX_SERVICES] items are registered and no registered item matches
    the instance, type, protocol and host; in every other case it leaves
    the server as it was. *)
Theorem service_add_succeeds_exactly_when :
  forall s now addr instance service proto host port txt,
    (fst (add s now addr instance service proto host port txt) = ESP_OK
     <-> _str_null_or_empty service = false
         /\ _str_null_or_empty proto = false
         /\ srv_hostname s <> None
         /\ (List.length (services s) < MDNS_MAX_SERVICES)%nat
         /\ _mdns_get_service_item_instance s instance service proto
              (match host with Some _ => host | None => srv_hostname s end)
            = None)
    /\ (fst (add s now addr instance service proto host port txt) <> ESP_OK ->
        snd (add s now addr instance service proto host port txt) = s).
Proof.
  intros s now addr instance service proto host port txt.
  unfold mdns_service_add_for_host, _mdns_can_add_more_services.
  destruct service as [service_|];
    [|split; [split; [discriminate|intros (H & _); discriminate]|reflexivity]].
  destruct proto as [proto_|];
    [|split; [split; [discriminate|intros (_ & H & _); discriminate]
             |reflexivity]].
  destruct (srv_hostname s) as [own|] eqn:Eown;
    [|split; [split; [discriminate|intros (_ & _ & H & _); congruence]
             |reflexivity]].
  destruct (_str_null_or_empty (Some service_)) eqn:Es; cbn [orb].
  { split; [split; [discriminate|intros (H & _); discriminate]|reflexivity]. }
  destruct (_str_null_or_empty (Some proto_)) eqn:Ep; cbn [orb].
  { split; [split; [discriminate|intros (_ & H & _); discriminate]
           |reflexivity]. }
  destruct (List.length (services s) <? MDNS_MAX_SERVICES)%nat eqn:Eroom;
    cbn [negb].
  2:{ apply Nat.ltb_ge in Eroom.
      split; [split; [discriminate|intros (_ & _ & _ & H & _); lia]
             |reflexivity]. }
  apply Nat.ltb_lt in Eroom.
  replace (match host with Some _ => host | None => Some own end)
    with (match host with Some _ => host | None => Some own end)
    by reflexivity.
  destruct (_mdns_get_service_item_instance s instance (Some service_)
              (Some proto_) _) as [x|] eqn:Eg.
  - split; [split; [discriminate|intros (_ & _ & _ & _ & H); discriminate]
           |reflexivity].
  - cbn [fst snd]. split; [|congruence].
    split; [intros _; repeat split; auto; discriminate|reflexivity].
Qed.

(** The calls of a user who registers and removes services. *)
Inductive service_call : Type :=
| Call_add (now : Z) (addr : srv_ref) (instance service proto host : option string)
           (port : Z) (txt : list (string * string))
| Call_remove (instance service proto host : option string).

Definition do_call (s : mdns_server_t) (c : service_call) : mdns_server_t :=
  match c with
  | Call_add now addr instance service proto host port txt =>
      snd (add s now addr instance service proto host port txt)
  | Call_remove instance service proto host =>
      snd (mdns_service_remove_for_host s instance service proto host)
  end.

Lemma do_call_length s c :
  (List.length (services s) <= MDNS_MAX_SERVICES ->
   List.length (services (do_call s c)) <= MDNS_MAX_SERVICES)%nat.
Proof.
  intros H. destruct c as [now addr i sv p h port txt|i sv p h];
    cbn [do_call].
  - destruct (add s now addr i sv p h port txt) as [e s'] eqn:E.
    destruct e;
      try (destruct (service_add_succeeds_exactly_when s now addr i sv p h
                       port txt) as [_ Hs];
           rewrite E in Hs; cbn [fst snd] in *;
           rewrite Hs by discriminate; exact H).
    destruct (service_add_ok _ _ _ _ _ _ _ _ _ _ E)
      as (? & ? & ? & _ & _ & _ & Hlen & _ & Hsv & _).
    cbn [snd]. rewrite Hsv. cbn [List.length]. lia.
  - destruct (mdns_service_remove_for_host s i sv p h) as [e s'] eqn:E.
    pose proof (service_remove_unchanged s i sv p h) as Hu.
    rewrite E in Hu. cbn [fst snd] in *.
    destruct e; try (rewrite Hu by discriminate; exact H).
    destruct (service_remove_ok _ _ _ _ _ _ E) as [Hsv _]. rewrite Hsv.
    pose proof (remove_first_length
                  (item_matches s i sv p
                     (match h with Some _ => h | None => srv_hostname s end))
                  (services s)). lia.
Qed.

(** X4.  Whatever services a user registers and removes, in whatever
    order, a server that starts with at most [MDNS_MAX_SERVICES] items
    never holds more than [MDNS_MAX_SERVICES]. *)
Theorem services_never_exceed_the_maximum :
  forall calls s,
    (List.length (services s) <= MDNS_MAX_SERVICES)%nat ->
    (List.length (services (fold_left do_call calls s))
     <= MDNS_MAX_SERVICES)%nat.
Proof.
  induction calls as [|c calls IH]; intros s H; simpl; [exact H|].
  apply IH. apply do_call_length. exact H.
Qed.


Lemma service_add_nonempty s now addr instance service proto host port txt s' :
  add s now addr instance service proto host port txt = (ESP_OK, s') ->
  _str_null_or_empty service || _str_null_or_empty proto = false.
Proof.
  unfold mdns_service_add_for_host. intros H.
  destruct service; [|discriminate]. destruct proto; [|discriminate].
  destruct (srv_hostname s); [|discriminate].
  destruct (_ || _); [discriminate|reflexivity].
Qed.

(** X5.  Registering a service and removing it again gives back the list
    of services as it was: after a successful
    [mdns_service_add_for_host] whose names are at most 63 bytes long,
    [mdns_service_remove_for_host] with the same instance, type, protocol
    and host succeeds and the registered items are those from before the
    registration, in the same order. *)
Theorem service_add_then_remove_restores :
  forall s now addr instance service proto host port txt s1,
    add s now addr instance (Some service) (Some proto) host port txt
    = (ESP_OK, s1) ->
    strlen service <= MDNS_NAME_BUF_LEN - 1 ->
    strlen proto <= MDNS_NAME_BUF_LEN - 1 ->
    (forall h, match host with Some _ => host | None => srv_hostname s end
               = Some h -> strlen h <= MDNS_NAME_BUF_LEN - 1) ->
    (forall i, instance = Some i -> strlen i <= MDNS_NAME_BUF_LEN - 1) ->
    fst (mdns_service_remove_for_host s1 instance (Some service) (Some proto)
           host) = ESP_OK
    /\ services (snd (mdns_service_remove_for_host s1 instance (Some service)
                        (Some proto) host)) = services s.
Proof.
  intros s now addr instance service proto host port txt s1 Hadd Hs Hp Hh Hi.
  pose proof (service_add_nonempty _ _ _ _ _ _ _ _ _ _ Hadd) as Hne.
  destruct (service_add_ok _ _ _ _ _ _ _ _ _ _ Hadd)
    as (service_ & proto_ & own & Es & Ep & Eown & _ & _ & Hsv & Hown').
  injection Es as <-. injection Ep as <-.
  set (hostname := match host with Some _ => host | None => Some own end) in *.
  assert (Hhost : match host with Some _ => host | None => srv_hostname s1 end
                  = hostname) by (rewrite Hown'; reflexivity).
  assert (Hlen : forall h, hostname = Some h -> strlen h <= MDNS_NAME_BUF_LEN - 1).
  { intros h Eh. apply Hh. rewrite Eown. exact Eh. }
  set (item := _mdns_create_service addr service proto hostname port instance
                 txt) in *.
  assert (Hmatch : item_matches s1 instance (Some service) (Some proto)
                     hostname item = true).
  { assert (Hhm : _str_null_or_empty hostname
                  || match hostname, Model.hostname item with
                     | Some h, Some srv_host => strcaseeq srv_host h
                     | _, _ => false
                     end = true).
    { subst item. cbn [_mdns_create_service Model.hostname].
      destruct hostname as [h|] eqn:Eh; [|reflexivity].
      cbn [option_map]. rewrite strndup_short by (apply Hlen; reflexivity).
      rewrite strcaseeq_refl. apply orb_true_r. }
    unfold item_matches. destruct instance as [i|].
    - unfold _mdns_service_match_instance, _mdns_instance_name_match.
      subst item. cbn [_mdns_create_service Model.service Model.proto
        Model.instance Model.hostname option_map] in *.
      rewrite !strndup_short by auto.
      rewrite !strcaseeq_refl. cbn [andb]. exact Hhm.
    - unfold _mdns_service_match.
      subst item. cbn [_mdns_create_service Model.service Model.proto
        Model.hostname option_map] in *.
      destruct hostname as [h|] eqn:Eh.
      + cbn [option_map] in *. rewrite !strndup_short by auto.
        rewrite !strcaseeq_refl. cbn [andb].
        rewrite ?strndup_short by (apply Hlen; reflexivity).
        rewrite ?strcaseeq_refl. apply orb_true_r.
      + exfalso. unfold hostname in Eh. destruct host; discriminate. }
  unfold mdns_service_remove_for_host.
  rewrite Hhost, Hsv, Hne.
  unfold _mdns_get_service_item_instance. rewrite Hsv.
  cbn [find remove_first]. rewrite Hmatch. cbn [fst snd].
  split; [reflexivity|].
  rewrite services_remove_scheduled_service_packets, services_send_bye.
  reflexivity.
Qed.

End Calls.


(** With room for one service only, a second registration is refused. *)
Definition demo_calls : list service_call :=
  [Call_add 0 1%nat (Some "a"%string) (Some "_http"%string)
     (Some "_tcp"%string) None 80 [];
   Call_add 0 2%nat (Some "b"%string) (Some "_ipp"%string)
     (Some "_tcp"%string) None 631 []].

Lemma services_never_exceed_the_maximum_witness :
  (List.length
     (services
        (fold_left (do_call Pcb.demo_random Pcb.demo_probe_packet 1)
           demo_calls Services.demo_named)) <= 1)%nat.
Proof.
  apply (services_never_exceed_the_maximum Pcb.demo_random
           Pcb.demo_probe_packet 1 demo_calls Services.demo_named).
  simpl. lia.
Defined.

Lemma service_add_then_remove_restores_witness :
  fst (Services.demo_add Services.demo_running 4000 1%nat None "_http" "_tcp" 80)
  = ESP_OK
  /\ services
       (snd (mdns_service_remove_for_host
               (snd (Services.demo_add Services.demo_running 4000 1%nat None
                       "_http" "_tcp" 80))
               None (Some "_http"%string) (Some "_tcp"%string) None))
     = services Services.demo_running.
Proof.
  split; [vm_compute; reflexivity|].
  apply (service_add_then_remove_restores Pcb.demo_random
           Pcb.demo_probe_packet Services.demo_max_services
           Services.demo_running 4000 1%nat None "_http"%string
           "_tcp"%string None 80 []
           (snd (Services.demo_add Services.demo_running 4000 1%nat None
                   "_http" "_tcp" 80))).
  - vm_compute. reflexivity.
  - vm_compute. discriminate.
  - vm_compute. discriminate.
  - intros h Hh. vm_compute in Hh. injection Hh as <-. vm_compute. discriminate.
  - intros i Hi. discriminate.
Defined.

End ServiceFacts.

(** ** More about the packet codec *)

Module CodecFacts.

Import CStr Codec.

(** The bytes a call may touch are those from [index] up to the end of the
    packet buffer; the new index stays between the old one and the size of
    the buffer. *)
Definition inside (packet : mem) (index : Z) (o : out) : Prop :=
  let '(p', i', _) := o in
  index <= i' <= MDNS_MAX_PACKET_SIZE
  /\ forall j, j < index \/ MDNS_MAX_PACKET_SIZE <= j -> rd p' j = rd packet j.

Lemma inside_refl packet index r :
  index <= MDNS_MAX_PACKET_SIZE -> inside packet index (packet, index, r).
Proof. intros H. unfold inside. split; [lia|reflexivity]. Qed.

Lemma inside_then packet index p1 i1 r1 p2 i2 r2 r :
  inside packet index (p1, i1, r1) -> inside p1 i1 (p2, i2, r2) ->
  inside packet index (p2, i2, r).
Proof.
  unfold inside. intros [H1 H2] [H3 H4]. split; [lia|].
  intros j Hj. rewrite H4 by lia. apply H2. exact Hj.
Qed.

Lemma inside_u8 packet index value :
  0 <= index <= MDNS_MAX_PACKET_SIZE ->
  inside packet index (_mdns_append_u8 packet index value).
Proof.
  intros H. unfold _mdns_append_u8.
  destruct (index >=? MDNS_MAX_PACKET_SIZE) eqn:E;
    [apply inside_refl; lia|].
  rewrite Z.geb_leb in E. apply Z.leb_gt in E.
  unfold inside, u16. unfold MDNS_MAX_PACKET_SIZE in *.
  rewrite Z.mod_small by lia. split; [lia|].
  intros j Hj. apply rd_wr_other. lia.
Qed.

Lemma inside_u16 packet index value :
  0 <= index <= MDNS_MAX_PACKET_SIZE ->
  inside packet index (_mdns_append_u16 packet index value).
Proof.
  intros H. unfold _mdns_append_u16.
  destruct (index + 1 >=? MDNS_MAX_PACKET_SIZE); [apply inside_refl; lia|].
  pose proof (inside_u8 packet index (Z.land (Z.shiftr value 8) 255) H) as H1.
  destruct (_mdns_append_u8 packet index _) as [[p1 i1] r1].
  assert (B1 : 0 <= i1 <= MDNS_MAX_PACKET_SIZE) by (destruct H1; lia).
  pose proof (inside_u8 p1 i1 (Z.land value 255) B1) as H2.
  destruct (_mdns_append_u8 p1 i1 _) as [[p2 i2] r2].
  exact (inside_then _ _ _ _ _ _ _ _ _ H1 H2).
Qed.

Lemma inside_u32 packet index value :
  0 <= index <= MDNS_MAX_PACKET_SIZE ->
  inside packet index (_mdns_append_u32 packet index value).
Proof.
  intros H. unfold _mdns_append_u32.
  destruct (index + 3 >=? MDNS_MAX_PACKET_SIZE); [apply inside_refl; lia|].
  pose proof (inside_u8 packet index (Z.land (Z.shiftr value 24) 255) H) as H1.
  destruct (_mdns_append_u8 packet index _) as [[p1 i1] r1].
  assert (B1 : 0 <= i1 <= MDNS_MAX_PACKET_SIZE) by (destruct H1; lia).
  pose proof (inside_u8 p1 i1 (Z.land (Z.shiftr value 16) 255) B1) as H2.
  destruct (_mdns_append_u8 p1 i1 _) as [[p2 i2] r2].
  assert (B2 : 0 <= i2 <= MDNS_MAX_PACKET_SIZE) by (destruct H2; lia).
  pose proof (inside_u8 p2 i2 (Z.land (Z.shiftr value 8) 255) B2) as H3.
  destruct (_mdns_append_u8 p2 i2 _) as [[p3 i3] r3].
  assert (B3 : 0 <= i3 <= MDNS_MAX_PACKET_SIZE) by (destruct H3; lia).
  pose proof (inside_u8 p3 i3 (Z.land value 255) B3) as H4.
  destruct (_mdns_append_u8 p3 i3 _) as [[p4 i4] r4].
  apply (inside_then _ _ p3 i3 0 _ _ r4); [|exact H4].
  apply (inside_then _ _ p2 i2 0 _ _ r3); [|exact H3].
  apply (inside_then _ _ p1 i1 r1 _ _ r2); assumption.
Qed.

Lemma inside_type packet index type flush ttl :
  0 <= index <= MDNS_MAX_PACKET_SIZE ->
  inside packet index (_mdns_append_type packet index type flush ttl).
Proof.
  intros H. unfold _mdns_append_type.
  destruct (index + 10 >=? MDNS_MAX_PACKET_SIZE); [apply inside_refl; lia|].
  cbv zeta.
  destruct (match type with
            | MDNS_ANSWER_PTR => Some MDNS_TYPE_PTR
            | MDNS_ANSWER_TXT => Some MDNS_TYPE_TXT
            | MDNS_ANSWER_SRV => Some MDNS_TYPE_SRV
            | MDNS_ANSWER_A => Some MDNS_TYPE_A
            | MDNS_ANSWER_AAAA => Some MDNS_TYPE_AAAA
            | MDNS_ANSWER_other => None
            end) as [t|]; [|apply inside_refl; lia].
  pose proof (inside_u16 packet index t H) as H1.
  destruct (_mdns_append_u16 packet index t) as [[p1 i1] r1].
  assert (B1 : 0 <= i1 <= MDNS_MAX_PACKET_SIZE) by (destruct H1; lia).
  match goal with |- context [_mdns_append_u16 p1 i1 ?c] =>
    pose proof (inside_u16 p1 i1 c B1) as H2;
    destruct (_mdns_append_u16 p1 i1 c) as [[p2 i2] r2]
  end.
  assert (B2 : 0 <= i2 <= MDNS_MAX_PACKET_SIZE) by (destruct H2; lia).
  pose proof (inside_u32 p2 i2 ttl B2) as H3.
  destruct (_mdns_append_u32 p2 i2 ttl) as [[p3 i3] r3].
  assert (B3 : 0 <= i3 <= MDNS_MAX_PACKET_SIZE) by (destruct H3; lia).
  pose proof (inside_u16 p3 i3 0 B3) as H4.
  destruct (_mdns_append_u16 p3 i3 0) as [[p4 i4] r4].
  apply (inside_then _ _ p3 i3 0 _ _ r4); [|exact H4].
  apply (inside_then _ _ p2 i2 0 _ _ r3); [|exact H3].
  apply (inside_then _ _ p1 i1 r1 _ _ r2); assumption.
Qed.

Lemma wr_bytes_outside bytes : forall m pos j,
  j < pos \/ pos + Z.of_nat (List.length bytes) <= j ->
  rd (wr_bytes m pos bytes) j = rd m j.
Proof.
  induction bytes as [|b bs IH]; intros m pos j Hj; simpl; [reflexivity|].
  simpl List.length in Hj. rewrite IH by lia. apply rd_wr_other. lia.
Qed.

Lemma inside_string packet index s :
  0 <= index <= MDNS_MAX_PACKET_SIZE ->
  inside packet index (_mdns_append_string packet index s).
Proof.
  intros H. unfold _mdns_append_string.
  assert (Hlen : 0 <= u8 (strlen s) < 256)
    by (unfold u8; apply Z.mod_pos_bound; lia).
  destruct (index + u8 (strlen s) + 1 >=? MDNS_MAX_PACKET_SIZE) eqn:E;
    [apply inside_refl; lia|].
  rewrite Z.geb_leb in E. apply Z.leb_gt in E.
  unfold _mdns_append_u8.
  assert (E2 : (index >=? MDNS_MAX_PACKET_SIZE) = false)
    by (rewrite Z.geb_leb; apply Z.leb_gt; lia).
  rewrite E2. unfold MDNS_MAX_PACKET_SIZE in *.
  assert (U : u16 (index + 1) = index + 1)
    by (unfold u16; apply Z.mod_small; lia).
  rewrite U.
  assert (U2 : u16 (index + 1 + u8 (strlen s)) = index + 1 + u8 (strlen s))
    by (unfold u16; apply Z.mod_small; lia).
  rewrite U2. unfold inside, MDNS_MAX_PACKET_SIZE. split; [lia|].
  intros j Hj.
  rewrite wr_bytes_outside.
  - apply rd_wr_other. lia.
  - pose proof (firstn_le_length (Z.to_nat (u8 (strlen s))) (bytes_of s)).
    lia.
Qed.


Lemma inside_fqdn cfg strings : forall packet index packet_len,
  0 <= index <= MDNS_MAX_PACKET_SIZE ->
  inside packet index (_mdns_append_fqdn cfg packet index strings packet_len).
Proof.
  induction strings as [|s0 rest IH]; intros packet index packet_len Hi.
  - cbn [_mdns_append_fqdn]. apply inside_u8. exact Hi.
  - cbn [_mdns_append_fqdn].
    destruct (find_name cfg packet index (s0 :: rest) packet_len).
    + apply inside_u16. exact Hi.
    + pose proof (inside_string packet index s0 Hi) as H1.
      destruct (_mdns_append_string packet index s0) as [[p1 i1] written].
      destruct (written =? 0); [exact H1|].
      assert (Hi1 : 0 <= i1 <= MDNS_MAX_PACKET_SIZE) by (destruct H1; lia).
      pose proof (IH p1 i1 packet_len Hi1) as H2.
      destruct (_mdns_append_fqdn cfg p1 i1 rest packet_len) as [[p2 i2] r].
      exact (inside_then _ _ _ _ _ _ _ _ _ H1 H2).
Qed.

(** X6.  Writing a PTR record never touches a byte outside the part of the
    packet buffer it was given: every byte below the index it starts at,
    and every byte at or beyond [MDNS_MAX_PACKET_SIZE], is left as it was,
    whether the record fits or not, and the index it returns lies between
    the old index and [MDNS_MAX_PACKET_SIZE]. *)
Theorem append_ptr_record_stays_inside :
  forall cfg packet index instance service proto flush bye,
    0 <= index <= MDNS_MAX_PACKET_SIZE ->
    inside packet index
      (_mdns_append_ptr_record cfg packet index instance service proto
         flush bye).
Proof.
  intros cfg packet index instance service proto flush bye Hi.
  unfold _mdns_append_ptr_record.
  destruct service as [service|]; [|apply inside_refl; lia].
  pose proof (inside_fqdn cfg [service; proto; MDNS_DEFAULT_DOMAIN]
                packet index MDNS_MAX_PACKET_SIZE Hi) as H1.
  destruct (_mdns_append_fqdn cfg packet index
              [service; proto; MDNS_DEFAULT_DOMAIN] MDNS_MAX_PACKET_SIZE)
    as [[p1 i1] r1].
  destruct (u8 r1 =? 0); [exact H1|].
  assert (Hi1 : 0 <= i1 <= MDNS_MAX_PACKET_SIZE) by (destruct H1; lia).
  pose proof (inside_type p1 i1 MDNS_ANSWER_PTR false
                (if bye then 0 else MDNS_ANSWER_PTR_TTL) Hi1) as H2.
  pose proof (append_type_ptr_bytes p1 i1 false
                (if bye then 0 else MDNS_ANSWER_PTR_TTL)) as Ht.
  destruct (_mdns_append_type p1 i1 MDNS_ANSWER_PTR false
              (if bye then 0 else MDNS_ANSWER_PTR_TTL)) as [[p2 i2] r2].
  destruct (u8 r2 =? 0) eqn:Er2;
    [exact (inside_then _ _ _ _ _ _ _ _ _ H1 H2)|].
  assert (Hr2 : r2 <> 0) by (intros ->; discriminate).
  assert (Httl : 0 <= (if bye then 0 else MDNS_ANSWER_PTR_TTL) < 4294967296)
    by (destruct bye; unfold MDNS_ANSWER_PTR_TTL; lia).
  destruct (Ht ltac:(lia) Httl p2 i2 r2 eq_refl Hr2)
    as (_ & Ei2 & Hfit & _).
  assert (Hi2 : 0 <= i2 <= MDNS_MAX_PACKET_SIZE) by (destruct H2; lia).
  pose proof (inside_fqdn cfg [instance; service; proto; MDNS_DEFAULT_DOMAIN]
                p2 i2 MDNS_MAX_PACKET_SIZE Hi2) as H3.
  destruct (_mdns_append_fqdn cfg p2 i2
              [instance; service; proto; MDNS_DEFAULT_DOMAIN]
              MDNS_MAX_PACKET_SIZE) as [[p3 i3] r3].
  assert (H13 : inside packet index (p3, i3, 0)).
  { apply (inside_then _ _ p2 i2 0 _ _ r3); [|exact H3].
    apply (inside_then _ _ p1 i1 r1 _ _ r2); assumption. }
  destruct (u8 r3 =? 0); [exact H13|].
  unfold inside in *. destruct H13 as [B H13]. split; [exact B|].
  intros j Hj. rewrite <- H13 by exact Hj.
  assert (Hloc : u16 (i2 - 2) = i1 + 8).
  { unfold u16. unfold MDNS_MAX_PACKET_SIZE in *. subst i2.
    rewrite Z.mod_small by lia. lia. }
  rewrite Hloc. unfold _mdns_set_u16.
  destruct (i1 + 8 + 1 >=? MDNS_MAX_PACKET_SIZE); [reflexivity|].
  destruct H1 as [B1 _].
  rewrite !rd_wr_other; [reflexivity| |];
    unfold MDNS_MAX_PACKET_SIZE in *; lia.
Qed.


Lemma append_ptr_record_stays_inside_witness :
  0 <= 12 <= MDNS_MAX_PACKET_SIZE
  /\ inside (mem_of_list []) 12
       (_mdns_append_ptr_record false (mem_of_list []) 12 "foo"
          (Some "_http"%string) "_tcp" false true).
Proof.
  assert (H : 0 <= 12 <= MDNS_MAX_PACKET_SIZE)
    by (unfold MDNS_MAX_PACKET_SIZE; lia).
  split; [exact H|].
  apply (append_ptr_record_stays_inside false (mem_of_list []) 12 "foo"
           (Some "_http"%string) "_tcp" false true H).
Defined.

(** *** Numbers written and read back *)

(** [_mdns_read_u32]. *)
Definition _mdns_read_u32 (packet : mem) (index : Z) : Z :=
  u32 (Z.lor (Z.lor (Z.lor (Z.shiftl (rd packet index) 24)
                           (Z.shiftl (rd packet (index + 1)) 16))
                    (Z.shiftl (rd packet (index + 2)) 8))
             (rd packet (index + 3))).

Lemma lor_shiftl_add hi lo k :
  0 <= k -> 0 <= lo < 2 ^ k ->
  Z.lor (Z.shiftl hi k) lo = hi * 2 ^ k + lo.
Proof.
  intros Hk Hlo. rewrite Z.shiftl_mul_pow2 by exact Hk.
  assert (Hland : Z.land (hi * 2 ^ k) lo = 0).
  { apply Z.bits_inj'. intros n Hn.
    rewrite Z.land_spec, Z.bits_0.
    destruct (Z.ltb_spec n k) as [Hlt|Hge].
    - rewrite Z.mul_pow2_bits_low by lia. reflexivity.
    - destruct (Z.eq_dec lo 0) as [->|Hne].
      + rewrite Z.bits_0. apply andb_false_r.
      + assert (Hb : Z.testbit lo n = false).
        { apply Z.bits_above_log2; [lia|].
          apply Z.log2_lt_pow2; [lia|].
          apply Z.lt_le_trans with (2 ^ k); [lia|].
          apply Z.pow_le_mono_r; lia. }
        rewrite Hb. apply andb_false_r. }
  rewrite <- Z.lxor_lor by exact Hland.
  symmetry. apply Z.add_nocarry_lxor. exact Hland.
Qed.

Lemma land_255 v : Z.land v 255 = v mod 256.
Proof. change 255 with (Z.ones 8). rewrite Z.land_ones by lia. reflexivity. Qed.

Lemma u8_byte v : u8 (Z.land v 255) = v mod 256.
Proof.
  rewrite land_255. unfold u8. apply Z.mod_mod. lia.
Qed.

Lemma read_u16_of_bytes packet index v :
  rd packet index = u8 (Z.land (Z.shiftr v 8) 255) ->
  rd packet (index + 1) = u8 (Z.land v 255) ->
  Rx._mdns_read_u16 packet index = v mod 65536.
Proof.
  intros H0 H1. unfold Rx._mdns_read_u16.
  rewrite H0, H1, !u8_byte, Z.shiftr_div_pow2 by lia.
  rewrite lor_shiftl_add by (try lia; apply Z.mod_pos_bound; lia).
  unfold u16. change (2 ^ 8) with 256.
  assert (Ev : v mod 65536 = (v / 256) mod 256 * 256 + v mod 256).
  { change 65536 with (256 * 256).
    rewrite (Z.rem_mul_r v 256 256) by lia. lia. }
  rewrite <- Ev. apply Z.mod_mod. lia.
Qed.

Lemma read_u32_of_bytes packet index v :
  rd packet index = u8 (Z.land (Z.shiftr v 24) 255) ->
  rd packet (index + 1) = u8 (Z.land (Z.shiftr v 16) 255) ->
  rd packet (index + 2) = u8 (Z.land (Z.shiftr v 8) 255) ->
  rd packet (index + 3) = u8 (Z.land v 255) ->
  _mdns_read_u32 packet index = v mod 4294967296.
Proof.
  intros H0 H1 H2 H3. unfold _mdns_read_u32.
  rewrite H0, H1, H2, H3, !u8_byte, !Z.shiftr_div_pow2 by lia.
  change (2 ^ 24) with 16777216. change (2 ^ 16) with 65536.
  change (2 ^ 8) with 256.
  set (a := (v / 16777216) mod 256). set (b := (v / 65536) mod 256).
  set (c := (v / 256) mod 256). set (d := v mod 256).
  assert (Ba : 0 <= a < 256) by (apply Z.mod_pos_bound; lia).
  assert (Bb : 0 <= b < 256) by (apply Z.mod_pos_bound; lia).
  assert (Bc : 0 <= c < 256) by (apply Z.mod_pos_bound; lia).
  assert (Bd : 0 <= d < 256) by (apply Z.mod_pos_bound; lia).
  assert (E1 : Z.lor (Z.shiftl a 24) (Z.shiftl b 16)
               = Z.shiftl (a * 256 + b) 16).
  { replace 24 with (8 + 16) by lia.
    rewrite <- Z.shiftl_shiftl by lia. rewrite <- Z.shiftl_lor.
    rewrite lor_shiftl_add by (change (2 ^ 8) with 256; lia).
    reflexivity. }
  rewrite E1.
  assert (E2 : Z.lor (Z.shiftl (a * 256 + b) 16) (Z.shiftl c 8)
               = Z.shiftl ((a * 256 + b) * 256 + c) 8).
  { replace 16 with (8 + 8) by lia.
    rewrite <- Z.shiftl_shiftl by lia. rewrite <- Z.shiftl_lor.
    rewrite lor_shiftl_add by (change (2 ^ 8) with 256; lia).
    reflexivity. }
  rewrite E2.
  rewrite lor_shiftl_add by (change (2 ^ 8) with 256; lia).
  change (2 ^ 8) with 256. unfold u32.
  assert (Ev : v mod 4294967296 = ((a * 256 + b) * 256 + c) * 256 + d).
  { subst a b c d.
    change 4294967296 with (256 * 16777216).
    rewrite (Z.rem_mul_r v 256 16777216) by lia.
    change 16777216 with (256 * 65536) at 1.
    rewrite (Z.rem_mul_r (v / 256) 256 65536) by lia.
    change 65536 with (256 * 256) at 1.
    rewrite (Z.rem_mul_r (v / 256 / 256) 256 256) by lia.
    rewrite !Z.div_div by lia.
    change (256 * 256) with 65536. change (65536 * 256) with 16777216.
    lia. }
  rewrite <- Ev. apply Z.mod_mod. lia.
Qed.


Lemma append_u16_read packet index value :
  0 <= index -> index + 1 < MDNS_MAX_PACKET_SIZE ->
  exists p',
    _mdns_append_u16 packet index value = (p', index + 2, 2)
    /\ Rx._mdns_read_u16 p' index = value mod 65536
    /\ forall j, j < index -> rd p' j = rd packet j.
Proof.
  intros H0 H1.
  destruct (append_u16_bytes packet index value H0 H1)
    as (p' & E & B0 & B1 & Hb).
  exists p'. split; [exact E|]. split; [|exact Hb].
  apply read_u16_of_bytes; assumption.
Qed.

Lemma append_u32_read packet index value :
  0 <= index -> index + 3 < MDNS_MAX_PACKET_SIZE ->
  exists p',
    _mdns_append_u32 packet index value = (p', index + 4, 4)
    /\ _mdns_read_u32 p' index = value mod 4294967296
    /\ forall j, j < index -> rd p' j = rd packet j.
Proof.
  intros H0 H1. unfold _mdns_append_u32, _mdns_append_u8.
  unfold MDNS_MAX_PACKET_SIZE in *.
  assert (G : forall k, 0 <= k <= 3 -> (index + k >=? 1460) = false)
    by (intros k Hk; rewrite Z.geb_leb; apply Z.leb_gt; lia).
  assert (U : forall k, 0 <= k <= 4 -> u16 (index + k) = index + k)
    by (intros k Hk; unfold u16; apply Z.mod_small; lia).
  rewrite (G 3) by lia.
  replace (index >=? 1460) with false by (symmetry; rewrite <- (G 0) by lia;
                                           f_equal; lia).
  rewrite (U 1) by lia. rewrite (G 1) by lia.
  replace (u16 (index + 1 + 1)) with (index + 2)
    by (replace (index + 1 + 1) with (index + 2) by lia;
        symmetry; apply U; lia).
  rewrite (G 2) by lia.
  replace (u16 (index + 2 + 1)) with (index + 3)
    by (replace (index + 2 + 1) with (index + 3) by lia;
        symmetry; apply U; lia).
  rewrite (G 3) by lia.
  replace (u16 (index + 3 + 1)) with (index + 4)
    by (replace (index + 3 + 1) with (index + 4) by lia;
        symmetry; apply U; lia).
  eexists. split; [reflexivity|]. split.
  - apply read_u32_of_bytes;
      repeat (first [rewrite rd_wr_same | rewrite rd_wr_other by lia]);
      reflexivity.
  - intros j Hj. rewrite !rd_wr_other by lia. reflexivity.
Qed.

Lemma read_u16_same p p' i k :
  (forall j, j < k -> rd p' j = rd p j) -> i + 1 < k ->
  Rx._mdns_read_u16 p' i = Rx._mdns_read_u16 p i.
Proof.
  intros H Hi. unfold Rx._mdns_read_u16. rewrite !H by lia. reflexivity.
Qed.

Lemma read_u32_same p p' i k :
  (forall j, j < k -> rd p' j = rd p j) -> i + 3 < k ->
  _mdns_read_u32 p' i = _mdns_read_u32 p i.
Proof.
  intros H Hi. unfold _mdns_read_u32. rewrite !H by lia. reflexivity.
Qed.

(** X7.  The ten bytes [_mdns_append_type] writes read back, with the
    parser's [_mdns_read_u16] and [_mdns_read_u32], as the record type,
    the class (with the cache-flush bit when [flush] is set), the TTL and a
    data length of 0; the call fails (returns 0, writes nothing) exactly
    when fewer than eleven bytes are left or the answer code is unknown. *)
Theorem record_header_reads_back :
  forall packet index type flush ttl,
    0 <= index -> 0 <= ttl < 4294967296 ->
    let '(p', i', r) := _mdns_append_type packet index type flush ttl in
    if (index + 10 <? MDNS_MAX_PACKET_SIZE)
       && match type with MDNS_ANSWER_other => false | _ => true end
    then
      r = 10 /\ i' = index + 10
      /\ Rx._mdns_read_u16 p' index
         = match type with
           | MDNS_ANSWER_PTR => MDNS_TYPE_PTR
           | MDNS_ANSWER_TXT => MDNS_TYPE_TXT
           | MDNS_ANSWER_SRV => MDNS_TYPE_SRV
           | MDNS_ANSWER_A => MDNS_TYPE_A
           | _ => MDNS_TYPE_AAAA
           end
      /\ Rx._mdns_read_u16 p' (index + 2)
         = (if flush then MDNS_CLASS_IN_FLUSH_CACHE else MDNS_CLASS_IN)
      /\ _mdns_read_u32 p' (index + 4) = ttl
      /\ Rx._mdns_read_u16 p' (index + 8) = 0
      /\ forall j, j < index -> rd p' j = rd packet j
    else r = 0 /\ i' = index /\ p' = packet.
Proof.
  intros packet index type flush ttl Hi Httl.
  unfold _mdns_append_type.
  destruct (index + 10 >=? MDNS_MAX_PACKET_SIZE) eqn:Efit.
  { rewrite Z.geb_leb in Efit. apply Z.leb_le in Efit.
    assert (E : (index + 10 <? MDNS_MAX_PACKET_SIZE) = false)
      by (apply Z.ltb_ge; exact Efit).
    rewrite E. cbn [andb]. auto. }
  rewrite Z.geb_leb in Efit. apply Z.leb_gt in Efit.
  assert (E : (index + 10 <? MDNS_MAX_PACKET_SIZE) = true)
    by (apply Z.ltb_lt; exact Efit).
  rewrite E. cbn [andb]. cbv zeta.
  set (cls := if flush then MDNS_CLASS_IN_FLUSH_CACHE else MDNS_CLASS_IN).
  assert (Hcls : cls mod 65536 = cls) by (subst cls; destruct flush; reflexivity).
  assert (Main : forall t, t mod 65536 = t ->
            let '(p', i', r) :=
              let '(p1, i1, _) := _mdns_append_u16 packet index t in
              let '(p2, i2, _) := _mdns_append_u16 p1 i1 cls in
              let '(p3, i3, _) := _mdns_append_u32 p2 i2 ttl in
              let '(p4, i4, _) := _mdns_append_u16 p3 i3 0 in
              (p4, i4, 10) in
            r = 10 /\ i' = index + 10
            /\ Rx._mdns_read_u16 p' index = t
            /\ Rx._mdns_read_u16 p' (index + 2) = cls
            /\ _mdns_read_u32 p' (index + 4) = ttl
            /\ Rx._mdns_read_u16 p' (index + 8) = 0
            /\ forall j, j < index -> rd p' j = rd packet j).
  { intros t Ht.
    destruct (append_u16_read packet index t Hi ltac:(lia))
      as (p1 & -> & R1 & K1).
    destruct (append_u16_read p1 (index + 2) cls ltac:(lia) ltac:(lia))
      as (p2 & -> & R2 & K2).
    destruct (append_u32_read p2 (index + 2 + 2) ttl ltac:(lia) ltac:(lia))
      as (p3 & -> & R3 & K3).
    destruct (append_u16_read p3 (index + 2 + 2 + 4) 0 ltac:(lia) ltac:(lia))
      as (p4 & -> & R4 & K4).
    replace (index + 2 + 2) with (index + 4) in * by lia.
    replace (index + 4 + 4) with (index + 8) in * by lia.
    split; [reflexivity|]. split; [lia|]. split.
    { rewrite (read_u16_same p3 p4 index (index + 8) K4) by lia.
      rewrite (read_u16_same p2 p3 index (index + 4) K3) by lia.
      rewrite (read_u16_same p1 p2 index (index + 2) K2) by lia.
      rewrite R1. exact Ht. }
    split.
    { rewrite (read_u16_same p3 p4 (index + 2) (index + 8) K4) by lia.
      rewrite (read_u16_same p2 p3 (index + 2) (index + 4) K3) by lia.
      rewrite R2. exact Hcls. }
    split.
    { rewrite (read_u32_same p3 p4 (index + 4) (index + 8) K4) by lia.
      rewrite R3. apply Z.mod_small. exact Httl. }
    split; [rewrite R4; reflexivity|].
    intros j Hj. rewrite K4, K3, K2, K1 by lia. reflexivity. }
  destruct type; try (apply Main; reflexivity).
  auto.
Qed.

Lemma record_header_reads_back_witness :
  let '(p', _, _) :=
    _mdns_append_type (mem_of_list []) 12 MDNS_ANSWER_SRV true 120 in
  _mdns_read_u32 p' 16 = 120.
Proof.
  pose proof (record_header_reads_back (mem_of_list []) 12 MDNS_ANSWER_SRV
                true 120 ltac:(lia) ltac:(lia)) as H.
  destruct (_mdns_append_type (mem_of_list []) 12 MDNS_ANSWER_SRV true 120)
    as [[p' i'] r].
  change ((12 + 10 <? MDNS_MAX_PACKET_SIZE) && true) with true in H.
  cbv iota in H. destruct H as (_ & _ & _ & _ & H & _). exact H.
Defined.


(** *** Decoded names fit their arrays *)

(** Every array of the name holds a string of at most 63 characters (the
    arrays have [MDNS_NAME_BUF_LEN] = 64 bytes) and [parts] counts at most
    the four arrays. *)
Definition fits (n : mdns_name_t) : Prop :=
  (String.length (host n) <= 63)%nat
  /\ (String.length (service n) <= 63)%nat
  /\ (String.length (proto n) <= 63)%nat
  /\ (String.length (domain n) <= 63)%nat
  /\ 0 <= parts n <= 4.

Lemma length_take n : forall s, (String.length (take n s) <= n)%nat.
Proof.
  induction n as [|n IH]; intros s; destruct s; simpl; try lia.
  specialize (IH s). lia.
Qed.

Lemma length_cstring_of l :
  (String.length (cstring_of l) <= List.length l)%nat.
Proof.
  induction l as [|b l IH]; simpl; [lia|].
  destruct (u8 b =? 0); simpl; lia.
Qed.

Lemma read_label_length packet packet_end n :
  forall pos buf,
    read_label packet packet_end pos n = Some buf -> List.length buf = n.
Proof.
  induction n as [|n IH]; intros pos buf H; simpl in H.
  - injection H as <-. reflexivity.
  - destruct (pos >=? packet_end); [discriminate|].
    destruct (read_label packet packet_end (pos + 1) n) as [l|] eqn:E;
      [|discriminate].
    injection H as <-. simpl. rewrite (IH _ _ E). reflexivity.
Qed.

Lemma fits_take_label cfg n buf :
  (List.length buf <= 63)%nat ->
  fits n -> (parts n = 4 -> invalid n = true) ->
  fits (take_label cfg n buf).
Proof.
  intros Hbuf (Hh & Hs & Hp & Hd & Hparts) Hinv.
  pose proof (length_cstring_of buf) as Hc.
  unfold take_label. cbv zeta.
  destruct (_ && _ && _ && _ && _).
  { unfold fits, strlcat. cbn [set_host host service proto domain parts].
    pose proof (length_take (Z.to_nat (MDNS_NAME_BUF_LEN - 1))
      (take (Z.to_nat (MDNS_NAME_BUF_LEN - 1)) (host n ++ ".")
       ++ cstring_of buf)) as Ht.
    change (Z.to_nat (MDNS_NAME_BUF_LEN - 1)) with 63%nat in *.
    repeat split; try assumption; lia. }
  destruct (strcaseeq (cstring_of buf) MDNS_SUB_STR).
  { unfold fits. cbn [set_sub host service proto domain parts].
    repeat split; try assumption; lia. }
  destruct (invalid n) eqn:Ei; cbn [negb].
  { unfold fits. repeat split; try assumption; lia. }
  assert (Hlt : parts n < 4).
  { destruct (Z.eq_dec (parts n) 4) as [E|E]; [|lia].
    apply Hinv in E. congruence. }
  assert (Hu : u8 (parts n + 1) = parts n + 1)
    by (unfold u8; apply Z.mod_small; lia).
  unfold store_part. rewrite Hu.
  assert (Hcases : parts n = 0 \/ parts n = 1 \/ parts n = 2 \/ parts n = 3)
    by lia.
  destruct Hcases as [E|[E|[E|E]]]; rewrite E; unfold fits;
    cbn [host service proto domain parts];
    repeat split; try assumption; lia.
Qed.

Lemma fits_loop cfg self packet packet_len start :
  (forall a n r n', fits n -> self a n = Some (r, n') -> fits n') ->
  forall k index name r name',
    fits name ->
    read_fqdn_loop cfg self packet packet_len start k index name
    = Some (r, name') ->
    fits name'.
Proof.
  intros Hself. induction k as [|k IH]; intros index name r name' Hf H;
    [discriminate|].
  simpl in H.
  destruct ((start + index <? packet_len)
            && negb (rd packet (start + index) =? 0));
    [|injection H as _ <-; exact Hf].
  set (name1 := if parts name =? 4 then set_invalid name true else name) in *.
  assert (Hf1 : fits name1 /\ (parts name1 = 4 -> invalid name1 = true)).
  { subst name1. destruct (parts name =? 4) eqn:E.
    - split; [exact Hf|reflexivity].
    - split; [exact Hf|]. apply Z.eqb_neq in E. intros. contradiction. }
  destruct Hf1 as [Hf1 Hinv1].
  destruct (rd packet (start + index) <? 192).
  - destruct (63 <? rd packet (start + index)) eqn:E63;
      [injection H as _ <-; exact Hf1|].
    apply Z.ltb_ge in E63.
    destruct (read_label packet packet_len (start + (index + 1))
                (Z.to_nat (rd packet (start + index)))) as [buf|] eqn:El;
      [|injection H as _ <-; exact Hf1].
    apply (IH _ _ _ _ (fits_take_label cfg name1 buf
                         ltac:(rewrite (read_label_length _ _ _ _ _ El); lia)
                         Hf1 Hinv1) H).
  - match type of H with context [?a >=? start] =>
      destruct (a >=? start); [injection H as _ <-; exact Hf1|]
    end.
    match type of H with context [self ?a ?n] =>
      destruct (self a n) as [[[r0|] n0]|] eqn:E; [| |discriminate];
      injection H as _ <-; exact (Hself _ _ _ _ Hf1 E)
    end.
Qed.

Lemma fits_depth cfg packet packet_len :
  forall d start name r name',
    fits name ->
    read_fqdn_depth cfg d packet packet_len start name = Some (r, name') ->
    fits name'.
Proof.
  induction d as [|d IH]; intros start name r name' Hf H; [discriminate|].
  cbn [read_fqdn_depth] in H.
  apply (fits_loop cfg _ _ _ _ (fun a n r0 n' Hn E => IH a n r0 n' Hn E)
           _ _ _ _ _ Hf H).
Qed.

(** X8.  [_mdns_read_fqdn] always returns, and whatever the bytes of the
    packet are, the name it leaves has at most 63 characters in each of its
    four arrays and at most 4 parts: no label overruns its 64-byte array
    and no fifth array is written. *)
Theorem decoded_name_fits_its_arrays :
  forall cfg packet start packet_len,
    exists next name,
      _mdns_read_fqdn cfg packet start empty_name packet_len
      = Some (next, name)
      /\ fits name.
Proof.
  intros cfg packet start packet_len.
  destruct (read_fqdn_total cfg packet start empty_name packet_len)
    as ([next name] & E & _).
  exists next, name. split; [exact E|].
  unfold _mdns_read_fqdn in E.
  assert (H0 : fits empty_name) by (unfold fits; simpl; lia).
  exact (fits_depth cfg _ _ _ _ _ _ _ H0 E).
Qed.

End CodecFacts.

(** ** More about name mangling *)

Module MangleFacts.

Import CStr Mangle.
Local Open Scope string_scope.

(** The number a string of decimal digits stands for, read as
    [read_digits] reads it. *)
Fixpoint uint_value (acc : Z) (d : Decimal.uint) : Z :=
  match d with
  | Decimal.Nil => acc
  | Decimal.D0 l => uint_value (acc * 10 + 0) l
  | Decimal.D1 l => uint_value (acc * 10 + 1) l
  | Decimal.D2 l => uint_value (acc * 10 + 2) l
  | Decimal.D3 l => uint_value (acc * 10 + 3) l
  | Decimal.D4 l => uint_value (acc * 10 + 4) l
  | Decimal.D5 l => uint_value (acc * 10 + 5) l
  | Decimal.D6 l => uint_value (acc * 10 + 6) l
  | Decimal.D7 l => uint_value (acc * 10 + 7) l
  | Decimal.D8 l => uint_value (acc * 10 + 8) l
  | Decimal.D9 l => uint_value (acc * 10 + 9) l
  end.

Lemma read_digits_uint d : forall acc,
  read_digits acc (DecimalString.NilEmpty.string_of_uint d)
  = (uint_value acc d, Decimal.nb_digits d, EmptyString).
Proof.
  induction d; intros acc; simpl; try reflexivity;
    cbn [isdigit]; rewrite IHd; reflexivity.
Qed.

Lemma all_digits_uint d :
  all_digits (DecimalString.NilEmpty.string_of_uint d) = true.
Proof. induction d; simpl; auto. Qed.

Lemma uint_value_acc d : forall acc,
  uint_value (Z.pos acc) d = Z.pos (Pos.of_uint_acc d acc).
Proof.
  induction d; intros acc; cbn [uint_value Pos.of_uint_acc];
    try reflexivity; rewrite <- IHd; f_equal; lia.
Qed.

Lemma uint_value_0 d : uint_value 0 d = Z.of_N (Pos.of_uint d).
Proof.
  induction d; simpl; try reflexivity; try exact IHd;
    apply (uint_value_acc d).
Qed.

Lemma sprintf_d_pos p :
  sprintf_d (Z.pos p)
  = DecimalString.NilEmpty.string_of_uint (Pos.to_uint p).
Proof. reflexivity. Qed.

Lemma sprintf_d_digits n :
  0 < n ->
  all_digits (sprintf_d n) = true
  /\ digits_value (sprintf_d n) = n
  /\ sprintf_d n <> EmptyString.
Proof.
  intros Hn. destruct n as [|p|p]; try lia.
  rewrite sprintf_d_pos.
  assert (Hv : digits_value
                 (DecimalString.NilEmpty.string_of_uint (Pos.to_uint p))
               = Z.pos p).
  { unfold digits_value. rewrite read_digits_uint. cbn [fst].
    rewrite uint_value_0, DecimalPos.Unsigned.of_to. reflexivity. }
  split; [apply all_digits_uint|]. split; [exact Hv|].
  intros E. rewrite E in Hv. discriminate.
Qed.

Lemma mangle_numeric_suffix base ds :
  ds <> EmptyString -> all_digits ds = true -> digits_value ds < LONG_MAX ->
  _mdns_mangle_name (base ++ String "-" ds)
  = base ++ String "-" (sprintf_d (digits_value ds + 1)).
Proof.
  intros Hne Hd Hlt. unfold _mdns_mangle_name.
  rewrite (strrchr_last_dash base ds (all_digits_no_dash _ Hd)).
  replace (drop (S (String.length base)) (base ++ String "-" ds)) with ds
    by (clear; induction base; simpl; [reflexivity|exact IHbase]).
  rewrite strtol_digits by (try assumption; lia).
  rewrite take_app_exact. reflexivity.
Qed.

(** X9.  Mangling a name that holds no '-' again and again counts upwards:
    after [k] rounds ([k] at least 1) the name is the original one followed
    by "-" and the decimal number [k + 1], so the names tried after
    successive collisions are name-2, name-3, name-4, ... (as long as the
    number stays below the largest [long]). *)
Theorem mangle_repeated_counts_up :
  forall name k,
    no_dash name = true ->
    (1 <= k)%nat -> Z.of_nat k + 1 <= LONG_MAX ->
    Nat.iter k _mdns_mangle_name name
    = name ++ String "-" (sprintf_d (Z.of_nat k + 1)).
Proof.
  intros name k Hname Hk. induction k as [|k IH]; [lia|]. intros Hmax.
  destruct k as [|k].
  - simpl. unfold _mdns_mangle_name.
    rewrite (strrchr_no_dash _ Hname). reflexivity.
  - change (Nat.iter (S (S k)) _mdns_mangle_name name)
      with (_mdns_mangle_name (Nat.iter (S k) _mdns_mangle_name name)).
    rewrite IH by lia.
    destruct (sprintf_d_digits (Z.of_nat (S k) + 1) ltac:(lia))
      as (Hd & Hv & Hne).
    rewrite mangle_numeric_suffix by (try assumption; lia).
    rewrite Hv. f_equal. f_equal. f_equal. lia.
Qed.

Lemma mangle_repeated_counts_up_witness :
  Nat.iter 9 _mdns_mangle_name "alpha" = "alpha-10".
Proof.
  apply (mangle_repeated_counts_up "alpha" 9).
  - reflexivity.
  - lia.
  - unfold LONG_MAX. lia.
Defined.

End MangleFacts.

(** ** The hostname over the life of the server *)

Module HostnameFacts.

Import CStr Model Pcb.

Section Events.

Variable esp_random : nat -> Z.
Variable _mdns_create_probe_packet :
  mdns_server_t -> nat -> nat -> list srv_ref -> bool -> bool ->
  option mdns_tx_packet_t.
Variable _mdns_create_announce_packet :
  mdns_server_t -> nat -> nat -> list srv_ref -> bool ->
  option mdns_tx_packet_t.
Variable _mdns_create_announce_from_probe :
  mdns_server_t -> mdns_tx_packet_t -> option mdns_tx_packet_t.
Variable announce_add_records :
  mdns_server_t -> mdns_tx_packet_t -> list srv_ref -> bool ->
  mdns_tx_packet_t.

Local Abbreviation step :=
  (Pcb.step esp_random _mdns_create_probe_packet _mdns_create_announce_packet
     _mdns_create_announce_from_probe announce_add_records).

Local Abbreviation hostname_set :=
  (mdns_hostname_set esp_random _mdns_create_probe_packet).

(** X10.  A server that has a hostname keeps one through every sequence of
    events: interface events, timer and transmit actions, collisions seen
    in received packets (which mangle the name) and calls of
    [mdns_hostname_set] with any argument (an empty or overlong name is
    refused) never leave the hostname [NULL] or empty. *)
Theorem hostname_survives_every_event :
  forall evs s,
    hostname_ok s ->
    hostname_ok (fold_left (fun s e => step s (fst e) (snd e)) evs s).
Proof.
  induction evs as [|[now e] evs IH]; intros s Hs; simpl; [exact Hs|].
  apply IH.
  apply (step_states esp_random _mdns_create_probe_packet
           _mdns_create_announce_packet _mdns_create_announce_from_probe
           announce_add_records s now e Hs).
Qed.

(** What [_mdns_remap_self_service_hostname] does to one service. *)
Definition carried (old new : string) (a b : mdns_service_t) : Prop :=
  srv_addr b = srv_addr a /\ instance b = instance a
  /\ service b = service a /\ proto b = proto a
  /\ priority b = priority a /\ weight b = weight a /\ port b = port a
  /\ txt b = txt a /\ subtype b = subtype a
  /\ hostname b = if match hostname a with
                     | Some h => streq h old
                     | None => false
                     end
                  then Some new else hostname a.

Lemma fold_pcbs_keeps {A : Type} (f : mdns_server_t -> A)
  (g : mdns_server_t -> nat * nat -> mdns_server_t) l :
  (forall s ij, f (g s ij) = f s) ->
  forall s, f (fold_left g l s) = f s.
Proof.
  intros Hg. induction l as [|ij l IH]; intros s; simpl; [reflexivity|].
  rewrite IH. apply Hg.
Qed.

Lemma send_bye_no_instance_keeps s b :
  srv_hostname (_mdns_send_bye_all_pcbs_no_instance s b) = srv_hostname s
  /\ services (_mdns_send_bye_all_pcbs_no_instance s b) = services s.
Proof.
  unfold _mdns_send_bye_all_pcbs_no_instance.
  destruct (filter _ (services s)) as [|x l]; [split; reflexivity|].
  split; [|apply Services.services_send_bye].
  unfold _mdns_send_bye.
  destruct (_str_null_or_empty (srv_hostname s)); [reflexivity|].
  apply fold_pcbs_keeps. intros s0 [i j].
  destruct (_ && _); reflexivity.
Qed.

(** X11.  A call of [mdns_hostname_set] with a name of 1 to 63 characters
    makes that name the hostname and carries the services of the own host
    along: every registered service whose hostname was the old hostname
    (compared with [strcmp]) now has the new one, every other service keeps
    its hostname, and number, order and all other fields of the services
    are unchanged. *)
Theorem hostname_set_carries_own_services :
  forall s now h old,
    srv_hostname s = Some old ->
    _str_null_or_empty (Some h) = false ->
    strlen h <= MDNS_NAME_BUF_LEN - 1 ->
    srv_hostname (hostname_set s now h) = Some h
    /\ Forall2 (carried old h) (services s)
         (services (hostname_set s now h)).
Proof.
  intros s now h old Hold Hne Hlen.
  unfold mdns_hostname_set. rewrite Hne.
  replace (strlen h >? MDNS_NAME_BUF_LEN - 1) with false
    by (symmetry; rewrite Z.gtb_ltb; apply Z.ltb_ge; exact Hlen).
  cbn [orb]. rewrite (Services.strndup_short h Hlen).
  destruct (send_bye_no_instance_keeps s true) as [Hh Hs].
  unfold _mdns_restart_all_pcbs.
  rewrite ServiceFacts.hostname_probe_all_pcbs,
    Services.services_probe_all_pcbs.
  split; [reflexivity|].
  cbn [services with_tx_queue with_hostname
       _mdns_remap_self_service_hostname with_services].
  rewrite Hs, Hh, Hold. clear Hs Hh.
  induction (services s) as [|a l IH]; simpl; [constructor|].
  constructor; [|exact IH].
  unfold carried.
  destruct (hostname a) as [x|] eqn:Eh; [destruct (streq x old) eqn:E|];
    cbn; rewrite ?Eh, ?E; repeat split; reflexivity.
Qed.

End Events.

(** A collision on the host name followed by an attempt to set an empty
    name: the server is left with the mangled name. *)
Definition demo_hostname_events : list (Z * event) :=
  [(1000, Ev_rx_host_collision 0%nat 0%nat); (2000, Ev_hostname_set "")].

Definition demo_step (s : mdns_server_t) (e : Z * event) : mdns_server_t :=
  Pcb.step demo_random demo_probe_packet demo_announce_packet
    demo_announce_from_probe demo_add_records s (fst e) (snd e).

Lemma hostname_survives_every_event_witness :
  hostname_ok (fold_left demo_step demo_hostname_events Services.demo_named)
  /\ srv_hostname
       (fold_left demo_step demo_hostname_events Services.demo_named)
     = Some "alpha-2"%string.
Proof.
  split; [|vm_compute; reflexivity].
  apply (hostname_survives_every_event demo_random demo_probe_packet
           demo_announce_packet demo_announce_from_probe demo_add_records
           demo_hostname_events Services.demo_named).
  vm_compute. reflexivity.
Defined.

Lemma hostname_set_carries_own_services_witness :
  srv_hostname
    (mdns_hostname_set demo_random demo_probe_packet
       Services.demo_registered 9000 "beta")
  = Some "beta"%string
  /\ Forall2 (carried "alpha" "beta") (services Services.demo_registered)
       (services
          (mdns_hostname_set demo_random demo_probe_packet
             Services.demo_registered 9000 "beta")).
Proof.
  apply (hostname_set_carries_own_services demo_random demo_probe_packet
           Services.demo_registered 9000 "beta"%string "alpha"%string).
  - vm_compute. reflexivity.
  - vm_compute. reflexivity.
  - vm_compute. discriminate.
Defined.

End HostnameFacts.

(** ** The addresses of a search result *)

Module SearchFacts.

Import CStr Search.

Lemma ip_eqb_eq a b : ip_eqb a b = true <-> a = b.
Proof.
  destruct a as [x|x], b as [y|y]; simpl; split; intros H;
    try discriminate; try (apply Z.eqb_eq in H; subst; reflexivity);
    try (injection H as ->; apply Z.eqb_refl).
Qed.

Lemma result_add_ip_NoDup r ip :
  NoDup (r_addr r) -> NoDup (r_addr (_mdns_result_add_ip r ip)).
Proof.
  intros H. unfold _mdns_result_add_ip.
  destruct (existsb _ (r_addr r)) eqn:E; [exact H|].
  cbn [r_addr]. constructor; [|exact H].
  intros Hin.
  assert (existsb (fun a => ip_eqb a ip) (r_addr r) = true); [|congruence].
  apply existsb_exists. exists ip. split; [exact Hin|].
  apply ip_eqb_eq. reflexivity.
Qed.

Lemma update_first_Forall {A : Type} (P : A -> Prop) f g :
  (forall x, P x -> P (g x)) ->
  forall l l', Forall P l -> update_first f g l = Some l' -> Forall P l'.
Proof.
  intros Hg. induction l as [|x l IH]; intros l' Hl H; simpl in H;
    [discriminate|].
  inversion Hl as [|? ? Hx Hl']; subst.
  destruct (f x).
  - injection H as <-. constructor; [apply Hg; exact Hx|exact Hl'].
  - destruct (update_first f g l) as [l1|] eqn:E; [|discriminate].
    injection H as <-. constructor; [exact Hx|]. apply (IH l1); auto.
Qed.

(** No address is chained twice to a result. *)
Definition addresses_distinct (s : mdns_search_once_t) : Prop :=
  Forall (fun r => NoDup (r_addr r)) (result s).

Section Records.

Variable _mdns_get_esp_netif : nat -> Z.

Lemma search_result_add_distinct s r :
  addresses_distinct s ->
  addresses_distinct (search_result_add _mdns_get_esp_netif s r).
Proof.
  unfold addresses_distinct. intros H.
  destruct r as [h ip i j ttl|inst st p i j ttl|h port i j ttl|txt i j ttl];
    cbn [search_result_add].
  - unfold _mdns_search_result_add_ip.
    destruct (_ || _).
    + destruct (update_first _ _ (result s)) as [l|] eqn:E.
      * cbn [result with_result].
        refine (update_first_Forall _ _ _ _ _ _ H E).
        intros x Hx. apply (result_add_ip_NoDup x ip Hx).
      * destruct (has_room s); [|exact H].
        cbn [push_result result with_result]. constructor; [|exact H].
        cbn [r_addr]. constructor; [intros []|constructor].
    + destruct (_ || _); [|exact H].
      destruct (update_first _ _ (result s)) as [l|] eqn:E; [|exact H].
      cbn [result with_result].
      refine (update_first_Forall _ _ _ _ _ _ H E).
      intros x Hx. apply (result_add_ip_NoDup x ip Hx).
  - unfold _mdns_search_result_add_ptr.
    destruct (update_first _ _ (result s)) as [l|] eqn:E.
    + cbn [result with_result].
      refine (update_first_Forall _ _ _ _ _ _ H E).
      intros x Hx. exact Hx.
    + destruct (has_room s); [|exact H].
      cbn [push_result result with_result]. constructor; [|exact H].
      cbn [r_addr]. constructor.
  - unfold _mdns_search_result_add_srv.
    destruct (update_first _ _ (result s)) as [l|] eqn:E.
    + cbn [result with_result].
      refine (update_first_Forall _ _ _ _ _ _ H E).
      intros x Hx. exact Hx.
    + destruct (has_room s); [|exact H].
      cbn [push_result result with_result]. constructor; [|exact H].
      cbn [r_addr]. constructor.
  - unfold _mdns_search_result_add_txt.
    destruct (update_first _ _ (result s)) as [l|] eqn:E.
    + cbn [result with_result].
      refine (update_first_Forall _ _ _ _ _ _ H E).
      intros x Hx. destruct (r_txt x); exact Hx.
    + destruct (has_room s); [|exact H].
      cbn [push_result result with_result]. constructor; [|exact H].
      cbn [r_addr]. constructor.
Qed.

(** X12.  Whatever records the parser hands to a search, in whatever
    order, no result of the search lists an address twice: an A or AAAA
    record that repeats an address already chained to the result adds
    nothing. *)
Theorem results_never_repeat_an_address :
  forall name service proto type unicast timeout max_results now records,
    Forall (fun r => NoDup (r_addr r))
      (result
         (fold_left (search_result_add _mdns_get_esp_netif) records
            (_mdns_search_init name service proto type unicast timeout
               max_results now))).
Proof.
  intros name service proto type unicast timeout max_results now records.
  change (addresses_distinct
            (fold_left (search_result_add _mdns_get_esp_netif) records
               (_mdns_search_init name service proto type unicast timeout
                  max_results now))).
  assert (H0 : addresses_distinct
                 (_mdns_search_init name service proto type unicast timeout
                    max_results now)) by constructor.
  revert H0. generalize (_mdns_search_init name service proto type unicast
                           timeout max_results now).
  induction records as [|r records IH]; intros s Hs; simpl; [exact Hs|].
  apply IH, search_result_add_distinct, Hs.
Qed.














End Records.

End SearchFacts.

(** ** The records of a reply *)

Module ResponderFacts.

Import CStr Model Services Responder.

(** What [_mdns_alloc_answer] compares: type, service and host. *)
Definition answer_key (a : mdns_out_answer_t)
  : Z * option srv_ref * option host_ref :=
  (a_type a, a_service a, a_host a).



Lemma opt_eqb_nat a b : opt_eqb Nat.eqb a b = true <-> a = b.
Proof.
  destruct a as [x|], b as [y|]; simpl; split; intros H;
    try discriminate; try reflexivity.
  - apply Nat.eqb_eq in H. subst. reflexivity.
  - injection H as ->. apply Nat.eqb_refl.
Qed.

Lemma host_ref_eqb_eq a b : host_ref_eqb a b = true <-> a = b.
Proof.
  destruct a as [|x], b as [|y]; simpl; split; intros H;
    try discriminate; try reflexivity.
  - apply Nat.eqb_eq in H. subst. reflexivity.
  - injection H as ->. apply Nat.eqb_refl.
Qed.

Lemma opt_eqb_host a b : opt_eqb host_ref_eqb a b = true <-> a = b.
Proof.
  destruct a as [x|], b as [y|]; simpl; split; intros H;
    try discriminate; try reflexivity.
  - apply host_ref_eqb_eq in H. subst. reflexivity.
  - injection H as ->. apply host_ref_eqb_eq. reflexivity.
Qed.

Lemma same_answer_key type service host d :
  same_answer type service host d = true
  <-> answer_key d = (type, service, host).
Proof.
  unfold same_answer, answer_key. rewrite !andb_true_iff, Z.eqb_eq,
    opt_eqb_nat, opt_eqb_host.
  split; [intros [[-> ->] ->]; reflexivity|].
  intros H. injection H as -> -> ->. auto.
Qed.







Section Reply.

Variable CONFIG_MDNS_RESPOND_REVERSE_QUERIES : bool.







End Reply.

(** *** The hosts of an answer to an ANY question *)

Definition hosts_of (d : list mdns_out_answer_t) : list (option host_ref) :=
  map a_host d.

Lemma alloc_answer_hosts d type service host flush bye x :
  In x (hosts_of (_mdns_alloc_answer d type service host flush bye))
  <-> In x (hosts_of d) \/ x = host.
Proof.
  unfold hosts_of, _mdns_alloc_answer.
  destruct (existsb _ d) eqn:E.
  - split; [tauto|]. intros [H | ->]; [exact H|].
    apply existsb_exists in E as (a & Ha & Hk).
    apply same_answer_key in Hk. injection Hk as _ _ <-.
    apply in_map. exact Ha.
  - rewrite map_app, in_app_iff. cbn. intuition congruence.
Qed.

Lemma append_host_hosts d host flush bye x :
  In x (hosts_of (_mdns_append_host d host flush bye))
  <-> In x (hosts_of d) \/ x = host.
Proof.
  unfold _mdns_append_host. rewrite !alloc_answer_hosts. tauto.
Qed.

Lemma fold_append_host_hosts flush bye l :
  forall d x,
    In x (hosts_of (fold_left (fun d h => _mdns_append_host d h flush bye)
                      l d))
    <-> In x (hosts_of d) \/ In x l.
Proof.
  induction l as [|h l IH]; intros d x; simpl; [tauto|].
  rewrite IH, append_host_hosts. intuition congruence.
Qed.

Lemma own_host_item s :
  _str_null_or_empty (srv_hostname s) = false ->
  mdns_get_host_item s (srv_hostname s) = Some HOST_SELF.
Proof.
  unfold mdns_get_host_item. destruct (srv_hostname s) as [own|];
    [|reflexivity].
  intros _. rewrite strcaseeq_refl. reflexivity.
Qed.

(** X15.  The hosts that [_mdns_append_host_list] gives address records
    (A and AAAA) to are: the own host when the server has a hostname,
    every delegated host but the first of the list, and a [NULL] host.
    The first delegated host of the list gets no record (the loop steps to
    [host->next] before it appends). *)
Theorem append_host_list_skips_first_delegated_host :
  forall s flush bye h0 rest,
    host_list s = h0 :: rest ->
    (forall x,
       In x (hosts_of (_mdns_append_host_list s [] flush bye))
       <-> (_str_null_or_empty (srv_hostname s) = false
            /\ x = Some HOST_SELF)
           \/ (exists h, In h rest
                          /\ x = Some (HOST_DELEGATED (host_addr h)))
           \/ x = None)
    /\ (~ In (host_addr h0) (map host_addr rest) ->
        ~ In (Some (HOST_DELEGATED (host_addr h0)))
             (hosts_of (_mdns_append_host_list s [] flush bye))).
Proof.
  intros s flush bye h0 rest Hl.
  assert (Hiff : forall x,
       In x (hosts_of (_mdns_append_host_list s [] flush bye))
       <-> (_str_null_or_empty (srv_hostname s) = false
            /\ x = Some HOST_SELF)
           \/ (exists h, In h rest
                          /\ x = Some (HOST_DELEGATED (host_addr h)))
           \/ x = None).
  { intros x. unfold _mdns_append_host_list. rewrite Hl.
    rewrite fold_append_host_hosts, in_app_iff, in_map_iff.
    destruct (_str_null_or_empty (srv_hostname s)) eqn:E; cbn [negb].
    - cbn. split.
      + intros [ [] | [ (h & Hx & Hh) | [ Hx | [] ] ] ]; subst; eauto 6.
      + intros [ [H _] | [ (h & Hh & Hx) | Hx ] ]; subst;
          [discriminate| |]; eauto 6.
    - rewrite append_host_hosts, (own_host_item s E). cbn. split.
      + intros [ [ [] | Hx ] | [ (h & Hx & Hh) | [ Hx | [] ] ] ]; subst;
          eauto 6.
      + intros [ [_ Hx] | [ (h & Hh & Hx) | Hx ] ]; subst; eauto 6. }
  split; [exact Hiff|].
  intros Hfirst Hin. apply Hiff in Hin as [ [_ Hx] | [ (h & Hh & Hx) | Hx ] ];
    try discriminate.
  injection Hx as Hx. apply Hfirst. rewrite Hx. apply in_map. exact Hh.
Qed.

(** Two delegated hosts, "printer" and "camera": an answer to an ANY
    question lists the own host, "camera" and a [NULL] host. *)
Definition demo_delegated : mdns_server_t :=
  {| srv_hostname := srv_hostname Responder.demo_responder;
     srv_instance := srv_instance Responder.demo_responder;
     services := services Responder.demo_responder;
     host_list := [ {| host_addr := 1%nat; host_hostname := "printer";
                       address_list := [3232235779] |};
                    {| host_addr := 2%nat; host_hostname := "camera";
                       address_list := [3232235780] |} ];
     pcbs := pcbs Responder.demo_responder;
     tx_queue_head := tx_queue_head Responder.demo_responder;
     duplicate := duplicate Responder.demo_responder;
     wire := wire Responder.demo_responder;
     rnd_calls := rnd_calls Responder.demo_responder |}.

Lemma append_host_list_skips_first_delegated_host_witness :
  ~ In (Some (HOST_DELEGATED 1%nat))
       (hosts_of (_mdns_append_host_list demo_delegated [] true false))
  /\ hosts_of (_mdns_append_host_list demo_delegated [] true false)
     = [Some HOST_SELF; Some HOST_SELF; Some (HOST_DELEGATED 2%nat);
        Some (HOST_DELEGATED 2%nat); None; None].
Proof.
  split; [|vm_compute; reflexivity].
  refine (proj2 (append_host_list_skips_first_delegated_host demo_delegated
                   true false _ _ eq_refl) _).
  cbn. intros [H|[]]. discriminate.
Defined.

End ResponderFacts.

(** ** TXT records ([_mdns_append_txt_record], [_mdns_result_txt_create]) *)

Module Txt.

Import CStr Codec Model.

(** Modelled from the spec: [mdns_txt_linked_item_t] (mdns_private.h): the
    key, the value ([None] for [NULL]) and the number [value_len] of bytes
    of the value, a [uint8_t]. *)
Record mdns_txt_linked_item_t : Type := {
  key : option string;
  value : option string;
  value_len : Z
}.

(** The item [_mdns_allocate_txt] makes of a pair of strings: both are
    copied with [strdup], and [value_len] is [strlen] of the value. *)
Definition linked_item (kv : string * string) : mdns_txt_linked_item_t :=
  {| key := Some (fst kv); value := Some (snd kv);
     value_len := u8 (strlen (snd kv)) |}.

(** [append_one_txt_record_entry]: the value returned is an [int]. *)
Definition append_one_txt_record_entry (packet : mem) (index : Z)
  (txt : option mdns_txt_linked_item_t) : out :=
  match txt with
  | None => (packet, index, -1)
  | Some t =>
      match key t with
      | None => (packet, index, -1)
      | Some k =>
          let key_len := strlen k in
          let len :=
            key_len + value_len t
            + match value t with Some _ => 1 | None => 0 end in
          if index + len + 1 >=? MDNS_MAX_PACKET_SIZE then (packet, index, 0)
          else
            let '(p1, i1, _) := _mdns_append_u8 packet index len in
            let p2 := wr_bytes p1 i1 (bytes_of k) in
            let p3 :=
              match value t with
              | Some v =>
                  wr_bytes (wr p2 (i1 + key_len) 61) (i1 + key_len + 1)
                    (firstn (Z.to_nat (value_len t)) (bytes_of v))
              | None => p2
              end in
            (p3, u16 (i1 + len), len + 1)
      end
  end.

(** The [while (txt)] loop of [_mdns_append_txt_record], with the
    [uint16_t data_len] it adds up; [None] stands for the [return 0] at an
    item that does not fit. *)
Fixpoint append_txt_entries (packet : mem) (index : Z) (data_len : Z)
  (txt : list mdns_txt_linked_item_t) : mem * Z * option Z :=
  match txt with
  | [] => (packet, index, Some data_len)
  | t :: rest =>
      let '(p, i, l) := append_one_txt_record_entry packet index (Some t) in
      if l >? 0 then append_txt_entries p i (u16 (data_len + l)) rest
      else if l =? 0 then (p, i, None)
      else append_txt_entries p i data_len rest
  end.

Section TxtRecord.

Variable cfg : bool.

(** Modelled from the spec: [MDNS_ANSWER_TXT_TTL] (mdns_private.h); the
    spec gives no value for it. *)
Variable MDNS_ANSWER_TXT_TTL : Z.

(** [_mdns_append_txt_record]; [part_length] is a [uint8_t],
    [record_length] and [data_len] are [uint16_t]. *)
Definition _mdns_append_txt_record (s : mdns_server_t) (packet : mem)
  (index : Z) (service : option mdns_service_t) (flush bye : bool) : out :=
  match service with
  | None => (packet, index, 0)
  | Some srv =>
      match _mdns_get_service_instance_name s srv with
      | None => (packet, index, 0)
      | Some name =>
          let '(p1, i1, r1) :=
            _mdns_append_fqdn cfg packet index
              [name; Model.service srv; Model.proto srv; MDNS_DEFAULT_DOMAIN]
              MDNS_MAX_PACKET_SIZE in
          let part_length := u8 r1 in
          if part_length =? 0 then (p1, i1, 0)
          else
            let record_length := part_length in
            let '(p2, i2, r2) :=
              _mdns_append_type p1 i1 MDNS_ANSWER_TXT flush
                (if bye then 0 else MDNS_ANSWER_TXT_TTL) in
            let part_length := u8 r2 in
            if part_length =? 0 then (p2, i2, 0)
            else
              let record_length := u16 (record_length + part_length) in
              let data_len_location := u16 (i2 - 2) in
              match append_txt_entries p2 i2 0
                      (map linked_item (Model.txt srv)) with
              | (p3, i3, None) => (p3, i3, 0)
              | (p3, i3, Some data_len) =>
                  let '(p4, i4, data_len) :=
                    if data_len =? 0
                    then (wr p3 i3 0, u16 (i3 + 1), 1)
                    else (p3, i3, data_len) in
                  (_mdns_set_u16 p4 data_len_location data_len, i4,
                   u16 (record_length + data_len))
              end
      end
  end.

End TxtRecord.

(** *** The parser's side *)

(** [n] bytes of the buffer from [pos]. *)
Definition read_bytes (m : mem) (pos : Z) (n : nat) : list Z :=
  map (fun k => rd m (pos + Z.of_nat k)) (seq 0 n).

(** A buffer of bytes with its length kept beside it. *)
Fixpoint string_of_bytes (l : list Z) : string :=
  match l with
  | [] => EmptyString
  | b :: l' => String (char_of b) (string_of_bytes l')
  end.

(** The [while (i < len)] loop of [_mdns_txt_items_count_get]; [i] is a
    [uint16_t], [k] bounds the number of rounds ([None]: bound reached). *)
Fixpoint count_loop (k : nat) (data : mem) (start len : Z) (i : Z)
  (num_items : Z) : option Z :=
  match k with
  | O => None
  | S k' =>
      if i <? len then
        let partLen := rd data (start + i) in
        let i := u16 (i + 1) in
        if partLen =? 0 then Some num_items
        else if i + partLen >? len then Some (-1)
        else count_loop k' data start len (u16 (i + partLen)) (num_items + 1)
      else Some num_items
  end.

(** [_mdns_txt_items_count_get(data, len)], [data] being the bytes from
    [start] of the buffer.  Every round but the last moves [i] forward, so
    [len + 1] rounds are enough while [i] does not wrap. *)
Definition _mdns_txt_items_count_get (data : mem) (start len : Z)
  : option Z :=
  if len =? 1 then Some 0
  else count_loop (S (Z.to_nat len)) data start len 0 0.

(** The [for] loop of [_mdns_txt_item_name_get_len]: the offset of the
    first '=' among the [n] bytes from [pos + i], [i + n] when there is
    none. *)
Fixpoint find_equals (data : mem) (pos : Z) (n : nat) (i : Z) : Z :=
  match n with
  | O => i
  | S n' =>
      if rd data (pos + i) =? 61 then i
      else find_equals data pos n' (i + 1)
  end.

(** [_mdns_txt_item_name_get_len(data + pos, len)]. *)
Definition _mdns_txt_item_name_get_len (data : mem) (pos len : Z) : Z :=
  if rd data pos =? 61 then -1
  else find_equals data pos (Z.to_nat len) 0.

(** Modelled from the spec: [mdns_txt_item_t] (mdns.h): key and value of a
    TXT item of a result.  The value is kept as the bytes copied, whose
    number goes to the array [txt_value_len]. *)
Record mdns_txt_item_t : Type := {
  item_key : string;
  item_value : option string
}.

(** What [_mdns_result_txt_create] leaves in [*out_txt],
    [*out_value_len] and [*out_count]: the array of the items with their
    value lengths, or [NULL] and 0.  The array is allocated for the number
    of items that [_mdns_txt_items_count_get] returns; [Txt_overrun] marks
    a run that stores an item behind the last element of the array. *)
Inductive txt_result : Type :=
| Txt_array (items : list (mdns_txt_item_t * Z))
| Txt_null
| Txt_overrun.

(** The [while (i < len)] loop of [_mdns_result_txt_create]; [acc] holds
    the items stored so far, latest first ([txt_num] is its length). *)
Fixpoint txt_loop (k : nat) (data : mem) (start len : Z) (num_items : Z)
  (i : Z) (acc : list (mdns_txt_item_t * Z)) : option txt_result :=
  match k with
  | O => None
  | S k' =>
      if i <? len then
        let partLen := rd data (start + i) in
        let i := u16 (i + 1) in
        if partLen =? 0 then Some (Txt_array (rev acc))
        else if i + partLen >? len then Some Txt_null
        else
          let name_len :=
            _mdns_txt_item_name_get_len data (start + i) partLen in
          if name_len <? 0 then
            (* invalid item (no name) *)
            txt_loop k' data start len num_items (u16 (i + partLen)) acc
          else if Z.of_nat (List.length acc) >=? num_items then
            Some Txt_overrun
          else
            let k_ := cstring_of (read_bytes data (start + i)
                                    (Z.to_nat name_len)) in
            let i := u16 (i + name_len + 1) in
            let new_value_len := partLen - name_len - 1 in
            if new_value_len >? 0 then
              let v := string_of_bytes
                         (read_bytes data (start + i)
                            (Z.to_nat new_value_len)) in
              txt_loop k' data start len num_items (u16 (i + new_value_len))
                (({| item_key := k_; item_value := Some v |},
                  u8 new_value_len) :: acc)
            else
              txt_loop k' data start len num_items i
                (({| item_key := k_; item_value := None |}, 0) :: acc)
      else Some (Txt_array (rev acc))
  end.

(** [_mdns_result_txt_create(data, len, &txt, &txt_value_len, &count)]
    ([None]: the bound on the rounds of a loop was reached). *)
Definition _mdns_result_txt_create (data : mem) (start len : Z)
  : option txt_result :=
  match _mdns_txt_items_count_get data start len with
  | None => None
  | Some num_items =>
      if num_items <? 0 then Some Txt_null
      else if num_items =? 0 then Some Txt_null
      else txt_loop (S (Z.to_nat len)) data start len num_items 0 []
  end.

(** *** The bytes of an item *)

Lemma code_range c : 0 <= code c < 256.
Proof.
  unfold code. pose proof (N_ascii_bounded c) as H. lia.
Qed.

Lemma char_of_code c : char_of (code c) = c.
Proof.
  unfold char_of, u8. pose proof (code_range c) as H.
  rewrite Z.mod_small by lia. unfold code.
  rewrite N2Z.id. apply ascii_N_embedding.
Qed.

Lemma u8_small z : 0 <= z < 256 -> u8 z = z.
Proof. intros H. unfold u8. apply Z.mod_small. lia. Qed.

Lemma u16_small z : 0 <= z < 65536 -> u16 z = z.
Proof. intros H. unfold u16. apply Z.mod_small. lia. Qed.

Lemma length_bytes_of s : List.length (bytes_of s) = String.length s.
Proof. induction s as [|c s IH]; simpl; [reflexivity|]. rewrite IH. reflexivity. Qed.

Lemma bytes_of_range s : Forall (fun b => 0 <= b < 256) (bytes_of s).
Proof.
  induction s as [|c s IH]; simpl; constructor; [apply code_range|exact IH].
Qed.

Lemma string_of_bytes_of s : string_of_bytes (bytes_of s) = s.
Proof.
  induction s as [|c s IH]; simpl; [reflexivity|].
  rewrite char_of_code, IH. reflexivity.
Qed.

Lemma cstring_of_bytes_of s :
  Forall (fun b => b <> 0) (bytes_of s) -> cstring_of (bytes_of s) = s.
Proof.
  induction s as [|c s IH]; simpl; intros H; [reflexivity|].
  inversion H as [|? ? Hc Hs]; subst.
  rewrite (u8_small _ (code_range c)).
  destruct (code c =? 0) eqn:E; [apply Z.eqb_eq in E; contradiction|].
  rewrite char_of_code, IH by exact Hs. reflexivity.
Qed.

(** The buffer holds the bytes [l] from [pos] on. *)
Definition holds (m : mem) (pos : Z) (l : list Z) : Prop :=
  forall k, (k < List.length l)%nat -> rd m (pos + Z.of_nat k) = u8 (nth k l 0).

Lemma holds_app m pos a b :
  holds m pos (a ++ b)
  <-> holds m pos a /\ holds m (pos + Z.of_nat (List.length a)) b.
Proof.
  unfold holds. split.
  - intros H. split.
    + intros k Hk. rewrite H by (rewrite length_app; lia).
      rewrite app_nth1 by exact Hk. reflexivity.
    + intros k Hk.
      replace (pos + Z.of_nat (List.length a) + Z.of_nat k)
        with (pos + Z.of_nat (List.length a + k)) by lia.
      rewrite H by (rewrite length_app; lia).
      rewrite app_nth2 by lia.
      replace (List.length a + k - List.length a)%nat with k by lia.
      reflexivity.
  - intros [Ha Hb] k Hk. rewrite length_app in Hk.
    destruct (Nat.lt_ge_cases k (List.length a)) as [Hlt|Hge].
    + rewrite app_nth1 by exact Hlt. apply Ha. exact Hlt.
    + rewrite app_nth2 by exact Hge.
      replace (pos + Z.of_nat k)
        with (pos + Z.of_nat (List.length a)
              + Z.of_nat (k - List.length a)) by lia.
      apply Hb. lia.
Qed.

Lemma holds_cons m pos b l :
  holds m pos (b :: l) <-> rd m pos = u8 b /\ holds m (pos + 1) l.
Proof.
  change (b :: l) with ([b] ++ l). rewrite holds_app. cbn [List.length].
  change (Z.of_nat 1) with 1. split; intros [H1 H2]; split; try exact H2.
  - specialize (H1 0%nat). cbn in H1. rewrite Z.add_0_r in H1.
    apply H1. lia.
  - intros k Hk. cbn in Hk. assert (k = 0%nat) as -> by lia.
    cbn. rewrite Z.add_0_r. exact H1.
Qed.

Lemma holds_frame m m' pos l :
  holds m pos l ->
  (forall j, pos <= j < pos + Z.of_nat (List.length l) -> rd m' j = rd m j) ->
  holds m' pos l.
Proof.
  unfold holds. intros H Hf k Hk. rewrite Hf by lia. apply H. exact Hk.
Qed.

Lemma holds_wr_bytes l : forall m pos, holds (wr_bytes m pos l) pos l.
Proof.
  induction l as [|b l IH]; intros m pos.
  - intros k Hk. simpl in Hk. lia.
  - apply holds_cons. cbn [wr_bytes]. split; [|apply IH].
    rewrite CodecFacts.wr_bytes_outside by lia. apply rd_wr_same.
Qed.

Lemma read_bytes_holds m pos l :
  holds m pos l -> read_bytes m pos (List.length l) = map u8 l.
Proof.
  unfold read_bytes. intros H.
  apply nth_ext with (d := 0) (d' := u8 0).
  - rewrite !length_map, length_seq. reflexivity.
  - intros n Hn. rewrite length_map, length_seq in Hn.
    rewrite (map_nth u8).
    rewrite nth_indep with (d' := rd m (pos + Z.of_nat 0))
      by (rewrite length_map, length_seq; exact Hn).
    rewrite (map_nth (fun k => rd m (pos + Z.of_nat k)) (seq 0 (List.length l)) 0%nat).
    rewrite seq_nth by exact Hn. cbn [Nat.add]. apply H. exact Hn.
Qed.

Lemma map_u8_bytes l : Forall (fun b => 0 <= b < 256) l -> map u8 l = l.
Proof.
  induction 1 as [|b l Hb Hl IH]; simpl; [reflexivity|].
  rewrite (u8_small b Hb), IH. reflexivity.
Qed.

(** The bytes of one item on the wire: the length, the key and, when the
    item has a value, '=' and the value. *)
Definition entry_bytes (t : mdns_txt_linked_item_t) : list Z :=
  match key t with
  | None => []
  | Some k =>
      (strlen k + value_len t
       + match value t with Some _ => 1 | None => 0 end)
      :: bytes_of k
         ++ match value t with
            | Some v => 61 :: firstn (Z.to_nat (value_len t)) (bytes_of v)
            | None => []
            end
  end.

Definition txt_bytes (txt : list mdns_txt_linked_item_t) : list Z :=
  flat_map entry_bytes txt.

(** An item that the parser can give back: the key is not empty and holds
    neither '=' nor a NUL, [value_len] is the length of the value (0 for no
    value), and key, '=' and value fit the length byte. *)
Definition entry_ok (t : mdns_txt_linked_item_t) : Prop :=
  match key t with
  | None => False
  | Some k =>
      k <> EmptyString
      /\ Forall (fun b => b <> 0 /\ b <> 61) (bytes_of k)
      /\ match value t with
         | Some v => value_len t = strlen v
         | None => value_len t = 0
         end
      /\ strlen k + value_len t
         + match value t with Some _ => 1 | None => 0 end <= 255
  end.

Lemma length_entry_bytes t :
  entry_ok t ->
  match key t with
  | Some k =>
      Z.of_nat (List.length (entry_bytes t))
      = strlen k + value_len t
        + match value t with Some _ => 1 | None => 0 end + 1
      /\ 1 <= strlen k /\ 0 <= value_len t
  | None => False
  end.
Proof.
  unfold entry_ok, entry_bytes. destruct (key t) as [k|]; [|tauto].
  intros (Hne & _ & Hv & _).
  assert (Hk : 1 <= strlen k).
  { unfold strlen. destruct k; [contradiction|]. cbn [String.length]. lia. }
  cbn [List.length]. rewrite length_app, length_bytes_of.
  destruct (value t) as [v|].
  - cbn [List.length]. rewrite length_firstn, length_bytes_of, Hv.
    unfold strlen in *. lia.
  - cbn [List.length]. unfold strlen in *. lia.
Qed.

(** One item that fits is written as [entry_bytes] says, and nothing else
    is touched. *)
Lemma entry_written packet index t :
  entry_ok t -> 0 <= index ->
  index + Z.of_nat (List.length (entry_bytes t)) < MDNS_MAX_PACKET_SIZE ->
  exists p',
    append_one_txt_record_entry packet index (Some t)
    = (p', index + Z.of_nat (List.length (entry_bytes t)),
       Z.of_nat (List.length (entry_bytes t)))
    /\ holds p' index (entry_bytes t)
    /\ forall j, j < index
                 \/ index + Z.of_nat (List.length (entry_bytes t)) <= j ->
                 rd p' j = rd packet j.
Proof.
  intros Hok Hi Hfit. pose proof (length_entry_bytes t Hok) as Hlen.
  unfold append_one_txt_record_entry. unfold entry_ok in Hok.
  unfold entry_bytes in *.
  destruct (key t) as [k|]; [|contradiction].
  destruct Hok as (Hne & Hplain & Hv & H255).
  destruct Hlen as (Hlen & Hk & Hvl).
  set (len := strlen k + value_len t
              + match value t with Some _ => 1 | None => 0 end) in *.
  unfold MDNS_MAX_PACKET_SIZE in *.
  replace (index + len + 1 >=? 1460) with false
    by (symmetry; rewrite Z.geb_leb; apply Z.leb_gt; lia).
  unfold _mdns_append_u8, MDNS_MAX_PACKET_SIZE.
  replace (index >=? 1460) with false
    by (symmetry; rewrite Z.geb_leb; apply Z.leb_gt; lia).
  rewrite (u16_small (index + 1)) by lia.
  rewrite (u16_small (index + 1 + len)) by (destruct (value t); lia).
  eexists. split; [rewrite Hlen; f_equal; f_equal; lia|].
  assert (Hkl : Z.of_nat (List.length (bytes_of k)) = strlen k)
    by (rewrite length_bytes_of; reflexivity).
  split.
  - apply holds_cons. split.
    + destruct (value t) as [v|].
      * rewrite !CodecFacts.wr_bytes_outside by lia.
        rewrite rd_wr_other by lia.
        rewrite CodecFacts.wr_bytes_outside by lia. apply rd_wr_same.
      * rewrite CodecFacts.wr_bytes_outside by lia. apply rd_wr_same.
    + apply holds_app. split.
      * destruct (value t) as [v|].
        -- eapply holds_frame; [apply holds_wr_bytes|].
           intros j Hj. rewrite CodecFacts.wr_bytes_outside by lia.
           apply rd_wr_other. lia.
        -- apply holds_wr_bytes.
      * destruct (value t) as [v|]; [|intros n Hn; simpl in Hn; lia].
        rewrite Hkl. apply holds_cons. split.
        -- rewrite CodecFacts.wr_bytes_outside by lia.
           replace (index + 1 + strlen k) with (index + 1 + strlen k) by lia.
           apply rd_wr_same.
        -- replace (index + 1 + strlen k + 1) with (index + 1 + strlen k + 1)
             by lia.
           apply holds_wr_bytes.
  - intros j Hj. rewrite Hlen in Hj.
    assert (Hvb : forall v, value t = Some v ->
              Z.of_nat (List.length (firstn (Z.to_nat (value_len t))
                                       (bytes_of v))) = value_len t).
    { intros v Ev. rewrite Ev in Hv. rewrite length_firstn, length_bytes_of.
      unfold strlen in Hv. lia. }
    destruct (value t) as [v|] eqn:Ev.
    + rewrite CodecFacts.wr_bytes_outside by (rewrite (Hvb v eq_refl); lia).
      rewrite rd_wr_other by lia.
      rewrite CodecFacts.wr_bytes_outside by lia.
      apply rd_wr_other. lia.
    + rewrite CodecFacts.wr_bytes_outside by lia.
      apply rd_wr_other. lia.
Qed.

Lemma entry_bytes_nonempty t :
  entry_ok t -> (2 <= List.length (entry_bytes t))%nat.
Proof.
  intros H. pose proof (length_entry_bytes t H) as Hl.
  destruct (key t); [|contradiction]. destruct (value t); lia.
Qed.

Lemma entries_written txt : forall packet index data_len,
  Forall entry_ok txt -> 0 <= index -> 0 <= data_len ->
  index + Z.of_nat (List.length (txt_bytes txt)) < MDNS_MAX_PACKET_SIZE ->
  data_len + Z.of_nat (List.length (txt_bytes txt)) < 65536 ->
  exists p',
    append_txt_entries packet index data_len txt
    = (p', index + Z.of_nat (List.length (txt_bytes txt)),
       Some (data_len + Z.of_nat (List.length (txt_bytes txt))))
    /\ holds p' index (txt_bytes txt)
    /\ forall j, j < index
                 \/ index + Z.of_nat (List.length (txt_bytes txt)) <= j ->
                 rd p' j = rd packet j.
Proof.
  induction txt as [|t rest IH]; intros packet index data_len Hok Hi Hd Hfit H16.
  - exists packet. cbn. rewrite !Z.add_0_r.
    split; [reflexivity|]. split; [|reflexivity].
    intros k Hk. simpl in Hk. lia.
  - inversion Hok as [|? ? Ht Hrest]; subst.
    cbn [txt_bytes flat_map] in *. fold (txt_bytes rest) in *.
    rewrite length_app in *. rewrite Nat2Z.inj_add in *.
    pose proof (entry_bytes_nonempty t Ht) as H2.
    assert (Hfit1 : index + Z.of_nat (List.length (entry_bytes t))
                    < MDNS_MAX_PACKET_SIZE)
      by (revert Hfit; generalize MDNS_MAX_PACKET_SIZE; intros; lia).
    assert (Hfit2 : index + Z.of_nat (List.length (entry_bytes t))
                    + Z.of_nat (List.length (txt_bytes rest))
                    < MDNS_MAX_PACKET_SIZE)
      by (revert Hfit; generalize MDNS_MAX_PACKET_SIZE; intros; lia).
    destruct (entry_written packet index t Ht Hi Hfit1)
      as (p1 & E1 & Hh1 & Hf1).
    cbn [append_txt_entries]. rewrite E1.
    replace (Z.of_nat (List.length (entry_bytes t)) >? 0) with true
      by (symmetry; apply Z.gtb_lt; lia).
    rewrite u16_small by lia.
    destruct (IH p1 (index + Z.of_nat (List.length (entry_bytes t)))
                (data_len + Z.of_nat (List.length (entry_bytes t)))
                Hrest ltac:(lia) ltac:(lia) Hfit2 ltac:(lia))
      as (p2 & E2 & Hh2 & Hf2).
    exists p2. split; [rewrite E2, !Z.add_assoc; reflexivity|].
    split.
    + apply holds_app. split; [|exact Hh2].
      eapply holds_frame; [exact Hh1|]. intros j Hj. apply Hf2. lia.
    + intros j Hj. rewrite Hf2 by lia. apply Hf1. lia.
Qed.

(** *** Reading the items back *)

Lemma find_equals_none data pos n : forall i,
  (forall j, 0 <= j < Z.of_nat n -> rd data (pos + i + j) <> 61) ->
  find_equals data pos n i = i + Z.of_nat n.
Proof.
  induction n as [|n IH]; intros i H; cbn [find_equals]; [lia|].
  destruct (rd data (pos + i) =? 61) eqn:E.
  - apply Z.eqb_eq in E. exfalso. apply (H 0); [lia|].
    rewrite Z.add_0_r. exact E.
  - rewrite IH; [lia|]. intros j Hj.
    replace (pos + (i + 1) + j) with (pos + i + (j + 1)) by lia.
    apply H. lia.
Qed.

Lemma find_equals_at data pos n : forall i a,
  0 <= a < Z.of_nat n ->
  (forall j, 0 <= j < a -> rd data (pos + i + j) <> 61) ->
  rd data (pos + i + a) = 61 ->
  find_equals data pos n i = i + a.
Proof.
  induction n as [|n IH]; intros i a Ha H E; [lia|]. cbn [find_equals].
  destruct (rd data (pos + i) =? 61) eqn:E0.
  - apply Z.eqb_eq in E0. destruct (Z.eq_dec a 0) as [->|Hne]; [lia|].
    exfalso. apply (H 0); [lia|]. rewrite Z.add_0_r. exact E0.
  - destruct (Z.eq_dec a 0) as [->|Hne].
    + rewrite Z.add_0_r in E. rewrite E in E0. discriminate.
    + rewrite (IH (i + 1) (a - 1)); [lia|lia| |].
      * intros j Hj.
        replace (pos + (i + 1) + j) with (pos + i + (j + 1)) by lia.
        apply H. lia.
      * replace (pos + (i + 1) + (a - 1)) with (pos + i + a) by lia.
        exact E.
Qed.

Lemma holds_nth data pos l (P : Z -> Prop) :
  holds data pos l -> Forall (fun b => 0 <= b < 256) l -> Forall P l ->
  forall j, 0 <= j < Z.of_nat (List.length l) -> P (rd data (pos + j)).
Proof.
  intros H Hr HP j Hj.
  replace j with (Z.of_nat (Z.to_nat j)) by lia.
  rewrite H by lia.
  assert (Hin : In (nth (Z.to_nat j) l 0) l) by (apply nth_In; lia).
  rewrite Forall_forall in Hr, HP.
  rewrite u8_small by (apply Hr; exact Hin). apply HP. exact Hin.
Qed.

(** Where the parts of an item lie. *)
Lemma entry_layout data p t k :
  entry_ok t -> key t = Some k -> holds data p (entry_bytes t) ->
  rd data p = strlen k + value_len t
              + match value t with Some _ => 1 | None => 0 end
  /\ holds data (p + 1) (bytes_of k)
  /\ match value t with
     | Some v => rd data (p + 1 + strlen k) = 61
                 /\ holds data (p + 2 + strlen k) (bytes_of v)
     | None => True
     end.
Proof.
  intros Hok Hk H. pose proof (length_entry_bytes t Hok) as Hlen.
  unfold entry_ok in Hok. unfold entry_bytes in H. rewrite Hk in *.
  destruct Hok as (Hne & Hplain & Hv & H255).
  destruct Hlen as (_ & Hk1 & Hv0).
  apply holds_cons in H as [H0 H]. apply holds_app in H as [H1 H2].
  rewrite length_bytes_of in H2. fold (strlen k) in H2.
  split; [rewrite H0; apply u8_small; destruct (value t); lia|].
  split; [exact H1|].
  destruct (value t) as [v|]; [|exact I].
  apply holds_cons in H2 as [H2 H3]. split; [exact H2|].
  rewrite Hv in H3. unfold strlen in H3 at 2. rewrite Nat2Z.id in H3.
  rewrite <- length_bytes_of, firstn_all in H3.
  replace (p + 2 + strlen k) with (p + 1 + strlen k + 1) by lia. exact H3.
Qed.

Lemma key_has_no_equals data pos k :
  holds data pos (bytes_of k) ->
  Forall (fun b => b <> 0 /\ b <> 61) (bytes_of k) ->
  forall j, 0 <= j < strlen k -> rd data (pos + j) <> 61.
Proof.
  intros H Hp j Hj.
  apply (holds_nth data pos (bytes_of k) (fun b => b <> 61) H
           (bytes_of_range k)).
  - eapply Forall_impl; [|exact Hp]. intros b [_ Hb]. exact Hb.
  - rewrite length_bytes_of. exact Hj.
Qed.

Lemma name_len_of_entry data p t k :
  entry_ok t -> key t = Some k -> holds data p (entry_bytes t) ->
  _mdns_txt_item_name_get_len data (p + 1) (rd data p) = strlen k.
Proof.
  intros Hok Hk H.
  destruct (entry_layout data p t k Hok Hk H) as (H0 & H1 & H2).
  pose proof (length_entry_bytes t Hok) as Hlen. rewrite Hk in Hlen.
  destruct Hlen as (_ & Hk1 & Hv0).
  unfold entry_ok in Hok. rewrite Hk in Hok.
  destruct Hok as (_ & Hp & Hv & H255).
  pose proof (key_has_no_equals data (p + 1) k H1 Hp) as Hne.
  unfold _mdns_txt_item_name_get_len.
  destruct (rd data (p + 1) =? 61) eqn:E.
  { apply Z.eqb_eq in E. exfalso. apply (Hne 0); [lia|].
    rewrite Z.add_0_r. exact E. }
  rewrite H0. destruct (value t) as [v|].
  - destruct H2 as [H2 _].
    rewrite (find_equals_at data (p + 1) _ 0 (strlen k)); [lia|lia| |].
    + intros j Hj. rewrite Z.add_0_r. apply Hne. lia.
    + rewrite Z.add_0_r. exact H2.
  - rewrite find_equals_none; [lia|].
    intros j Hj. rewrite Z.add_0_r. apply Hne. lia.
Qed.

Lemma count_step k data start len i n t :
  entry_ok t -> holds data (start + i) (entry_bytes t) ->
  0 <= i -> i + Z.of_nat (List.length (entry_bytes t)) <= len ->
  len < 65536 ->
  count_loop (S k) data start len i n
  = count_loop k data start len (i + Z.of_nat (List.length (entry_bytes t)))
      (n + 1).
Proof.
  intros Hok H Hi Hfit H16.
  pose proof (length_entry_bytes t Hok) as Hlen.
  pose proof (entry_bytes_nonempty t Hok) as Hge.
  destruct (key t) as [k0|] eqn:Hk; [|contradiction].
  destruct Hlen as (Hlen & Hk1 & Hv0).
  destruct (entry_layout data (start + i) t k0 Hok Hk H) as (H0 & _).
  cbn [count_loop].
  replace (i <? len) with true by (symmetry; apply Z.ltb_lt; lia).
  rewrite H0.
  set (L := strlen k0 + value_len t
            + match value t with Some _ => 1 | None => 0 end) in *.
  assert (HL : 1 <= L) by (unfold L; destruct (value t); lia).
  replace (L =? 0) with false by (symmetry; apply Z.eqb_neq; lia).
  rewrite (u16_small (i + 1)) by lia.
  replace (i + 1 + L >? len) with false
    by (symmetry; rewrite Z.gtb_ltb; apply Z.ltb_ge; lia).
  rewrite u16_small by lia.
  f_equal. lia.
Qed.

Lemma count_all data start len txt : forall k i n,
  Forall entry_ok txt -> holds data (start + i) (txt_bytes txt) ->
  len = i + Z.of_nat (List.length (txt_bytes txt)) ->
  0 <= i -> len < 65536 -> (List.length txt < k)%nat ->
  count_loop k data start len i n = Some (n + Z.of_nat (List.length txt)).
Proof.
  induction txt as [|t rest IH]; intros k i n Hok H Hlen Hi H16 Hk.
  - destruct k as [|k]; [simpl in Hk; lia|]. cbn in *.
    replace (i <? len) with false by (symmetry; apply Z.ltb_ge; lia).
    f_equal. lia.
  - inversion Hok as [|? ? Ht Hrest]; subst.
    cbn [txt_bytes flat_map] in *. fold (txt_bytes rest) in *.
    rewrite length_app, Nat2Z.inj_add in *.
    apply holds_app in H as [H1 H2].
    destruct k as [|k]; [simpl in Hk; lia|].
    rewrite (count_step k data start _ i n t Ht H1 Hi) by lia.
    rewrite IH; try assumption; try lia.
    + f_equal. cbn [List.length]. lia.
    + replace (start + (i + Z.of_nat (List.length (entry_bytes t))))
        with (start + i + Z.of_nat (List.length (entry_bytes t))) by lia.
      exact H2.
    + cbn [List.length] in Hk. lia.
Qed.

(** The item of a result that an item of a service comes back as. *)
Definition decoded (t : mdns_txt_linked_item_t) : mdns_txt_item_t * Z :=
  ({| item_key := match key t with Some k => k | None => EmptyString end;
      item_value := if value_len t >? 0 then value t else None |},
   value_len t).

(** Every item is one that the parser can give back, and only the last
    one may lack a value. *)
Fixpoint decodable (txt : list mdns_txt_linked_item_t) : Prop :=
  match txt with
  | [] => True
  | t :: rest =>
      entry_ok t /\ (value t = None -> rest = []) /\ decodable rest
  end.

Lemma decodable_ok txt : decodable txt -> Forall entry_ok txt.
Proof.
  induction txt as [|t rest IH]; cbn; [constructor|].
  intros (H1 & _ & H3). constructor; [exact H1|apply IH, H3].
Qed.

Lemma txt_step k data start len num i acc t :
  entry_ok t -> holds data (start + i) (entry_bytes t) ->
  0 <= i -> i + Z.of_nat (List.length (entry_bytes t)) <= len ->
  len < 65535 -> Z.of_nat (List.length acc) < num ->
  txt_loop (S k) data start len num i acc
  = txt_loop k data start len num
      (i + Z.of_nat (List.length (entry_bytes t))
       + match value t with Some _ => 0 | None => 1 end)
      (decoded t :: acc).
Proof.
  intros Hok H Hi Hfit H16 Hacc.
  pose proof (length_entry_bytes t Hok) as Hlen.
  pose proof (entry_bytes_nonempty t Hok) as Hge.
  pose proof (name_len_of_entry data (start + i) t) as Hname.
  destruct (key t) as [k0|] eqn:Hk; [|contradiction].
  specialize (Hname k0 Hok eq_refl H).
  destruct Hlen as (Hlen & Hk1 & Hv0).
  destruct (entry_layout data (start + i) t k0 Hok Hk H) as (H0 & H1 & H2).
  unfold entry_ok in Hok. rewrite Hk in Hok.
  destruct Hok as (_ & Hp & Hv & H255).
  cbn [txt_loop].
  replace (i <? len) with true by (symmetry; apply Z.ltb_lt; lia).
  rewrite (u16_small (i + 1)) by lia.
  replace (start + (i + 1)) with (start + i + 1) by lia.
  rewrite Hname. rewrite H0.
  set (L := strlen k0 + value_len t
            + match value t with Some _ => 1 | None => 0 end) in *.
  assert (HL : 1 <= L) by (unfold L; destruct (value t); lia).
  replace (L =? 0) with false by (symmetry; apply Z.eqb_neq; lia).
  replace (i + 1 + L >? len) with false
    by (symmetry; rewrite Z.gtb_ltb; apply Z.ltb_ge; lia).
  replace (strlen k0 <? 0) with false by (symmetry; apply Z.ltb_ge; lia).
  replace (Z.of_nat (List.length acc) >=? num) with false
    by (symmetry; rewrite Z.geb_leb; apply Z.leb_gt; lia).
  assert (Hkey : cstring_of (read_bytes data (start + i + 1)
                               (Z.to_nat (strlen k0))) = k0).
  { unfold strlen. rewrite Nat2Z.id, <- length_bytes_of.
    rewrite (read_bytes_holds _ _ _ H1), (map_u8_bytes _ (bytes_of_range k0)).
    apply cstring_of_bytes_of.
    eapply Forall_impl; [|exact Hp]. intros b [Hb _]. exact Hb. }
  rewrite Hkey.
  rewrite (u16_small (i + 1 + strlen k0 + 1)) by (unfold L in *; destruct (value t); lia).
  unfold decoded. rewrite Hk.
  destruct (value t) as [v|] eqn:Ev.
  - destruct H2 as [_ H2].
    replace (L - strlen k0 - 1) with (value_len t) by (unfold L; lia).
    destruct (value_len t >? 0) eqn:Eg.
    + apply Z.gtb_lt in Eg.
      rewrite (u8_small (value_len t)) by lia.
      rewrite u16_small by (unfold L in *; lia).
      replace (start + (i + 1 + strlen k0 + 1)) with (start + i + 2 + strlen k0)
        by lia.
      assert (Hval : string_of_bytes
                       (read_bytes data (start + i + 2 + strlen k0)
                          (Z.to_nat (value_len t))) = v).
      { rewrite Hv. unfold strlen at 2. rewrite Nat2Z.id, <- length_bytes_of.
        rewrite (read_bytes_holds _ _ _ H2),
          (map_u8_bytes _ (bytes_of_range v)).
        apply string_of_bytes_of. }
      rewrite Hval. f_equal. unfold L in Hlen. lia.
    + rewrite Z.gtb_ltb in Eg. apply Z.ltb_ge in Eg.
      assert (value_len t = 0) as E0 by lia. rewrite E0.
      cbn [Z.gtb Z.compare]. f_equal. unfold L in Hlen. lia.
  - replace (L - strlen k0 - 1 >? 0) with false
      by (symmetry; rewrite Z.gtb_ltb; apply Z.ltb_ge; unfold L; lia).
    rewrite Hv. cbn [Z.gtb Z.compare].
    f_equal. unfold L in Hlen. lia.
Qed.

Lemma txt_all data start len num txt : forall k i acc,
  decodable txt -> holds data (start + i) (txt_bytes txt) ->
  len = i + Z.of_nat (List.length (txt_bytes txt)) ->
  0 <= i -> len < 65535 -> (List.length txt < k)%nat ->
  Z.of_nat (List.length acc + List.length txt) <= num ->
  txt_loop k data start len num i acc
  = Some (Txt_array (rev acc ++ map decoded txt)).
Proof.
  induction txt as [|t rest IH]; intros k i acc Hd H Hlen Hi H16 Hk Hnum.
  - destruct k as [|k]; [simpl in Hk; lia|]. cbn in *.
    replace (i <? len) with false by (symmetry; apply Z.ltb_ge; lia).
    rewrite app_nil_r. reflexivity.
  - destruct Hd as (Ht & Hlast & Hrest).
    cbn [txt_bytes flat_map] in *. fold (txt_bytes rest) in *.
    rewrite length_app, Nat2Z.inj_add in *.
    apply holds_app in H as [H1 H2].
    cbn [List.length] in Hk, Hnum.
    destruct k as [|k]; [lia|].
    rewrite (txt_step k data start len num i acc t Ht H1 Hi) by lia.
    destruct (value t) as [v|] eqn:Ev.
    + rewrite Z.add_0_r. rewrite IH; try assumption; try lia.
      * cbn [rev map]. rewrite <- app_assoc. reflexivity.
      * replace (start + (i + Z.of_nat (List.length (entry_bytes t))))
          with (start + i + Z.of_nat (List.length (entry_bytes t))) by lia.
        exact H2.
      * cbn [List.length]. lia.
    + rewrite (Hlast eq_refl) in *. cbn [txt_bytes flat_map List.length] in *.
      destruct k as [|k]; [lia|]. cbn [txt_loop].
      replace (i + Z.of_nat (List.length (entry_bytes t)) + 1 <? len)
        with false by (symmetry; apply Z.ltb_ge; lia).
      reflexivity.
Qed.

(** The bytes of the items, wherever they lie in a buffer, parse back to
    the items. *)
Lemma txt_bytes_parse data start txt :
  txt <> [] -> decodable txt -> holds data start (txt_bytes txt) ->
  Z.of_nat (List.length (txt_bytes txt)) < 65535 ->
  _mdns_result_txt_create data start (Z.of_nat (List.length (txt_bytes txt)))
  = Some (Txt_array (map decoded txt)).
Proof.
  intros Hne Hd H H16.
  pose proof (decodable_ok txt Hd) as Hok.
  assert (Hlen : (2 * List.length txt <= List.length (txt_bytes txt))%nat).
  { clear -Hok. unfold txt_bytes.
    induction Hok as [|t rest Ht Hrest IH]; cbn [flat_map List.length];
      [lia|].
    rewrite length_app. pose proof (entry_bytes_nonempty t Ht). lia. }
  assert (Hpos : (1 <= List.length txt)%nat)
    by (destruct txt; [contradiction|cbn; lia]).
  unfold _mdns_result_txt_create, _mdns_txt_items_count_get.
  replace (Z.of_nat (List.length (txt_bytes txt)) =? 1) with false
    by (symmetry; apply Z.eqb_neq; lia).
  rewrite (count_all data start _ txt _ 0 0 Hok); try lia;
    [|rewrite Z.add_0_r; exact H].
  cbn [Z.add].
  replace (Z.of_nat (List.length txt) <? 0) with false
    by (symmetry; apply Z.ltb_ge; lia).
  replace (Z.of_nat (List.length txt) =? 0) with false
    by (symmetry; apply Z.eqb_neq; lia).
  rewrite (txt_all data start _ _ txt _ 0 [] Hd); try lia;
    [reflexivity|rewrite Z.add_0_r; exact H|cbn [List.length]; lia].
Qed.

(** X16.  The items that the loop of [_mdns_append_txt_record] writes
    come back from [_mdns_result_txt_create] as they were.  For a list of
    items that is not empty, in which every key is non-empty and free of
    '=' and NUL, every item takes at most 255 bytes and only the last
    item may lack a value, and which fits the packet: the loop writes the
    bytes [txt_bytes] from [index], returns their number as [data_len],
    leaves the bytes below [index] alone, and the parser, given these
    bytes, returns the same keys and values in the same order (a value of
    length 0 comes back as no value). *)
Theorem txt_items_round_trip :
  forall packet index txt,
    0 <= index -> txt <> [] -> decodable txt ->
    index + Z.of_nat (List.length (txt_bytes txt)) < MDNS_MAX_PACKET_SIZE ->
    exists p' data_len,
      append_txt_entries packet index 0 txt
      = (p', index + data_len, Some data_len)
      /\ data_len = Z.of_nat (List.length (txt_bytes txt))
      /\ holds p' index (txt_bytes txt)
      /\ (forall j, j < index -> rd p' j = rd packet j)
      /\ _mdns_result_txt_create p' index data_len
         = Some (Txt_array (map decoded txt)).
Proof.
  intros packet index txt Hi Hne Hd Hfit.
  assert (H16 : Z.of_nat (List.length (txt_bytes txt)) < 1460)
    by (unfold MDNS_MAX_PACKET_SIZE in Hfit; lia).
  destruct (entries_written txt packet index 0 (decodable_ok txt Hd) Hi
              ltac:(lia) Hfit ltac:(lia)) as (p' & E & Hh & Hf).
  exists p', (Z.of_nat (List.length (txt_bytes txt))).
  split; [exact E|]. split; [reflexivity|]. split; [exact Hh|].
  split; [intros j Hj; apply Hf; lia|].
  apply txt_bytes_parse; try assumption. lia.
Qed.

(** *** The whole record *)

Lemma entry_not_fit packet index t :
  entry_ok t ->
  MDNS_MAX_PACKET_SIZE <= index + Z.of_nat (List.length (entry_bytes t)) ->
  append_one_txt_record_entry packet index (Some t) = (packet, index, 0).
Proof.
  intros Hok Hfit. pose proof (length_entry_bytes t Hok) as Hlen.
  unfold append_one_txt_record_entry.
  destruct (key t) as [k|]; [|contradiction].
  destruct Hlen as (Hlen & _). rewrite Hlen in Hfit.
  match goal with |- (if ?c then _ else _) = _ =>
    replace c with true; [reflexivity|] end.
  symmetry. rewrite Z.geb_leb. apply Z.leb_le. lia.
Qed.

Lemma entries_result txt : forall packet index data_len p' i' d',
  Forall entry_ok txt -> 0 <= index -> 0 <= data_len ->
  index < MDNS_MAX_PACKET_SIZE ->
  data_len + MDNS_MAX_PACKET_SIZE - index < 65536 ->
  append_txt_entries packet index data_len txt = (p', i', Some d') ->
  i' = index + Z.of_nat (List.length (txt_bytes txt))
  /\ d' = data_len + Z.of_nat (List.length (txt_bytes txt))
  /\ i' < MDNS_MAX_PACKET_SIZE
  /\ holds p' index (txt_bytes txt)
  /\ forall j, j < index -> rd p' j = rd packet j.
Proof.
  induction txt as [|t rest IH];
    intros packet index data_len p' i' d' Hok Hi Hd Hmax H16 E.
  - cbn in E. injection E as <- <- <-. cbn. rewrite !Z.add_0_r.
    repeat split; try reflexivity; try assumption.
    intros k Hk. simpl in Hk. lia.
  - inversion Hok as [|? ? Ht Hrest]; subst.
    cbn [txt_bytes flat_map]. fold (txt_bytes rest).
    rewrite length_app, Nat2Z.inj_add.
    pose proof (entry_bytes_nonempty t Ht) as H2.
    cbn [append_txt_entries] in E.
    destruct (Z_lt_ge_dec (index + Z.of_nat (List.length (entry_bytes t)))
                MDNS_MAX_PACKET_SIZE) as [Hfit|Hfit].
    + destruct (entry_written packet index t Ht Hi Hfit)
        as (p1 & E1 & Hh1 & Hf1).
      rewrite E1 in E.
      replace (Z.of_nat (List.length (entry_bytes t)) >? 0) with true in E
        by (symmetry; apply Z.gtb_lt; lia).
      unfold MDNS_MAX_PACKET_SIZE in *.
      rewrite u16_small in E by lia.
      apply IH in E; [|exact Hrest|lia|lia|exact Hfit|lia].
      destruct E as (Ei & Ed & Hlt & Hh2 & Hf2).
      split; [lia|]. split; [lia|]. split; [exact Hlt|]. split.
      * apply holds_app. split; [|exact Hh2].
        eapply holds_frame; [exact Hh1|]. intros j Hj. apply Hf2. lia.
      * intros j Hj. rewrite Hf2 by lia. apply Hf1. lia.
    + rewrite (entry_not_fit packet index t Ht) in E by lia.
      cbn in E. discriminate.
Qed.

Lemma append_type_result packet index type flush ttl p' i' r :
  0 <= index ->
  _mdns_append_type packet index type flush ttl = (p', i', r) ->
  u8 r <> 0 ->
  i' = index + 10 /\ index + 10 < MDNS_MAX_PACKET_SIZE
  /\ forall j, j < index -> rd p' j = rd packet j.
Proof.
  intros Hi E Hr. unfold _mdns_append_type in E.
  destruct (index + 10 >=? MDNS_MAX_PACKET_SIZE) eqn:Ec.
  { injection E as <- <- <-. contradiction Hr. reflexivity. }
  rewrite Z.geb_leb in Ec. apply Z.leb_gt in Ec. cbv zeta in E.
  destruct (match type with
            | MDNS_ANSWER_PTR => Some MDNS_TYPE_PTR
            | MDNS_ANSWER_TXT => Some MDNS_TYPE_TXT
            | MDNS_ANSWER_SRV => Some MDNS_TYPE_SRV
            | MDNS_ANSWER_A => Some MDNS_TYPE_A
            | MDNS_ANSWER_AAAA => Some MDNS_TYPE_AAAA
            | MDNS_ANSWER_other => None
            end) as [w|].
  2:{ injection E as <- <- <-. contradiction Hr. reflexivity. }
  destruct (CodecFacts.append_u16_read packet index w Hi ltac:(lia))
    as (p1 & E1 & _ & F1).
  rewrite E1 in E.
  destruct (CodecFacts.append_u16_read p1 (index + 2)
              (if flush then MDNS_CLASS_IN_FLUSH_CACHE else MDNS_CLASS_IN)
              ltac:(lia) ltac:(lia)) as (p2 & E2 & _ & F2).
  rewrite E2 in E.
  destruct (CodecFacts.append_u32_read p2 (index + 2 + 2) ttl
              ltac:(lia) ltac:(lia)) as (p3 & E3 & _ & F3).
  rewrite E3 in E.
  destruct (CodecFacts.append_u16_read p3 (index + 2 + 2 + 4) 0
              ltac:(lia) ltac:(lia)) as (p4 & E4 & _ & F4).
  rewrite E4 in E. injection E as <- <- <-.
  split; [lia|]. split; [exact Ec|].
  intros j Hj. rewrite F4, F3, F2, F1 by lia. reflexivity.
Qed.

Lemma set_u16_read packet index v :
  0 <= index -> index + 1 < MDNS_MAX_PACKET_SIZE ->
  Rx._mdns_read_u16 (_mdns_set_u16 packet index v) index = v mod 65536
  /\ forall j, j <> index -> j <> index + 1 ->
               rd (_mdns_set_u16 packet index v) j = rd packet j.
Proof.
  intros Hi Hlt. unfold _mdns_set_u16.
  replace (index + 1 >=? MDNS_MAX_PACKET_SIZE) with false
    by (symmetry; rewrite Z.geb_leb; apply Z.leb_gt; lia).
  split.
  - apply CodecFacts.read_u16_of_bytes.
    + rewrite rd_wr_other by lia. apply rd_wr_same.
    + apply rd_wr_same.
  - intros j H1 H2. rewrite !rd_wr_other by lia. reflexivity.
Qed.

(** A TXT item of a service that the parser can give back. *)
Definition pair_ok (kv : string * string) : Prop :=
  fst kv <> EmptyString
  /\ Forall (fun b => b <> 0 /\ b <> 61) (bytes_of (fst kv))
  /\ strlen (fst kv) + strlen (snd kv) + 1 <= 255.

Lemma pair_entry_ok kv : pair_ok kv -> entry_ok (linked_item kv).
Proof.
  intros (H1 & H2 & H3). unfold entry_ok, linked_item. cbn.
  assert (H0 : 0 <= strlen (snd kv)) by (unfold strlen; lia).
  assert (Hk : 0 <= strlen (fst kv)) by (unfold strlen; lia).
  rewrite u8_small by lia. repeat split; try assumption; lia.
Qed.

Lemma pairs_decodable l : Forall pair_ok l -> decodable (map linked_item l).
Proof.
  induction 1 as [|kv l Hkv Hl IH]; cbn; [exact I|].
  split; [apply pair_entry_ok, Hkv|]. split; [discriminate|exact IH].
Qed.

Section Record.

Variable cfg : bool.
Variable MDNS_ANSWER_TXT_TTL : Z.

(** X17.  A TXT record that [_mdns_append_txt_record] has written (the
    call returned a length other than 0) for a service whose items have
    non-empty keys without '=' and NUL and take at most 255 bytes each
    reads back: the two bytes in front of the record data hold the length
    of the data, and [_mdns_result_txt_create] on the data returns the keys
    and values of the service in their order (no array for a service
    without items, whose data is the single byte 0).  The bytes below the
    index the call started at are untouched. *)
Theorem txt_record_round_trip :
  forall s packet index srv flush bye p' i' r,
    0 <= index ->
    Forall pair_ok (Model.txt srv) ->
    _mdns_append_txt_record cfg MDNS_ANSWER_TXT_TTL s packet index (Some srv)
      flush bye = (p', i', r) ->
    r <> 0 ->
    exists data_len,
      1 <= data_len /\ index + 10 + data_len <= i'
      /\ i' <= MDNS_MAX_PACKET_SIZE
      /\ Rx._mdns_read_u16 p' (i' - data_len - 2) = data_len
      /\ _mdns_result_txt_create p' (i' - data_len) data_len
         = Some (match Model.txt srv with
                 | [] => Txt_null
                 | _ => Txt_array
                          (map decoded (map linked_item (Model.txt srv)))
                 end)
      /\ forall j, j < index -> rd p' j = rd packet j.
Proof.
  intros s packet index srv flush bye p' i' r Hi Hok E Hr.
  unfold _mdns_append_txt_record in E.
  destruct (_mdns_get_service_instance_name s srv) as [name|];
    [|injection E as <- <- <-; contradiction].
  pose proof (append_fqdn_extends cfg
                [name; Model.service srv; Model.proto srv; MDNS_DEFAULT_DOMAIN]
                packet index MDNS_MAX_PACKET_SIZE Hi) as Hext.
  destruct (_mdns_append_fqdn cfg packet index _ _) as [[p1 i1] r1].
  destruct Hext as [Hi1 Hf1].
  destruct (u8 r1 =? 0); [injection E as <- <- <-; contradiction|].
  destruct (_mdns_append_type p1 i1 MDNS_ANSWER_TXT flush _)
    as [[p2 i2] r2] eqn:Et.
  destruct (u8 r2 =? 0) eqn:Er2; [injection E as <- <- <-; contradiction|].
  apply Z.eqb_neq in Er2.
  apply append_type_result in Et as (-> & Hlt & Hf2); [|lia|exact Er2].
  pose proof (pairs_decodable _ Hok) as Hdec.
  destruct (append_txt_entries p2 (i1 + 10) 0 _) as [[p3 i3] [d|]] eqn:El;
    [|injection E as <- <- <-; contradiction].
  unfold MDNS_MAX_PACKET_SIZE in Hlt.
  apply entries_result in El as (-> & -> & Hlt3 & Hh & Hf3);
    [|apply decodable_ok, Hdec|lia|lia|unfold MDNS_MAX_PACKET_SIZE; lia
     |unfold MDNS_MAX_PACKET_SIZE; lia].
  unfold MDNS_MAX_PACKET_SIZE in Hlt3.
  rewrite (u16_small (i1 + 10 - 2)) in E by lia.
  set (L := Z.of_nat (List.length
                        (txt_bytes (map linked_item (Model.txt srv))))) in *.
  destruct (set_u16_read
              (if 0 + L =? 0 then wr p3 (i1 + 10 + L) 0 else p3)
              (i1 + 10 - 2) (if 0 + L =? 0 then 1 else 0 + L)
              ltac:(lia) ltac:(unfold MDNS_MAX_PACKET_SIZE; lia))
    as [Hrd Hfr].
  destruct (0 + L =? 0) eqn:E0.
  - apply Z.eqb_eq in E0.
    assert (Hnil : Model.txt srv = []).
    { destruct (Model.txt srv) as [|kv l]; [reflexivity|]. exfalso.
      inversion Hok as [|? ? Hkv _]; subst.
      pose proof (entry_bytes_nonempty _ (pair_entry_ok kv Hkv)) as H2.
      unfold L in E0. cbn [map txt_bytes flat_map] in E0.
      rewrite length_app in E0. lia. }
    rewrite u16_small in E by lia. injection E as <- <- <-.
    exists 1. rewrite Hnil.
    replace (i1 + 10 + L + 1 - 1 - 2) with (i1 + 10 - 2) by lia.
    split; [lia|]. split; [lia|].
    split; [unfold MDNS_MAX_PACKET_SIZE; lia|].
    split; [exact Hrd|]. split; [reflexivity|].
    intros j Hj. rewrite Hfr by lia. rewrite rd_wr_other by lia.
    rewrite Hf3, Hf2 by lia. apply Hf1. exact Hj.
  - apply Z.eqb_neq in E0. injection E as <- <- <-.
    assert (Hne : Model.txt srv <> []).
    { intros Hnil. unfold L in E0. rewrite Hnil in E0. cbn in E0. lia. }
    exists L.
    replace (i1 + 10 + L - L - 2) with (i1 + 10 - 2) by lia.
    replace (i1 + 10 + L - L) with (i1 + 10) by lia.
    rewrite Z.add_0_l in Hrd, Hfr.
    split; [lia|]. split; [lia|].
    split; [unfold MDNS_MAX_PACKET_SIZE; lia|].
    split; [rewrite Hrd; apply Z.mod_small; lia|]. split.
    + replace (match Model.txt srv with
               | [] => Txt_null
               | _ :: _ =>
                   Txt_array (map decoded (map linked_item (Model.txt srv)))
               end)
        with (Txt_array (map decoded (map linked_item (Model.txt srv))))
        by (destruct (Model.txt srv); [contradiction|reflexivity]).
      apply txt_bytes_parse.
      * destruct (Model.txt srv); [contradiction|discriminate].
      * exact Hdec.
      * eapply holds_frame; [exact Hh|]. intros j Hj. apply Hfr; lia.
      * fold L. lia.
    + intros j Hj. rewrite Hfr by lia. rewrite Hf3, Hf2 by lia.
      apply Hf1. exact Hj.
Qed.

End Record.

(** Two items, "path=/" and the bare key "tls", written at offset 12 of an
    empty packet. *)
Definition demo_items : list mdns_txt_linked_item_t :=
  [ {| key := Some "path"%string; value := Some "/"%string; value_len := 1 |};
    {| key := Some "tls"%string; value := None; value_len := 0 |} ].

Ltac txt_plain :=
  repeat constructor; cbn; try discriminate; try lia.

Lemma txt_items_round_trip_witness :
  (exists p' data_len,
     append_txt_entries (fun _ => 0) 12 0 demo_items
     = (p', 12 + data_len, Some data_len)
     /\ data_len = Z.of_nat (List.length (txt_bytes demo_items))
     /\ holds p' 12 (txt_bytes demo_items)
     /\ (forall j, j < 12 -> rd p' j = rd (fun _ => 0) j)
     /\ _mdns_result_txt_create p' 12 data_len
        = Some (Txt_array (map decoded demo_items)))
  /\ txt_bytes demo_items = [6; 112; 97; 116; 104; 61; 47; 3; 116; 108; 115].
Proof.
  split; [|vm_compute; reflexivity].
  apply (txt_items_round_trip (fun _ => 0) 12 demo_items).
  - lia.
  - discriminate.
  - cbn. unfold entry_ok. cbn. repeat split; txt_plain.
  - vm_compute. reflexivity.
Defined.

(** The service of the responder example with the items "path=/" and
    "v=1". *)
Definition demo_txt_service : mdns_service_t :=
  {| srv_addr := srv_addr Responder.demo_service;
     instance := instance Responder.demo_service;
     service := service Responder.demo_service;
     proto := proto Responder.demo_service;
     hostname := hostname Responder.demo_service;
     priority := 0; weight := 0; port := 80;
     txt := [("path"%string, "/"%string); ("v"%string, "1"%string)];
     subtype := [] |}.

Definition demo_txt_record : out :=
  _mdns_append_txt_record true 4500 Responder.demo_responder (fun _ => 0) 12
    (Some demo_txt_service) true false.

Lemma txt_record_round_trip_witness :
  exists data_len,
    1 <= data_len
    /\ 12 + 10 + data_len <= snd (fst demo_txt_record)
    /\ snd (fst demo_txt_record) <= MDNS_MAX_PACKET_SIZE
    /\ Rx._mdns_read_u16 (fst (fst demo_txt_record))
         (snd (fst demo_txt_record) - data_len - 2) = data_len
    /\ _mdns_result_txt_create (fst (fst demo_txt_record))
         (snd (fst demo_txt_record) - data_len) data_len
       = Some (Txt_array
                 (map decoded (map linked_item (txt demo_txt_service))))
    /\ forall j, j < 12 ->
                 rd (fst (fst demo_txt_record)) j = rd (fun _ => 0) j.
Proof.
  apply (txt_record_round_trip true 4500 Responder.demo_responder
           (fun _ => 0) 12 demo_txt_service true false
           (fst (fst demo_txt_record)) (snd (fst demo_txt_record))
           (snd demo_txt_record)).
  - lia.
  - unfold pair_ok. cbn. txt_plain.
  - unfold demo_txt_record.
    destruct (_mdns_append_txt_record _ _ _ _ _ _ _ _) as [[p i] r].
    reflexivity.
  - vm_compute. discriminate.
Defined.

(** *** A bare key in front of another item *)

(** The item that one round of the loop of [_mdns_result_txt_create]
    stores when the length byte it reads lies at offset [i]. *)
Definition item_at (data : mem) (start i : Z) : mdns_txt_item_t * Z :=
  let partLen := rd data (start + i) in
  let name_len := _mdns_txt_item_name_get_len data (start + (i + 1)) partLen in
  let k_ := cstring_of (read_bytes data (start + (i + 1))
                          (Z.to_nat name_len)) in
  let new_value_len := partLen - name_len - 1 in
  if new_value_len >? 0 then
    ({| item_key := k_;
        item_value :=
          Some (string_of_bytes
                  (read_bytes data (start + (i + 1 + name_len + 1))
                     (Z.to_nat new_value_len))) |},
     u8 new_value_len)
  else ({| item_key := k_; item_value := None |}, 0).

(** The array the loop returns holds the items it had, followed by items
    read at offsets that do not go back. *)
Lemma txt_loop_items data start len num :
  len < 65535 ->
  forall k i acc l,
    0 <= i ->
    txt_loop k data start len num i acc = Some (Txt_array l) ->
    exists ps,
      l = rev acc ++ map (item_at data start) ps
      /\ Forall (fun p => i <= p /\ p + 1 + rd data (start + p) <= len
                          /\ 0 <= _mdns_txt_item_name_get_len data
                                    (start + (p + 1)) (rd data (start + p)))
           ps.
Proof.
  intros H16. induction k as [|k IH]; intros i acc l Hi E; [discriminate|].
  cbn [txt_loop] in E.
  destruct (i <? len) eqn:Ei.
  2:{ injection E as <-. exists []. rewrite app_nil_r. split; constructor. }
  apply Z.ltb_lt in Ei. rewrite (u16_small (i + 1)) in E by lia.
  pose proof (rd_nonneg data (start + i)) as Hp0.
  set (partLen := rd data (start + i)) in *.
  destruct (partLen =? 0).
  { injection E as <-. exists []. rewrite app_nil_r. split; constructor. }
  destruct (i + 1 + partLen >? len) eqn:Ef; [discriminate|].
  rewrite Z.gtb_ltb in Ef. apply Z.ltb_ge in Ef.
  set (name_len := _mdns_txt_item_name_get_len data (start + (i + 1)) partLen)
    in *.
  assert (Hn : name_len <= partLen).
  { unfold name_len, _mdns_txt_item_name_get_len.
    destruct (rd data (start + (i + 1)) =? 61); [lia|].
    assert (Hfe : forall n j, find_equals data (start + (i + 1)) n j
                              <= j + Z.of_nat n).
    { induction n as [|n IHn]; intros j; cbn [find_equals]; [lia|].
      destruct (_ =? 61); [lia|]. specialize (IHn (j + 1)). lia. }
    specialize (Hfe (Z.to_nat partLen) 0). lia. }
  destruct (name_len <? 0) eqn:En.
  - rewrite u16_small in E by lia.
    apply IH in E; [|lia]. destruct E as (ps & -> & Hps).
    exists ps. split; [reflexivity|].
    eapply Forall_impl; [|exact Hps]. cbn. intros p Hp. lia.
  - apply Z.ltb_ge in En.
    destruct (Z.of_nat (List.length acc) >=? num); [discriminate|].
    rewrite (u16_small (i + 1 + name_len + 1)) in E by lia.
    assert (Hitem : forall i' l0,
              i < i' ->
              txt_loop k data start len num i' (item_at data start i :: acc)
              = Some (Txt_array l0) ->
              exists ps,
                l0 = rev acc ++ map (item_at data start) ps
                /\ Forall (fun p => i <= p
                                    /\ p + 1 + rd data (start + p) <= len
                                    /\ 0 <= _mdns_txt_item_name_get_len data
                                              (start + (p + 1))
                                              (rd data (start + p))) ps).
    { intros i' l0 Hi' E'. apply IH in E'; [|lia].
      destruct E' as (ps & -> & Hps). exists (i :: ps). split.
      - cbn [rev map]. rewrite <- app_assoc. reflexivity.
      - constructor; [fold partLen; fold name_len; lia|].
        eapply Forall_impl; [|exact Hps]. cbn. intros p Hp. lia. }
    unfold item_at in Hitem. fold partLen in Hitem. fold name_len in Hitem.
    cbv zeta in Hitem.
    destruct (partLen - name_len - 1 >? 0) eqn:Ev.
    + apply Z.gtb_lt in Ev. rewrite u16_small in E by lia.
      apply Hitem in E; [exact E|lia].
    + apply Hitem in E; [exact E|lia].
Qed.

Lemma find_equals_le data pos n : forall i a,
  0 <= a < Z.of_nat n -> rd data (pos + i + a) = 61 ->
  find_equals data pos n i <= i + a.
Proof.
  induction n as [|n IH]; intros i a Ha E; [lia|]. cbn [find_equals].
  destruct (rd data (pos + i) =? 61) eqn:E0; [lia|].
  destruct (Z.eq_dec a 0) as [->|Hne].
  - rewrite Z.add_0_r in E. rewrite E in E0. discriminate.
  - specialize (IH (i + 1) (a - 1)).
    replace (pos + (i + 1) + (a - 1)) with (pos + i + a) in IH by lia.
    specialize (IH ltac:(lia) E). lia.
Qed.

Lemma find_equals_le_n data pos n : forall i,
  find_equals data pos n i <= i + Z.of_nat n.
Proof.
  induction n as [|n IH]; intros i; cbn [find_equals]; [lia|].
  destruct (_ =? 61); [lia|]. specialize (IH (i + 1)). lia.
Qed.

Lemma length_read_bytes data pos n : List.length (read_bytes data pos n) = n.
Proof. unfold read_bytes. rewrite length_map, length_seq. reflexivity. Qed.

(** The key and the value of a stored item lie within the bytes that its
    length byte announces. *)
Lemma item_at_size data start p :
  let partLen := rd data (start + p) in
  let name_len :=
    _mdns_txt_item_name_get_len data (start + (p + 1)) partLen in
  0 <= name_len ->
  strlen (item_key (fst (item_at data start p))) <= name_len
  /\ name_len <= partLen
  /\ (0 < snd (item_at data start p) ->
      snd (item_at data start p) = partLen - name_len - 1)
  /\ 0 <= snd (item_at data start p).
Proof.
  intros partLen name_len Hn.
  pose proof (rd_nonneg data (start + p)) as Hp0.
  pose proof (rd_lt_256 data (start + p)) as Hp1. fold partLen in Hp0, Hp1.
  assert (Hle : name_len <= partLen).
  { unfold name_len, _mdns_txt_item_name_get_len.
    destruct (_ =? 61); [lia|].
    pose proof (find_equals_le_n data (start + (p + 1)) (Z.to_nat partLen) 0).
    lia. }
  unfold item_at. fold partLen. fold name_len. cbv zeta.
  assert (Hkey : strlen (cstring_of (read_bytes data (start + (p + 1))
                                       (Z.to_nat name_len))) <= name_len).
  { unfold strlen.
    pose proof (CodecFacts.length_cstring_of
                  (read_bytes data (start + (p + 1)) (Z.to_nat name_len))) as H.
    rewrite length_read_bytes in H. lia. }
  destruct (partLen - name_len - 1 >? 0) eqn:Ev; cbn [fst snd item_key].
  - apply Z.gtb_lt in Ev. rewrite u8_small by lia.
    repeat split; try assumption; lia.
  - repeat split; try assumption; lia.
Qed.

(** X18.  A bare key is not followed by anything the parser gets right.
    When the data of a TXT record are the bytes of two well-formed items
    of which the first has no value (a bare key such as "tls"),
    [_mdns_result_txt_create] never returns these two items: after a bare
    key it steps over one byte too many, the length byte of the next
    item, and reads the next length where the next key starts. *)
Theorem bare_key_spoils_the_next_item :
  forall data start t1 t2,
    entry_ok t1 -> value t1 = None -> entry_ok t2 ->
    holds data start (txt_bytes [t1; t2]) ->
    _mdns_result_txt_create data start
      (Z.of_nat (List.length (txt_bytes [t1; t2])))
    <> Some (Txt_array [decoded t1; decoded t2]).
Proof.
  intros data start t1 t2 Hok1 Hv1 Hok2 H.
  cbn [txt_bytes flat_map] in *. rewrite app_nil_r in *.
  rewrite length_app, Nat2Z.inj_add in *.
  apply holds_app in H as [H1 H2].
  pose proof (length_entry_bytes t1 Hok1) as Hl1.
  pose proof (length_entry_bytes t2 Hok2) as Hl2.
  pose proof (entry_bytes_nonempty t1 Hok1) as Hg1.
  pose proof (entry_bytes_nonempty t2 Hok2) as Hg2.
  set (n1 := Z.of_nat (List.length (entry_bytes t1))) in *.
  set (n2 := Z.of_nat (List.length (entry_bytes t2))) in *.
  destruct (key t2) as [k2|] eqn:Hk2; [|contradiction].
  destruct (entry_layout data (start + n1) t2 k2 Hok2 Hk2 H2)
    as (_ & _ & Heq).
  assert (Hb1 : n1 <= 256).
  { unfold entry_ok in Hok1. destruct (key t1) as [k1|]; [|contradiction].
    rewrite Hv1 in *. lia. }
  assert (Hb2 : n2 <= 257).
  { unfold entry_ok in Hok2. rewrite Hk2 in Hok2.
    destruct (value t2); lia. }
  unfold _mdns_result_txt_create.
  destruct (_mdns_txt_items_count_get data start (n1 + n2)) as [n|];
    [|discriminate].
  destruct (n <? 0) eqn:En; [discriminate|]. apply Z.ltb_ge in En.
  destruct (n =? 0) eqn:En0; [discriminate|]. apply Z.eqb_neq in En0.
  rewrite (txt_step _ data start (n1 + n2) n 0 [] t1 Hok1);
    [|rewrite Z.add_0_r; exact H1|lia|fold n1; lia|lia|cbn [List.length]; lia].
  rewrite Hv1. fold n1. intros E.
  apply txt_loop_items in E; [|lia|lia].
  destruct E as (ps & El & Hps). cbn [rev app] in El.
  injection El as El.
  destruct ps as [|p [|p' ps]]; cbn [map] in El; try discriminate.
  injection El as El. inversion Hps as [|? ? (Hp & Hfit & Hname) _]; subst.
  destruct (item_at_size data start p Hname) as (Hkey & Hle & Hval & Hv0).
  rewrite <- El in Hkey, Hval, Hv0. unfold decoded in Hkey, Hval, Hv0.
  cbn [fst snd item_key] in Hkey, Hval, Hv0. rewrite Hk2 in Hkey.
  destruct Hl2 as (Hl2 & Hk21 & Hv20). fold n2 in Hl2.
  unfold entry_ok in Hok2. rewrite Hk2 in Hok2.
  destruct Hok2 as (_ & _ & Hvl2 & _).
  destruct (value t2) as [v2|] eqn:Ev2.
  - destruct (Z_lt_ge_dec 0 (value_len t2)) as [Hpos|Hzero].
    + specialize (Hval Hpos). lia.
    + (* the item "key=" *)
      assert (value_len t2 = 0) as Hz by lia. rewrite Hz in *.
      assert (p = n1 + 1) by lia. subst p.
      assert (rd data (start + (n1 + 1)) = strlen k2) by lia.
      destruct Heq as [Heq _].
      revert Hkey Hname. unfold _mdns_txt_item_name_get_len.
      destruct (rd data (start + (n1 + 1 + 1)) =? 61); [lia|].
      pose proof (find_equals_le data (start + (n1 + 1 + 1))
                    (Z.to_nat (rd data (start + (n1 + 1)))) 0
                    (strlen k2 - 1)) as Hfe.
      replace (start + (n1 + 1 + 1) + 0 + (strlen k2 - 1))
        with (start + n1 + 1 + strlen k2) in Hfe by lia.
      specialize (Hfe ltac:(lia) Heq). lia.
  - lia.
Qed.

(** The item loop can store more items than the array was allocated for:
    the counting loop sees two items in these nine bytes (lengths 1 and
    6), the item loop sees three bare keys. *)
Example txt_array_overrun :
  _mdns_txt_items_count_get
    (mem_of_list [1; 97; 6; 1; 120; 9; 1; 121; 9]) 0 9 = Some 2
  /\ _mdns_result_txt_create
       (mem_of_list [1; 97; 6; 1; 120; 9; 1; 121; 9]) 0 9
     = Some Txt_overrun.
Proof. split; vm_compute; reflexivity. Qed.

Lemma holds_mem_of_list l : holds (mem_of_list l) 0 l.
Proof.
  intros k Hk. unfold rd, mem_of_list. rewrite Z.add_0_l.
  replace (Z.of_nat k <? 0) with false by (symmetry; apply Z.ltb_ge; lia).
  rewrite Nat2Z.id. reflexivity.
Qed.

(** The bare key "tls" in front of "path=/": the parser takes the 'p' of
    "path" for a length and gives the whole record up. *)
Definition demo_bare_key : mdns_txt_linked_item_t :=
  {| key := Some "tls"%string; value := None; value_len := 0 |}.

Definition demo_path : mdns_txt_linked_item_t :=
  {| key := Some "path"%string; value := Some "/"%string; value_len := 1 |}.

Lemma bare_key_spoils_the_next_item_witness :
  _mdns_result_txt_create
    (mem_of_list (txt_bytes [demo_bare_key; demo_path])) 0
    (Z.of_nat (List.length (txt_bytes [demo_bare_key; demo_path])))
  <> Some (Txt_array [decoded demo_bare_key; decoded demo_path])
  /\ _mdns_result_txt_create
       (mem_of_list (txt_bytes [demo_bare_key; demo_path])) 0
       (Z.of_nat (List.length (txt_bytes [demo_bare_key; demo_path])))
     = Some Txt_null.
Proof.
  split; [|vm_compute; reflexivity].
  apply (bare_key_spoils_the_next_item
           (mem_of_list (txt_bytes [demo_bare_key; demo_path])) 0
           demo_bare_key demo_path).
  - unfold entry_ok. cbn. repeat split; txt_plain.
  - reflexivity.
  - unfold entry_ok. cbn. repeat split; txt_plain.
  - apply holds_mem_of_list.
Defined.


End Txt.

(** ** Collisions of TXT records ([_mdns_check_txt_collision]) *)

Module Collision.

Import CStr Codec Model Txt.

(** [memcmp(a + sa, b + sb, n)]: -1, 0 or 1 as the result is negative,
    zero or positive (the code looks at the sign only). *)
Fixpoint memcmp (a : mem) (sa : Z) (b : mem) (sb : Z) (n : nat) : Z :=
  match n with
  | O => 0
  | S n' =>
      if rd a sa <? rd b sb then -1
      else if rd b sb <? rd a sa then 1
      else memcmp a (sa + 1) b (sb + 1) n'
  end.

(** The loop that fills the array [ours]: the value that
    [append_one_txt_record_entry] returns is not looked at. *)
Fixpoint fill_ours (ours : mem) (index : Z)
  (txt : list mdns_txt_linked_item_t) : mem * Z :=
  match txt with
  | [] => (ours, index)
  | t :: rest =>
      let '(p, i, _) := append_one_txt_record_entry ours index (Some t) in
      fill_ours p i rest
  end.

(** [_mdns_check_txt_collision(service, data, len)] for the items [txt] of
    the service; [data] are the bytes from [start] of the received packet
    and [ours] is the array of [len] bytes on the stack as the function
    finds it.  (Every item has a key: [strlen(txt->key)] is taken without a
    test.) *)
Definition _mdns_check_txt_collision (ours : mem)
  (txt : list mdns_txt_linked_item_t) (data : mem) (start len : Z) : Z :=
  let has_txt := match txt with [] => false | _ => true end in
  if (len <=? 1) && has_txt then -1          (* we win *)
  else if (len >? 1) && negb has_txt then 1  (* they win *)
  else if (len <=? 1) && negb has_txt then 0 (* same *)
  else
    let data_len :=
      fold_left
        (fun acc t =>
           acc + 1 + match key t with Some k => strlen k | None => 0 end
           + value_len t + match value t with Some _ => 1 | None => 0 end)
        txt 0 in
    if len >? data_len then 1
    else if len <? data_len then -1
    else
      let '(ours, _) := fill_ours ours 0 txt in
      let ret := memcmp ours 0 data start (Z.to_nat len) in
      if ret >? 0 then -1
      else if ret <? 0 then 1
      else 0.

(** The data of the TXT record of a service with the items [txt], as
    [_mdns_append_txt_record] writes them: the items, or a single 0 for a
    service without items. *)
Definition txt_data (txt : list mdns_txt_linked_item_t) : list Z :=
  match txt with
  | [] => [0]
  | _ => txt_bytes txt
  end.

Lemma memcmp_antisym a sa b sb n :
  memcmp a sa b sb n = - memcmp b sb a sa n.
Proof.
  revert sa sb. induction n as [|n IH]; intros sa sb; cbn [memcmp];
    [reflexivity|].
  destruct (rd a sa <? rd b sb) eqn:E1; destruct (rd b sb <? rd a sa) eqn:E2;
    try reflexivity.
  - apply Z.ltb_lt in E1. apply Z.ltb_lt in E2. lia.
  - apply IH.
Qed.

Lemma memcmp_ext a sa b sb a' sa' b' sb' n :
  (forall k, 0 <= k < Z.of_nat n -> rd a (sa + k) = rd a' (sa' + k)) ->
  (forall k, 0 <= k < Z.of_nat n -> rd b (sb + k) = rd b' (sb' + k)) ->
  memcmp a sa b sb n = memcmp a' sa' b' sb' n.
Proof.
  revert sa sb sa' sb'. induction n as [|n IH]; intros sa sb sa' sb' Ha Hb;
    cbn [memcmp]; [reflexivity|].
  pose proof (Ha 0 ltac:(lia)) as Ha0. pose proof (Hb 0 ltac:(lia)) as Hb0.
  rewrite !Z.add_0_r in Ha0, Hb0. rewrite Ha0, Hb0.
  destruct (_ <? _); [reflexivity|]. destruct (_ <? _); [reflexivity|].
  apply IH; intros k Hk.
  - replace (sa + 1 + k) with (sa + (k + 1)) by lia.
    replace (sa' + 1 + k) with (sa' + (k + 1)) by lia. apply Ha. lia.
  - replace (sb + 1 + k) with (sb + (k + 1)) by lia.
    replace (sb' + 1 + k) with (sb' + (k + 1)) by lia. apply Hb. lia.
Qed.

Lemma memcmp_same a sa b sb n :
  (forall k, 0 <= k < Z.of_nat n -> rd a (sa + k) = rd b (sb + k)) ->
  memcmp a sa b sb n = 0.
Proof.
  revert sa sb. induction n as [|n IH]; intros sa sb H; cbn [memcmp];
    [reflexivity|].
  pose proof (H 0 ltac:(lia)) as H0. rewrite !Z.add_0_r in H0. rewrite H0.
  rewrite Z.ltb_irrefl. apply IH. intros k Hk.
  replace (sa + 1 + k) with (sa + (k + 1)) by lia.
  replace (sb + 1 + k) with (sb + (k + 1)) by lia. apply H. lia.
Qed.

Lemma memcmp_range a sa b sb n : -1 <= memcmp a sa b sb n <= 1.
Proof.
  revert sa sb. induction n as [|n IH]; intros sa sb; cbn [memcmp]; [lia|].
  destruct (_ <? _); [lia|]. destruct (_ <? _); [lia|]. apply IH.
Qed.

Lemma fill_ours_spec txt : forall ours index,
  Forall entry_ok txt -> 0 <= index ->
  index + Z.of_nat (List.length (txt_bytes txt)) < MDNS_MAX_PACKET_SIZE ->
  holds (fst (fill_ours ours index txt)) index (txt_bytes txt)
  /\ forall j, j < index -> rd (fst (fill_ours ours index txt)) j = rd ours j.
Proof.
  induction txt as [|t rest IH]; intros ours index Hok Hi Hfit.
  - split; [|reflexivity]. intros k Hk. simpl in Hk. lia.
  - inversion Hok as [|? ? Ht Hrest]; subst.
    cbn [txt_bytes flat_map] in *. fold (txt_bytes rest) in *.
    rewrite length_app, Nat2Z.inj_add in Hfit.
    assert (Hfit1 : index + Z.of_nat (List.length (entry_bytes t))
                    < MDNS_MAX_PACKET_SIZE)
      by (revert Hfit; generalize MDNS_MAX_PACKET_SIZE; intros; lia).
    assert (Hfit2 : index + Z.of_nat (List.length (entry_bytes t))
                    + Z.of_nat (List.length (txt_bytes rest))
                    < MDNS_MAX_PACKET_SIZE)
      by (revert Hfit; generalize MDNS_MAX_PACKET_SIZE; intros; lia).
    destruct (entry_written ours index t Ht Hi Hfit1)
      as (p1 & E1 & Hh1 & Hf1).
    cbn [fill_ours]. rewrite E1.
    destruct (IH p1 (index + Z.of_nat (List.length (entry_bytes t))) Hrest
                ltac:(lia) Hfit2) as [Hh2 Hf2].
    split.
    + apply holds_app. split; [|exact Hh2].
      eapply holds_frame; [exact Hh1|]. intros j Hj. apply Hf2. lia.
    + intros j Hj. rewrite Hf2 by lia. apply Hf1. lia.
Qed.

Lemma data_len_sum txt : forall acc,
  Forall entry_ok txt ->
  fold_left
    (fun acc t =>
       acc + 1 + match key t with Some k => strlen k | None => 0 end
       + value_len t + match value t with Some _ => 1 | None => 0 end)
    txt acc
  = acc + Z.of_nat (List.length (txt_bytes txt)).
Proof.
  induction txt as [|t rest IH]; intros acc Hok; cbn [fold_left].
  - cbn. lia.
  - inversion Hok as [|? ? Ht Hrest]; subst. rewrite IH by exact Hrest.
    cbn [txt_bytes flat_map]. fold (txt_bytes rest).
    rewrite length_app, Nat2Z.inj_add.
    pose proof (length_entry_bytes t Ht) as Hl.
    destruct (key t) as [k|]; [|contradiction]. destruct Hl as (Hl & _).
    rewrite Hl. lia.
Qed.

Lemma holds_same a sa b sb l :
  holds a sa l -> holds b sb l ->
  forall k, 0 <= k < Z.of_nat (List.length l) -> rd a (sa + k) = rd b (sb + k).
Proof.
  intros Ha Hb k Hk. replace k with (Z.of_nat (Z.to_nat k)) by lia.
  rewrite Ha, Hb by lia. reflexivity.
Qed.

(** X19.  Two responders agree on who wins a TXT collision, and a
    responder never sees its own TXT record as a collision.  For
    well-formed items that fit a packet: what
    [_mdns_check_txt_collision] returns for the items [mine] against the
    record data of the items [theirs] is the opposite of what it returns
    for [theirs] against the record data of [mine] (1: they win, -1: we
    win, 0: same); against its own record data it returns 0. *)
Theorem txt_collision_is_antisymmetric :
  forall ours1 ours2 mine theirs data1 start1 data2 start2,
    Forall entry_ok mine -> Forall entry_ok theirs ->
    Z.of_nat (List.length (txt_bytes mine)) < MDNS_MAX_PACKET_SIZE ->
    Z.of_nat (List.length (txt_bytes theirs)) < MDNS_MAX_PACKET_SIZE ->
    holds data1 start1 (txt_data mine) ->
    holds data2 start2 (txt_data theirs) ->
    _mdns_check_txt_collision ours1 mine data2 start2
      (Z.of_nat (List.length (txt_data theirs)))
    = - _mdns_check_txt_collision ours2 theirs data1 start1
          (Z.of_nat (List.length (txt_data mine)))
    /\ _mdns_check_txt_collision ours1 mine data1 start1
         (Z.of_nat (List.length (txt_data mine))) = 0.
Proof.
  assert (Hlen : forall l, Forall entry_ok l -> l <> [] ->
            1 < Z.of_nat (List.length (txt_data l))
            /\ txt_data l = txt_bytes l).
  { intros l Hl Hne. destruct l as [|t rest]; [contradiction|].
    split; [|reflexivity]. inversion Hl as [|? ? Ht _]; subst.
    cbn [txt_data txt_bytes flat_map].
    rewrite length_app. pose proof (entry_bytes_nonempty t Ht). lia. }
  assert (Hcmp : forall ours a b da sa db sb,
            a <> [] -> b <> [] -> Forall entry_ok a -> Forall entry_ok b ->
            Z.of_nat (List.length (txt_bytes a)) < MDNS_MAX_PACKET_SIZE ->
            holds da sa (txt_bytes a) -> holds db sb (txt_bytes b) ->
            _mdns_check_txt_collision ours a db sb
              (Z.of_nat (List.length (txt_bytes b)))
            = if Z.of_nat (List.length (txt_bytes b))
                 >? Z.of_nat (List.length (txt_bytes a)) then 1
              else if Z.of_nat (List.length (txt_bytes b))
                      <? Z.of_nat (List.length (txt_bytes a)) then -1
              else - memcmp da sa db sb (List.length (txt_bytes b))).
  { intros ours a b da sa db sb Ha Hb Hoka Hokb Hfa Hda Hdb.
    destruct (Hlen b Hokb Hb) as [Hb1 Hb2]. rewrite Hb2 in Hb1.
    unfold _mdns_check_txt_collision.
    replace (Z.of_nat (List.length (txt_bytes b)) <=? 1) with false
      by (symmetry; apply Z.leb_gt; lia).
    replace (Z.of_nat (List.length (txt_bytes b)) >? 1) with true
      by (symmetry; apply Z.gtb_lt; lia).
    replace (match a with [] => false | _ => true end) with true
      by (destruct a; [contradiction|reflexivity]).
    cbn [andb negb]. cbv zeta.
    rewrite (data_len_sum a 0 Hoka), Z.add_0_l.
    destruct (_ >? _) eqn:E1; [reflexivity|].
    destruct (_ <? _) eqn:E2; [reflexivity|].
    rewrite Z.gtb_ltb in E1. apply Z.ltb_ge in E1. apply Z.ltb_ge in E2.
    assert (Heq : List.length (txt_bytes b) = List.length (txt_bytes a))
      by lia.
    destruct (fill_ours_spec a ours 0 Hoka ltac:(lia) ltac:(lia)) as [Hf _].
    destruct (fill_ours ours 0 a) as [o i]. cbn [fst] in Hf.
    rewrite Nat2Z.id.
    rewrite (memcmp_ext o 0 db sb da sa db sb);
      [|rewrite Heq; apply (holds_same _ _ _ _ _ Hf Hda)|reflexivity].
    pose proof (memcmp_range da sa db sb (List.length (txt_bytes b))) as Hr.
    destruct (memcmp da sa db sb (List.length (txt_bytes b)) >? 0) eqn:G1.
    - apply Z.gtb_lt in G1. lia.
    - rewrite Z.gtb_ltb in G1. apply Z.ltb_ge in G1.
      destruct (_ <? 0) eqn:G2.
      + apply Z.ltb_lt in G2. lia.
      + apply Z.ltb_ge in G2. lia. }
  intros ours1 ours2 mine theirs data1 start1 data2 start2
         Hok1 Hok2 Hf1 Hf2 Hd1 Hd2.
  destruct mine as [|m ms]; destruct theirs as [|t ts].
  - split; reflexivity.
  - destruct (Hlen (t :: ts) Hok2 ltac:(discriminate)) as [H2 _].
    split; [|reflexivity].
    unfold _mdns_check_txt_collision at 1.
    replace (Z.of_nat (List.length (txt_data (t :: ts))) <=? 1) with false
      by (symmetry; apply Z.leb_gt; lia).
    replace (Z.of_nat (List.length (txt_data (t :: ts))) >? 1) with true
      by (symmetry; apply Z.gtb_lt; lia).
    reflexivity.
  - destruct (Hlen (m :: ms) Hok1 ltac:(discriminate)) as [H1 E1].
    assert (Hown : _mdns_check_txt_collision ours1 (m :: ms) data1 start1
                     (Z.of_nat (List.length (txt_data (m :: ms)))) = 0).
    { rewrite E1 in *.
      rewrite (Hcmp ours1 (m :: ms) (m :: ms) data1 start1 data1 start1);
        try assumption; try discriminate.
      rewrite Z.gtb_ltb, Z.ltb_irrefl.
      rewrite memcmp_same; [reflexivity|]. intros; reflexivity. }
    split; [|exact Hown].
    unfold _mdns_check_txt_collision at 2.
    replace (Z.of_nat (List.length (txt_data (m :: ms))) <=? 1) with false
      by (symmetry; apply Z.leb_gt; lia).
    replace (Z.of_nat (List.length (txt_data (m :: ms))) >? 1) with true
      by (symmetry; apply Z.gtb_lt; lia).
    reflexivity.
  - destruct (Hlen (m :: ms) Hok1 ltac:(discriminate)) as [H1 E1].
    destruct (Hlen (t :: ts) Hok2 ltac:(discriminate)) as [H2 E2].
    rewrite E1, E2 in *.
    rewrite (Hcmp ours1 (m :: ms) (t :: ts) data1 start1 data2 start2);
      try assumption; try discriminate.
    rewrite (Hcmp ours2 (t :: ts) (m :: ms) data2 start2 data1 start1);
      try assumption; try discriminate.
    rewrite (Hcmp ours1 (m :: ms) (m :: ms) data1 start1 data1 start1);
      try assumption; try discriminate.
    split.
    + set (a := Z.of_nat (List.length (txt_bytes (m :: ms)))).
      set (b := Z.of_nat (List.length (txt_bytes (t :: ts)))).
      destruct (b >? a) eqn:G1; destruct (a >? b) eqn:G2;
        destruct (b <? a) eqn:G3; destruct (a <? b) eqn:G4;
        rewrite ?Z.gtb_ltb in *;
        repeat match goal with
               | H : (_ <? _) = true |- _ => apply Z.ltb_lt in H
               | H : (_ <? _) = false |- _ => apply Z.ltb_ge in H
               end; try lia.
      assert (Hab : List.length (txt_bytes (t :: ts))
                    = List.length (txt_bytes (m :: ms))) by lia.
      rewrite Hab. rewrite (memcmp_antisym data2 start2 data1 start1). lia.
    + rewrite Z.gtb_ltb, Z.ltb_irrefl.
      rewrite memcmp_same; [reflexivity|]. intros; reflexivity.
Qed.

(** A responder whose TXT is "path=/", "tls" against one whose TXT is
    "v=1": the longer record wins on both sides. *)
Definition demo_theirs : list mdns_txt_linked_item_t :=
  [ {| key := Some "v"%string; value := Some "1"%string; value_len := 1 |} ].

Lemma txt_collision_is_antisymmetric_witness :
  (_mdns_check_txt_collision (fun _ => 0) demo_items
     (mem_of_list (txt_data demo_theirs)) 0
     (Z.of_nat (List.length (txt_data demo_theirs)))
   = - _mdns_check_txt_collision (fun _ => 0) demo_theirs
         (mem_of_list (txt_data demo_items)) 0
         (Z.of_nat (List.length (txt_data demo_items)))
   /\ _mdns_check_txt_collision (fun _ => 0) demo_items
        (mem_of_list (txt_data demo_items)) 0
        (Z.of_nat (List.length (txt_data demo_items))) = 0)
  /\ _mdns_check_txt_collision (fun _ => 0) demo_items
       (mem_of_list (txt_data demo_theirs)) 0
       (Z.of_nat (List.length (txt_data demo_theirs))) = -1.
Proof.
  split; [|vm_compute; reflexivity].
  apply (txt_collision_is_antisymmetric (fun _ => 0) (fun _ => 0)
           demo_items demo_theirs
           (mem_of_list (txt_data demo_items)) 0
           (mem_of_list (txt_data demo_theirs)) 0).
  - unfold demo_items, entry_ok. repeat constructor; cbn; txt_plain.
  - unfold demo_theirs, entry_ok. repeat constructor; cbn; txt_plain.
  - vm_compute. reflexivity.
  - vm_compute. reflexivity.
  - apply holds_mem_of_list.
  - apply holds_mem_of_list.
Defined.

End Collision.
